(** * mcp2517fd: a shallow embedding of the SPI CAN-FD driver

    Source: drivers/net/can/spi/mcp2517fd.c.

    Conventions of the embedding.
    - A C integer of width w is a [Z]; where the source relies on the width
      the wrap-around is written out ([u32], [u8]).
    - The host is little-endian (the Raspberry Pi targets of this tree), so
      [le32_to_cpu] and [cpu_to_le32] are the identity on values and an
      object in memory is the little-endian list of its bytes.
    - C arrays ([fifo_address], [fifo_usage], [fifo_data], frame payloads)
      are total functions from the index; an access outside the C bounds is
      undefined in the source and is not given a meaning here.
    - Everything the driver calls in the kernel is either recorded in a
      trace of calls ([kcall]) or, when the driver depends on its result,
      answered by an oracle that sees the trace so far. *)

From Stdlib Require Import String ZArith List Bool Lia.
Import ListNotations.
Local Open Scope Z_scope.

(* ------------------------------------------------------------------ *)
(** ** Machine integers and kernel bit helpers *)

Definition u32 (x : Z) : Z := x mod 2 ^ 32.
Definition u8 (x : Z) : Z := x mod 2 ^ 8.

(** Modelled from the spec: the kernel macro [BIT(n)] (linux/bitops.h),
    the mask with only bit [n] set. *)
Definition BIT (n : Z) : Z := Z.shiftl 1 n.

(** Modelled from the spec: the kernel macro [GENMASK(h, l)]
    (linux/bitops.h), the mask with bits [l..h] set. *)
Definition GENMASK (h l : Z) : Z := Z.shiftl (Z.ones (h - l + 1)) l.

(** Modelled from the spec: the kernel macro [ALIGN(x, a)] for a power of
    two [a]: [x] rounded up to a multiple of [a]. *)
Definition ALIGN (x a : Z) : Z := Z.land (x + (a - 1)) (Z.lnot (a - 1)).

Fixpoint ffs_aux (n : nat) (i : Z) (x : Z) : Z :=
  match n with
  | O => 0
  | S n' => if Z.testbit x i then i + 1 else ffs_aux n' (i + 1) x
  end.

(** Modelled from the spec: the kernel's [ffs] on a 32-bit word, the
    1-based index of the lowest set bit, 0 when no bit is set. *)
Definition ffs (x : Z) : Z := ffs_aux 32 0 x.

Fixpoint fls_aux (n : nat) (x : Z) : Z :=
  match n with
  | O => 0
  | S n' => if Z.testbit x (Z.of_nat n') then Z.of_nat n else fls_aux n' x
  end.

(** Modelled from the spec: the kernel's [fls] on a 32-bit word, the
    1-based index of the highest set bit, 0 when no bit is set. *)
Definition fls (x : Z) : Z := fls_aux 32 x.

Fixpoint hweight_aux (n : nat) (x : Z) : Z :=
  match n with
  | O => 0
  | S n' => Z.b2z (Z.testbit x (Z.of_nat n')) + hweight_aux n' x
  end.

(** Modelled from the spec: the kernel's [hweight_long] applied to a u32,
    the number of bits set. *)
Definition hweight_long (x : Z) : Z := hweight_aux 32 x.

(** C truth value of an integer expression. *)
Definition nz (x : Z) : bool := negb (x =? 0).

(* ------------------------------------------------------------------ *)
(** ** Constants *)

(** Modelled from the spec: identifier layout of uapi linux/can.h, which
    the driver includes: 11-bit standard and 29-bit extended identifiers,
    the extended-id flag in bit 31 and the remote-request flag in bit 30. *)
Definition CAN_EFF_FLAG : Z := 0x80000000.
Definition CAN_RTR_FLAG : Z := 0x40000000.
Definition CAN_SFF_MASK : Z := 0x7FF.
Definition CAN_SFF_ID_BITS : Z := 11.
Definition CAN_EFF_ID_BITS : Z := 29.
Definition CANFD_BRS : Z := 0x01.
Definition CANFD_ESI : Z := 0x02.
Definition CAN_MTU : Z := 16.
Definition CANFD_MTU : Z := 72.
Definition CAN_CTRLMODE_FD : Z := 0x20.
Definition CAN_ERR_CRTL : Z := 0x00000004.
Definition CAN_ERR_CRTL_RX_OVERFLOW : Z := 0x01.

(** Modelled from the spec: the mark of an error notification in uapi
    linux/can.h and linux/can/error.h, which the driver includes: bit 29
    of the identifier word tells an error frame from a data frame, and an
    error frame carries 8 bytes. *)
Definition CAN_ERR_FLAG : Z := 0x20000000.
Definition CAN_ERR_DLC : Z := 8.

Definition EINVAL : Z := 22.
Definition ENOMEM : Z := 12.
Definition NETDEV_TX_OK : Z := 0.
Definition NETDEV_TX_BUSY : Z := 16.
Definition IRQ_HANDLED : Z := 1.

Definition INSTRUCTION_RESET : Z := 0x0000.
Definition INSTRUCTION_READ : Z := 0x3000.
Definition INSTRUCTION_WRITE : Z := 0x2000.
Definition ADDRESS_MASK : Z := 0x0fff.

Definition CAN_SFR_BASE (x : Z) : Z := 0x000 + x.
Definition CAN_CON : Z := CAN_SFR_BASE 0x00.
Definition CAN_CON_REQOP_SHIFT : Z := 24.
Definition CAN_CON_MODE_INTERNAL_LOOPBACK : Z := 2.
Definition CAN_CON_MODE_CONFIG : Z := 4.
Definition CAN_INT : Z := CAN_SFR_BASE 0x1C.
Definition CAN_INT_RXIF : Z := BIT 1.
Definition CAN_INT_TEFIF : Z := BIT 4.
Definition CAN_INT_IE_SHIFT : Z := 16.
Definition CAN_TEFCON : Z := CAN_SFR_BASE 0x40.
Definition CAN_TEFCON_TEFNEIE : Z := BIT 0.
Definition CAN_TEFCON_TEFTSEN : Z := BIT 5.
Definition CAN_TEFCON_UINC : Z := BIT 8.
Definition CAN_TEFCON_FRESET : Z := BIT 10.
Definition CAN_TEFCON_FSIZE_BITS : Z := 5.
Definition CAN_TEFCON_FSIZE_SHIFT : Z := 24.
Definition CAN_TEFUA : Z := CAN_SFR_BASE 0x48.
Definition CAN_TXQCON_PLSIZE_8 : Z := 0.
Definition CAN_TXQCON_PLSIZE_64 : Z := 7.
Definition CAN_FIFOCON (x : Z) : Z := CAN_SFR_BASE (0x5C + 12 * (x - 1)).
Definition CAN_FIFOCON_TFNRFNIE : Z := BIT 0.
Definition CAN_FIFOCON_TFHRFHIE : Z := BIT 1.
Definition CAN_FIFOCON_TFERFFIE : Z := BIT 2.
Definition CAN_FIFOCON_RXOVIE : Z := BIT 3.
Definition CAN_FIFOCON_RXTSEN : Z := BIT 5.
Definition CAN_FIFOCON_TXEN : Z := BIT 7.
Definition CAN_FIFOCON_UINC : Z := BIT 8.
Definition CAN_FIFOCON_TXREQ : Z := BIT 9.
Definition CAN_FIFOCON_FRESET : Z := BIT 10.
Definition CAN_FIFOCON_TXPRI_SHIFT : Z := 16.
Definition CAN_FIFOCON_FSIZE_SHIFT : Z := 24.
Definition CAN_FIFOCON_PLSIZE_SHIFT : Z := 29.
Definition CAN_FIFOSTA (x : Z) : Z := CAN_SFR_BASE (0x60 + 12 * (x - 1)).
Definition CAN_FIFOSTA_RXOVIF : Z := BIT 3.
Definition CAN_FIFOUA (x : Z) : Z := CAN_SFR_BASE (0x64 + 12 * (x - 1)).
Definition CAN_FLTCON (x : Z) : Z := CAN_SFR_BASE (0x1D0 + Z.land x 0x1c).
Definition CAN_FILCON_SHIFT (x : Z) : Z := Z.land x 3 * 8.
Definition CAN_FILCON_BITS (x : Z) : Z := 4.
Definition CAN_FILCON_MASK (x : Z) : Z :=
  GENMASK (CAN_FILCON_SHIFT x + CAN_FILCON_BITS x - 1) (CAN_FILCON_SHIFT x).
Definition CAN_FIFOCON_FLTEN (x : Z) : Z := BIT (7 + CAN_FILCON_SHIFT x).
Definition CAN_FLTOBJ (x : Z) : Z := CAN_SFR_BASE (0x1F0 + 8 * x).
Definition CAN_FLTMASK (x : Z) : Z := CAN_SFR_BASE (0x1F4 + 8 * x).

Definition CAN_OBJ_ID_SID_BITS : Z := 11.
Definition CAN_OBJ_ID_SID_SHIFT : Z := 0.
Definition CAN_OBJ_ID_SID_MASK : Z :=
  GENMASK (CAN_OBJ_ID_SID_SHIFT + CAN_OBJ_ID_SID_BITS - 1) CAN_OBJ_ID_SID_SHIFT.
Definition CAN_OBJ_ID_EID_BITS : Z := 18.
Definition CAN_OBJ_ID_EID_SHIFT : Z := 11.
Definition CAN_OBJ_ID_EID_MASK : Z :=
  GENMASK (CAN_OBJ_ID_EID_SHIFT + CAN_OBJ_ID_EID_BITS - 1) CAN_OBJ_ID_EID_SHIFT.

Definition CAN_OBJ_FLAGS_DLC_BITS : Z := 4.
Definition CAN_OBJ_FLAGS_DLC_SHIFT : Z := 0.
Definition CAN_OBJ_FLAGS_DLC_MASK : Z :=
  GENMASK (CAN_OBJ_FLAGS_DLC_SHIFT + CAN_OBJ_FLAGS_DLC_BITS - 1)
          CAN_OBJ_FLAGS_DLC_SHIFT.
Definition CAN_OBJ_FLAGS_IDE : Z := BIT 4.
Definition CAN_OBJ_FLAGS_RTR : Z := BIT 5.
Definition CAN_OBJ_FLAGS_BRS : Z := BIT 6.
Definition CAN_OBJ_FLAGS_FDF : Z := BIT 7.
Definition CAN_OBJ_FLAGS_ESI : Z := BIT 8.
Definition CAN_OBJ_FLAGS_SEQ_BITS : Z := 7.
Definition CAN_OBJ_FLAGS_SEQ_SHIFT : Z := 9.
Definition CAN_OBJ_FLAGS_SEQ_MASK : Z :=
  GENMASK (CAN_OBJ_FLAGS_SEQ_SHIFT + CAN_OBJ_FLAGS_SEQ_BITS - 1)
          CAN_OBJ_FLAGS_SEQ_SHIFT.

Definition CAN_EFF_SID_SHIFT : Z := CAN_EFF_ID_BITS - CAN_SFF_ID_BITS.
Definition CAN_EFF_SID_BITS : Z := CAN_SFF_ID_BITS.
Definition CAN_EFF_SID_MASK : Z :=
  GENMASK (CAN_EFF_SID_SHIFT + CAN_EFF_SID_BITS - 1) CAN_EFF_SID_SHIFT.
Definition CAN_EFF_EID_SHIFT : Z := 0.
Definition CAN_EFF_EID_BITS : Z := CAN_EFF_SID_SHIFT.
Definition CAN_EFF_EID_MASK : Z :=
  GENMASK (CAN_EFF_EID_SHIFT + CAN_EFF_EID_BITS - 1) CAN_EFF_EID_SHIFT.

Definition FIFO_DATA (x : Z) : Z := 0x400 + x.

(** sizeof of the three device objects. *)
Definition sizeof_obj_tef : Z := 12.
Definition sizeof_obj_tx : Z := 8.
Definition sizeof_obj_rx : Z := 12.

(* ------------------------------------------------------------------ *)
(** ** Frame codec: identifiers *)

(** [mcp2517fd_canid_to_mcpid]: returns [( *id, *flags )]. *)
Definition mcp2517fd_canid_to_mcpid (can_id : Z) : Z * Z :=
  let '(id, flags) :=
    if nz (Z.land can_id CAN_EFF_FLAG) then
      let sid := Z.shiftr (Z.land can_id CAN_EFF_SID_MASK) CAN_EFF_SID_SHIFT in
      let eid := Z.shiftr (Z.land can_id CAN_EFF_EID_MASK) CAN_EFF_EID_SHIFT in
      (u32 (Z.lor (Z.shiftl eid CAN_OBJ_ID_EID_SHIFT)
                  (Z.shiftl sid CAN_OBJ_ID_SID_SHIFT)),
       CAN_OBJ_FLAGS_IDE)
    else
      (Z.land can_id CAN_SFF_MASK, 0) in
  (id, Z.lor flags
         (if nz (Z.land can_id CAN_RTR_FLAG) then CAN_OBJ_FLAGS_RTR else 0)).

(** [mcp2517fd_mcpid_to_canid]: returns [*id]. *)
Definition mcp2517fd_mcpid_to_canid (mcpid mcpflags : Z) : Z :=
  let sid := Z.shiftr (Z.land mcpid CAN_OBJ_ID_SID_MASK) CAN_OBJ_ID_SID_SHIFT in
  let eid := Z.shiftr (Z.land mcpid CAN_OBJ_ID_EID_MASK) CAN_OBJ_ID_EID_SHIFT in
  let id :=
    if nz (Z.land mcpflags CAN_OBJ_FLAGS_IDE) then
      u32 (Z.lor (Z.lor (Z.shiftl eid CAN_EFF_EID_SHIFT)
                        (Z.shiftl sid CAN_EFF_SID_SHIFT))
                 CAN_EFF_FLAG)
    else sid in
  Z.lor id (if nz (Z.land mcpflags CAN_OBJ_FLAGS_RTR) then CAN_RTR_FLAG else 0).

(* ------------------------------------------------------------------ *)
(** ** Frame codec: length codes *)

(** Modelled from the spec: [can_dlc2len] of the kernel's CAN device layer
    (not part of this file): codes 0-8 map 1:1 to 0-8 bytes, codes 9-15
    map to 12, 16, 20, 24, 32, 48, 64 bytes. *)
Definition can_dlc2len (can_dlc : Z) : Z :=
  nth (Z.to_nat (Z.land can_dlc 0x0F))
      [0; 1; 2; 3; 4; 5; 6; 7; 8; 12; 16; 20; 24; 32; 48; 64] 0.

(** Modelled from the spec: [can_len2dlc] of the kernel's CAN device layer
    (not part of this file): the code of the nearest representable length
    not below [len]; the spec speaks of lengths 0..64, a longer one gets
    the highest code. *)
Definition can_len2dlc (len : Z) : Z :=
  if len <=? 8 then len
  else if len <=? 12 then 9
  else if len <=? 16 then 10
  else if len <=? 20 then 11
  else if len <=? 24 then 12
  else if len <=? 32 then 13
  else if len <=? 48 then 14
  else 15.

(* ------------------------------------------------------------------ *)
(** ** Bytes and objects in memory *)

Definition byte_of (x : Z) (k : Z) : Z := Z.land (Z.shiftr x (8 * k)) 0xff.

(** The four bytes of a u32 in memory (little-endian). *)
Definition le32_bytes (x : Z) : list Z :=
  [byte_of x 0; byte_of x 1; byte_of x 2; byte_of x 3].

(** The u32 held by four bytes of memory, given as a function of the
    byte offset. *)
Definition le32_at (m : Z -> Z) (off : Z) : Z :=
  Z.lor (Z.lor (u8 (m off)) (Z.shiftl (u8 (m (off + 1))) 8))
        (Z.lor (Z.shiftl (u8 (m (off + 2))) 16) (Z.shiftl (u8 (m (off + 3))) 24)).

(** [n] bytes of a byte-indexed object starting at [off]. *)
Definition bytes_from (m : Z -> Z) (off : Z) (n : Z) : list Z :=
  map (fun k => u8 (m (off + Z.of_nat k))) (seq 0 (Z.to_nat n)).

(** A list of bytes seen as a byte-indexed object (0 outside). *)
Definition at_list (l : list Z) : Z -> Z :=
  fun k => if k <? 0 then 0 else nth (Z.to_nat k) l 0.

(** memcpy of the list [src] into the byte-indexed object [m] at [off]. *)
Definition memcpy_to (m : Z -> Z) (off : Z) (src : list Z) : Z -> Z :=
  fun k =>
    if (off <=? k) && (k <? off + Z.of_nat (length src))
    then at_list src (k - off) else m k.

Definition upd (f : Z -> Z) (i : Z) (v : Z) : Z -> Z :=
  fun k => if k =? i then v else f k.

(* ------------------------------------------------------------------ *)
(** ** Frames, socket buffers, kernel calls *)

Record can_frame := {
  cf_can_id : Z;
  cf_can_dlc : Z;
  cf_data : Z -> Z
}.

Record canfd_frame := {
  fd_can_id : Z;
  fd_len : Z;
  fd_flags : Z;
  fd_data : Z -> Z
}.

Inductive sk_buff :=
| skb_can (f : can_frame)
| skb_canfd (f : canfd_frame).

(** [can_is_canfd_skb]: the kernel tells the two by the buffer length. *)
Definition can_is_canfd_skb (skb : sk_buff) : bool :=
  match skb with skb_canfd _ => true | skb_can _ => false end.

Record spi_transfer := {
  tx_buf : option (list Z);
  rx_buf : bool;
  xfer_len : Z;
  speed_hz : Z
}.

Inductive alloc_kind :=
| kmalloc_txrx
| alloc_can_skb
| alloc_canfd_skb
| alloc_can_err_skb.

Inductive led_event := CAN_LED_EVENT_RX | CAN_LED_EVENT_TX.

(** The calls the driver makes into the kernel, in the order made. *)
Inductive kcall :=
| k_spi_sync_transfer (xfers : list spi_transfer)
| k_alloc (a : alloc_kind)
| k_dev_err (msg : string) (args : list Z)
| k_dev_warn (msg : string)
| k_netdev_err (msg : string)
| k_netif_rx_ni (skb : sk_buff)
| k_netif_start_queue
| k_netif_stop_queue
| k_queue_work
| k_can_put_echo_skb (skb : sk_buff) (idx : Z)
| k_can_get_echo_skb (idx : Z)
| k_can_led_event (ev : led_event).

(** The SPI messages among a list of calls. *)
Definition spi_messages (calls : list kcall) : list (list spi_transfer) :=
  flat_map (fun c => match c with k_spi_sync_transfer x => [x] | _ => [] end)
           calls.

(** The kernel and the device as the driver sees them: every answer may
    depend on all calls made so far. An SPI transfer answers with
    [None] (success, 0) or [Some e] (the error -e) and with the bytes
    clocked in; an allocation succeeds or not. [auto_storage] gives the
    indeterminate contents of automatic objects the source reads before
    writing them. *)
Record kernel := {
  SPI_MASTER_HALF_DUPLEX : bool;
  spi_sync_transfer : list kcall -> list spi_transfer -> option positive * list Z;
  alloc_ok : list kcall -> alloc_kind -> bool;
  can_dropped_invalid_skb : sk_buff -> bool;
  auto_storage : list kcall -> Z -> Z
}.

(** A kernel in which nothing fails and the device answers zeros. *)
Definition quiet_kernel : kernel := {|
  SPI_MASTER_HALF_DUPLEX := false;
  spi_sync_transfer := fun _ _ => (None, []);
  alloc_ok := fun _ _ => true;
  can_dropped_invalid_skb := fun _ => false;
  auto_storage := fun _ _ => 0
|}.

(** A kernel in which nothing fails and the device answers the n-th SPI
    message with the n-th entry of a script (the controller is full
    duplex: the answer follows the two bytes clocked in while the command
    goes out). *)
Definition scripted_kernel (script : list (list Z)) : kernel := {|
  SPI_MASTER_HALF_DUPLEX := false;
  spi_sync_transfer :=
    fun t _ => (None, [0; 0] ++ nth (length (spi_messages t)) script []);
  alloc_ok := fun _ _ => true;
  can_dropped_invalid_skb := fun _ => false;
  auto_storage := fun _ _ => 0
|}.

(* ------------------------------------------------------------------ *)
(** ** Driver state *)

Record status_block := {
  intf : Z;
  rxif : Z;
  txif : Z;
  rxovif : Z;
  txatif : Z;
  txreq : Z;
  trec : Z;
  bdiag0 : Z;
  bdiag1 : Z
}.

Definition sizeof_status : Z := 36.

(** The status block as filled by one read of 36 bytes. *)
Definition status_of_bytes (m : Z -> Z) : status_block := {|
  intf := le32_at m 0;
  rxif := le32_at m 4;
  txif := le32_at m 8;
  rxovif := le32_at m 12;
  txatif := le32_at m 16;
  txreq := le32_at m 20;
  trec := le32_at m 24;
  bdiag0 := le32_at m 28;
  bdiag1 := le32_at m 32
|}.

Record mcp2517fd_obj_tef := { tef_id : Z; tef_flags : Z; tef_ts : Z }.

Definition tef_of_bytes (m : Z -> Z) : mcp2517fd_obj_tef :=
  {| tef_id := le32_at m 0; tef_flags := le32_at m 4; tef_ts := le32_at m 8 |}.

Record mcp2517fd_obj_tx := { tx_id : Z; tx_flags : Z }.

Record mcp2517fd_priv := {
  can_ctrlmode : Z;
  tx_work_skb : option sk_buff;
  con_val : Z;
  spi_setup_speed_hz : Z;
  spi_speed_hz : Z;
  payload_size : Z;
  payload_mode : Z;
  tef_address_start : Z;
  tef_address_end : Z;
  tef_address : Z;
  fifo_address : Z -> Z;
  tx_fifos : Z;
  tx_fifo_start : Z;
  tx_fifo_mask : Z;
  tx_pending_mask : Z;
  rx_fifos : Z;
  rx_fifo_depth : Z;
  rx_fifo_start : Z;
  rx_fifo_mask : Z;
  rx_overflow : Z;
  status : status_block;
  force_quit : Z;
  fifo_data : Z -> Z;
  fifo_usage : Z -> Z
}.

(** The counters of [net->stats] the driver touches ([unsigned long]). *)
Record net_device_stats := {
  rx_packets : Z;
  rx_bytes : Z;
  rx_dropped : Z;
  rx_errors : Z;
  rx_over_errors : Z;
  tx_packets : Z;
  tx_bytes : Z;
  tx_errors : Z;
  tx_dropped : Z
}.

Record world := {
  priv : mcp2517fd_priv;
  net_mtu : Z;
  stats : net_device_stats;
  trace : list kcall
}.

(** [unsigned long] and [u64] counters wrap. *)
Definition BITS_PER_LONG : Z := 32.
Definition ulong (x : Z) : Z := x mod 2 ^ BITS_PER_LONG.
Definition u64 (x : Z) : Z := x mod 2 ^ 64.

Definition set_priv (f : mcp2517fd_priv -> mcp2517fd_priv) (w : world) : world :=
  {| priv := f (priv w); net_mtu := net_mtu w; stats := stats w; trace := trace w |}.

Definition set_stats (f : net_device_stats -> net_device_stats) (w : world) : world :=
  {| priv := priv w; net_mtu := net_mtu w; stats := f (stats w); trace := trace w |}.

(** Record one call into the kernel. *)
Definition call (c : kcall) (w : world) : world :=
  {| priv := priv w; net_mtu := net_mtu w; stats := stats w;
     trace := trace w ++ [c] |}.

(** Field updates of [priv] and of the statistics, one per field the
    driver assigns. *)

Definition set_tx_work_skb (v : option sk_buff) (p : mcp2517fd_priv) : mcp2517fd_priv :=
  {| can_ctrlmode := can_ctrlmode p; tx_work_skb := v; con_val := con_val p;
     spi_setup_speed_hz := spi_setup_speed_hz p; spi_speed_hz := spi_speed_hz
     p; payload_size := payload_size p; payload_mode := payload_mode p;
     tef_address_start := tef_address_start p; tef_address_end :=
     tef_address_end p; tef_address := tef_address p; fifo_address :=
     fifo_address p; tx_fifos := tx_fifos p; tx_fifo_start := tx_fifo_start p;
     tx_fifo_mask := tx_fifo_mask p; tx_pending_mask := tx_pending_mask p;
     rx_fifos := rx_fifos p; rx_fifo_depth := rx_fifo_depth p; rx_fifo_start
     := rx_fifo_start p; rx_fifo_mask := rx_fifo_mask p; rx_overflow :=
     rx_overflow p; status := status p; force_quit := force_quit p; fifo_data
     := fifo_data p; fifo_usage := fifo_usage p |}.

Definition set_payload_size (v : Z) (p : mcp2517fd_priv) : mcp2517fd_priv :=
  {| can_ctrlmode := can_ctrlmode p; tx_work_skb := tx_work_skb p; con_val :=
     con_val p; spi_setup_speed_hz := spi_setup_speed_hz p; spi_speed_hz :=
     spi_speed_hz p; payload_size := v; payload_mode := payload_mode p;
     tef_address_start := tef_address_start p; tef_address_end :=
     tef_address_end p; tef_address := tef_address p; fifo_address :=
     fifo_address p; tx_fifos := tx_fifos p; tx_fifo_start := tx_fifo_start p;
     tx_fifo_mask := tx_fifo_mask p; tx_pending_mask := tx_pending_mask p;
     rx_fifos := rx_fifos p; rx_fifo_depth := rx_fifo_depth p; rx_fifo_start
     := rx_fifo_start p; rx_fifo_mask := rx_fifo_mask p; rx_overflow :=
     rx_overflow p; status := status p; force_quit := force_quit p; fifo_data
     := fifo_data p; fifo_usage := fifo_usage p |}.

Definition set_payload_mode (v : Z) (p : mcp2517fd_priv) : mcp2517fd_priv :=
  {| can_ctrlmode := can_ctrlmode p; tx_work_skb := tx_work_skb p; con_val :=
     con_val p; spi_setup_speed_hz := spi_setup_speed_hz p; spi_speed_hz :=
     spi_speed_hz p; payload_size := payload_size p; payload_mode := v;
     tef_address_start := tef_address_start p; tef_address_end :=
     tef_address_end p; tef_address := tef_address p; fifo_address :=
     fifo_address p; tx_fifos := tx_fifos p; tx_fifo_start := tx_fifo_start p;
     tx_fifo_mask := tx_fifo_mask p; tx_pending_mask := tx_pending_mask p;
     rx_fifos := rx_fifos p; rx_fifo_depth := rx_fifo_depth p; rx_fifo_start
     := rx_fifo_start p; rx_fifo_mask := rx_fifo_mask p; rx_overflow :=
     rx_overflow p; status := status p; force_quit := force_quit p; fifo_data
     := fifo_data p; fifo_usage := fifo_usage p |}.

Definition set_tef_address_start (v : Z) (p : mcp2517fd_priv) : mcp2517fd_priv :=
  {| can_ctrlmode := can_ctrlmode p; tx_work_skb := tx_work_skb p; con_val :=
     con_val p; spi_setup_speed_hz := spi_setup_speed_hz p; spi_speed_hz :=
     spi_speed_hz p; payload_size := payload_size p; payload_mode :=
     payload_mode p; tef_address_start := v; tef_address_end :=
     tef_address_end p; tef_address := tef_address p; fifo_address :=
     fifo_address p; tx_fifos := tx_fifos p; tx_fifo_start := tx_fifo_start p;
     tx_fifo_mask := tx_fifo_mask p; tx_pending_mask := tx_pending_mask p;
     rx_fifos := rx_fifos p; rx_fifo_depth := rx_fifo_depth p; rx_fifo_start
     := rx_fifo_start p; rx_fifo_mask := rx_fifo_mask p; rx_overflow :=
     rx_overflow p; status := status p; force_quit := force_quit p; fifo_data
     := fifo_data p; fifo_usage := fifo_usage p |}.

Definition set_tef_address_end (v : Z) (p : mcp2517fd_priv) : mcp2517fd_priv :=
  {| can_ctrlmode := can_ctrlmode p; tx_work_skb := tx_work_skb p; con_val :=
     con_val p; spi_setup_speed_hz := spi_setup_speed_hz p; spi_speed_hz :=
     spi_speed_hz p; payload_size := payload_size p; payload_mode :=
     payload_mode p; tef_address_start := tef_address_start p; tef_address_end
     := v; tef_address := tef_address p; fifo_address := fifo_address p;
     tx_fifos := tx_fifos p; tx_fifo_start := tx_fifo_start p; tx_fifo_mask :=
     tx_fifo_mask p; tx_pending_mask := tx_pending_mask p; rx_fifos :=
     rx_fifos p; rx_fifo_depth := rx_fifo_depth p; rx_fifo_start :=
     rx_fifo_start p; rx_fifo_mask := rx_fifo_mask p; rx_overflow :=
     rx_overflow p; status := status p; force_quit := force_quit p; fifo_data
     := fifo_data p; fifo_usage := fifo_usage p |}.

Definition set_tef_address (v : Z) (p : mcp2517fd_priv) : mcp2517fd_priv :=
  {| can_ctrlmode := can_ctrlmode p; tx_work_skb := tx_work_skb p; con_val :=
     con_val p; spi_setup_speed_hz := spi_setup_speed_hz p; spi_speed_hz :=
     spi_speed_hz p; payload_size := payload_size p; payload_mode :=
     payload_mode p; tef_address_start := tef_address_start p; tef_address_end
     := tef_address_end p; tef_address := v; fifo_address := fifo_address p;
     tx_fifos := tx_fifos p; tx_fifo_start := tx_fifo_start p; tx_fifo_mask :=
     tx_fifo_mask p; tx_pending_mask := tx_pending_mask p; rx_fifos :=
     rx_fifos p; rx_fifo_depth := rx_fifo_depth p; rx_fifo_start :=
     rx_fifo_start p; rx_fifo_mask := rx_fifo_mask p; rx_overflow :=
     rx_overflow p; status := status p; force_quit := force_quit p; fifo_data
     := fifo_data p; fifo_usage := fifo_usage p |}.

Definition set_fifo_address (v : Z -> Z) (p : mcp2517fd_priv) : mcp2517fd_priv :=
  {| can_ctrlmode := can_ctrlmode p; tx_work_skb := tx_work_skb p; con_val :=
     con_val p; spi_setup_speed_hz := spi_setup_speed_hz p; spi_speed_hz :=
     spi_speed_hz p; payload_size := payload_size p; payload_mode :=
     payload_mode p; tef_address_start := tef_address_start p; tef_address_end
     := tef_address_end p; tef_address := tef_address p; fifo_address := v;
     tx_fifos := tx_fifos p; tx_fifo_start := tx_fifo_start p; tx_fifo_mask :=
     tx_fifo_mask p; tx_pending_mask := tx_pending_mask p; rx_fifos :=
     rx_fifos p; rx_fifo_depth := rx_fifo_depth p; rx_fifo_start :=
     rx_fifo_start p; rx_fifo_mask := rx_fifo_mask p; rx_overflow :=
     rx_overflow p; status := status p; force_quit := force_quit p; fifo_data
     := fifo_data p; fifo_usage := fifo_usage p |}.

Definition set_tx_fifos (v : Z) (p : mcp2517fd_priv) : mcp2517fd_priv :=
  {| can_ctrlmode := can_ctrlmode p; tx_work_skb := tx_work_skb p; con_val :=
     con_val p; spi_setup_speed_hz := spi_setup_speed_hz p; spi_speed_hz :=
     spi_speed_hz p; payload_size := payload_size p; payload_mode :=
     payload_mode p; tef_address_start := tef_address_start p; tef_address_end
     := tef_address_end p; tef_address := tef_address p; fifo_address :=
     fifo_address p; tx_fifos := v; tx_fifo_start := tx_fifo_start p;
     tx_fifo_mask := tx_fifo_mask p; tx_pending_mask := tx_pending_mask p;
     rx_fifos := rx_fifos p; rx_fifo_depth := rx_fifo_depth p; rx_fifo_start
     := rx_fifo_start p; rx_fifo_mask := rx_fifo_mask p; rx_overflow :=
     rx_overflow p; status := status p; force_quit := force_quit p; fifo_data
     := fifo_data p; fifo_usage := fifo_usage p |}.

Definition set_tx_fifo_start (v : Z) (p : mcp2517fd_priv) : mcp2517fd_priv :=
  {| can_ctrlmode := can_ctrlmode p; tx_work_skb := tx_work_skb p; con_val :=
     con_val p; spi_setup_speed_hz := spi_setup_speed_hz p; spi_speed_hz :=
     spi_speed_hz p; payload_size := payload_size p; payload_mode :=
     payload_mode p; tef_address_start := tef_address_start p; tef_address_end
     := tef_address_end p; tef_address := tef_address p; fifo_address :=
     fifo_address p; tx_fifos := tx_fifos p; tx_fifo_start := v; tx_fifo_mask
     := tx_fifo_mask p; tx_pending_mask := tx_pending_mask p; rx_fifos :=
     rx_fifos p; rx_fifo_depth := rx_fifo_depth p; rx_fifo_start :=
     rx_fifo_start p; rx_fifo_mask := rx_fifo_mask p; rx_overflow :=
     rx_overflow p; status := status p; force_quit := force_quit p; fifo_data
     := fifo_data p; fifo_usage := fifo_usage p |}.

Definition set_tx_fifo_mask (v : Z) (p : mcp2517fd_priv) : mcp2517fd_priv :=
  {| can_ctrlmode := can_ctrlmode p; tx_work_skb := tx_work_skb p; con_val :=
     con_val p; spi_setup_speed_hz := spi_setup_speed_hz p; spi_speed_hz :=
     spi_speed_hz p; payload_size := payload_size p; payload_mode :=
     payload_mode p; tef_address_start := tef_address_start p; tef_address_end
     := tef_address_end p; tef_address := tef_address p; fifo_address :=
     fifo_address p; tx_fifos := tx_fifos p; tx_fifo_start := tx_fifo_start p;
     tx_fifo_mask := v; tx_pending_mask := tx_pending_mask p; rx_fifos :=
     rx_fifos p; rx_fifo_depth := rx_fifo_depth p; rx_fifo_start :=
     rx_fifo_start p; rx_fifo_mask := rx_fifo_mask p; rx_overflow :=
     rx_overflow p; status := status p; force_quit := force_quit p; fifo_data
     := fifo_data p; fifo_usage := fifo_usage p |}.

Definition set_tx_pending_mask (v : Z) (p : mcp2517fd_priv) : mcp2517fd_priv :=
  {| can_ctrlmode := can_ctrlmode p; tx_work_skb := tx_work_skb p; con_val :=
     con_val p; spi_setup_speed_hz := spi_setup_speed_hz p; spi_speed_hz :=
     spi_speed_hz p; payload_size := payload_size p; payload_mode :=
     payload_mode p; tef_address_start := tef_address_start p; tef_address_end
     := tef_address_end p; tef_address := tef_address p; fifo_address :=
     fifo_address p; tx_fifos := tx_fifos p; tx_fifo_start := tx_fifo_start p;
     tx_fifo_mask := tx_fifo_mask p; tx_pending_mask := v; rx_fifos :=
     rx_fifos p; rx_fifo_depth := rx_fifo_depth p; rx_fifo_start :=
     rx_fifo_start p; rx_fifo_mask := rx_fifo_mask p; rx_overflow :=
     rx_overflow p; status := status p; force_quit := force_quit p; fifo_data
     := fifo_data p; fifo_usage := fifo_usage p |}.

Definition set_rx_fifos (v : Z) (p : mcp2517fd_priv) : mcp2517fd_priv :=
  {| can_ctrlmode := can_ctrlmode p; tx_work_skb := tx_work_skb p; con_val :=
     con_val p; spi_setup_speed_hz := spi_setup_speed_hz p; spi_speed_hz :=
     spi_speed_hz p; payload_size := payload_size p; payload_mode :=
     payload_mode p; tef_address_start := tef_address_start p; tef_address_end
     := tef_address_end p; tef_address := tef_address p; fifo_address :=
     fifo_address p; tx_fifos := tx_fifos p; tx_fifo_start := tx_fifo_start p;
     tx_fifo_mask := tx_fifo_mask p; tx_pending_mask := tx_pending_mask p;
     rx_fifos := v; rx_fifo_depth := rx_fifo_depth p; rx_fifo_start :=
     rx_fifo_start p; rx_fifo_mask := rx_fifo_mask p; rx_overflow :=
     rx_overflow p; status := status p; force_quit := force_quit p; fifo_data
     := fifo_data p; fifo_usage := fifo_usage p |}.

Definition set_rx_fifo_depth (v : Z) (p : mcp2517fd_priv) : mcp2517fd_priv :=
  {| can_ctrlmode := can_ctrlmode p; tx_work_skb := tx_work_skb p; con_val :=
     con_val p; spi_setup_speed_hz := spi_setup_speed_hz p; spi_speed_hz :=
     spi_speed_hz p; payload_size := payload_size p; payload_mode :=
     payload_mode p; tef_address_start := tef_address_start p; tef_address_end
     := tef_address_end p; tef_address := tef_address p; fifo_address :=
     fifo_address p; tx_fifos := tx_fifos p; tx_fifo_start := tx_fifo_start p;
     tx_fifo_mask := tx_fifo_mask p; tx_pending_mask := tx_pending_mask p;
     rx_fifos := rx_fifos p; rx_fifo_depth := v; rx_fifo_start :=
     rx_fifo_start p; rx_fifo_mask := rx_fifo_mask p; rx_overflow :=
     rx_overflow p; status := status p; force_quit := force_quit p; fifo_data
     := fifo_data p; fifo_usage := fifo_usage p |}.

Definition set_rx_fifo_start (v : Z) (p : mcp2517fd_priv) : mcp2517fd_priv :=
  {| can_ctrlmode := can_ctrlmode p; tx_work_skb := tx_work_skb p; con_val :=
     con_val p; spi_setup_speed_hz := spi_setup_speed_hz p; spi_speed_hz :=
     spi_speed_hz p; payload_size := payload_size p; payload_mode :=
     payload_mode p; tef_address_start := tef_address_start p; tef_address_end
     := tef_address_end p; tef_address := tef_address p; fifo_address :=
     fifo_address p; tx_fifos := tx_fifos p; tx_fifo_start := tx_fifo_start p;
     tx_fifo_mask := tx_fifo_mask p; tx_pending_mask := tx_pending_mask p;
     rx_fifos := rx_fifos p; rx_fifo_depth := rx_fifo_depth p; rx_fifo_start
     := v; rx_fifo_mask := rx_fifo_mask p; rx_overflow := rx_overflow p;
     status := status p; force_quit := force_quit p; fifo_data := fifo_data p;
     fifo_usage := fifo_usage p |}.

Definition set_rx_fifo_mask (v : Z) (p : mcp2517fd_priv) : mcp2517fd_priv :=
  {| can_ctrlmode := can_ctrlmode p; tx_work_skb := tx_work_skb p; con_val :=
     con_val p; spi_setup_speed_hz := spi_setup_speed_hz p; spi_speed_hz :=
     spi_speed_hz p; payload_size := payload_size p; payload_mode :=
     payload_mode p; tef_address_start := tef_address_start p; tef_address_end
     := tef_address_end p; tef_address := tef_address p; fifo_address :=
     fifo_address p; tx_fifos := tx_fifos p; tx_fifo_start := tx_fifo_start p;
     tx_fifo_mask := tx_fifo_mask p; tx_pending_mask := tx_pending_mask p;
     rx_fifos := rx_fifos p; rx_fifo_depth := rx_fifo_depth p; rx_fifo_start
     := rx_fifo_start p; rx_fifo_mask := v; rx_overflow := rx_overflow p;
     status := status p; force_quit := force_quit p; fifo_data := fifo_data p;
     fifo_usage := fifo_usage p |}.

Definition set_rx_overflow (v : Z) (p : mcp2517fd_priv) : mcp2517fd_priv :=
  {| can_ctrlmode := can_ctrlmode p; tx_work_skb := tx_work_skb p; con_val :=
     con_val p; spi_setup_speed_hz := spi_setup_speed_hz p; spi_speed_hz :=
     spi_speed_hz p; payload_size := payload_size p; payload_mode :=
     payload_mode p; tef_address_start := tef_address_start p; tef_address_end
     := tef_address_end p; tef_address := tef_address p; fifo_address :=
     fifo_address p; tx_fifos := tx_fifos p; tx_fifo_start := tx_fifo_start p;
     tx_fifo_mask := tx_fifo_mask p; tx_pending_mask := tx_pending_mask p;
     rx_fifos := rx_fifos p; rx_fifo_depth := rx_fifo_depth p; rx_fifo_start
     := rx_fifo_start p; rx_fifo_mask := rx_fifo_mask p; rx_overflow := v;
     status := status p; force_quit := force_quit p; fifo_data := fifo_data p;
     fifo_usage := fifo_usage p |}.

Definition set_status (v : status_block) (p : mcp2517fd_priv) : mcp2517fd_priv :=
  {| can_ctrlmode := can_ctrlmode p; tx_work_skb := tx_work_skb p; con_val :=
     con_val p; spi_setup_speed_hz := spi_setup_speed_hz p; spi_speed_hz :=
     spi_speed_hz p; payload_size := payload_size p; payload_mode :=
     payload_mode p; tef_address_start := tef_address_start p; tef_address_end
     := tef_address_end p; tef_address := tef_address p; fifo_address :=
     fifo_address p; tx_fifos := tx_fifos p; tx_fifo_start := tx_fifo_start p;
     tx_fifo_mask := tx_fifo_mask p; tx_pending_mask := tx_pending_mask p;
     rx_fifos := rx_fifos p; rx_fifo_depth := rx_fifo_depth p; rx_fifo_start
     := rx_fifo_start p; rx_fifo_mask := rx_fifo_mask p; rx_overflow :=
     rx_overflow p; status := v; force_quit := force_quit p; fifo_data :=
     fifo_data p; fifo_usage := fifo_usage p |}.


Definition set_fifo_data (v : Z -> Z) (p : mcp2517fd_priv) : mcp2517fd_priv :=
  {| can_ctrlmode := can_ctrlmode p; tx_work_skb := tx_work_skb p; con_val :=
     con_val p; spi_setup_speed_hz := spi_setup_speed_hz p; spi_speed_hz :=
     spi_speed_hz p; payload_size := payload_size p; payload_mode :=
     payload_mode p; tef_address_start := tef_address_start p; tef_address_end
     := tef_address_end p; tef_address := tef_address p; fifo_address :=
     fifo_address p; tx_fifos := tx_fifos p; tx_fifo_start := tx_fifo_start p;
     tx_fifo_mask := tx_fifo_mask p; tx_pending_mask := tx_pending_mask p;
     rx_fifos := rx_fifos p; rx_fifo_depth := rx_fifo_depth p; rx_fifo_start
     := rx_fifo_start p; rx_fifo_mask := rx_fifo_mask p; rx_overflow :=
     rx_overflow p; status := status p; force_quit := force_quit p; fifo_data
     := v; fifo_usage := fifo_usage p |}.

Definition set_fifo_usage (v : Z -> Z) (p : mcp2517fd_priv) : mcp2517fd_priv :=
  {| can_ctrlmode := can_ctrlmode p; tx_work_skb := tx_work_skb p; con_val :=
     con_val p; spi_setup_speed_hz := spi_setup_speed_hz p; spi_speed_hz :=
     spi_speed_hz p; payload_size := payload_size p; payload_mode :=
     payload_mode p; tef_address_start := tef_address_start p; tef_address_end
     := tef_address_end p; tef_address := tef_address p; fifo_address :=
     fifo_address p; tx_fifos := tx_fifos p; tx_fifo_start := tx_fifo_start p;
     tx_fifo_mask := tx_fifo_mask p; tx_pending_mask := tx_pending_mask p;
     rx_fifos := rx_fifos p; rx_fifo_depth := rx_fifo_depth p; rx_fifo_start
     := rx_fifo_start p; rx_fifo_mask := rx_fifo_mask p; rx_overflow :=
     rx_overflow p; status := status p; force_quit := force_quit p; fifo_data
     := fifo_data p; fifo_usage := v |}.

Definition set_rx_packets (v : Z) (s : net_device_stats) : net_device_stats :=
  {| rx_packets := v; rx_bytes := rx_bytes s; rx_dropped := rx_dropped s;
     rx_errors := rx_errors s; rx_over_errors := rx_over_errors s; tx_packets
     := tx_packets s; tx_bytes := tx_bytes s; tx_errors := tx_errors s;
     tx_dropped := tx_dropped s |}.

Definition set_rx_bytes (v : Z) (s : net_device_stats) : net_device_stats :=
  {| rx_packets := rx_packets s; rx_bytes := v; rx_dropped := rx_dropped s;
     rx_errors := rx_errors s; rx_over_errors := rx_over_errors s; tx_packets
     := tx_packets s; tx_bytes := tx_bytes s; tx_errors := tx_errors s;
     tx_dropped := tx_dropped s |}.

Definition set_rx_dropped (v : Z) (s : net_device_stats) : net_device_stats :=
  {| rx_packets := rx_packets s; rx_bytes := rx_bytes s; rx_dropped := v;
     rx_errors := rx_errors s; rx_over_errors := rx_over_errors s; tx_packets
     := tx_packets s; tx_bytes := tx_bytes s; tx_errors := tx_errors s;
     tx_dropped := tx_dropped s |}.

Definition set_rx_errors (v : Z) (s : net_device_stats) : net_device_stats :=
  {| rx_packets := rx_packets s; rx_bytes := rx_bytes s; rx_dropped :=
     rx_dropped s; rx_errors := v; rx_over_errors := rx_over_errors s;
     tx_packets := tx_packets s; tx_bytes := tx_bytes s; tx_errors :=
     tx_errors s; tx_dropped := tx_dropped s |}.

Definition set_rx_over_errors (v : Z) (s : net_device_stats) : net_device_stats :=
  {| rx_packets := rx_packets s; rx_bytes := rx_bytes s; rx_dropped :=
     rx_dropped s; rx_errors := rx_errors s; rx_over_errors := v; tx_packets
     := tx_packets s; tx_bytes := tx_bytes s; tx_errors := tx_errors s;
     tx_dropped := tx_dropped s |}.

Definition set_tx_packets (v : Z) (s : net_device_stats) : net_device_stats :=
  {| rx_packets := rx_packets s; rx_bytes := rx_bytes s; rx_dropped :=
     rx_dropped s; rx_errors := rx_errors s; rx_over_errors := rx_over_errors
     s; tx_packets := v; tx_bytes := tx_bytes s; tx_errors := tx_errors s;
     tx_dropped := tx_dropped s |}.

Definition set_tx_bytes (v : Z) (s : net_device_stats) : net_device_stats :=
  {| rx_packets := rx_packets s; rx_bytes := rx_bytes s; rx_dropped :=
     rx_dropped s; rx_errors := rx_errors s; rx_over_errors := rx_over_errors
     s; tx_packets := tx_packets s; tx_bytes := v; tx_errors := tx_errors s;
     tx_dropped := tx_dropped s |}.

Definition set_tx_dropped (v : Z) (s : net_device_stats) : net_device_stats :=
  {| rx_packets := rx_packets s; rx_bytes := rx_bytes s; rx_dropped :=
     rx_dropped s; rx_errors := rx_errors s; rx_over_errors := rx_over_errors
     s; tx_packets := tx_packets s; tx_bytes := tx_bytes s; tx_errors :=
     tx_errors s; tx_dropped := v |}.

(** The driver state as allocated (zeroed) and a world around it. *)
Definition priv0 : mcp2517fd_priv := {|
  can_ctrlmode := 0; tx_work_skb := None; con_val := 0;
  spi_setup_speed_hz := 0; spi_speed_hz := 0;
  payload_size := 0; payload_mode := 0;
  tef_address_start := 0; tef_address_end := 0; tef_address := 0;
  fifo_address := fun _ => 0;
  tx_fifos := 0; tx_fifo_start := 0; tx_fifo_mask := 0; tx_pending_mask := 0;
  rx_fifos := 0; rx_fifo_depth := 0; rx_fifo_start := 0; rx_fifo_mask := 0;
  rx_overflow := 0;
  status := {| intf := 0; rxif := 0; txif := 0; rxovif := 0; txatif := 0;
               txreq := 0; trec := 0; bdiag0 := 0; bdiag1 := 0 |};
  force_quit := 0;
  fifo_data := fun _ => 0;
  fifo_usage := fun _ => 0
|}.

Definition world0 (mtu : Z) : world := {|
  priv := priv0;
  net_mtu := mtu;
  stats := {| rx_packets := 0; rx_bytes := 0; rx_dropped := 0; rx_errors := 0;
              rx_over_errors := 0; tx_packets := 0; tx_bytes := 0;
              tx_errors := 0; tx_dropped := 0 |};
  trace := []
|}.


(** A CAN FD frame with identifier [id] and [len] payload bytes [b]. *)
Definition fd_frame_of (id len b : Z) : canfd_frame :=
  {| fd_can_id := id; fd_len := len; fd_flags := 0; fd_data := fun _ => b |}.

(** A classic frame with identifier [id] and [dlc] payload bytes [b]. *)
Definition frame_of (id dlc b : Z) : sk_buff :=
  skb_can {| cf_can_id := id; cf_can_dlc := dlc; cf_data := fun _ => b |}.

(* ------------------------------------------------------------------ *)
(** ** The driver *)

Section Driver.

Variable K : kernel.

Definition errno (r : option positive) : Z :=
  match r with None => 0 | Some e => Z.neg e end.

(** [ret = f(...); if (ret) return ret;] *)
Notation "'try' w1 '<-' e ';' k" :=
  (let '(ret, w1) := e in if nz ret then (ret, w1) else k)
  (at level 10, w1 name, e at level 100, k at level 200).

(** [for (i = a; i < a + n; i++) { ret = body(i); if (ret) return ret; }] *)
Fixpoint for_loop (n : nat) (i : Z) (body : Z -> world -> Z * world)
         (w : world) : Z * world :=
  match n with
  | O => (0, w)
  | S n' => try w1 <- body i w; for_loop n' (i + 1) body w1
  end.

(** *** Register transport *)

(** [mcp2517fd_sync_transfer]: returns the code of [spi_sync_transfer] and
    the bytes clocked in. *)
Definition mcp2517fd_sync_transfer (xfer : list spi_transfer) (speed : Z)
           (w : world) : Z * list Z * world :=
  let xfer :=
    map (fun x => {| tx_buf := tx_buf x; rx_buf := rx_buf x;
                     xfer_len := xfer_len x; speed_hz := speed |}) xfer in
  let '(r, rx) := spi_sync_transfer K (trace w) xfer in
  (errno r, rx, call (k_spi_sync_transfer xfer) w).

(** [mcp2517fd_write_then_read]: the second component is what the call
    stored in [rx_buf], [None] when it stored nothing. On a half-duplex
    controller two transfers go out; otherwise one full-duplex transfer
    through a bounce buffer.

    The source clears only the first of the two transfers
    ([memset(xfer, 0, sizeof( *xfer))]), so on a half-duplex controller the
    fields of the second one that it does not assign, [tx_buf] among the
    fields kept here, are indeterminate in C. The record below shows that
    [tx_buf] as a null pointer, which is one of the values it can have;
    what is proved of the second transfer of a half-duplex read is its
    [rx_buf], its length and its speed, which the source does assign, and
    nothing is to be read into its [tx_buf]. *)
Definition mcp2517fd_write_then_read (tx : list Z) (rx_len : Z) (speed : Z)
           (w : world) : Z * option (list Z) * world :=
  let tx_len := Z.of_nat (length tx) in
  if SPI_MASTER_HALF_DUPLEX K then
    let x0 := {| tx_buf := Some tx; rx_buf := false; xfer_len := tx_len;
                 speed_hz := 0 |} in
    let x1 := {| tx_buf := None; rx_buf := true; xfer_len := rx_len;
                 speed_hz := 0 |} in
    let '(ret, rx, w1) := mcp2517fd_sync_transfer [x0; x1] speed w in
    (ret, Some (bytes_from (at_list rx) 0 rx_len), w1)
  else
    let w0 := call (k_alloc kmalloc_txrx) w in
    if negb (alloc_ok K (trace w) kmalloc_txrx) then (- ENOMEM, None, w0)
    else
      let x0 := {| tx_buf := Some (tx ++ repeat 0 (Z.to_nat rx_len));
                   rx_buf := true; xfer_len := tx_len + rx_len;
                   speed_hz := 0 |} in
      let '(ret, rx, w1) := mcp2517fd_sync_transfer [x0] speed w0 in
      (ret,
       if nz ret then None else Some (bytes_from (at_list rx) tx_len rx_len),
       w1).

(** [mcp2517fd_write] *)
Definition mcp2517fd_write (tx : list Z) (speed : Z) (w : world) : Z * world :=
  let x0 := {| tx_buf := Some tx; rx_buf := false;
               xfer_len := Z.of_nat (length tx); speed_hz := 0 |} in
  let '(ret, _, w1) := mcp2517fd_sync_transfer [x0] speed w in
  (ret, w1).

(** [mcp2517fd_write_then_write] *)
Definition mcp2517fd_write_then_write (tx tx2 : list Z) (speed : Z)
           (w : world) : Z * world :=
  let w0 := call (k_alloc kmalloc_txrx) w in
  if negb (alloc_ok K (trace w) kmalloc_txrx) then (- ENOMEM, w0)
  else
    let x0 := {| tx_buf := Some (tx ++ tx2); rx_buf := false;
                 xfer_len := Z.of_nat (length tx) + Z.of_nat (length tx2);
                 speed_hz := 0 |} in
    let '(ret, _, w1) := mcp2517fd_sync_transfer [x0] speed w0 in
    (ret, w1).

(** [mcp2517fd_calc_cmd_addr]: the two command bytes; both arguments are
    u16 in the source. *)
Definition mcp2517fd_calc_cmd_addr (cmd addr : Z) : list Z :=
  let cmd := Z.lor cmd (Z.land (addr mod 2 ^ 16) ADDRESS_MASK) in
  [Z.land (Z.shiftr cmd 8) 0xff; Z.land (Z.shiftr cmd 0) 0xff].

(** [mcp2517fd_cmd_reset] *)
Definition mcp2517fd_cmd_reset (speed : Z) (w : world) : Z * world :=
  mcp2517fd_write (mcp2517fd_calc_cmd_addr INSTRUCTION_RESET 0) speed w.

(** [mcp2517fd_cmd_readn]: [n] bytes read at [reg]. *)
Definition mcp2517fd_cmd_readn (reg : Z) (n : Z) (speed : Z) (w : world)
  : Z * option (list Z) * world :=
  let cmd := mcp2517fd_calc_cmd_addr INSTRUCTION_READ reg in
  mcp2517fd_write_then_read cmd n speed w.

Definition mask_first_byte (mask : Z) : Z := Z.shiftr (ffs mask - 1) 3.
Definition mask_last_byte (mask : Z) : Z := Z.shiftr (fls mask - 1) 3.

(** [mcp2517fd_cmd_read_mask]: the second component is [*data] after the
    call, [None] when the call left it alone. *)
Definition mcp2517fd_cmd_read_mask (reg : Z) (mask : Z) (speed : Z)
           (w : world) : Z * option Z * world :=
  if negb (nz mask) then (- EINVAL, None, w)
  else
    let first_byte := mask_first_byte mask in
    let last_byte := mask_last_byte mask in
    let len_byte := last_byte - first_byte + 1 in
    let '(ret, rx, w1) := mcp2517fd_cmd_readn reg len_byte speed w in
    let data :=
      match rx with
      | Some b => memcpy_to (fun _ => 0) first_byte b
      | None => fun _ => 0
      end in
    (ret, Some (le32_at data 0), w1).

(** [mcp2517fd_cmd_read] *)
Definition mcp2517fd_cmd_read (reg : Z) (speed : Z) (w : world)
  : Z * option Z * world :=
  mcp2517fd_cmd_read_mask reg (u32 (-1)) speed w.

(** [mcp2517fd_cmd_write_mask] *)
Definition mcp2517fd_cmd_write_mask (reg : Z) (data : Z) (mask : Z)
           (speed : Z) (w : world) : Z * world :=
  if negb (nz mask) then (- EINVAL, w)
  else
    let first_byte := mask_first_byte mask in
    let last_byte := mask_last_byte mask in
    let len_byte := last_byte - first_byte + 1 in
    let cmd := mcp2517fd_calc_cmd_addr INSTRUCTION_WRITE (reg + first_byte) in
    mcp2517fd_write_then_write
      cmd (bytes_from (at_list (le32_bytes data)) first_byte len_byte) speed w.

(** [mcp2517fd_cmd_write] *)
Definition mcp2517fd_cmd_write (reg : Z) (data : Z) (speed : Z) (w : world)
  : Z * world :=
  mcp2517fd_cmd_write_mask reg data (u32 (-1)) speed w.

(** *** Transmit path *)

(** The buffer [d] of [mcp2517fd_transmit_message_common] once filled. It
    is an automatic array of which the source clears the first byte only,
    so what lies behind the payload is as found. *)
Definition tx_buffer (fifo : Z) (obj : mcp2517fd_obj_tx) (len : Z)
           (data : Z -> Z) (w : world) : Z -> Z :=
  let addr := FIFO_DATA (fifo_address (priv w) fifo) in
  let flags :=
    u32 (Z.lor (tx_flags obj) (Z.shiftl fifo CAN_OBJ_FLAGS_SEQ_SHIFT)) in
  let d := upd (auto_storage K (trace w)) 0 0 in
  let d := memcpy_to d 0 (mcp2517fd_calc_cmd_addr INSTRUCTION_WRITE addr) in
  let d := memcpy_to d 2 (le32_bytes (tx_id obj) ++ le32_bytes flags) in
  memcpy_to d (2 + sizeof_obj_tx) (bytes_from data 0 len).

(** [mcp2517fd_transmit_message_common] *)
Definition mcp2517fd_transmit_message_common (fifo : Z)
           (obj : mcp2517fd_obj_tx) (len : Z) (data : Z -> Z) (w : world)
  : Z * world :=
  let p := priv w in
  let d := tx_buffer fifo obj len data w in
  let len := 2 + sizeof_obj_tx + ALIGN len 4 in
  let '(ret, w1) := mcp2517fd_write (bytes_from d 0 len) (spi_speed_hz p) w in
  if nz ret then (NETDEV_TX_BUSY, w1)
  else
    let '(ret, w2) :=
      mcp2517fd_cmd_write_mask (CAN_FIFOCON fifo)
        (Z.lor CAN_FIFOCON_TXREQ CAN_FIFOCON_UINC)
        (Z.lor CAN_FIFOCON_TXREQ CAN_FIFOCON_UINC)
        (spi_speed_hz p) w1 in
    if nz ret then (NETDEV_TX_BUSY, w2) else (NETDEV_TX_OK, w2).

(** The transmit object built by [mcp2517fd_transmit_fdmessage] from the
    frame whose length is already corrected. *)
Definition fdmessage_obj (dlc : Z) (frame : canfd_frame) : mcp2517fd_obj_tx :=
  let '(id, flags) := mcp2517fd_canid_to_mcpid (fd_can_id frame) in
  let flags := Z.lor flags (Z.shiftl dlc CAN_OBJ_FLAGS_DLC_SHIFT) in
  let flags := Z.lor flags
    (if nz (Z.land (fd_can_id frame) CAN_EFF_FLAG) then CAN_OBJ_FLAGS_IDE else 0) in
  let flags := Z.lor flags
    (if nz (Z.land (fd_can_id frame) CAN_RTR_FLAG) then CAN_OBJ_FLAGS_RTR else 0) in
  let flags := Z.lor flags
    (if nz (Z.land (fd_flags frame) CANFD_BRS) then CAN_OBJ_FLAGS_BRS else 0) in
  let flags := Z.lor flags
    (if nz (Z.land (fd_flags frame) CANFD_ESI) then CAN_OBJ_FLAGS_ESI else 0) in
  let flags := Z.lor flags CAN_OBJ_FLAGS_FDF in
  {| tx_id := id; tx_flags := flags |}.

(** [mcp2517fd_transmit_fdmessage]: returns the code, the frame as the
    call leaves it (it is changed in place) and the world. *)
Definition mcp2517fd_transmit_fdmessage (fifo : Z) (frame : canfd_frame)
           (w : world) : Z * canfd_frame * world :=
  let dlc := can_len2dlc (fd_len frame) in
  let frame := {| fd_can_id := fd_can_id frame; fd_len := u8 (can_dlc2len dlc);
                  fd_flags := fd_flags frame; fd_data := fd_data frame |} in
  let obj := fdmessage_obj dlc frame in
  let '(ret, w1) :=
    mcp2517fd_transmit_message_common fifo obj (fd_len frame) (fd_data frame) w in
  (ret, frame, w1).

(** The transmit object built by [mcp2517fd_transmit_message] from the
    frame whose dlc is already clamped. *)
Definition message_obj (frame : can_frame) : mcp2517fd_obj_tx :=
  let '(id, flags) := mcp2517fd_canid_to_mcpid (cf_can_id frame) in
  let flags := Z.lor flags (Z.shiftl (cf_can_dlc frame) CAN_OBJ_FLAGS_DLC_SHIFT) in
  let flags := Z.lor flags
    (if nz (Z.land (cf_can_id frame) CAN_EFF_FLAG) then CAN_OBJ_FLAGS_IDE else 0) in
  let flags := Z.lor flags
    (if nz (Z.land (cf_can_id frame) CAN_RTR_FLAG) then CAN_OBJ_FLAGS_RTR else 0) in
  {| tx_id := id; tx_flags := flags |}.

(** [mcp2517fd_transmit_message]: returns the code, the frame as the call
    leaves it and the world. *)
Definition mcp2517fd_transmit_message (fifo : Z) (frame : can_frame)
           (w : world) : Z * can_frame * world :=
  let frame :=
    if cf_can_dlc frame >? 8
    then {| cf_can_id := cf_can_id frame; cf_can_dlc := 8;
            cf_data := cf_data frame |}
    else frame in
  let obj := message_obj frame in
  let '(ret, w1) :=
    mcp2517fd_transmit_message_common fifo obj (cf_can_dlc frame)
                                      (cf_data frame) w in
  (ret, frame, w1).

(** The fifo [mcp2517fd_tx_work_handler] decides on. *)
Definition tx_work_fifo (p : mcp2517fd_priv) : Z :=
  let pending_mask := tx_pending_mask p in
  if nz pending_mask then ffs pending_mask - 2
  else tx_fifo_start p + tx_fifos p - 1.

(** [mcp2517fd_tx_work_handler]. The work item is queued by
    [mcp2517fd_start_xmit] only, after it has set [tx_work_skb]; with no
    buffer there the source would dereference NULL and the embedding
    stops after the bookkeeping. *)
Definition mcp2517fd_tx_work_handler (w : world) : world :=
  let p := priv w in
  let skb := tx_work_skb p in
  let fifo := tx_work_fifo p in
  if fifo <? tx_fifo_start p then
    call (k_dev_err "reached tx-fifo %i, which is not valid" [fifo]) w
  else
    let w := set_priv (set_tx_work_skb None) w in
    let w := if fifo >? tx_fifo_start p then call k_netif_start_queue w else w in
    let w := set_priv (set_tx_pending_mask
                         (u32 (Z.lor (tx_pending_mask p) (BIT fifo)))) w in
    let w := set_priv (set_fifo_usage
                         (upd (fifo_usage p) fifo (u64 (fifo_usage p fifo + 1)))) w in
    match skb with
    | Some (skb_canfd frame) =>
        let '(ret, frame, w1) := mcp2517fd_transmit_fdmessage fifo frame w in
        if ret =? NETDEV_TX_OK
        then call (k_can_put_echo_skb (skb_canfd frame) fifo) w1 else w1
    | Some (skb_can frame) =>
        let '(ret, frame, w1) := mcp2517fd_transmit_message fifo frame w in
        if ret =? NETDEV_TX_OK
        then call (k_can_put_echo_skb (skb_can frame) fifo) w1 else w1
    | None => w
    end.

(** [mcp2517fd_start_xmit]. The kernel's [can_dropped_invalid_skb] frees
    an invalid buffer and counts it in [tx_dropped]. *)
Definition mcp2517fd_start_xmit (skb : sk_buff) (w : world) : Z * world :=
  match tx_work_skb (priv w) with
  | Some _ => (NETDEV_TX_BUSY, call (k_dev_warn "hard_xmit called while tx busy") w)
  | None =>
      if can_dropped_invalid_skb K skb then
        (NETDEV_TX_OK,
         set_stats (fun s => set_tx_dropped (ulong (tx_dropped s + 1)) s) w)
      else
        let w := call k_netif_stop_queue w in
        let w := set_priv (set_tx_work_skb (Some skb)) w in
        let w := call k_queue_work w in
        (NETDEV_TX_OK, w)
  end.

(** One submission as the network stack and the work queue carry it out:
    [mcp2517fd_start_xmit], and, when that queued the work item, the work
    item run to its end. Returns the code of [mcp2517fd_start_xmit]. *)
Definition xmit_and_work (skb : sk_buff) (w : world) : Z * world :=
  let n := length (trace w) in
  let '(ret, w1) := mcp2517fd_start_xmit skb w in
  match skipn n (trace w1) with
  | [k_netif_stop_queue; k_queue_work] => (ret, mcp2517fd_tx_work_handler w1)
  | _ => (ret, w1)
  end.

(** The fifos given to a sequence of submissions, in order; a submission
    that gets no fifo contributes nothing. *)
Fixpoint submit_frames (skbs : list sk_buff) (w : world) : list Z * world :=
  match skbs with
  | [] => ([], w)
  | skb :: rest =>
      let '(_, w1) := xmit_and_work skb w in
      let got := Z.lxor (tx_pending_mask (priv w1)) (tx_pending_mask (priv w)) in
      let '(fifos, w2) := submit_frames rest w1 in
      ((if nz got then [ffs got - 1] else []) ++ fifos, w2)
  end.

(** *** Receive path *)

Definition bump (f : net_device_stats -> Z)
           (set : Z -> net_device_stats -> net_device_stats) (by_ : Z)
           (w : world) : world :=
  set_stats (fun s => set (ulong (f s + by_)) s) w.

(** The receive object of [fifo] in [priv->fifo_data]. *)
Definition rx_off (p : mcp2517fd_priv) (fifo : Z) : Z := fifo_address p fifo.
Definition rx_id (p : mcp2517fd_priv) (fifo : Z) : Z :=
  le32_at (fifo_data p) (rx_off p fifo).
Definition rx_flags (p : mcp2517fd_priv) (fifo : Z) : Z :=
  le32_at (fifo_data p) (rx_off p fifo + 4).
Definition rx_data (p : mcp2517fd_priv) (fifo : Z) : Z -> Z :=
  fun k => u8 (fifo_data p (rx_off p fifo + sizeof_obj_rx + k)).

(** memcpy of [len] bytes into a zeroed frame payload. *)
Definition payload (src : Z -> Z) (len : Z) : Z -> Z :=
  fun k => if (0 <=? k) && (k <? len) then src k else 0.

(** [mcp2517fd_can_transform_rx_fd], on the receive object of [fifo]. *)
Definition mcp2517fd_can_transform_rx_fd (fifo : Z) (w : world) : Z * world :=
  let p := priv w in
  let ok := alloc_ok K (trace w) alloc_canfd_skb in
  let w := call (k_alloc alloc_canfd_skb) w in
  if negb ok then
    let w := call (k_dev_err "cannot allocate RX skb" []) w in
    (- ENOMEM, bump rx_dropped set_rx_dropped 1 w)
  else
    let flags := rx_flags p fifo in
    let len := can_dlc2len (Z.shiftr (Z.land flags CAN_OBJ_FLAGS_DLC_MASK)
                                     CAN_OBJ_FLAGS_DLC_SHIFT) in
    let frame := {|
      fd_can_id := mcp2517fd_mcpid_to_canid (rx_id p fifo) flags;
      fd_len := len;
      fd_flags :=
        Z.lor (Z.lor 0 (if nz (Z.land flags CAN_OBJ_FLAGS_BRS) then CANFD_BRS else 0))
              (if nz (Z.land flags CAN_OBJ_FLAGS_ESI) then CANFD_ESI else 0);
      fd_data := payload (rx_data p fifo) len |} in
    let w := bump rx_packets set_rx_packets 1 w in
    let w := bump rx_bytes set_rx_bytes len w in
    let w := call (k_can_led_event CAN_LED_EVENT_RX) w in
    (0, call (k_netif_rx_ni (skb_canfd frame)) w).

(** [mcp2517fd_can_transform_rx_normal], on the receive object of [fifo].
    The source copies [can_dlc2len(can_dlc)] bytes into [frame->data],
    which holds 8: for a DLC field of 9 to 15 in a classic object the copy
    runs past the frame and C gives it no meaning. [cf_data] is a total
    function, so the definition has a value there all the same (the bytes
    of the object); that value stands for nothing the source guarantees,
    and what is proved of the content and the length of delivered classic
    frames is stated for a DLC field of at most 8. *)
Definition mcp2517fd_can_transform_rx_normal (fifo : Z) (w : world)
  : Z * world :=
  let p := priv w in
  let ok := alloc_ok K (trace w) alloc_can_skb in
  let w := call (k_alloc alloc_can_skb) w in
  if negb ok then
    let w := call (k_dev_err "cannot allocate RX skb" []) w in
    (- ENOMEM, bump rx_dropped set_rx_dropped 1 w)
  else
    let flags := rx_flags p fifo in
    let can_dlc := Z.shiftr (Z.land flags CAN_OBJ_FLAGS_DLC_MASK)
                            CAN_OBJ_FLAGS_DLC_SHIFT in
    let len := can_dlc2len can_dlc in
    let frame := {|
      cf_can_id := mcp2517fd_mcpid_to_canid (rx_id p fifo) flags;
      cf_can_dlc := can_dlc;
      cf_data := payload (rx_data p fifo) len |} in
    let w := bump rx_packets set_rx_packets 1 w in
    let w := bump rx_bytes set_rx_bytes len w in
    let w := call (k_can_led_event CAN_LED_EVENT_RX) w in
    (0, call (k_netif_rx_ni (skb_can frame)) w).

(** [mcp2517fd_can_ist_handle_rxfifo] *)
Definition mcp2517fd_can_ist_handle_rxfifo (fifo : Z) (w : world) : Z * world :=
  let p := priv w in
  let w := set_priv (set_fifo_usage
                       (upd (fifo_usage p) fifo (u64 (fifo_usage p fifo + 1)))) w in
  try w1 <- mcp2517fd_cmd_write_mask (CAN_FIFOCON fifo)
              (Z.lor CAN_FIFOCON_UINC (CAN_FIFOCON_FRESET * 0))
              (Z.lor CAN_FIFOCON_UINC (CAN_FIFOCON_FRESET * 0))
              (spi_speed_hz p) w;
  if nz (Z.land (rx_flags (priv w1) fifo) CAN_OBJ_FLAGS_FDF)
  then mcp2517fd_can_transform_rx_fd fifo w1
  else mcp2517fd_can_transform_rx_normal fifo w1.

(** The inner scan of [mcp2517fd_can_ist_handle_rxif]:
    [for (j = i; j < end && (mask & BIT(j)); j++) mask &= ~BIT(j);]
    run for at most [n] steps ([n] is taken as [end - i], after which
    [j < end] is false); returns [(j, mask)]. *)
Fixpoint rxif_run_end (n : nat) (end_ : Z) (j : Z) (mask : Z) : Z * Z :=
  match n with
  | O => (j, mask)
  | S n' =>
      if (j <? end_) && nz (Z.land mask (BIT j))
      then rxif_run_end n' end_ (j + 1) (Z.land mask (Z.lnot (BIT j)))
      else (j, mask)
  end.

(** The outer loop of [mcp2517fd_can_ist_handle_rxif] from index [i];
    [None] when [fuel] iterations did not reach the end of the pool. *)
Fixpoint rxif_loop (fuel : nat) (fifo_size : Z) (i : Z) (mask : Z)
         (w : world) : option (Z * world) :=
  let p := priv w in
  let end_ := rx_fifo_start p + rx_fifos p in
  if negb (i <? end_) then Some (0, w)
  else
    match fuel with
    | O => None
    | S fuel' =>
        if nz (Z.land mask (BIT i)) then
          let '(j, mask) := rxif_run_end (Z.to_nat (end_ - i)) end_ i mask in
          let '(ret, rx, w1) :=
            mcp2517fd_cmd_readn (FIFO_DATA (fifo_address p i))
                                ((j - i) * fifo_size) (spi_speed_hz p) w in
          let w1 :=
            match rx with
            | Some b =>
                set_priv (set_fifo_data
                            (memcpy_to (fifo_data p) (fifo_address p i) b)) w1
            | None => w1
            end in
          if nz ret then Some (ret, w1)
          else
            let '(ret, w2) :=
              for_loop (Z.to_nat (j - i)) i mcp2517fd_can_ist_handle_rxfifo w1 in
            if nz ret then Some (ret, w2)
            else rxif_loop fuel' fifo_size (j + 1) mask w2
        else rxif_loop fuel' fifo_size (i + 1) mask w
    end.

(** [mcp2517fd_can_ist_handle_rxif]; the pool has [rx_fifos] fifos, so
    that many iterations (and one test more) end the outer loop. *)
Definition mcp2517fd_can_ist_handle_rxif (w : world) : option (Z * world) :=
  let p := priv w in
  let mask := rxif (status p) in
  let fifo_size :=
    sizeof_obj_rx + (if nz (Z.land (can_ctrlmode p) CAN_CTRLMODE_FD) then 64 else 8) in
  if negb (nz mask) then Some (0, w)
  else rxif_loop (Z.to_nat (rx_fifos p)) fifo_size (rx_fifo_start p) mask w.

(** *** Completion retirement *)

(** The body of the loop of [mcp2517fd_can_ist_handle_tefif], run [n]
    times. [tef] is the automatic object: a read that stores nothing leaves
    it as it was (the code of the read is overwritten unseen, as is that of
    the write). [BIT(fifo)] is or-ed into a u32. The sequence tag is a
    7-bit field: for a tag of 32 to 127 the shift is undefined in C and
    [can_get_echo_skb] is handed an index past the 32 echo slots, so the
    source has no defined behaviour there. The definition has a value all
    the same (no bit of the mask set, the call logged with its index); that
    value stands for nothing the source guarantees, and what is proved of
    the pending mask is stated for tags below 32. Returns the mask of the
    fifos seen and the world. *)
Fixpoint tefif_loop (n : nat) (tef : mcp2517fd_obj_tef) (mask : Z)
         (w : world) : Z * world :=
  match n with
  | O => (mask, w)
  | S n' =>
      let p := priv w in
      let '(_, rx, w) :=
        mcp2517fd_cmd_readn (FIFO_DATA (tef_address p)) sizeof_obj_tef
                            (spi_speed_hz p) w in
      let tef := match rx with Some b => tef_of_bytes (at_list b) | None => tef end in
      let '(_, w) :=
        mcp2517fd_cmd_write_mask CAN_TEFCON CAN_TEFCON_UINC CAN_TEFCON_UINC
                                 (spi_speed_hz p) w in
      let fifo := Z.shiftr (Z.land (tef_flags tef) CAN_OBJ_FLAGS_SEQ_MASK)
                           CAN_OBJ_FLAGS_SEQ_SHIFT in
      let w := call (k_can_get_echo_skb fifo) w in
      let a := u32 (tef_address p + sizeof_obj_tef) in
      let a := if a >? tef_address_end p then tef_address_start p else a in
      let w := set_priv (set_tef_address a) w in
      let mask := u32 (Z.lor mask (BIT fifo)) in
      let w := bump tx_packets set_tx_packets 1 w in
      let w := bump tx_bytes set_tx_bytes 0 w in
      let w := call (k_can_led_event CAN_LED_EVENT_TX) w in
      tefif_loop n' tef mask w
  end.

(** The number of completions [mcp2517fd_can_ist_handle_tefif] goes for. *)
Definition tefif_count (p : mcp2517fd_priv) : Z :=
  hweight_long (tx_pending_mask p) - hweight_long (txreq (status p)).

(** [mcp2517fd_can_ist_handle_tefif] *)
Definition mcp2517fd_can_ist_handle_tefif (w : world) : Z * world :=
  let count := tefif_count (priv w) in
  let tef := tef_of_bytes (auto_storage K (trace w)) in
  let '(mask, w) := tefif_loop (Z.to_nat count) tef 0 w in
  let w := set_priv (fun p => set_tx_pending_mask
                                (Z.land (tx_pending_mask p) (Z.lnot mask)) p) w in
  (0, w).

(** *** Receive overflow *)

(** Modelled from the spec: the frame the kernel's [alloc_can_err_skb]
    (CAN device layer, not part of this file) hands out: zeroed, marked as
    an error frame in its identifier word, 8 bytes long. *)
Definition alloc_can_err_frame : can_frame :=
  {| cf_can_id := CAN_ERR_FLAG; cf_can_dlc := CAN_ERR_DLC;
     cf_data := fun _ => 0 |}.

(** [mcp2517fd_error_skb]: [frame->can_id = can_id] is an assignment, so
    the identifier word the kernel had put into the frame is replaced, not
    added to; [frame->data[1] = data1] stores one byte. *)
Definition mcp2517fd_error_skb (can_id data1 : Z) (w : world) : world :=
  let ok := alloc_ok K (trace w) alloc_can_err_skb in
  let w := call (k_alloc alloc_can_err_skb) w in
  if ok then
    let frame := alloc_can_err_frame in
    let frame := {| cf_can_id := u32 can_id;
                    cf_can_dlc := cf_can_dlc frame;
                    cf_data := cf_data frame |} in
    let frame := {| cf_can_id := cf_can_id frame;
                    cf_can_dlc := cf_can_dlc frame;
                    cf_data := upd (cf_data frame) 1 (u8 data1) |} in
    call (k_netif_rx_ni (skb_can frame)) w
  else call (k_netdev_err "cannot allocate error skb") w.

(** The loop of [mcp2517fd_can_ist_handle_rxovif] over [n] indices from
    [i]; returns the code and [canid], [data1] so far. *)
Fixpoint rxovif_loop (n : nat) (i : Z) (mask : Z) (canid data1 : Z)
         (w : world) : Z * (Z * Z) * world :=
  match n with
  | O => (0, (canid, data1), w)
  | S n' =>
      if nz (Z.land mask (BIT i)) then
        let '(ret, w1) :=
          mcp2517fd_cmd_write_mask (CAN_FIFOSTA i) 0 CAN_FIFOSTA_RXOVIF
                                   (spi_speed_hz (priv w)) w in
        if nz ret then (ret, (canid, data1), w1)
        else
          let w1 := bump rx_over_errors set_rx_over_errors 1 w1 in
          let w1 := bump rx_errors set_rx_errors 1 w1 in
          let w1 := set_priv (fun p => set_rx_overflow (u64 (rx_overflow p + 1)) p) w1 in
          rxovif_loop n' (i + 1) mask (Z.lor canid CAN_ERR_CRTL)
                      (Z.lor data1 CAN_ERR_CRTL_RX_OVERFLOW) w1
      else rxovif_loop n' (i + 1) mask canid data1 w
  end.

(** [mcp2517fd_can_ist_handle_rxovif] *)
Definition mcp2517fd_can_ist_handle_rxovif (w : world) : Z * world :=
  let mask := rxovif (status (priv w)) in
  let '(ret, (canid, data1), w1) := rxovif_loop 32 0 mask 0 0 w in
  if nz ret then (ret, w1)
  else if nz canid then (0, mcp2517fd_error_skb canid data1 w1)
  else (0, w1).

(** *** Interrupt dispatch *)

(** [mcp2517fd_can_ist_handle_status]; [None] only if the receive scan ran
    out of iterations. *)
Definition mcp2517fd_can_ist_handle_status (w : world) : option (Z * world) :=
  let after_rx :=
    if nz (Z.land (intf (status (priv w))) CAN_INT_RXIF)
    then mcp2517fd_can_ist_handle_rxif w else Some (0, w) in
  match after_rx with
  | None => None
  | Some (ret, w1) =>
      if nz ret then Some (ret, w1)
      else
        let '(ret, w2) :=
          if nz (Z.land (intf (status (priv w1))) CAN_INT_TEFIF)
          then mcp2517fd_can_ist_handle_tefif w1 else (0, w1) in
        if nz ret then Some (ret, w2)
        else
          let '(ret, w3) :=
            if nz (rxovif (status (priv w2)))
            then mcp2517fd_can_ist_handle_rxovif w2 else (0, w2) in
          if nz ret then Some (ret, w3) else Some (0, w3)
  end.

(** How one pass of the loop of [mcp2517fd_can_ist] ends. *)
Inductive ist_pass :=
| ist_quit (w : world)            (* force_quit was set: the loop is left *)
| ist_idle (w : world)            (* no enabled flag raised: break *)
| ist_error (ret : Z) (w : world) (* return ret *)
| ist_again (w : world)           (* the status was handled: next pass *)
| ist_stuck.                      (* the receive scan ran out of iterations *)

(** The status read at the top of a pass. *)
Definition ist_read_status (w : world) : Z * world :=
  let p := priv w in
  let '(ret, rx, w1) :=
    mcp2517fd_cmd_readn CAN_INT sizeof_status (spi_speed_hz p) w in
  let w1 :=
    match rx with
    | Some b => set_priv (set_status (status_of_bytes (at_list b))) w1
    | None => w1
    end in
  (ret, w1).

(** The flags of the status block that are both raised and enabled. *)
Definition ist_active (s : status_block) : Z :=
  Z.land (intf s) (Z.shiftr (intf s) CAN_INT_IE_SHIFT).

(** One pass of [while (!priv->force_quit) { ... }]. *)
Definition ist_one_pass (w : world) : ist_pass :=
  if nz (force_quit (priv w)) then ist_quit w
  else
    let '(ret, w1) := ist_read_status w in
    if nz ret then ist_error ret w1
    else if ist_active (status (priv w1)) =? 0 then ist_idle w1
    else
      match mcp2517fd_can_ist_handle_status w1 with
      | None => ist_stuck
      | Some (ret, w2) => if nz ret then ist_error ret w2 else ist_again w2
      end.

(** [mcp2517fd_can_ist]: the loop can go on for as long as the device
    keeps flags raised, so it is run for at most [fuel] passes; [None]
    when it is still running after them. *)
Fixpoint mcp2517fd_can_ist (fuel : nat) (w : world) : option (Z * world) :=
  match fuel with
  | O => None
  | S fuel' =>
      match ist_one_pass w with
      | ist_quit w' => Some (IRQ_HANDLED, w')
      | ist_idle w' => Some (IRQ_HANDLED, w')
      | ist_error ret w' => Some (ret, w')
      | ist_again w' => mcp2517fd_can_ist fuel' w'
      | ist_stuck => None
      end
  end.

(** *** Ring set-up *)

(** The choice of fifos for the mtu of the device, [None] for an mtu that
    is neither that of CAN nor that of CAN FD. *)
Definition setup_fifo_layout (w : world) : option world :=
  let layout payload mode nrx p :=
    set_rx_fifo_depth 1 (set_rx_fifos nrx (set_rx_fifo_start 8
      (set_tx_fifos 7 (set_tx_fifo_start 1
        (set_payload_mode mode (set_payload_size payload p)))))) in
  if net_mtu w =? CAN_MTU
  then Some (set_priv (layout 8 CAN_TXQCON_PLSIZE_8 24) w)
  else if net_mtu w =? CANFD_MTU
  then Some (set_priv (layout 64 CAN_TXQCON_PLSIZE_64 19) w)
  else None.

(** The read of the user address of [fifo] into [fifo_address]. *)
Definition setup_fifo_address (label : string) (fifo : Z) (w : world)
  : Z * world :=
  let '(ret, val, w) :=
    mcp2517fd_cmd_read (CAN_FIFOUA fifo) (spi_setup_speed_hz (priv w)) w in
  if nz ret then (ret, w)
  else
    let val := match val with Some v => v | None => 0 end in
    let w := set_priv (fun p => set_fifo_address (upd (fifo_address p) fifo val) p) w in
    (0, call (k_dev_err label [fifo; val]) w).

(** The world with the fifos laid out for classic CAN (7 transmit fifos
    from fifo 1, 24 receive fifos from fifo 8) and nothing else done. *)
Definition world_can : world :=
  match setup_fifo_layout (world0 CAN_MTU) with
  | Some w => w
  | None => world0 CAN_MTU
  end.

(** [world_can] with the receive-ready mask 0b1011 over the receive pool
    in its status block: the first, second and fourth receive fifos
    (fifos 8, 9 and 11) are ready, the third is not. *)
Definition world_1011 : world :=
  set_priv (set_status {| intf := 0; rxif := Z.shiftl 11 8; txif := 0;
                          rxovif := 0; txatif := 0; txreq := 0; trec := 0;
                          bdiag0 := 0; bdiag1 := 0 |}) world_can.

(** [world_can] with the overflow flags of fifos 8 and 10 in its status
    block. *)
Definition world_overflow : world :=
  set_priv (set_status {| intf := 0; rxif := 0; txif := 0;
                          rxovif := Z.lor (BIT 8) (BIT 10); txatif := 0;
                          txreq := 0; trec := 0; bdiag0 := 0; bdiag1 := 0 |})
           world_can.

(** [mcp2517fd_setup_fifo] *)
Definition mcp2517fd_setup_fifo (w : world) : Z * world :=
  let con_val := con_val (priv w) in
  let sp := spi_setup_speed_hz (priv w) in
  try w <- for_loop 32 0 (fun i w =>
             try w <- mcp2517fd_cmd_write (CAN_FLTOBJ i) 0 sp w;
             try w <- mcp2517fd_cmd_write (CAN_FLTMASK i) 0 sp w;
             mcp2517fd_cmd_write_mask (CAN_FLTCON i) 0 (CAN_FILCON_MASK i) sp w) w;
  match setup_fifo_layout w with
  | None => (- EINVAL, w)
  | Some w =>
  try w <- mcp2517fd_cmd_write CAN_TEFCON
             (Z.lor (Z.lor (Z.lor CAN_TEFCON_FRESET CAN_TEFCON_TEFNEIE)
                           CAN_TEFCON_TEFTSEN)
                    (Z.shiftl (tx_fifos (priv w) - 1) CAN_TEFCON_FSIZE_SHIFT))
             sp w;
  try w <- for_loop (Z.to_nat (tx_fifos (priv w))) 0 (fun i w =>
             let p := priv w in
             let fifo := tx_fifo_start p + i in
             try w <- mcp2517fd_cmd_write (CAN_FIFOCON fifo)
                        (Z.lor (Z.lor (Z.lor (Z.lor CAN_FIFOCON_FRESET
                           (Z.shiftl (payload_mode p) CAN_FIFOCON_PLSIZE_SHIFT))
                           (Z.shiftl 0 CAN_FIFOCON_FSIZE_SHIFT))
                           (Z.shiftl fifo CAN_FIFOCON_TXPRI_SHIFT))
                           CAN_FIFOCON_TXEN)
                        sp w;
             (0, set_priv (fun p => set_tx_fifo_mask
                                      (u32 (Z.lor (tx_fifo_mask p) (BIT fifo))) p) w)) w;
  try w <- for_loop (Z.to_nat (rx_fifos (priv w))) 0 (fun i w =>
             let p := priv w in
             let fifo := rx_fifo_start p + i in
             try w <- mcp2517fd_cmd_write (CAN_FIFOCON fifo)
                        (Z.lor (Z.lor (Z.lor (Z.lor (Z.lor (Z.lor (Z.lor
                           (Z.shiftl (payload_mode p) CAN_FIFOCON_PLSIZE_SHIFT)
                           (Z.shiftl (rx_fifo_depth p - 1) CAN_FIFOCON_FSIZE_SHIFT))
                           CAN_FIFOCON_RXTSEN)
                           CAN_FIFOCON_FRESET)
                           CAN_FIFOCON_TFERFFIE)
                           CAN_FIFOCON_TFHRFHIE)
                           CAN_FIFOCON_TFNRFNIE)
                           (if i =? rx_fifos p - 1 then CAN_FIFOCON_RXOVIE else 0))
                        sp w;
             try w <- mcp2517fd_cmd_write_mask (CAN_FLTCON i)
                        (Z.lor (CAN_FIFOCON_FLTEN i)
                               (Z.shiftl fifo (CAN_FILCON_SHIFT i)))
                        (Z.lor (CAN_FIFOCON_FLTEN i) (CAN_FILCON_MASK i))
                        sp w;
             (0, set_priv (fun p => set_rx_fifo_mask
                                      (u32 (Z.lor (rx_fifo_mask p) (BIT fifo))) p) w)) w;
  try w <- mcp2517fd_cmd_write CAN_CON
             (Z.lor con_val
                    (Z.shiftl CAN_CON_MODE_INTERNAL_LOOPBACK CAN_CON_REQOP_SHIFT))
             sp w;
  let '(ret, val, w) := mcp2517fd_cmd_read CAN_TEFUA sp w in
  if nz ret then (ret, w)
  else
    let val := match val with Some v => v | None => 0 end in
    let w := set_priv (set_tef_address val) w in
    let w := set_priv (set_tef_address_start val) w in
    let w := set_priv (fun p => set_tef_address_end
               (u32 (tef_address_start p
                     + (tx_fifos p + 1) * sizeof_obj_tef - 1)) p) w in
    let w := call (k_dev_err " TEF-FIFO: %03x - %03x"
                     [tef_address_start (priv w); tef_address_end (priv w)]) w in
    try w <- for_loop (Z.to_nat (tx_fifos (priv w))) 0 (fun i w =>
               setup_fifo_address " TX-FIFO%02i: %04x"
                                  (tx_fifo_start (priv w) + i) w) w;
    try w <- for_loop (Z.to_nat (rx_fifos (priv w))) 0 (fun i w =>
               setup_fifo_address " RX-FIFO%02i: %04x"
                                  (rx_fifo_start (priv w) + i) w) w;
    try w <- mcp2517fd_cmd_write CAN_CON
               (Z.lor con_val (Z.shiftl CAN_CON_MODE_CONFIG CAN_CON_REQOP_SHIFT))
               sp w;
    (0, w)
  end.

(* ------------------------------------------------------------------ *)
(** ** Vocabulary of the statements *)

(** The calls of the register transport: allocations of bounce buffers
    and SPI messages. *)
Definition bus_call (c : kcall) : Prop :=
  match c with
  | k_alloc kmalloc_txrx | k_spi_sync_transfer _ => True
  | _ => False
  end.

(** [w'] is [w] with more calls of the transport made: the driver state
    and the counters are those of [w]. *)
Definition transported (w w' : world) : Prop :=
  priv w' = priv w /\ stats w' = stats w /\ net_mtu w' = net_mtu w /\
  exists calls, trace w' = trace w ++ calls /\ Forall bus_call calls.

(** The echo buffers released among a list of calls, by fifo. *)
Definition echo_released (cs : list kcall) : list Z :=
  flat_map (fun c => match c with k_can_get_echo_skb idx => [idx] | _ => [] end)
           cs.

(** The u32 mask with the bits of a list of fifos or-ed into [mask]. *)
Definition tags_mask (tags : list Z) (mask : Z) : Z :=
  fold_left (fun m fifo => u32 (Z.lor m (BIT fifo))) tags mask.

(** The calls made on the way from [w] to [w']. *)
Definition calls_since (w w' : world) : list kcall :=
  skipn (length (trace w)) (trace w').

(** The bytes the first SPI message of a list of calls sends. *)
Definition first_tx (calls : list kcall) : list Z :=
  match spi_messages calls with
  | (x :: _) :: _ => match tx_buf x with Some b => b | None => [] end
  | _ => []
  end.

(** A message that fills a transmit fifo is two command bytes, the
    identifier word, the flags word and the payload; this is the length
    code in its flags word. *)
Definition wire_dlc (tx : list Z) : Z :=
  Z.shiftr (Z.land (le32_at (at_list tx) 6) CAN_OBJ_FLAGS_DLC_MASK)
           CAN_OBJ_FLAGS_DLC_SHIFT.

(** A world with a list of calls added to its trace. *)
Definition calls (cs : list kcall) (w : world) : world :=
  {| priv := priv w; net_mtu := net_mtu w; stats := stats w;
     trace := trace w ++ cs |}.

(** The SPI message [mcp2517fd_cmd_write_mask] sends for a mask that is
    not 0: the write command at the first byte the mask touches, and the
    bytes of the value from there to the last byte the mask touches. *)
Definition write_mask_message (reg data mask speed : Z) : list spi_transfer :=
  let first_byte := mask_first_byte mask in
  let len_byte := mask_last_byte mask - first_byte + 1 in
  let cmd := mcp2517fd_calc_cmd_addr INSTRUCTION_WRITE (reg + first_byte) in
  let bytes := bytes_from (at_list (le32_bytes data)) first_byte len_byte in
  [{| tx_buf := Some (cmd ++ bytes); rx_buf := false;
      xfer_len := Z.of_nat (length cmd) + Z.of_nat (length bytes);
      speed_hz := speed |}].

(** The calls of a masked write that goes through. *)
Definition write_mask_calls (reg data mask speed : Z) : list kcall :=
  [k_alloc kmalloc_txrx;
   k_spi_sync_transfer (write_mask_message reg data mask speed)].

(** The SPI message [mcp2517fd_cmd_readn] sends: the read command at
    [reg] and [n] bytes clocked in. *)
Definition readn_message (reg n speed : Z) : list spi_transfer :=
  let cmd := mcp2517fd_calc_cmd_addr INSTRUCTION_READ reg in
  if SPI_MASTER_HALF_DUPLEX K then
    [{| tx_buf := Some cmd; rx_buf := false;
        xfer_len := Z.of_nat (length cmd); speed_hz := speed |};
     {| tx_buf := None; rx_buf := true; xfer_len := n; speed_hz := speed |}]
  else
    [{| tx_buf := Some (cmd ++ repeat 0 (Z.to_nat n)); rx_buf := true;
        xfer_len := Z.of_nat (length cmd) + n; speed_hz := speed |}].

(** The indices [i .. i+n-1] in rising order. *)
Fixpoint zrange (i : Z) (n : nat) : list Z :=
  match n with
  | O => []
  | S n' => i :: zrange (i + 1) n'
  end.

(** The fifos, of the 32, whose bit is set in [mask], in rising order. *)
Definition fifos_of (mask : Z) : list Z := filter (Z.testbit mask) (zrange 0 32).

(** A wrapping counter increased by one [n] times. *)
Definition bumped (wrap : Z -> Z) (x : Z) (n : nat) : Z :=
  match n with
  | O => x
  | S _ => wrap (x + Z.of_nat n)
  end.

(** The buffers handed to the network stack among a list of calls. *)
Definition rx_delivered (cs : list kcall) : list sk_buff :=
  flat_map (fun c => match c with k_netif_rx_ni skb => [skb] | _ => [] end) cs.

(** The identifier word and the length field of each of a list of
    buffers. *)
Definition skb_heads (skbs : list sk_buff) : list (Z * Z) :=
  map (fun skb => match skb with
                  | skb_can f => (cf_can_id f, cf_can_dlc f)
                  | skb_canfd f => (fd_can_id f, fd_len f)
                  end) skbs.

(** The frame [mcp2517fd_error_skb] makes of a receive overflow, as the
    source builds it: the identifier word is [CAN_ERR_CRTL] alone, without
    [CAN_ERR_FLAG]. *)
Definition overflow_frame : sk_buff :=
  skb_can {| cf_can_id := CAN_ERR_CRTL; cf_can_dlc := 8;
             cf_data := upd (fun _ => 0) 1 CAN_ERR_CRTL_RX_OVERFLOW |}.

(** The number of fifos from [i] on, at most [n], whose bits are set in
    [mask] without a gap. *)
Fixpoint run_length (n : nat) (i : Z) (mask : Z) : Z :=
  match n with
  | O => 0
  | S n' => if Z.testbit mask i then 1 + run_length n' (i + 1) mask else 0
  end.

(** A run starts at a set bit that is the first of the pool or follows a
    clear bit. *)
Definition run_start (s : Z) (mask : Z) (i : Z) : bool :=
  Z.testbit mask i && ((i =? s) || negb (Z.testbit mask (i - 1))).

(** The maximal runs of set bits of [mask] among the fifos
    [s .. s+n-1], in rising order, each given by its first fifo and its
    length. *)
Definition mask_runs (s : Z) (n : nat) (mask : Z) : list (Z * Z) :=
  map (fun i => (i, run_length (Z.to_nat (s + Z.of_nat n - i)) i mask))
      (filter (run_start s mask) (zrange s n)).

(** The slot size [mcp2517fd_can_ist_handle_rxif] reads with. *)
Definition rx_slot_size (p : mcp2517fd_priv) : Z :=
  sizeof_obj_rx + (if nz (Z.land (can_ctrlmode p) CAN_CTRLMODE_FD) then 64 else 8).

(** The SPI messages of the drain of one run: one read of the whole run
    at the address of its first fifo, then for each fifo of the run the
    write that advances it. *)
Definition run_messages (p : mcp2517fd_priv) (run : Z * Z)
  : list (list spi_transfer) :=
  let '(first, len) := run in
  readn_message (FIFO_DATA (fifo_address p first)) (len * rx_slot_size p)
                (spi_speed_hz p)
  :: map (fun fifo => write_mask_message (CAN_FIFOCON fifo) CAN_FIFOCON_UINC
                                         CAN_FIFOCON_UINC (spi_speed_hz p))
         (zrange first (Z.to_nat len)).

(** What the receive scan needs of the driver state and does not change. *)
Definition rx_cfg (p : mcp2517fd_priv) : Z * Z * Z * (Z -> Z) :=
  (rx_fifo_start p, rx_fifos p, spi_speed_hz p, fifo_address p).

(** What no handler of the interrupt thread changes: the cancellation
    flag and the bounds of the receive pool. *)
Definition ist_kept (w w' : world) : Prop :=
  force_quit (priv w') = force_quit (priv w) /\
  rx_fifo_start (priv w') = rx_fifo_start (priv w) /\
  rx_fifos (priv w') = rx_fifos (priv w).


(** The payloads of the SPI messages among a list of calls that write at
    the address [reg]. *)
Definition writes_to (reg : Z) (cs : list kcall) : list (list Z) :=
  flat_map
    (fun msg =>
       match msg with
       | x :: _ =>
           match tx_buf x with
           | Some (c0 :: c1 :: data) =>
               if list_eq_dec Z.eq_dec [c0; c1]
                    (mcp2517fd_calc_cmd_addr INSTRUCTION_WRITE reg)
               then [data] else []
           | _ => []
           end
       | [] => []
       end)
    (spi_messages cs).

(* ------------------------------------------------------------------ *)
(** ** Further vocabulary: the frame codec *)

(** What of a 32-bit identifier word survives the encoding into a device
    object: the extended-id and remote-request flags and the 29 (with the
    extended-id flag) or 11 (without) identifier bits. *)
Definition canid_kept (can_id : Z) : Z :=
  Z.land can_id
    (Z.lor (Z.lor CAN_EFF_FLAG CAN_RTR_FLAG)
       (if Z.testbit can_id 31 then Z.ones CAN_EFF_ID_BITS else CAN_SFF_MASK)).

(** The sequence tag in the flags word of a message that fills a transmit
    fifo, taken out the way [mcp2517fd_can_ist_handle_tefif] takes it out
    of the flags word of a TEF object. *)
Definition wire_seq (tx : list Z) : Z :=
  Z.shiftr (Z.land (le32_at (at_list tx) 6) CAN_OBJ_FLAGS_SEQ_MASK)
           CAN_OBJ_FLAGS_SEQ_SHIFT.

(** The flags word and the identifier word of such a message. *)
Definition wire_flags (tx : list Z) : Z := le32_at (at_list tx) 6.
Definition wire_id (tx : list Z) : Z := le32_at (at_list tx) 2.

(* ------------------------------------------------------------------ *)
(** ** Further vocabulary: counters *)

(** The length the receive path adds to [rx_bytes] for a frame it hands
    over: the length of an FD frame, the length of the dlc of a classic
    frame. *)
Definition skb_len (skb : sk_buff) : Z :=
  match skb with
  | skb_can f => can_dlc2len (cf_can_dlc f)
  | skb_canfd f => fd_len f
  end.

(** A classic frame holds 8 bytes: a length code above 8 in a classic
    receive object is beyond what [mcp2517fd_can_transform_rx_normal] can
    copy into the frame. *)
Definition classic_dlc_ok (skb : sk_buff) : Prop :=
  match skb with
  | skb_can f => 0 <= cf_can_dlc f <= 8
  | skb_canfd _ => True
  end.

(** [TX_ECHO_SKB_MAX]: the number of echo slots the driver asks
    [alloc_candev] for. *)
Definition TX_ECHO_SKB_MAX : Z := 32.

(** [rx_packets] and [rx_bytes] of the counters [s] after the frames
    [skbs] have been counted one by one. *)
Definition rx_counts (skbs : list sk_buff) (s : net_device_stats) : Z * Z :=
  (fold_left (fun n _ => ulong (n + 1)) skbs (rx_packets s),
   fold_left (fun n skb => ulong (n + skb_len skb)) skbs (rx_bytes s)).

(** The counters other than those of the receive path proper. *)
Definition other_counters (s : net_device_stats) : list Z :=
  [rx_errors s; rx_over_errors s; tx_packets s; tx_bytes s; tx_errors s;
   tx_dropped s].

(** What a step of the receive scan that returns [ret] does to the
    counters: the frames handed over are counted in [rx_packets] and
    [rx_bytes], [rx_dropped] moves only by one and only with -ENOMEM, the
    other counters stay. *)
Definition rx_counted (w : world) (ret : Z) (w' : world) : Prop :=
  exists cs,
    trace w' = trace w ++ cs /\
    (rx_packets (stats w'), rx_bytes (stats w'))
    = rx_counts (rx_delivered cs) (stats w) /\
    (rx_dropped (stats w') = rx_dropped (stats w) \/
     (ret = - ENOMEM /\
      rx_dropped (stats w') = ulong (rx_dropped (stats w) + 1))) /\
    other_counters (stats w') = other_counters (stats w).

(* ------------------------------------------------------------------ *)
(** ** Further vocabulary: the completion ring *)

(** The completion cursor is in the ring the set-up laid out: the end
    address is, as [mcp2517fd_setup_fifo] computes it, that of the last byte
    of [tx_fifos + 1] objects from the start address, and the cursor is at
    one of these objects. *)
Definition tef_ring_ok (p : mcp2517fd_priv) : bool :=
  (0 <=? tef_address_start p) && (0 <=? tx_fifos p) &&
  (tef_address_end p
   =? tef_address_start p + (tx_fifos p + 1) * sizeof_obj_tef - 1) &&
  (tef_address_end p + sizeof_obj_tef <? 2 ^ 32) &&
  (tef_address_start p <=? tef_address p) &&
  (tef_address p + sizeof_obj_tef - 1 <=? tef_address_end p) &&
  ((tef_address p - tef_address_start p) mod sizeof_obj_tef =? 0).

(* ------------------------------------------------------------------ *)
(** ** Further vocabulary: the transmit path *)

(** The echo buffers stored among a list of calls, with their index. *)
Definition echo_stored (cs : list kcall) : list (sk_buff * Z) :=
  flat_map (fun c => match c with
                     | k_can_put_echo_skb skb idx => [(skb, idx)]
                     | _ => []
                     end) cs.

(** The calls among a list of calls that stop or start the transmit queue
    of the network device. *)
Definition queue_calls (cs : list kcall) : list kcall :=
  filter (fun c => match c with
                   | k_netif_start_queue | k_netif_stop_queue => true
                   | _ => false
                   end) cs.

(* ------------------------------------------------------------------ *)
(** ** Further vocabulary: the interrupt thread *)

(** The calls the interrupt thread makes: the register transport, frame
    buffers, log lines, frames handed to the network stack, echo buffers
    released, led events. *)
Definition ist_call (c : kcall) : bool :=
  match c with
  | k_spi_sync_transfer _ | k_alloc _ | k_dev_err _ _ | k_netdev_err _
  | k_netif_rx_ni _ | k_can_get_echo_skb _ | k_can_led_event _ => true
  | _ => false
  end.

(** From [w] to [w'] only such calls were made and the slot in which a
    frame waits for the work item was left alone. *)
Definition ist_only (w w' : world) : Prop :=
  tx_work_skb (priv w') = tx_work_skb (priv w) /\
  exists cs, trace w' = trace w ++ cs /\ forallb ist_call cs = true.

(** The world after the first [n] passes of the loop of
    [mcp2517fd_can_ist], or after the pass that leaves the loop if that
    comes earlier. *)
Fixpoint ist_run (n : nat) (w : world) : world :=
  match n with
  | O => w
  | S n' =>
      match ist_one_pass w with
      | ist_quit w' | ist_idle w' | ist_error _ w' => w'
      | ist_again w' => ist_run n' w'
      | ist_stuck => w
      end
  end.

(* ------------------------------------------------------------------ *)
(** ** Interrupt enables *)

Definition CAN_INT_TEFIE : Z := Z.shiftl CAN_INT_TEFIF CAN_INT_IE_SHIFT.
Definition CAN_INT_RXIE : Z := Z.shiftl CAN_INT_RXIF CAN_INT_IE_SHIFT.

(** [mcp2517fd_disable_interrupts] *)
Definition mcp2517fd_disable_interrupts (speed : Z) (w : world) : Z * world :=
  mcp2517fd_cmd_write CAN_INT 0 speed w.

(** [mcp2517fd_enable_interrupts] *)
Definition mcp2517fd_enable_interrupts (speed : Z) (w : world) : Z * world :=
  mcp2517fd_cmd_write CAN_INT (Z.lor CAN_INT_TEFIE CAN_INT_RXIE) speed w.

(* ------------------------------------------------------------------ *)
(** ** Further vocabulary: the set-up *)

(** [w'] has the driver state, the counters and the mtu of [w]. *)
Definition keeps (w w' : world) : Prop :=
  priv w' = priv w /\ stats w' = stats w /\ net_mtu w' = net_mtu w.

(** The fifos as [mcp2517fd_setup_fifo] lays them out for a payload
    size, its code and a number of receive fifos: 7 transmit fifos from
    fifo 1 and the receive fifos from fifo 8, one object deep. *)
Definition fifo_layout (payload mode nrx : Z) (p : mcp2517fd_priv)
  : mcp2517fd_priv :=
  set_rx_fifo_depth 1 (set_rx_fifos nrx (set_rx_fifo_start 8
    (set_tx_fifos 7 (set_tx_fifo_start 1
      (set_payload_mode mode (set_payload_size payload p)))))).

(** The value and the mask with which [mcp2517fd_setup_fifo] enables
    filter [i] and points it to [fifo]. *)
Definition filter_enable_data (i fifo : Z) : Z :=
  Z.lor (CAN_FIFOCON_FLTEN i) (Z.shiftl fifo (CAN_FILCON_SHIFT i)).
Definition filter_enable_mask (i : Z) : Z :=
  Z.lor (CAN_FIFOCON_FLTEN i) (CAN_FILCON_MASK i).

(** Whether the message of the masked write that enables filter [i] for
    [fifo] is the write of the one byte [0x80 | fifo] at the address of
    the control byte of the filter, [0x1D0 + i]. *)
Definition filter_message_ok (i fifo : Z) : bool :=
  negb (filter_enable_mask i =? 0) &&
  match write_mask_message (CAN_FLTCON i) (filter_enable_data i fifo)
                           (filter_enable_mask i) 0 with
  | [x] =>
      match tx_buf x with
      | Some b =>
          if list_eq_dec Z.eq_dec b
               (mcp2517fd_calc_cmd_addr INSTRUCTION_WRITE (0x1D0 + i)
                ++ [Z.lor 0x80 fifo])
          then true else false
      | None => false
      end
  | _ => false
  end.

(* ------------------------------------------------------------------ *)
(** ** Bit timing *)

Definition CAN_NBTCFG : Z := CAN_SFR_BASE 0x04.
Definition CAN_NBTCFG_SJW_BITS : Z := 7.
Definition CAN_NBTCFG_SJW_SHIFT : Z := 0.
Definition CAN_NBTCFG_SJW_MASK : Z :=
  GENMASK (CAN_NBTCFG_SJW_SHIFT + CAN_NBTCFG_SJW_BITS - 1) CAN_NBTCFG_SJW_SHIFT.
Definition CAN_NBTCFG_TSEG2_BITS : Z := 7.
Definition CAN_NBTCFG_TSEG2_SHIFT : Z := 8.
Definition CAN_NBTCFG_TSEG2_MASK : Z :=
  GENMASK (CAN_NBTCFG_TSEG2_SHIFT + CAN_NBTCFG_TSEG2_BITS - 1)
          CAN_NBTCFG_TSEG2_SHIFT.
Definition CAN_NBTCFG_TSEG1_BITS : Z := 8.
Definition CAN_NBTCFG_TSEG1_SHIFT : Z := 16.
Definition CAN_NBTCFG_TSEG1_MASK : Z :=
  GENMASK (CAN_NBTCFG_TSEG1_SHIFT + CAN_NBTCFG_TSEG1_BITS - 1)
          CAN_NBTCFG_TSEG1_SHIFT.
Definition CAN_NBTCFG_BRP_BITS : Z := 8.
Definition CAN_NBTCFG_BRP_SHIFT : Z := 24.
Definition CAN_NBTCFG_BRP_MASK : Z :=
  GENMASK (CAN_NBTCFG_BRP_SHIFT + CAN_NBTCFG_BRP_BITS - 1) CAN_NBTCFG_BRP_SHIFT.

Definition CAN_DBTCFG : Z := CAN_SFR_BASE 0x08.
Definition CAN_DBTCFG_SJW_BITS : Z := 4.
Definition CAN_DBTCFG_SJW_SHIFT : Z := 0.
Definition CAN_DBTCFG_SJW_MASK : Z :=
  GENMASK (CAN_DBTCFG_SJW_SHIFT + CAN_DBTCFG_SJW_BITS - 1) CAN_DBTCFG_SJW_SHIFT.
Definition CAN_DBTCFG_TSEG2_BITS : Z := 4.
Definition CAN_DBTCFG_TSEG2_SHIFT : Z := 8.
Definition CAN_DBTCFG_TSEG2_MASK : Z :=
  GENMASK (CAN_DBTCFG_TSEG2_SHIFT + CAN_DBTCFG_TSEG2_BITS - 1)
          CAN_DBTCFG_TSEG2_SHIFT.
Definition CAN_DBTCFG_TSEG1_BITS : Z := 5.
Definition CAN_DBTCFG_TSEG1_SHIFT : Z := 16.
Definition CAN_DBTCFG_TSEG1_MASK : Z :=
  GENMASK (CAN_DBTCFG_TSEG1_SHIFT + CAN_DBTCFG_TSEG1_BITS - 1)
          CAN_DBTCFG_TSEG1_SHIFT.
Definition CAN_DBTCFG_BRP_BITS : Z := 8.
Definition CAN_DBTCFG_BRP_SHIFT : Z := 24.
Definition CAN_DBTCFG_BRP_MASK : Z :=
  GENMASK (CAN_DBTCFG_BRP_SHIFT + CAN_DBTCFG_BRP_BITS - 1) CAN_DBTCFG_BRP_SHIFT.

(** Modelled from the spec: the fields of the kernel's
    [struct can_bittiming] (linux/can/netlink.h) that the driver packs into
    a bit-timing register, each a u32. *)
Record can_bittiming := {
  prop_seg : Z;
  phase_seg1 : Z;
  phase_seg2 : Z;
  sjw : Z;
  brp : Z
}.

(** Modelled from the spec: the fields of the kernel's
    [struct can_bittiming_const] that bound the fields above. *)
Record can_bittiming_const := {
  tseg1_min : Z;
  tseg1_max : Z;
  tseg2_min : Z;
  tseg2_max : Z;
  sjw_max : Z;
  brp_min : Z;
  brp_max : Z;
  brp_inc : Z
}.

Definition mcp2517fd_nominal_bittiming_const : can_bittiming_const := {|
  tseg1_min := 2;
  tseg1_max := BIT CAN_NBTCFG_TSEG1_BITS;
  tseg2_min := 1;
  tseg2_max := BIT CAN_NBTCFG_TSEG2_BITS;
  sjw_max := BIT CAN_NBTCFG_SJW_BITS;
  brp_min := 1;
  brp_max := BIT CAN_NBTCFG_BRP_BITS;
  brp_inc := 1
|}.

Definition mcp2517fd_data_bittiming_const : can_bittiming_const := {|
  tseg1_min := 1;
  tseg1_max := BIT CAN_DBTCFG_TSEG1_BITS;
  tseg2_min := 1;
  tseg2_max := BIT CAN_DBTCFG_TSEG2_BITS;
  sjw_max := BIT CAN_DBTCFG_SJW_BITS;
  brp_min := 1;
  brp_max := BIT CAN_DBTCFG_BRP_BITS;
  brp_inc := 1
|}.

(** The value [mcp2517fd_do_set_nominal_bittiming] computes (a u32 made
    of u32 fields: a difference below 0 and bits shifted out wrap). *)
Definition nominal_bittiming_val (bt : can_bittiming) : Z :=
  u32 (Z.lor (Z.lor (Z.lor
         (Z.shiftl (sjw bt - 1) CAN_NBTCFG_SJW_SHIFT)
         (Z.shiftl (phase_seg2 bt - 1) CAN_NBTCFG_TSEG2_SHIFT))
         (Z.shiftl (phase_seg1 bt + prop_seg bt - 1) CAN_NBTCFG_TSEG1_SHIFT))
         (Z.shiftl (brp bt) CAN_NBTCFG_BRP_SHIFT)).

(** [mcp2517fd_do_set_nominal_bittiming], on the bit timing of the
    device ([priv->can.bittiming]). *)
Definition mcp2517fd_do_set_nominal_bittiming (bt : can_bittiming) (w : world)
  : Z * world :=
  mcp2517fd_cmd_write CAN_NBTCFG (nominal_bittiming_val bt)
                      (spi_setup_speed_hz (priv w)) w.

(** The value [mcp2517fd_do_set_data_bittiming] computes. *)
Definition data_bittiming_val (bt : can_bittiming) : Z :=
  u32 (Z.lor (Z.lor (Z.lor
         (Z.shiftl (sjw bt - 1) CAN_DBTCFG_SJW_SHIFT)
         (Z.shiftl (phase_seg2 bt - 1) CAN_DBTCFG_TSEG2_SHIFT))
         (Z.shiftl (phase_seg1 bt + prop_seg bt - 1) CAN_DBTCFG_TSEG1_SHIFT))
         (Z.shiftl (brp bt) CAN_DBTCFG_BRP_SHIFT)).

(** [mcp2517fd_do_set_data_bittiming], on the data bit timing of the
    device ([priv->can.data_bittiming]). *)
Definition mcp2517fd_do_set_data_bittiming (bt : can_bittiming) (w : world)
  : Z * world :=
  mcp2517fd_cmd_write CAN_DBTCFG (data_bittiming_val bt)
                      (spi_setup_speed_hz (priv w)) w.

(** A bit timing within the bounds of a [can_bittiming_const]: the time
    segment 1 is the propagation segment and the phase segment 1
    together. *)
Definition bittiming_within (c : can_bittiming_const) (bt : can_bittiming)
  : bool :=
  (tseg1_min c <=? phase_seg1 bt + prop_seg bt) &&
  (phase_seg1 bt + prop_seg bt <=? tseg1_max c) &&
  (tseg2_min c <=? phase_seg2 bt) && (phase_seg2 bt <=? tseg2_max c) &&
  (1 <=? sjw bt) && (sjw bt <=? sjw_max c) &&
  (brp_min c <=? brp bt) && (brp bt <=? brp_max c).

(** The field of a register value under a mask and a shift. *)
Definition reg_field (v mask shift : Z) : Z := Z.shiftr (Z.land v mask) shift.

(* ------------------------------------------------------------------ *)
(** ** Further kernels and frames to run the driver on *)

(** A kernel on which every SPI transfer fails with -EIO. *)
Definition dead_kernel : kernel := {|
  SPI_MASTER_HALF_DUPLEX := false;
  spi_sync_transfer := fun _ _ => (Some 5%positive, []);
  alloc_ok := fun _ _ => true;
  can_dropped_invalid_skb := fun _ => false;
  auto_storage := fun _ _ => 0
|}.

(** A kernel on which nothing fails and whose automatic objects hold
    0xAA in every byte before they are written. *)
Definition stale_kernel : kernel := {|
  SPI_MASTER_HALF_DUPLEX := false;
  spi_sync_transfer := fun _ _ => (None, []);
  alloc_ok := fun _ _ => true;
  can_dropped_invalid_skb := fun _ => false;
  auto_storage := fun _ _ => 0xAA
|}.

(** A kernel on which no allocation succeeds. *)
Definition oom_kernel : kernel := {|
  SPI_MASTER_HALF_DUPLEX := false;
  spi_sync_transfer := fun _ _ => (None, []);
  alloc_ok := fun _ _ => false;
  can_dropped_invalid_skb := fun _ => false;
  auto_storage := fun _ _ => 0
|}.

(** [world_can] with a receive object in the slot of fifo 8 (at offset 0
    of the fifo memory): identifier word [id], flags word [flags] and
    every byte behind the time stamp [b]. *)
Definition world_rx (id flags b : Z) : world :=
  set_priv (set_fifo_data
              (fun k => if k <? 4 then byte_of id k
                        else if k <? 8 then byte_of flags (k - 4)
                        else b))
           world_can.

(* ------------------------------------------------------------------ *)
(** ** Taking the interface down: [mcp2517fd_clean] *)

Definition set_tx_errors (v : Z) (s : net_device_stats) : net_device_stats :=
  {| rx_packets := rx_packets s; rx_bytes := rx_bytes s; rx_dropped :=
     rx_dropped s; rx_errors := rx_errors s; rx_over_errors := rx_over_errors
     s; tx_packets := tx_packets s; tx_bytes := tx_bytes s; tx_errors := v;
     tx_dropped := tx_dropped s |}.

(** The loop of [mcp2517fd_clean] over [n] indices from [i]. The calls of
    [can_free_echo_skb] are returned as the list of the echo indices they
    are given, in order. *)
Fixpoint clean_loop (n : nat) (i : Z) (freed : list Z) (w : world)
  : list Z * world :=
  match n with
  | O => (freed, w)
  | S n' =>
      if nz (Z.land (tx_pending_mask (priv w)) (BIT i)) then
        clean_loop n' (i + 1) (freed ++ [0])
                   (bump tx_errors set_tx_errors 1 w)
      else clean_loop n' (i + 1) freed w
  end.

(** [mcp2517fd_clean]: returns the echo indices freed and the world. *)
Definition mcp2517fd_clean (w : world) : list Z * world :=
  let '(freed, w) := clean_loop (Z.to_nat (tx_fifos (priv w))) 0 [] w in
  (freed, set_priv (set_tx_pending_mask 0) w).

(** The pending fifos [mcp2517fd_clean] looks at: those below
    [tx_fifos]. *)
Definition clean_seen (p : mcp2517fd_priv) : list Z :=
  filter (Z.testbit (tx_pending_mask p)) (zrange 0 (Z.to_nat (tx_fifos p))).

(* ------------------------------------------------------------------ *)
(** ** Bringing the controller up *)

(** Modelled from the spec: further control modes of uapi
    linux/can/netlink.h and error codes of asm-generic/errno-base.h. *)
Definition CAN_CTRLMODE_LOOPBACK : Z := 0x01.
Definition CAN_CTRLMODE_LISTENONLY : Z := 0x02.
Definition CAN_CTRLMODE_ONE_SHOT : Z := 0x08.
Definition CAN_CTRLMODE_FD_NON_ISO : Z := 0x80.
Definition ENODEV : Z := 19.
Definition ERANGE : Z := 34.

Definition MCP2517FD_OST_DELAY_MS : Z := 3.
Definition MCP2517FD_MIN_CLOCK_FREQUENCY : Z := 1000000.
Definition MCP2517FD_MAX_CLOCK_FREQUENCY : Z := 40000000.
Definition MCP2517FD_PLL_MULTIPLIER : Z := 10.
Definition MCP2517FD_AUTO_PLL_MAX_CLOCK_FREQUENCY : Z :=
  Z.quot MCP2517FD_MAX_CLOCK_FREQUENCY MCP2517FD_PLL_MULTIPLIER.
Definition MCP2517FD_SCLK_DIVIDER : Z := 2.

Definition MCP2517FD_SFR_BASE (x : Z) : Z := 0xE00 + x.
Definition MCP2517FD_OSC : Z := MCP2517FD_SFR_BASE 0x00.
Definition MCP2517FD_OSC_PLLEN : Z := BIT 0.
Definition MCP2517FD_OSC_OSCDIS : Z := BIT 2.
Definition MCP2517FD_OSC_SCLKDIV : Z := BIT 4.
Definition MCP2517FD_OSC_CLKODIV_BITS : Z := 2.
Definition MCP2517FD_OSC_CLKODIV_SHIFT : Z := 5.
Definition MCP2517FD_OSC_CLKODIV_MASK : Z :=
  GENMASK (MCP2517FD_OSC_CLKODIV_SHIFT + MCP2517FD_OSC_CLKODIV_BITS - 1)
          MCP2517FD_OSC_CLKODIV_SHIFT.
Definition MCP2517FD_OSC_CLKODIV_10 : Z := 3.
Definition MCP2517FD_OSC_CLKODIV_4 : Z := 2.
Definition MCP2517FD_OSC_CLKODIV_2 : Z := 1.
Definition MCP2517FD_OSC_CLKODIV_1 : Z := 0.
Definition MCP2517FD_OSC_PLLRDY : Z := BIT 8.
Definition MCP2517FD_OSC_OSCRDY : Z := BIT 10.
Definition MCP2517FD_OSC_SCLKRDY : Z := BIT 12.
Definition MCP2517FD_IOCON : Z := MCP2517FD_SFR_BASE 0x04.
Definition MCP2517FD_IOCON_TRIS0 : Z := BIT 0.
Definition MCP2517FD_IOCON_TRIS1 : Z := BIT 1.
Definition MCP2517FD_IOCON_XSTBYEN : Z := BIT 6.
Definition MCP2517FD_IOCON_LAT0 : Z := BIT 8.
Definition MCP2517FD_IOCON_LAT1 : Z := BIT 9.
Definition MCP2517FD_IOCON_PM0 : Z := BIT 24.
Definition MCP2517FD_IOCON_PM1 : Z := BIT 25.
Definition MCP2517FD_IOCON_TXCANOD : Z := BIT 28.
Definition MCP2517FD_IOCON_SOF : Z := BIT 29.
Definition MCP2517FD_IOCON_INTOD : Z := BIT 29.
Definition MCP2517FD_ECCCON : Z := MCP2517FD_SFR_BASE 0x0C.
Definition MCP2517FD_ECCCON_ECCEN : Z := BIT 0.

Definition CAN_CON_DNCNT_BITS : Z := 5.
Definition CAN_CON_DNCNT_SHIFT : Z := 0.
Definition CAN_CON_DNCNT_MASK : Z :=
  GENMASK (CAN_CON_DNCNT_SHIFT + CAN_CON_DNCNT_BITS - 1) CAN_CON_DNCNT_SHIFT.
Definition CAN_CON_ISOCRCEN : Z := BIT 5.
Definition CAN_CON_PXEDIS : Z := BIT 6.
Definition CAN_CON_WAKFIL : Z := BIT 8.
Definition CAN_CON_WFT_BITS : Z := 2.
Definition CAN_CON_WFT_SHIFT : Z := 9.
Definition CAN_CON_WFT_MASK : Z :=
  GENMASK (CAN_CON_WFT_SHIFT + CAN_CON_WFT_BITS - 1) CAN_CON_WFT_SHIFT.
Definition CAN_CON_BUSY : Z := BIT 11.
Definition CAN_CON_BRSDIS : Z := BIT 12.
Definition CAN_CON_RTXAT : Z := BIT 16.
Definition CAN_CON_ESIGM : Z := BIT 17.
Definition CAN_CON_SERR2LOM : Z := BIT 18.
Definition CAN_CON_STEF : Z := BIT 19.
Definition CAN_CON_TXQEN : Z := BIT 20.
Definition CAN_CON_OPMODE_BITS : Z := 3.
Definition CAN_CON_OPMOD_SHIFT : Z := 21.
Definition CAN_CON_OPMOD_MASK : Z :=
  GENMASK (CAN_CON_OPMOD_SHIFT + CAN_CON_OPMODE_BITS - 1) CAN_CON_OPMOD_SHIFT.
Definition CAN_CON_REQOP_BITS : Z := 3.
Definition CAN_CON_REQOP_MASK : Z :=
  GENMASK (CAN_CON_REQOP_SHIFT + CAN_CON_REQOP_BITS - 1) CAN_CON_REQOP_SHIFT.
Definition CAN_CON_MODE_MIXED : Z := 0.
Definition CAN_CON_MODE_SLEEP : Z := 1.
Definition CAN_CON_MODE_LISTENONLY : Z := 3.
Definition CAN_CON_MODE_EXTERNAL_LOOPBACK : Z := 5.
Definition CAN_CON_MODE_CAN2_0 : Z := 6.
Definition CAN_CON_MODE_RESTRICTED : Z := 7.
Definition CAN_CON_ABAT : Z := BIT 27.
Definition CAN_CON_TXBWS_BITS : Z := 3.
Definition CAN_CON_TXBWS_SHIFT : Z := 28.
Definition CAN_CON_TXBWS_MASK : Z :=
  GENMASK (CAN_CON_TXBWS_SHIFT + CAN_CON_TXBWS_BITS - 1) CAN_CON_TXBWS_SHIFT.
Definition CAN_CON_DEFAULT : Z :=
  Z.lor (Z.lor (Z.lor (Z.lor (Z.lor (Z.lor (Z.lor
    CAN_CON_ISOCRCEN CAN_CON_PXEDIS) CAN_CON_WAKFIL)
    (Z.shiftl 3 CAN_CON_WFT_SHIFT)) CAN_CON_STEF) CAN_CON_TXQEN)
    (Z.shiftl CAN_CON_MODE_CONFIG CAN_CON_OPMOD_SHIFT))
    (Z.shiftl CAN_CON_MODE_CONFIG CAN_CON_REQOP_SHIFT).
Definition CAN_CON_DEFAULT_MASK : Z :=
  Z.lor (Z.lor (Z.lor (Z.lor (Z.lor (Z.lor (Z.lor (Z.lor (Z.lor (Z.lor (Z.lor
  (Z.lor (Z.lor (Z.lor
    CAN_CON_DNCNT_MASK CAN_CON_ISOCRCEN) CAN_CON_PXEDIS) CAN_CON_WAKFIL)
    CAN_CON_WFT_MASK) CAN_CON_BRSDIS) CAN_CON_RTXAT) CAN_CON_ESIGM)
    CAN_CON_SERR2LOM) CAN_CON_STEF) CAN_CON_TXQEN) CAN_CON_OPMOD_MASK)
    CAN_CON_REQOP_MASK) CAN_CON_ABAT) CAN_CON_TXBWS_MASK.

Definition CAN_TDC : Z := CAN_SFR_BASE 0x0C.
Definition CAN_TDC_EDGFLTEN : Z := BIT 25.
Definition CAN_TBC : Z := CAN_SFR_BASE 0x10.
Definition CAN_TSCON : Z := CAN_SFR_BASE 0x14.
Definition CAN_TSCON_TBCPRE_BITS : Z := 10.
Definition CAN_TSCON_TBCPRE_SHIFT : Z := 0.
Definition CAN_TSCON_TBCPRE_MASK : Z :=
  GENMASK (CAN_TSCON_TBCPRE_SHIFT + CAN_TSCON_TBCPRE_BITS - 1)
          CAN_TSCON_TBCPRE_SHIFT.
Definition CAN_TSCON_TBCEN : Z := BIT 24.

(** [enum mcp2517fd_gpio_mode] *)
Definition gpio_mode_int : Z := 0.
Definition gpio_mode_standby : Z := MCP2517FD_IOCON_XSTBYEN.
Definition gpio_mode_out_low : Z := MCP2517FD_IOCON_PM0.
Definition gpio_mode_out_high : Z :=
  Z.lor MCP2517FD_IOCON_PM0 MCP2517FD_IOCON_LAT0.
Definition gpio_mode_in : Z := Z.lor MCP2517FD_IOCON_PM0 MCP2517FD_IOCON_TRIS0.

(** The fields of [struct mcp2517fd_priv] (and [can.clock.freq]) that
    describe the board: [mcp2517fd_can_probe] sets them and the set-up
    reads them. *)
Record board := {
  clock_pll : bool;
  clock_div2 : bool;
  clock_odiv : Z;
  gpio0_mode : Z;
  gpio1_mode : Z;
  gpio_opendrain : bool;
  can_clock_freq : Z
}.

(** The kernel's clock as the driver reads it: the tick rate [HZ] and the
    value of the n-th reading of [jiffies] a function makes. *)
Record timer := {
  HZ : Z;
  jiffies : nat -> Z
}.

(** The busy waits of a function: each [mdelay] with its milliseconds and
    the number of calls made before it. Waiting is no call the kernel or
    the device answers, so it is recorded apart from the calls. *)
Definition delays : Type := list (nat * Z).

Definition mdelay (ms : Z) (w : world) (d : delays) : delays :=
  d ++ [(length (trace w), ms)].

Definition set_con_val (v : Z) (p : mcp2517fd_priv) : mcp2517fd_priv :=
  {| can_ctrlmode := can_ctrlmode p; tx_work_skb := tx_work_skb p;
     con_val := v;
     spi_setup_speed_hz := spi_setup_speed_hz p; spi_speed_hz :=
     spi_speed_hz p; payload_size := payload_size p; payload_mode :=
     payload_mode p; tef_address_start := tef_address_start p; tef_address_end
     := tef_address_end p; tef_address := tef_address p; fifo_address :=
     fifo_address p; tx_fifos := tx_fifos p; tx_fifo_start := tx_fifo_start p;
     tx_fifo_mask := tx_fifo_mask p; tx_pending_mask := tx_pending_mask p;
     rx_fifos := rx_fifos p; rx_fifo_depth := rx_fifo_depth p; rx_fifo_start
     := rx_fifo_start p; rx_fifo_mask := rx_fifo_mask p; rx_overflow :=
     rx_overflow p; status := status p; force_quit := force_quit p; fifo_data
     := fifo_data p; fifo_usage := fifo_usage p |}.

(** The second half of [mcp2517fd_hw_probe]: is the controller in
    configuration mode? The last log line of the source is a [dev_dbg],
    which prints nothing in a kernel built without DEBUG. *)
Definition hw_probe_config (d : delays) (w : world) : Z * delays * world :=
  let sp := spi_setup_speed_hz (priv w) in
  let '(ret, val, w) := mcp2517fd_cmd_read CAN_CON sp w in
  if nz ret then (ret, d, w)
  else
    let val := match val with Some v => v | None => 0 end in
    let w := call (k_dev_err "CAN_CON 0x%08x" [val]) w in
    if Z.land val CAN_CON_DEFAULT_MASK =? CAN_CON_DEFAULT then (0, d, w)
    else
      let '(ret, w) := mcp2517fd_cmd_write CAN_CON CAN_CON_DEFAULT sp w in
      if nz ret then (ret, d, w)
      else
        let d := mdelay MCP2517FD_OST_DELAY_MS w d in
        let '(_, w) := mcp2517fd_cmd_reset sp w in
        let d := mdelay MCP2517FD_OST_DELAY_MS w d in
        let '(ret, val, w) := mcp2517fd_cmd_read CAN_CON sp w in
        if nz ret then (ret, d, w)
        else
          let val := match val with Some v => v | None => 0 end in
          (if negb (Z.land val CAN_CON_DEFAULT_MASK =? CAN_CON_DEFAULT)
           then - ENODEV else 0, d, w).

(** [mcp2517fd_hw_probe]: returns the code, the busy waits and the
    world. *)
Definition mcp2517fd_hw_probe (w : world) : Z * delays * world :=
  let sp := spi_setup_speed_hz (priv w) in
  let d := mdelay MCP2517FD_OST_DELAY_MS w [] in
  let '(_, w) := mcp2517fd_cmd_reset sp w in
  let d := mdelay MCP2517FD_OST_DELAY_MS w d in
  let '(ret, val, w) := mcp2517fd_cmd_read MCP2517FD_OSC sp w in
  if nz ret then (ret, d, w)
  else
    let val := match val with Some v => v | None => 0 end in
    let w := call (k_dev_err "Osc reg: %08x" [val]) w in
    let sel := Z.land val (Z.lor MCP2517FD_OSC_OSCRDY MCP2517FD_OSC_OSCDIS) in
    if sel =? MCP2517FD_OSC_OSCRDY then hw_probe_config d w
    else if sel =? MCP2517FD_OSC_OSCDIS then
      let '(ret, w) :=
        mcp2517fd_cmd_write MCP2517FD_OSC
          (Z.shiftl MCP2517FD_OSC_CLKODIV_10 MCP2517FD_OSC_CLKODIV_SHIFT)
          sp w in
      if nz ret then (ret, d, w) else hw_probe_config d w
    else
      let w :=
        if Z.land val (Z.lor MCP2517FD_OSC_PLLEN MCP2517FD_OSC_PLLRDY)
           =? MCP2517FD_OSC_PLLEN
        then call (k_dev_err
               "mcp2517fd may be in a strange state - a power disconnect may be required"
               []) w
        else w in
      (- ENODEV, d, w).

(** What the device answers when a register is read at this point, if
    the read goes through. *)
Definition reads (reg sp : Z) (w : world) : option Z :=
  let '(ret, val, _) := mcp2517fd_cmd_read reg sp w in
  if nz ret then None else val.

(** The operation mode [mcp2517fd_set_normal_mode] requests for the
    control modes of the interface. *)
Definition normal_mode_type (ctrlmode : Z) : Z :=
  if nz (Z.land ctrlmode CAN_CTRLMODE_LOOPBACK)
  then CAN_CON_MODE_EXTERNAL_LOOPBACK
  else if nz (Z.land ctrlmode CAN_CTRLMODE_LISTENONLY)
  then CAN_CON_MODE_LISTENONLY
  else if nz (Z.land ctrlmode CAN_CTRLMODE_FD)
  then CAN_CON_MODE_MIXED
  else CAN_CON_MODE_CAN2_0.

(** [mcp2517fd_set_normal_mode] *)
Definition mcp2517fd_set_normal_mode (w : world) : Z * world :=
  let p := priv w in
  let type := normal_mode_type (can_ctrlmode p) in
  try w <- mcp2517fd_cmd_write CAN_CON
             (Z.lor (con_val p) (Z.shiftl type CAN_CON_REQOP_SHIFT))
             (spi_setup_speed_hz p) w;
  (0, call (k_dev_err "  CanCTRL: %i" [Z.land (can_ctrlmode p) CAN_CTRLMODE_FD])
           w).

(** The word [mcp2517fd_setup_osc] writes to the oscillator register, if
    the output clock divider is one it knows. *)
Definition osc_val (b : board) : option Z :=
  let val := Z.lor (if clock_pll b then MCP2517FD_OSC_PLLEN else 0)
                   (if clock_div2 b then MCP2517FD_OSC_SCLKDIV else 0) in
  if clock_odiv b =? 10 then
    Some (Z.lor val (Z.shiftl MCP2517FD_OSC_CLKODIV_10
                              MCP2517FD_OSC_CLKODIV_SHIFT))
  else if clock_odiv b =? 4 then
    Some (Z.lor val (Z.shiftl MCP2517FD_OSC_CLKODIV_4
                              MCP2517FD_OSC_CLKODIV_SHIFT))
  else if clock_odiv b =? 2 then
    Some (Z.lor val (Z.shiftl MCP2517FD_OSC_CLKODIV_2
                              MCP2517FD_OSC_CLKODIV_SHIFT))
  else if clock_odiv b =? 1 then
    Some (Z.lor val (Z.shiftl MCP2517FD_OSC_CLKODIV_1
                              MCP2517FD_OSC_CLKODIV_SHIFT))
  else if clock_odiv b =? 0 then
    Some (Z.lor val (Z.shiftl MCP2517FD_OSC_CLKODIV_10
                              MCP2517FD_OSC_CLKODIV_SHIFT))
  else None.

(** The ready bits [mcp2517fd_setup_osc] waits for. *)
Definition osc_waitfor (b : board) : Z :=
  Z.lor (Z.lor (if clock_pll b then MCP2517FD_OSC_PLLRDY else 0)
               (if clock_div2 b then MCP2517FD_OSC_SCLKRDY else 0))
        MCP2517FD_OSC_OSCRDY.

(** The polling loop of [mcp2517fd_setup_osc]: [n] is the number of
    readings of [jiffies] made so far. The loop runs for as long as the
    clock of the kernel lets it: [fuel] bounds the number of turns and
    [None] is a loop that has not ended within them. *)
Fixpoint osc_poll (fuel : nat) (T : timer) (n : nat) (timeout waitfor sp : Z)
         (w : world) : option (Z * world) :=
  if ulong (jiffies T n) <=? timeout then
    match fuel with
    | O => None
    | S fuel' =>
        let '(ret, val, w) := mcp2517fd_cmd_read MCP2517FD_OSC sp w in
        if nz ret then Some (ret, w)
        else
          let val := match val with Some v => v | None => 0 end in
          let w := call (k_dev_err "Read OSC 0x%08x - wait 0x%08x"
                           [val; waitfor]) w in
          if Z.land val waitfor =? waitfor then Some (0, w)
          else osc_poll fuel' T (S n) timeout waitfor sp w
    end
  else
    Some (- ENODEV,
          call (k_dev_err "Clock did not lock within the timeout period" []) w).

(** [mcp2517fd_setup_osc] *)
Definition mcp2517fd_setup_osc (fuel : nat) (T : timer) (b : board) (w : world)
  : option (Z * world) :=
  match osc_val b with
  | None =>
      Some (- EINVAL,
            call (k_dev_err "Unsupported output clock divider %i"
                    [clock_odiv b]) w)
  | Some val =>
      let sp := spi_setup_speed_hz (priv w) in
      let '(ret, w) := mcp2517fd_cmd_write MCP2517FD_OSC val sp w in
      if nz ret then Some (ret, w)
      else
        let timeout := ulong (jiffies T 0 + Z.quot (HZ T) 2) in
        osc_poll fuel T 1 timeout (osc_waitfor b) sp w
  end.

(** The word [mcp2517fd_setup] writes to the pin control register, or
    the log line with which it refuses the modes of the two pins. *)
Definition setup_iocon (b : board) : Z + kcall :=
  let val := 0 in
  let val := Z.lor val MCP2517FD_IOCON_TXCANOD in
  let val := Z.lor val MCP2517FD_IOCON_INTOD in
  let val := if clock_odiv b <? 0 then Z.lor val MCP2517FD_IOCON_SOF else val in
  let g0 := gpio0_mode b in
  let g1 := gpio1_mode b in
  if (g0 =? gpio_mode_standby) || (g0 =? gpio_mode_int)
     || (g0 =? gpio_mode_out_low) || (g0 =? gpio_mode_out_high)
     || (g0 =? gpio_mode_in) then
    let val := u32 (Z.lor val g0) in
    if g1 =? gpio_mode_standby then
      inr (k_dev_err "GPIO1 does not support transciever standby" [])
    else if (g1 =? gpio_mode_int) || (g1 =? gpio_mode_out_low)
            || (g1 =? gpio_mode_out_high) || (g1 =? gpio_mode_in) then
      let val := u32 (Z.lor val (Z.shiftl g1 1)) in
      let val := if gpio_opendrain b then Z.lor val MCP2517FD_IOCON_INTOD
                 else val in
      inl val
    else inr (k_dev_err "GPIO1 does not support mode %08x" [g0])
  else inr (k_dev_err "GPIO1 does not support mode %08x" [g0]).

(** The value of [priv->con_val] as [mcp2517fd_setup] computes it. *)
Definition setup_con_val (ctrlmode : Z) : Z :=
  let v := CAN_CON_STEF in
  let v := if negb (nz (Z.land ctrlmode CAN_CTRLMODE_FD_NON_ISO))
           then Z.lor v CAN_CON_ISOCRCEN else v in
  let v := if negb (nz (Z.land ctrlmode CAN_CTRLMODE_ONE_SHOT))
           then Z.lor v CAN_CON_RTXAT else v in
  v.

(** The part of [mcp2517fd_setup] behind the set-up of the oscillator. *)
Definition setup_registers (b : board) (w : world) : Z * world :=
  let sp := spi_setup_speed_hz (priv w) in
  try w <- mcp2517fd_cmd_write MCP2517FD_ECCCON MCP2517FD_ECCCON_ECCEN sp w;
  match setup_iocon b with
  | inr line => (- EINVAL, call line w)
  | inl val =>
      try w <- mcp2517fd_cmd_write MCP2517FD_IOCON val sp w;
      try w <- mcp2517fd_cmd_write CAN_TDC CAN_TDC_EDGFLTEN sp w;
      try w <- mcp2517fd_cmd_write CAN_TBC 0 sp w;
      try w <- mcp2517fd_cmd_write CAN_TSCON
                 (Z.lor CAN_TSCON_TBCEN
                        (Z.shiftl (Z.quot (can_clock_freq b) 1000000)
                                  CAN_TSCON_TBCPRE_SHIFT))
                 sp w;
      let w := set_priv (fun p => set_con_val
                                    (setup_con_val (can_ctrlmode p)) p) w in
      try w <- mcp2517fd_setup_fifo w;
      mcp2517fd_enable_interrupts (spi_setup_speed_hz (priv w)) w
  end.

(** [mcp2517fd_setup] *)
Definition mcp2517fd_setup (fuel : nat) (T : timer) (b : board) (w : world)
  : option (Z * world) :=
  let w := call (k_dev_err "Start_setup" []) w in
  match mcp2517fd_setup_osc fuel T b w with
  | None => None
  | Some (ret, w) =>
      if nz ret then Some (ret, w) else Some (setup_registers b w)
  end.

(** Modelled from the spec: the kernel macro [min_t(int, a, b)]: both
    sides are taken as 32-bit signed integers. *)
Definition to_int (x : Z) : Z := (x + 2 ^ 31) mod 2 ^ 32 - 2 ^ 31.
Definition min_t_int (a b : Z) : Z :=
  if to_int a <? to_int b then to_int a else to_int b.

(** What [mcp2517fd_can_probe] makes of the rate [freq] of the clock and
    of the speed limit [max_speed_hz] of the SPI device: an error code, or
    the board description and the two SPI speeds
    ([spi_setup_speed_hz], [spi_speed_hz]). The calls by which the probe
    gets the clock, the network device and the regulators are not part of
    this. *)
Definition probe_clocks (freq max_speed_hz : Z) : Z + board * Z * Z :=
  if (freq <? MCP2517FD_MIN_CLOCK_FREQUENCY)
     || (freq >? MCP2517FD_MAX_CLOCK_FREQUENCY) then inl (- ERANGE)
  else
    let pll := freq <=? MCP2517FD_AUTO_PLL_MAX_CLOCK_FREQUENCY in
    let div2 := false in
    let clock := u32 freq in
    let clock := if pll then u32 (clock * MCP2517FD_PLL_MULTIPLIER) else clock in
    if pll && (clock >? MCP2517FD_MAX_CLOCK_FREQUENCY) then inl (- EINVAL)
    else
      let clock := if div2 then Z.quot clock MCP2517FD_SCLK_DIVIDER else clock in
      let setup_speed := u32 (Z.quot freq 2) in
      let speed := Z.quot clock 2 in
      let setup_speed :=
        if div2 then Z.quot setup_speed MCP2517FD_SCLK_DIVIDER else setup_speed in
      let speed := if div2 then Z.quot speed MCP2517FD_SCLK_DIVIDER else speed in
      let setup_speed :=
        if nz max_speed_hz then u32 (min_t_int setup_speed max_speed_hz)
        else setup_speed in
      let speed :=
        if nz max_speed_hz then u32 (min_t_int speed max_speed_hz) else speed in
      inr ({| clock_pll := pll; clock_div2 := div2; clock_odiv := 10;
              gpio0_mode := gpio_mode_int; gpio1_mode := gpio_mode_int;
              gpio_opendrain := false; can_clock_freq := clock |},
           setup_speed, speed).

(** [w'] has the bus speeds, the control mode, the control word, the
    counters and the mtu of [w], and the calls of [w] followed by more. *)
Definition cfg_kept (w w' : world) : Prop :=
  con_val (priv w') = con_val (priv w) /\
  can_ctrlmode (priv w') = can_ctrlmode (priv w) /\
  spi_setup_speed_hz (priv w') = spi_setup_speed_hz (priv w) /\
  spi_speed_hz (priv w') = spi_speed_hz (priv w) /\
  stats w' = stats w /\ net_mtu w' = net_mtu w /\
  exists cs, trace w' = trace w ++ cs.

(** A step that keeps them and returns 0 or a negative code. *)
Definition cfg_step (w : world) (r : Z * world) : Prop :=
  cfg_kept w (snd r) /\ fst r <= 0.

(* ------------------------------------------------------------------ *)
(** ** Bit-level facts *)

Lemma testbit_small (x n i : Z) :
  0 <= x < 2 ^ n -> n <= i -> Z.testbit x i = false.
Proof.
  intros Hx Hi.
  destruct (Z.eq_dec x 0) as [->|Hne]; [apply Z.bits_0|].
  apply Z.bits_above_log2; [lia|].
  assert (0 <= n) by (destruct (Z_lt_le_dec n 0); [rewrite Z.pow_neg_r in Hx; lia|lia]).
  assert (Z.log2 x < n); [|lia].
  apply Z.log2_lt_pow2; lia.
Qed.

Lemma BIT_pow2 (n : Z) : 0 <= n -> BIT n = 2 ^ n.
Proof. intros; unfold BIT; now rewrite Z.shiftl_1_l. Qed.

Lemma testbit_BIT (n i : Z) : 0 <= n -> Z.testbit (BIT n) i = (n =? i).
Proof. intros; rewrite BIT_pow2 by lia; now apply Z.pow2_bits_eqb. Qed.

Lemma land_BIT_nz (x n : Z) : 0 <= n -> nz (Z.land x (BIT n)) = Z.testbit x n.
Proof.
  intros Hn. unfold nz.
  destruct (Z.testbit x n) eqn:E.
  - destruct (Z.eqb_spec (Z.land x (BIT n)) 0) as [H0|]; [|reflexivity].
    assert (Z.testbit (Z.land x (BIT n)) n = true).
    { rewrite Z.land_spec, E, testbit_BIT, Z.eqb_refl by lia. reflexivity. }
    rewrite H0, Z.bits_0 in H. discriminate.
  - replace (Z.land x (BIT n)) with 0; [reflexivity|].
    symmetry. apply Z.bits_inj'. intros i Hi.
    rewrite Z.land_spec, testbit_BIT, Z.bits_0 by lia.
    destruct (Z.eqb_spec n i); subst; rewrite ?E, ?andb_false_r; reflexivity.
Qed.

(** Turn the test of a bit of a compound term into tests of its parts. *)
Ltac tb :=
  repeat match goal with
  | |- context [Z.testbit (Z.lor _ _) _] => rewrite Z.lor_spec
  | |- context [Z.testbit (Z.land _ _) _] => rewrite Z.land_spec
  | |- context [Z.testbit (Z.lxor _ _) _] => rewrite Z.lxor_spec
  | |- context [Z.testbit (Z.ldiff _ _) _] => rewrite Z.ldiff_spec
  | |- context [Z.testbit 0 _] => rewrite Z.bits_0
  | |- context [Z.testbit (Z.shiftl ?a ?n) ?m] =>
      rewrite (Z.shiftl_spec a n m) by lia
  | |- context [Z.testbit (Z.shiftr ?a ?n) ?m] =>
      rewrite (Z.shiftr_spec a n m) by lia
  | |- context [Z.testbit (Z.ones ?n) ?m] =>
      rewrite (Z.testbit_ones n m) by lia
  | |- context [Z.testbit (?a mod 2 ^ ?n) ?m] =>
      rewrite (Z.testbit_mod_pow2 a n m) by lia
  | |- context [Z.testbit (2 ^ ?n) ?m] =>
      rewrite (Z.pow2_bits_eqb n m) by lia
  | |- context [Z.testbit (BIT ?n) ?m] =>
      rewrite (testbit_BIT n m) by lia
  | |- context [Z.testbit ?a ?m] =>
      rewrite (Z.testbit_neg_r a m) by lia
  end.

(** Decide the comparisons left in a goal about bits. *)
Ltac cmp :=
  repeat match goal with
  | |- context [?a <? ?b] => destruct (Z.ltb_spec a b)
  | |- context [?a <=? ?b] => destruct (Z.leb_spec a b)
  | |- context [?a =? ?b] => destruct (Z.eqb_spec a b)
  end.

Ltac bool_simpl :=
  rewrite ?andb_false_r, ?andb_true_r, ?orb_false_r, ?orb_true_r,
    ?andb_false_l, ?andb_true_l, ?orb_false_l, ?orb_true_l.

(** Bits of [x] above its size [n] and below 0 are clear. *)
Ltac high_bits x n :=
  repeat match goal with
  | |- context [Z.testbit x ?e] => rewrite (testbit_small x n e) by lia
  | |- context [Z.testbit x ?e] => rewrite (Z.testbit_neg_r x e) by lia
  end.

Ltac bitblast :=
  repeat (progress (tb; cmp; bool_simpl; try reflexivity; try lia)).

(* ------------------------------------------------------------------ *)
(** ** Frame codec: identifiers *)

Lemma canid_std_encode (id : Z) :
  0 <= id < 2 ^ 11 -> mcp2517fd_canid_to_mcpid id = (id, 0).
Proof.
  intros H. unfold mcp2517fd_canid_to_mcpid.
  assert (E1 : Z.land id CAN_EFF_FLAG = 0).
  { apply Z.bits_inj'; intros i Hi. change CAN_EFF_FLAG with (2 ^ 31). tb.
    cmp; subst; rewrite ?andb_false_r; try reflexivity.
    rewrite (testbit_small id 11) by lia. reflexivity. }
  assert (E2 : Z.land id CAN_RTR_FLAG = 0).
  { apply Z.bits_inj'; intros i Hi. change CAN_RTR_FLAG with (2 ^ 30). tb.
    cmp; subst; rewrite ?andb_false_r; try reflexivity.
    rewrite (testbit_small id 11) by lia. reflexivity. }
  rewrite E1, E2. cbn [nz Z.eqb negb].
  change CAN_SFF_MASK with (Z.ones 11).
  rewrite Z.land_ones, Z.mod_small by lia. reflexivity.
Qed.

Lemma canid_std_decode (id : Z) :
  0 <= id < 2 ^ 11 -> mcp2517fd_mcpid_to_canid id 0 = id.
Proof.
  intros H. unfold mcp2517fd_mcpid_to_canid.
  cbn [Z.land nz Z.eqb negb].
  rewrite Z.lor_0_r.
  change CAN_OBJ_ID_SID_SHIFT with 0. rewrite Z.shiftr_0_r.
  change CAN_OBJ_ID_SID_MASK with (Z.ones 11).
  rewrite Z.land_ones, Z.mod_small by lia. reflexivity.
Qed.

Lemma canid_ext_encode (id : Z) :
  0 <= id < 2 ^ 29 ->
  mcp2517fd_canid_to_mcpid (Z.lor id CAN_EFF_FLAG)
  = (Z.lor (Z.shiftl (id mod 2 ^ 18) 11) (id / 2 ^ 18), CAN_OBJ_FLAGS_IDE).
Proof.
  intros H. unfold mcp2517fd_canid_to_mcpid.
  assert (E1 : nz (Z.land (Z.lor id CAN_EFF_FLAG) CAN_EFF_FLAG) = true).
  { change CAN_EFF_FLAG with (BIT 31). rewrite land_BIT_nz by lia. tb.
    rewrite orb_true_r. reflexivity. }
  assert (E2 : nz (Z.land (Z.lor id CAN_EFF_FLAG) CAN_RTR_FLAG) = false).
  { change CAN_RTR_FLAG with (BIT 30). rewrite land_BIT_nz by lia.
    change CAN_EFF_FLAG with (2 ^ 31). tb.
    rewrite (testbit_small id 29) by lia. reflexivity. }
  rewrite E1, E2. f_equal.
  unfold u32. apply Z.bits_inj'; intros i Hi.
  change CAN_EFF_SID_MASK with (Z.shiftl (Z.ones 11) 18).
  change CAN_EFF_EID_MASK with (Z.ones 18).
  change CAN_EFF_SID_SHIFT with 18. change CAN_EFF_EID_SHIFT with 0.
  change CAN_OBJ_ID_EID_SHIFT with 11. change CAN_OBJ_ID_SID_SHIFT with 0.
  change CAN_EFF_FLAG with (2 ^ 31).
  rewrite <- (Z.land_ones id 18), <- (Z.shiftr_div_pow2 id 18) by lia.
  bitblast; high_bits id 29; bool_simpl; try reflexivity; try (f_equal; lia).
Qed.


Lemma canid_ext_decode (id : Z) :
  0 <= id < 2 ^ 29 ->
  mcp2517fd_mcpid_to_canid
    (Z.lor (Z.shiftl (id mod 2 ^ 18) 11) (id / 2 ^ 18)) CAN_OBJ_FLAGS_IDE
  = Z.lor id CAN_EFF_FLAG.
Proof.
  intros H. unfold mcp2517fd_mcpid_to_canid.
  change (nz (Z.land CAN_OBJ_FLAGS_IDE CAN_OBJ_FLAGS_IDE)) with true.
  change (nz (Z.land CAN_OBJ_FLAGS_IDE CAN_OBJ_FLAGS_RTR)) with false.
  cbv iota. rewrite Z.lor_0_r.
  unfold u32. apply Z.bits_inj'; intros i Hi.
  change CAN_OBJ_ID_SID_MASK with (Z.ones 11).
  change CAN_OBJ_ID_EID_MASK with (Z.shiftl (Z.ones 18) 11).
  change CAN_EFF_SID_SHIFT with 18. change CAN_EFF_EID_SHIFT with 0.
  change CAN_OBJ_ID_EID_SHIFT with 11. change CAN_OBJ_ID_SID_SHIFT with 0.
  change CAN_EFF_FLAG with (2 ^ 31).
  rewrite <- (Z.land_ones id 18), <- (Z.shiftr_div_pow2 id 18) by lia.
  bitblast; high_bits id 29; bool_simpl; try reflexivity; try (f_equal; lia).
Qed.

(** C1: identifier round trip. A standard identifier below 2^11 is encoded
    and decoded back to itself with the extended-id flag clear, in the
    device object and in the decoded identifier; an extended identifier
    below 2^29, submitted with the extended-id flag, comes back as itself
    with the flag set. *)
Theorem canid_roundtrip (id : Z) :
  0 <= id ->
  (id < 2 ^ 11 ->
   let '(mcpid, mcpflags) := mcp2517fd_canid_to_mcpid id in
   mcp2517fd_mcpid_to_canid mcpid mcpflags = id /\
   Z.land mcpflags CAN_OBJ_FLAGS_IDE = 0 /\
   Z.land (mcp2517fd_mcpid_to_canid mcpid mcpflags) CAN_EFF_FLAG = 0) /\
  (id < 2 ^ 29 ->
   let '(mcpid, mcpflags) := mcp2517fd_canid_to_mcpid (Z.lor id CAN_EFF_FLAG) in
   mcp2517fd_mcpid_to_canid mcpid mcpflags = Z.lor id CAN_EFF_FLAG /\
   Z.land mcpflags CAN_OBJ_FLAGS_IDE = CAN_OBJ_FLAGS_IDE /\
   Z.land (mcp2517fd_mcpid_to_canid mcpid mcpflags) CAN_EFF_FLAG = CAN_EFF_FLAG).
Proof.
  intros H0. split; intros H.
  - rewrite canid_std_encode, canid_std_decode by lia.
    repeat split.
    apply Z.bits_inj'; intros i Hi. change CAN_EFF_FLAG with (2 ^ 31).
    bitblast; high_bits id 11; reflexivity.
  - rewrite canid_ext_encode, canid_ext_decode by lia.
    repeat split.
    apply Z.bits_inj'; intros i Hi. change CAN_EFF_FLAG with (2 ^ 31).
    bitblast.
Qed.

(* ------------------------------------------------------------------ *)
(** ** The transport only adds to the trace *)

Lemma transported_refl (w : world) : transported w w.
Proof. repeat split. exists []. split; [now rewrite app_nil_r|constructor]. Qed.

Lemma transported_trans (w1 w2 w3 : world) :
  transported w1 w2 -> transported w2 w3 -> transported w1 w3.
Proof.
  intros (P1 & S1 & M1 & c1 & T1 & F1) (P2 & S2 & M2 & c2 & T2 & F2).
  repeat split; try congruence.
  exists (c1 ++ c2). split.
  - rewrite T2, T1, app_assoc. reflexivity.
  - apply Forall_app. split; assumption.
Qed.

Lemma transported_call (c : kcall) (w : world) :
  bus_call c -> transported w (call c w).
Proof. intros B. repeat split. exists [c]. split; [reflexivity|]. now constructor. Qed.

Lemma sync_transfer_transported xfer speed w :
  transported w (snd (mcp2517fd_sync_transfer xfer speed w)).
Proof.
  unfold mcp2517fd_sync_transfer.
  destruct (spi_sync_transfer K _ _) as [r rx]. apply transported_call; exact I.
Qed.

Lemma write_transported tx speed w :
  transported w (snd (mcp2517fd_write tx speed w)).
Proof.
  unfold mcp2517fd_write.
  match goal with |- context [mcp2517fd_sync_transfer ?x ?s ?w] =>
    pose proof (sync_transfer_transported x s w) as H;
    destruct (mcp2517fd_sync_transfer x s w) as [[ret rx] w1] end.
  exact H.
Qed.

Lemma write_then_write_transported tx tx2 speed w :
  transported w (snd (mcp2517fd_write_then_write tx tx2 speed w)).
Proof.
  unfold mcp2517fd_write_then_write.
  destruct (alloc_ok K (trace w) kmalloc_txrx); cbn [negb].
  - match goal with |- context [mcp2517fd_sync_transfer ?x ?s ?w] =>
      pose proof (sync_transfer_transported x s w) as H;
      destruct (mcp2517fd_sync_transfer x s w) as [[ret rx] w1] end.
    eapply transported_trans; [|exact H]; apply transported_call; exact I.
  - apply transported_call; exact I.
Qed.

Lemma write_then_read_transported tx n speed w :
  transported w (snd (mcp2517fd_write_then_read tx n speed w)).
Proof.
  unfold mcp2517fd_write_then_read.
  destruct (SPI_MASTER_HALF_DUPLEX K).
  - match goal with |- context [mcp2517fd_sync_transfer ?x ?s ?w] =>
      pose proof (sync_transfer_transported x s w) as H;
      destruct (mcp2517fd_sync_transfer x s w) as [[ret rx] w1] end.
    exact H.
  - destruct (alloc_ok K (trace w) kmalloc_txrx); cbn [negb].
    + match goal with |- context [mcp2517fd_sync_transfer ?x ?s ?w] =>
        pose proof (sync_transfer_transported x s w) as H;
        destruct (mcp2517fd_sync_transfer x s w) as [[ret rx] w1] end.
      eapply transported_trans; [|exact H]; apply transported_call; exact I.
    + apply transported_call; exact I.
Qed.

Lemma cmd_readn_transported reg n speed w :
  transported w (snd (mcp2517fd_cmd_readn reg n speed w)).
Proof. apply write_then_read_transported. Qed.

Lemma cmd_write_mask_transported reg data mask speed w :
  transported w (snd (mcp2517fd_cmd_write_mask reg data mask speed w)).
Proof.
  unfold mcp2517fd_cmd_write_mask.
  destruct (nz mask); cbn [negb].
  - apply write_then_write_transported.
  - apply transported_refl.
Qed.

Lemma cmd_read_mask_transported reg mask speed w :
  transported w (snd (mcp2517fd_cmd_read_mask reg mask speed w)).
Proof.
  unfold mcp2517fd_cmd_read_mask.
  destruct (nz mask); cbn [negb].
  - match goal with |- context [mcp2517fd_cmd_readn ?r ?n ?s ?w] =>
      pose proof (cmd_readn_transported r n s w) as H;
      destruct (mcp2517fd_cmd_readn r n s w) as [[ret rx] w1] end.
    exact H.
  - apply transported_refl.
Qed.

(* ------------------------------------------------------------------ *)
(** ** Bytes on the wire *)

Lemma at_list_bytes_from m off n k :
  0 <= k < n -> at_list (bytes_from m off n) k = u8 (m (off + k)).
Proof.
  intros H. unfold at_list, bytes_from.
  destruct (Z.ltb_spec k 0); [lia|].
  set (f := fun k0 : nat => u8 (m (off + Z.of_nat k0))).
  assert (L : (Z.to_nat k < length (seq 0 (Z.to_nat n)))%nat)
    by (rewrite length_seq; lia).
  rewrite (nth_indep _ 0 (f 0%nat)) by (rewrite length_map; exact L).
  rewrite map_nth, seq_nth by lia.
  unfold f. f_equal. f_equal. lia.
Qed.

Lemma length_bytes_from m off n :
  0 <= n -> Z.of_nat (length (bytes_from m off n)) = n.
Proof. intros. unfold bytes_from. rewrite length_map, length_seq. lia. Qed.

Lemma u8_idem x : u8 (u8 x) = u8 x.
Proof. unfold u8. apply Z.mod_mod. lia. Qed.

Lemma le32_at_bytes_from d n off :
  0 <= off -> off + 4 <= n ->
  le32_at (at_list (bytes_from d 0 n)) off = le32_at d off.
Proof.
  intros. unfold le32_at.
  rewrite !at_list_bytes_from by lia. rewrite !u8_idem.
  reflexivity.
Qed.

Lemma le32_at_le32_bytes m off x :
  m off = byte_of x 0 -> m (off + 1) = byte_of x 1 ->
  m (off + 2) = byte_of x 2 -> m (off + 3) = byte_of x 3 ->
  le32_at m off = u32 x.
Proof.
  intros E0 E1 E2 E3. unfold le32_at. rewrite E0, E1, E2, E3.
  unfold byte_of, u8, u32. change 255 with (Z.ones 8).
  apply Z.bits_inj'; intros i Hi.
  bitblast; f_equal; lia.
Qed.

Lemma tx_buffer_flags fifo obj len data w :
  le32_at (tx_buffer fifo obj len data w) 6
  = u32 (Z.lor (tx_flags obj) (Z.shiftl fifo CAN_OBJ_FLAGS_SEQ_SHIFT)).
Proof.
  rewrite (le32_at_le32_bytes _ 6
             (u32 (Z.lor (tx_flags obj) (Z.shiftl fifo CAN_OBJ_FLAGS_SEQ_SHIFT)))).
  - unfold u32. apply Z.mod_mod. lia.
  - reflexivity.
  - reflexivity.
  - reflexivity.
  - reflexivity.
Qed.

Lemma tx_buffer_payload fifo obj len data w k :
  0 <= k < len ->
  tx_buffer fifo obj len data w (10 + k) = u8 (data k).
Proof.
  intros H. unfold tx_buffer, memcpy_to.
  change (2 + sizeof_obj_tx) with 10.
  rewrite length_bytes_from by lia.
  destruct (Z.leb_spec 10 (10 + k)); [|lia].
  destruct (Z.ltb_spec (10 + k) (10 + len)); [|lia].
  cbn [andb]. rewrite at_list_bytes_from by lia.
  f_equal. f_equal. lia.
Qed.

Lemma ALIGN_4_bounds len : 0 <= len -> len <= ALIGN len 4 <= len + 3.
Proof.
  intros H. unfold ALIGN. change (4 - 1) with 3.
  assert (E : Z.land (len + 3) (Z.lnot 3) = (len + 3) - (len + 3) mod 4).
  { change (Z.lnot 3) with (Z.lnot (Z.ones 2)).
    rewrite <- Z.ldiff_land, Z.ldiff_ones_r by lia.
    rewrite Z.shiftr_div_pow2, Z.shiftl_mul_pow2 by lia.
    change (2 ^ 2) with 4.
    pose proof (Z.div_mod (len + 3) 4). lia. }
  rewrite E. pose proof (Z.mod_pos_bound (len + 3) 4).
  assert (D : (len + 3) mod 4 = 3 -> False \/ True) by auto.
  pose proof (Z.div_mod (len + 3) 4).
  pose proof (Z.div_mod len 4).
  pose proof (Z.mod_pos_bound len 4).
  lia.
Qed.

Lemma ALIGN_4_multiple len : ALIGN len 4 = 4 * ((len + 3) / 4).
Proof.
  unfold ALIGN. change (4 - 1) with 3.
  change (Z.lnot 3) with (Z.lnot (Z.ones 2)).
  rewrite <- Z.ldiff_land, Z.ldiff_ones_r by lia.
  rewrite Z.shiftr_div_pow2, Z.shiftl_mul_pow2 by lia.
  change (2 ^ 2) with 4. lia.
Qed.

Lemma skipn_length_app {A} (l l' : list A) : skipn (length l) (l ++ l') = l'.
Proof. induction l; cbn; auto. Qed.

(** The first thing [mcp2517fd_transmit_message_common] does is to send
    the filled buffer. *)
Lemma transmit_common_calls fifo obj len data w :
  exists rest,
    calls_since w (snd (mcp2517fd_transmit_message_common fifo obj len data w))
    = k_spi_sync_transfer
        [{| tx_buf := Some (bytes_from (tx_buffer fifo obj len data w) 0
                                       (2 + sizeof_obj_tx + ALIGN len 4));
            rx_buf := false;
            xfer_len := Z.of_nat (length (bytes_from (tx_buffer fifo obj len data w) 0
                                       (2 + sizeof_obj_tx + ALIGN len 4)));
            speed_hz := spi_speed_hz (priv w) |}] :: rest.
Proof.
  unfold mcp2517fd_transmit_message_common, mcp2517fd_write,
    mcp2517fd_sync_transfer, calls_since.
  cbn [map tx_buf rx_buf xfer_len].
  destruct (spi_sync_transfer K _ _) as [r rx].
  destruct (nz (errno r)).
  - exists []. cbn [snd call trace]. apply skipn_length_app.
  - match goal with |- context [mcp2517fd_cmd_write_mask ?a ?b ?c ?d ?w] =>
      pose proof (cmd_write_mask_transported a b c d w) as H;
      destruct (mcp2517fd_cmd_write_mask a b c d w) as [ret w2] end.
    destruct H as (_ & _ & _ & calls & T & _). cbn [snd] in T.
    exists calls.
    assert (E : trace w2 = trace w ++ k_spi_sync_transfer
        [{| tx_buf := Some (bytes_from (tx_buffer fifo obj len data w) 0
                                       (2 + sizeof_obj_tx + ALIGN len 4));
            rx_buf := false;
            xfer_len := Z.of_nat (length (bytes_from (tx_buffer fifo obj len data w) 0
                                       (2 + sizeof_obj_tx + ALIGN len 4)));
            speed_hz := spi_speed_hz (priv w) |}] :: calls).
    { rewrite T. cbn [call trace]. rewrite <- app_assoc. reflexivity. }
    destruct (nz ret); cbn [snd]; rewrite E; apply skipn_length_app.
Qed.

Lemma transmit_common_wire fifo obj len data w :
  0 <= len ->
  let tx := first_tx (calls_since w
              (snd (mcp2517fd_transmit_message_common fifo obj len data w))) in
  le32_at (at_list tx) 6
    = u32 (Z.lor (tx_flags obj) (Z.shiftl fifo CAN_OBJ_FLAGS_SEQ_SHIFT)) /\
  Z.of_nat (length tx) = 2 + sizeof_obj_tx + ALIGN len 4 /\
  forall k, 0 <= k < len -> at_list tx (10 + k) = u8 (data k).
Proof.
  intros H.
  destruct (transmit_common_calls fifo obj len data w) as [rest E].
  rewrite E. cbn [first_tx spi_messages flat_map app tx_buf].
  pose proof (ALIGN_4_bounds len H) as HA.
  change (2 + sizeof_obj_tx) with 10 in *.
  split; [|split].
  - rewrite le32_at_bytes_from by lia. apply tx_buffer_flags.
  - apply length_bytes_from. lia.
  - intros k Hk. rewrite at_list_bytes_from by lia.
    change (0 + (10 + k)) with (10 + k).
    rewrite tx_buffer_payload by lia. apply u8_idem.
Qed.

(* ------------------------------------------------------------------ *)
(** ** Frame codec: length codes *)

Lemma range_check (P : Z -> bool) (n : nat) :
  forallb (fun k => P (Z.of_nat k)) (seq 0 n) = true ->
  forall z, 0 <= z < Z.of_nat n -> P z = true.
Proof.
  intros H z Hz. rewrite forallb_forall in H.
  specialize (H (Z.to_nat z)). rewrite Z2Nat.id in H by lia.
  apply H. apply in_seq. lia.
Qed.

Lemma len2dlc_rounds (len : Z) :
  0 <= len <= 64 ->
  0 <= can_len2dlc len <= 15 /\
  len <= can_dlc2len (can_len2dlc len) <= 64 /\
  forall c, 0 <= c <= 15 -> len <= can_dlc2len c ->
            can_dlc2len (can_len2dlc len) <= can_dlc2len c.
Proof.
  intros H.
  pose (chk := fun l =>
    (0 <=? can_len2dlc l) && (can_len2dlc l <=? 15) &&
    (l <=? can_dlc2len (can_len2dlc l)) && (can_dlc2len (can_len2dlc l) <=? 64) &&
    forallb (fun c => negb (l <=? can_dlc2len (Z.of_nat c))
                      || (can_dlc2len (can_len2dlc l) <=? can_dlc2len (Z.of_nat c)))
            (seq 0 16)).
  assert (C : chk len = true).
  { apply (range_check chk 65); [vm_compute; reflexivity|lia]. }
  unfold chk in C.
  rewrite !andb_true_iff in C. destruct C as ((((C1 & C2) & C3) & C4) & C5).
  repeat split; try lia.
  intros c Hc Hl. rewrite forallb_forall in C5.
  specialize (C5 (Z.to_nat c)). rewrite Z2Nat.id in C5 by lia.
  assert (I : In (Z.to_nat c) (seq 0 16)) by (apply in_seq; lia).
  specialize (C5 I). rewrite orb_true_iff, negb_true_iff in C5.
  destruct C5; lia.
Qed.

Lemma dlc2len_table :
  (forall c, 0 <= c <= 8 -> can_dlc2len c = c) /\
  map can_dlc2len [9; 10; 11; 12; 13; 14; 15] = [12; 16; 20; 24; 32; 48; 64].
Proof.
  split; [|reflexivity].
  intros c Hc.
  assert (C : (can_dlc2len c =? c) = true).
  { apply (range_check (fun c => can_dlc2len c =? c) 9); [reflexivity|lia]. }
  lia.
Qed.

(** The length code put into a flags word next to the other flag bits is
    read back from it, whatever sequence tag is or-ed in afterwards. *)
Lemma flags_dlc_field (f dlc fifo : Z) :
  0 <= dlc <= 15 ->
  Z.land f (Z.ones 4) = 0 ->
  Z.shiftr
    (Z.land (u32 (Z.lor (Z.lor f (Z.shiftl dlc CAN_OBJ_FLAGS_DLC_SHIFT))
                        (Z.shiftl fifo CAN_OBJ_FLAGS_SEQ_SHIFT)))
            CAN_OBJ_FLAGS_DLC_MASK) CAN_OBJ_FLAGS_DLC_SHIFT = dlc.
Proof.
  intros Hd Hf.
  change CAN_OBJ_FLAGS_DLC_SHIFT with 0. change CAN_OBJ_FLAGS_SEQ_SHIFT with 9.
  change CAN_OBJ_FLAGS_DLC_MASK with (Z.ones 4). unfold u32.
  apply Z.bits_inj'; intros i Hi.
  assert (F : Z.testbit f i && (i <? 4) = false).
  { pose proof (f_equal (fun x => Z.testbit x i) Hf) as B. cbv beta in B.
    rewrite Z.land_spec, Z.testbit_ones, Z.bits_0 in B by lia.
    destruct (Z.leb_spec 0 i); [|lia]. exact B. }
  bitblast; high_bits dlc 4; bool_simpl; try reflexivity; try (f_equal; lia).
  destruct (Z.ltb_spec i 4); [|lia]. rewrite andb_true_r in F.
  replace (i + 0) with i by lia. replace (i - 0) with i by lia.
  rewrite F. reflexivity.
Qed.

Lemma lor_insert (a b c : Z) : Z.lor (Z.lor a b) c = Z.lor (Z.lor a c) b.
Proof. now rewrite <- !Z.lor_assoc, (Z.lor_comm b c). Qed.

Lemma canid_flags_clear_of_dlc (can_id : Z) :
  Z.land (snd (mcp2517fd_canid_to_mcpid can_id)) (Z.ones 4) = 0.
Proof.
  unfold mcp2517fd_canid_to_mcpid.
  destruct (nz (Z.land can_id CAN_EFF_FLAG)), (nz (Z.land can_id CAN_RTR_FLAG));
    reflexivity.
Qed.

Lemma fdmessage_obj_flags (dlc : Z) (frame : canfd_frame) :
  exists f, tx_flags (fdmessage_obj dlc frame)
            = Z.lor f (Z.shiftl dlc CAN_OBJ_FLAGS_DLC_SHIFT) /\
            Z.land f (Z.ones 4) = 0.
Proof.
  unfold fdmessage_obj.
  pose proof (canid_flags_clear_of_dlc (fd_can_id frame)) as H0.
  destruct (mcp2517fd_canid_to_mcpid (fd_can_id frame)) as [id f0].
  cbn [snd] in H0. cbn [tx_flags].
  repeat rewrite (lor_insert _ (Z.shiftl dlc _) _).
  eexists. split; [reflexivity|].
  rewrite !Z.land_lor_distr_l, H0.
  destruct (nz (Z.land (fd_can_id frame) CAN_EFF_FLAG)),
    (nz (Z.land (fd_can_id frame) CAN_RTR_FLAG)),
    (nz (Z.land (fd_flags frame) CANFD_BRS)),
    (nz (Z.land (fd_flags frame) CANFD_ESI)); reflexivity.
Qed.

Lemma message_obj_flags (frame : can_frame) :
  exists f, tx_flags (message_obj frame)
            = Z.lor f (Z.shiftl (cf_can_dlc frame) CAN_OBJ_FLAGS_DLC_SHIFT) /\
            Z.land f (Z.ones 4) = 0.
Proof.
  unfold message_obj.
  pose proof (canid_flags_clear_of_dlc (cf_can_id frame)) as H0.
  destruct (mcp2517fd_canid_to_mcpid (cf_can_id frame)) as [id f0].
  cbn [snd] in H0. cbn [tx_flags].
  repeat rewrite (lor_insert _ (Z.shiftl (cf_can_dlc frame) _) _).
  eexists. split; [reflexivity|].
  rewrite !Z.land_lor_distr_l, H0.
  destruct (nz (Z.land (cf_can_id frame) CAN_EFF_FLAG)),
    (nz (Z.land (cf_can_id frame) CAN_RTR_FLAG)); reflexivity.
Qed.

(** C2: length-code rounding on the FD transmit path. For a payload length
    0..64 the code chosen decodes to a length not below it and to the
    smallest such length among the sixteen codes (codes 0-8 are the byte
    counts 0-8, codes 9-15 are 12, 16, 20, 24, 32, 48, 64);
    [mcp2517fd_transmit_fdmessage] leaves the frame with that rounded
    length, and the object it sends carries the code of exactly that
    length and that many payload bytes rounded up to a multiple of 4. *)
Theorem fd_length_rounding (fifo : Z) (frame : canfd_frame) (w : world) :
  0 <= fd_len frame <= 64 ->
  let len := fd_len frame in
  let dlc := can_len2dlc len in
  let '(ret, frame', w') := mcp2517fd_transmit_fdmessage fifo frame w in
  let tx := first_tx (calls_since w w') in
  (0 <= dlc <= 15 /\ len <= can_dlc2len dlc /\
   forall c, 0 <= c <= 15 -> len <= can_dlc2len c ->
             can_dlc2len dlc <= can_dlc2len c) /\
  ((forall c, 0 <= c <= 8 -> can_dlc2len c = c) /\
   map can_dlc2len [9; 10; 11; 12; 13; 14; 15] = [12; 16; 20; 24; 32; 48; 64]) /\
  fd_len frame' = can_dlc2len dlc /\
  fd_data frame' = fd_data frame /\
  wire_dlc tx = dlc /\
  can_dlc2len (wire_dlc tx) = fd_len frame' /\
  Z.of_nat (length tx) = 2 + sizeof_obj_tx + ALIGN (fd_len frame') 4.
Proof.
  intros H len dlc.
  destruct (len2dlc_rounds len H) as (D1 & D2 & D3). fold dlc in D1, D2, D3.
  unfold mcp2517fd_transmit_fdmessage. fold len. fold dlc.
  assert (U : u8 (can_dlc2len dlc) = can_dlc2len dlc)
    by (unfold u8; apply Z.mod_small; lia).
  rewrite U.
  set (frame1 := {| fd_can_id := fd_can_id frame; fd_len := can_dlc2len dlc;
                    fd_flags := fd_flags frame; fd_data := fd_data frame |}).
  cbn [fd_len fd_data].
  change (fd_len frame1) with (can_dlc2len dlc).
  change (fd_data frame1) with (fd_data frame).
  pose proof (transmit_common_wire fifo (fdmessage_obj dlc frame1)
                (can_dlc2len dlc) (fd_data frame) w) as W.
  destruct (mcp2517fd_transmit_message_common fifo (fdmessage_obj dlc frame1)
              (can_dlc2len dlc) (fd_data frame) w) as [ret w'].
  cbn [snd] in W. destruct W as (W1 & W2 & _); [lia|].
  assert (WD : wire_dlc (first_tx (calls_since w w')) = dlc).
  { unfold wire_dlc. rewrite W1.
    destruct (fdmessage_obj_flags dlc frame1) as (f & Ef & Hf).
    rewrite Ef. apply flags_dlc_field; [lia|exact Hf]. }
  cbv zeta. rewrite WD.
  repeat split; try lia; try apply dlc2len_table; try exact D3; try exact W2.
Qed.

(** C10: the classic-frame clamp. [mcp2517fd_transmit_message] leaves a
    frame whose dlc exceeded 8 with dlc 8 (and any other dlc as it was);
    the length code in the object sent is that dlc, at most 8, and the
    payload bytes of the object are that many bytes of the frame, in a
    message no longer than an object with 8 payload bytes. *)
Theorem classic_dlc_clamp (fifo : Z) (frame : can_frame) (w : world) :
  0 <= cf_can_dlc frame <= 255 ->
  let '(ret, frame', w') := mcp2517fd_transmit_message fifo frame w in
  let tx := first_tx (calls_since w w') in
  (8 < cf_can_dlc frame -> cf_can_dlc frame' = 8) /\
  cf_can_dlc frame' = Z.min (cf_can_dlc frame) 8 /\
  wire_dlc tx = cf_can_dlc frame' /\
  wire_dlc tx <= 8 /\
  Z.of_nat (length tx) = 2 + sizeof_obj_tx + ALIGN (cf_can_dlc frame') 4 /\
  Z.of_nat (length tx) <= 2 + sizeof_obj_tx + 8 /\
  forall k, 0 <= k < cf_can_dlc frame' ->
            at_list tx (2 + sizeof_obj_tx + k) = u8 (cf_data frame k).
Proof.
  intros H. unfold mcp2517fd_transmit_message.
  set (frame1 := if cf_can_dlc frame >? 8
                 then {| cf_can_id := cf_can_id frame; cf_can_dlc := 8;
                         cf_data := cf_data frame |}
                 else frame).
  assert (E1 : cf_can_dlc frame1 = Z.min (cf_can_dlc frame) 8).
  { unfold frame1. destruct (Z.gtb_spec (cf_can_dlc frame) 8); cbn [cf_can_dlc]; lia. }
  assert (E2 : cf_data frame1 = cf_data frame).
  { unfold frame1. destruct (cf_can_dlc frame >? 8); reflexivity. }
  pose proof (transmit_common_wire fifo (message_obj frame1)
                (cf_can_dlc frame1) (cf_data frame1) w) as W.
  destruct (mcp2517fd_transmit_message_common fifo (message_obj frame1)
              (cf_can_dlc frame1) (cf_data frame1) w) as [ret w'].
  cbn [snd] in W. destruct W as (W1 & W2 & W3); [lia|].
  assert (WD : wire_dlc (first_tx (calls_since w w')) = cf_can_dlc frame1).
  { unfold wire_dlc. rewrite W1.
    destruct (message_obj_flags frame1) as (f & Ef & Hf).
    rewrite Ef. apply flags_dlc_field; [lia|exact Hf]. }
  cbv zeta. rewrite WD, W2.
  pose proof (ALIGN_4_bounds (cf_can_dlc frame1)) as B.
  pose proof (ALIGN_4_multiple (cf_can_dlc frame1)) as M.
  change (2 + sizeof_obj_tx) with 10.
  repeat split; try lia.
  intros k Hk. rewrite W3 by lia. rewrite E2. reflexivity.
Qed.

(* ------------------------------------------------------------------ *)
(** ** [ffs] finds the lowest set bit *)

Lemma ffs_aux_found (n : nat) (i x m : Z) :
  i <= m < i + Z.of_nat n ->
  Z.testbit x m = true ->
  (forall j, i <= j < m -> Z.testbit x j = false) ->
  ffs_aux n i x = m + 1.
Proof.
  revert i. induction n as [|n IH]; intros i Hm Hx Hlow; [lia|].
  cbn [ffs_aux].
  destruct (Z.eq_dec i m) as [->|Hne].
  - now rewrite Hx.
  - rewrite (Hlow i) by lia. apply IH; [lia|exact Hx|].
    intros j Hj. apply Hlow. lia.
Qed.

Lemma ffs_aux_none (n : nat) (i x : Z) :
  (forall j, i <= j < i + Z.of_nat n -> Z.testbit x j = false) ->
  ffs_aux n i x = 0.
Proof.
  revert i. induction n as [|n IH]; intros i H; [reflexivity|].
  cbn [ffs_aux]. rewrite (H i) by lia. apply IH. intros j Hj. apply H. lia.
Qed.

Lemma ffs_aux_cases (n : nat) (i x : Z) :
  (ffs_aux n i x = 0 /\
   forall j, i <= j < i + Z.of_nat n -> Z.testbit x j = false) \/
  (exists m, i <= m < i + Z.of_nat n /\ ffs_aux n i x = m + 1 /\
             Z.testbit x m = true /\
             forall j, i <= j < m -> Z.testbit x j = false).
Proof.
  revert i. induction n as [|n IH]; intros i.
  - left. split; [reflexivity|]. intros; lia.
  - cbn [ffs_aux]. destruct (Z.testbit x i) eqn:E.
    + right. exists i. repeat split; try lia. exact E.
    + destruct (IH (i + 1)) as [(H0 & Hn)|(m & Hm & Hf & Hx & Hlow)].
      * left. split; [exact H0|]. intros j Hj.
        destruct (Z.eq_dec j i) as [->|]; [exact E|apply Hn; lia].
      * right. exists m. repeat split; try lia; try assumption.
        intros j Hj. destruct (Z.eq_dec j i) as [->|]; [exact E|apply Hlow; lia].
Qed.

Lemma ffs_lowest (x m : Z) :
  0 <= m < 32 -> Z.testbit x m = true ->
  (forall j, 0 <= j < m -> Z.testbit x j = false) ->
  ffs x = m + 1.
Proof. intros. apply ffs_aux_found; auto; cbn; lia. Qed.

Lemma ffs_spec (x : Z) :
  0 < x < 2 ^ 32 ->
  exists m, 0 <= m < 32 /\ ffs x = m + 1 /\ Z.testbit x m = true /\
            forall j, 0 <= j < m -> Z.testbit x j = false.
Proof.
  intros Hx. unfold ffs.
  destruct (ffs_aux_cases 32 0 x) as [(_ & Hn)|(m & Hm & Hf & Hb & Hlow)].
  - exfalso. assert (x = 0); [|lia].
    apply Z.bits_inj'; intros i Hi. rewrite Z.bits_0.
    destruct (Z_lt_le_dec i 32); [apply Hn; cbn; lia|].
    apply (testbit_small x 32); lia.
  - exists m. cbn in Hm. repeat split; try lia; assumption.
Qed.

Lemma nz_true (x : Z) : nz x = true <-> x <> 0.
Proof. unfold nz. destruct (Z.eqb_spec x 0); cbn; split; congruence. Qed.

Lemma nz_false (x : Z) : nz x = false <-> x = 0.
Proof. unfold nz. destruct (Z.eqb_spec x 0); cbn; split; congruence. Qed.

(** The fifos [m .. m+k-1] as a mask. *)
Lemma testbit_run (k m i : Z) :
  0 <= k -> 0 <= m ->
  Z.testbit (Z.shiftl (Z.ones k) m) i = (m <=? i) && (i <? m + k).
Proof.
  intros Hk Hm. destruct (Z_lt_le_dec i 0).
  - rewrite Z.testbit_neg_r by lia. cmp; try reflexivity; lia.
  - rewrite Z.shiftl_spec, Z.testbit_ones by lia. cmp; try reflexivity; lia.
Qed.

Lemma run_nz (k m : Z) : 0 < k -> 0 <= m -> nz (Z.shiftl (Z.ones k) m) = true.
Proof.
  intros Hk Hm. apply nz_true. intros E.
  pose proof (testbit_run k m m ltac:(lia) Hm) as T.
  rewrite E, Z.bits_0 in T. revert T. cmp; try discriminate; lia.
Qed.

Lemma ffs_run (k m : Z) :
  0 < k -> 0 <= m < 32 -> ffs (Z.shiftl (Z.ones k) m) = m + 1.
Proof.
  intros Hk Hm. apply ffs_lowest; [lia| |].
  - rewrite testbit_run by lia. cmp; try reflexivity; lia.
  - intros j Hj. rewrite testbit_run by lia. cmp; try reflexivity; lia.
Qed.

Lemma ffs_BIT (m : Z) : 0 <= m < 32 -> ffs (BIT m) = m + 1.
Proof.
  intros Hm. apply ffs_lowest; [lia| |].
  - rewrite testbit_BIT by lia. apply Z.eqb_refl.
  - intros j Hj. rewrite testbit_BIT by lia. cmp; try reflexivity; lia.
Qed.

Lemma run_grow (k m : Z) :
  0 <= k -> 0 <= m -> m + 1 + k <= 32 ->
  u32 (Z.lor (Z.shiftl (Z.ones k) (m + 1)) (BIT m)) = Z.shiftl (Z.ones (k + 1)) m.
Proof.
  intros Hk Hm Hb. unfold u32. apply Z.bits_inj'; intros i Hi.
  rewrite Z.testbit_mod_pow2, Z.lor_spec, !testbit_run, testbit_BIT by lia.
  cmp; try reflexivity; lia.
Qed.

Lemma run_step_lxor (k m : Z) :
  0 <= k -> 0 <= m ->
  Z.lxor (Z.shiftl (Z.ones (k + 1)) m) (Z.shiftl (Z.ones k) (m + 1)) = BIT m.
Proof.
  intros Hk Hm. apply Z.bits_inj'; intros i Hi.
  rewrite Z.lxor_spec, !testbit_run, testbit_BIT by lia.
  cmp; try reflexivity; lia.
Qed.

(* ------------------------------------------------------------------ *)
(** ** Masked register access *)

Lemma fls_aux_cases (n : nat) (x : Z) :
  (fls_aux n x = 0 /\
   forall j, 0 <= j < Z.of_nat n -> Z.testbit x j = false) \/
  (exists m, 0 <= m < Z.of_nat n /\ fls_aux n x = m + 1 /\
             Z.testbit x m = true /\
             forall j, m < j < Z.of_nat n -> Z.testbit x j = false).
Proof.
  induction n as [|n IH].
  - left. split; [reflexivity|]. intros; lia.
  - cbn [fls_aux]. destruct (Z.testbit x (Z.of_nat n)) eqn:E.
    + right. exists (Z.of_nat n). repeat split; try lia. exact E.
    + destruct IH as [(H0 & Hn)|(m & Hm & Hf & Hx & Hhigh)].
      * left. split; [exact H0|]. intros j Hj.
        destruct (Z.eq_dec j (Z.of_nat n)) as [->|]; [exact E|apply Hn; lia].
      * right. exists m. repeat split; try lia; try assumption.
        intros j Hj.
        destruct (Z.eq_dec j (Z.of_nat n)) as [->|]; [exact E|apply Hhigh; lia].
Qed.

Lemma fls_spec (x : Z) :
  0 < x < 2 ^ 32 ->
  exists m, 0 <= m < 32 /\ fls x = m + 1 /\ Z.testbit x m = true /\
            forall j, m < j -> Z.testbit x j = false.
Proof.
  intros Hx. unfold fls.
  destruct (fls_aux_cases 32 x) as [(_ & Hn)|(m & Hm & Hf & Hb & Hhigh)].
  - exfalso. assert (x = 0); [|lia].
    apply Z.bits_inj'; intros i Hi. rewrite Z.bits_0.
    destruct (Z_lt_le_dec i 32); [apply Hn; cbn; lia|].
    apply (testbit_small x 32); lia.
  - exists m. cbn in Hm. repeat split; try lia; try assumption.
    intros j Hj. destruct (Z_lt_le_dec j 32); [apply Hhigh; cbn; lia|].
    apply (testbit_small x 32); lia.
Qed.

(** A zero mask is refused by both masked accesses before anything is
    sent. *)
Lemma masked_access_zero_mask (reg data speed : Z) (w : world) :
  mcp2517fd_cmd_read_mask reg 0 speed w = (- EINVAL, None, w) /\
  mcp2517fd_cmd_write_mask reg data 0 speed w = (- EINVAL, w).
Proof. split; reflexivity. Qed.

(** The byte range both masked accesses compute for a mask that is not 0
    runs from the byte of its lowest set bit to the byte of its highest. *)
Lemma mask_byte_range (mask : Z) :
  0 < mask < 2 ^ 32 ->
  exists lo hi,
    0 <= lo <= hi /\ hi < 32 /\
    Z.testbit mask lo = true /\ Z.testbit mask hi = true /\
    (forall j, 0 <= j < lo -> Z.testbit mask j = false) /\
    (forall j, hi < j -> Z.testbit mask j = false) /\
    mask_first_byte mask = lo / 8 /\ mask_last_byte mask = hi / 8.
Proof.
  intros H.
  destruct (ffs_spec mask H) as (lo & Hlo & Flo & Blo & Llo).
  destruct (fls_spec mask H) as (hi & Hhi & Fhi & Bhi & Lhi).
  exists lo, hi.
  assert (lo <= hi).
  { destruct (Z_lt_le_dec hi lo); [|lia].
    rewrite (Llo hi) in Bhi by lia. discriminate. }
  unfold mask_first_byte, mask_last_byte. rewrite Flo, Fhi.
  rewrite !Z.shiftr_div_pow2 by lia. change (2 ^ 3) with 8.
  repeat split; try lia; try assumption; f_equal; lia.
Qed.

(* ------------------------------------------------------------------ *)
(** ** Transmit scheduling *)

Lemma transmit_common_transported fifo obj len data w :
  transported w (snd (mcp2517fd_transmit_message_common fifo obj len data w)).
Proof.
  unfold mcp2517fd_transmit_message_common.
  match goal with |- context [mcp2517fd_write ?a ?b ?w] =>
    pose proof (write_transported a b w) as H1;
    destruct (mcp2517fd_write a b w) as [ret w1] end.
  cbn [snd] in H1. destruct (nz ret); [exact H1|].
  match goal with |- context [mcp2517fd_cmd_write_mask ?a ?b ?c ?d ?w] =>
    pose proof (cmd_write_mask_transported a b c d w) as H2;
    destruct (mcp2517fd_cmd_write_mask a b c d w) as [ret2 w2] end.
  cbn [snd] in H2.
  destruct (nz ret2); cbn [snd]; eapply transported_trans; eauto.
Qed.

Lemma transmit_fdmessage_transported fifo frame w :
  transported w (snd (mcp2517fd_transmit_fdmessage fifo frame w)).
Proof.
  unfold mcp2517fd_transmit_fdmessage.
  match goal with |- context [mcp2517fd_transmit_message_common ?a ?b ?c ?d ?w] =>
    pose proof (transmit_common_transported a b c d w) as H;
    destruct (mcp2517fd_transmit_message_common a b c d w) as [ret w1] end.
  exact H.
Qed.

Lemma transmit_message_transported fifo frame w :
  transported w (snd (mcp2517fd_transmit_message fifo frame w)).
Proof.
  unfold mcp2517fd_transmit_message.
  match goal with |- context [mcp2517fd_transmit_message_common ?a ?b ?c ?d ?w] =>
    pose proof (transmit_common_transported a b c d w) as H;
    destruct (mcp2517fd_transmit_message_common a b c d w) as [ret w1] end.
  exact H.
Qed.

(** A fifo below the pool: the work item logs and does nothing else. *)
Lemma tx_work_handler_reject (w : world) :
  tx_work_fifo (priv w) < tx_fifo_start (priv w) ->
  mcp2517fd_tx_work_handler w
  = call (k_dev_err "reached tx-fifo %i, which is not valid"
                    [tx_work_fifo (priv w)]) w.
Proof.
  intros H. unfold mcp2517fd_tx_work_handler.
  destruct (Z.ltb_spec (tx_work_fifo (priv w)) (tx_fifo_start (priv w))); [|lia].
  reflexivity.
Qed.

(** A fifo of the pool: it is marked pending and counted, and the buffer
    is taken out of [tx_work_skb], whatever the bus does afterwards. *)
Lemma tx_work_handler_priv (w : world) :
  tx_fifo_start (priv w) <= tx_work_fifo (priv w) ->
  let p := priv w in
  let fifo := tx_work_fifo p in
  priv (mcp2517fd_tx_work_handler w)
  = set_fifo_usage (upd (fifo_usage p) fifo (u64 (fifo_usage p fifo + 1)))
      (set_tx_pending_mask (u32 (Z.lor (tx_pending_mask p) (BIT fifo)))
         (set_tx_work_skb None p)) /\
  stats (mcp2517fd_tx_work_handler w) = stats w.
Proof.
  intros H p fifo. unfold mcp2517fd_tx_work_handler. fold p. fold fifo.
  destruct (Z.ltb_spec fifo (tx_fifo_start p)); [unfold fifo, p in *; lia|].
  set (w0 := set_priv (set_tx_work_skb None) w).
  set (w1 := if fifo >? tx_fifo_start p then call k_netif_start_queue w0 else w0).
  assert (P1 : priv w1 = set_tx_work_skb None p /\ stats w1 = stats w)
    by (unfold w1; destruct (fifo >? tx_fifo_start p); split; reflexivity).
  destruct P1 as [P1 S1].
  match goal with |- context [match tx_work_skb p with _ => _ end] =>
    set (w3 := set_priv (set_fifo_usage (upd (fifo_usage p) fifo (u64 (fifo_usage p fifo + 1))))
                 (set_priv (set_tx_pending_mask (u32 (Z.lor (tx_pending_mask p) (BIT fifo)))) w1))
  end.
  assert (P3 : priv w3
    = set_fifo_usage (upd (fifo_usage p) fifo (u64 (fifo_usage p fifo + 1)))
        (set_tx_pending_mask (u32 (Z.lor (tx_pending_mask p) (BIT fifo)))
           (set_tx_work_skb None p)) /\ stats w3 = stats w).
  { unfold w3. cbn [set_priv priv stats]. rewrite P1, S1. split; reflexivity. }
  destruct P3 as [P3 S3].
  destruct (tx_work_skb p) as [[frame|frame]|].
  - pose proof (transmit_message_transported fifo frame w3) as T.
    destruct (mcp2517fd_transmit_message fifo frame w3) as [[ret fr] w4].
    destruct T as (T1 & T2 & _). cbn [snd] in T1, T2.
    destruct (ret =? NETDEV_TX_OK); cbn [call priv stats]; split; congruence.
  - pose proof (transmit_fdmessage_transported fifo frame w3) as T.
    destruct (mcp2517fd_transmit_fdmessage fifo frame w3) as [[ret fr] w4].
    destruct T as (T1 & T2 & _). cbn [snd] in T1, T2.
    destruct (ret =? NETDEV_TX_OK); cbn [call priv stats]; split; congruence.
  - split; assumption.
Qed.

Lemma xmit_and_work_queued (skb : sk_buff) (w : world) :
  tx_work_skb (priv w) = None ->
  can_dropped_invalid_skb K skb = false ->
  xmit_and_work skb w
  = (NETDEV_TX_OK,
     mcp2517fd_tx_work_handler
       (call k_queue_work
          (set_priv (set_tx_work_skb (Some skb)) (call k_netif_stop_queue w)))).
Proof.
  intros H1 H2. unfold xmit_and_work, mcp2517fd_start_xmit. rewrite H1, H2.
  cbn [call set_priv trace]. rewrite <- app_assoc. cbn [app].
  rewrite skipn_length_app. reflexivity.
Qed.

Lemma tx_work_fifo_run (p : mcp2517fd_priv) (k : Z) :
  let s := tx_fifo_start p in
  let n := tx_fifos p in
  0 <= s -> s + n <= 32 -> 0 <= k <= n ->
  tx_pending_mask p = Z.shiftl (Z.ones k) (s + n - k) ->
  tx_work_fifo p = s + n - k - 1.
Proof.
  intros s n Hs Hn Hk E. unfold tx_work_fifo. rewrite E.
  destruct (Z.eq_dec k 0) as [->|Hk0].
  - cbn [Z.ones]. rewrite Z.shiftl_0_l. cbn [nz Z.eqb negb]. fold s n. lia.
  - rewrite run_nz, ffs_run by lia. lia.
Qed.

(** From [k] fifos pending at the top of the pool, the next submissions
    take the fifos below them one by one, going down. *)
Lemma submit_frames_descend (skbs : list sk_buff) :
  forall (k : Z) (w : world),
  let s := tx_fifo_start (priv w) in
  let n := tx_fifos (priv w) in
  0 <= s -> s + n <= 32 -> 0 <= k -> k + Z.of_nat (length skbs) <= n ->
  tx_pending_mask (priv w) = Z.shiftl (Z.ones k) (s + n - k) ->
  tx_work_skb (priv w) = None ->
  (forall skb, In skb skbs -> can_dropped_invalid_skb K skb = false) ->
  fst (submit_frames skbs w)
  = map (fun j => s + n - 1 - k - Z.of_nat j) (seq 0 (length skbs)).
Proof.
  induction skbs as [|skb rest IH]; intros k w s n Hs Hn Hk Hlen HP Hskb Hok;
    [reflexivity|].
  cbn [length] in Hlen. cbn [submit_frames].
  rewrite xmit_and_work_queued by (auto; apply Hok; now left).
  set (wq := call k_queue_work
               (set_priv (set_tx_work_skb (Some skb)) (call k_netif_stop_queue w))).
  assert (Fq : tx_work_fifo (priv wq) = s + n - k - 1).
  { apply (tx_work_fifo_run (priv wq) k);
      change (tx_fifo_start (priv wq)) with s;
      change (tx_fifos (priv wq)) with n; try lia.
    exact HP. }
  destruct (tx_work_handler_priv wq) as [Hp _].
  { rewrite Fq. change (tx_fifo_start (priv wq)) with s. lia. }
  cbv zeta in Hp. rewrite Fq in Hp.
  set (w1 := mcp2517fd_tx_work_handler wq) in *.
  assert (P1 : tx_pending_mask (priv w1) = Z.shiftl (Z.ones (k + 1)) (s + n - (k + 1))).
  { rewrite Hp.
    change (tx_pending_mask (priv wq)) with (tx_pending_mask (priv w)).
    cbn [tx_pending_mask set_fifo_usage set_tx_pending_mask].
    rewrite HP.
    replace (Z.shiftl (Z.ones (k + 1)) (s + n - (k + 1)))
      with (Z.shiftl (Z.ones (k + 1)) (s + n - k - 1)) by (f_equal; lia).
    rewrite <- (run_grow k (s + n - k - 1)) by lia.
    do 3 f_equal. lia. }
  assert (S1 : tx_fifo_start (priv w1) = s /\ tx_fifos (priv w1) = n
               /\ tx_work_skb (priv w1) = None)
    by (rewrite Hp; repeat split; reflexivity).
  destruct S1 as (S1 & N1 & K1).
  specialize (IH (k + 1) w1). cbv zeta in IH. rewrite S1, N1 in IH.
  specialize (IH Hs Hn ltac:(lia) ltac:(lia) P1 K1
                 (fun skb0 H => Hok skb0 (or_intror H))).
  destruct (submit_frames rest w1) as [fifos w2]. cbn [fst] in IH |- *.
  rewrite P1, HP.
  replace (Z.shiftl (Z.ones k) (s + n - k))
    with (Z.shiftl (Z.ones k) (s + n - (k + 1) + 1)) by (f_equal; lia).
  rewrite run_step_lxor by lia.
  assert (NZ : nz (BIT (s + n - (k + 1))) = true).
  { rewrite BIT_pow2 by lia. apply nz_true.
    pose proof (Z.pow_pos_nonneg 2 (s + n - (k + 1))). lia. }
  rewrite NZ, ffs_BIT by lia. rewrite IH.
  cbn [length seq map app]. f_equal; [lia|].
  rewrite <- seq_shift, map_map. apply map_ext. intros j. lia.
Qed.

(** C4 (as amended): transmit slot selection. With nothing pending the
    work item chooses the highest fifo of the pool; otherwise the fifo
    just below the lowest pending one. So submissions with no completion
    retired in between get the fifos of the pool from the highest
    downwards. With fifos pending, a submission gets a fifo only if the
    first fifo of the pool is free, and then the one just below the lowest
    fifo still pending; with the first fifo of the pool pending the index
    falls below the pool, the work item logs that and assigns nothing. *)
Theorem tx_slot_selection (w : world) (skbs : list sk_buff) :
  let p := priv w in
  let s := tx_fifo_start p in
  let n := tx_fifos p in
  let pending := tx_pending_mask p in
  0 <= s -> s + n <= 32 -> 0 <= pending < 2 ^ 32 ->
  (pending = 0 -> tx_work_fifo p = s + n - 1) /\
  (pending <> 0 ->
   Z.testbit pending (tx_work_fifo p + 1) = true /\
   forall j, 0 <= j <= tx_work_fifo p -> Z.testbit pending j = false) /\
  (pending = 0 -> tx_work_skb p = None -> Z.of_nat (length skbs) <= n ->
   (forall skb, In skb skbs -> can_dropped_invalid_skb K skb = false) ->
   fst (submit_frames skbs w)
   = map (fun j => s + n - 1 - Z.of_nat j) (seq 0 (length skbs))) /\
  (pending <> 0 ->
   (forall j, Z.testbit pending j = true -> s <= j < s + n) ->
   (Z.testbit pending s = true ->
    mcp2517fd_tx_work_handler w
    = call (k_dev_err "reached tx-fifo %i, which is not valid"
                      [tx_work_fifo p]) w) /\
   (Z.testbit pending s = false ->
    s <= tx_work_fifo p < s + n - 1 /\
    tx_pending_mask (priv (mcp2517fd_tx_work_handler w))
    = u32 (Z.lor pending (BIT (tx_work_fifo p))))).
Proof.
  intros p s n pending Hs Hn Hp.
  assert (Choice : pending <> 0 ->
    exists m, 0 <= m < 32 /\ tx_work_fifo p = m - 1 /\
              Z.testbit pending m = true /\
              forall j, 0 <= j < m -> Z.testbit pending j = false).
  { intros Hne. destruct (ffs_spec pending) as (m & Hm & Hf & Hb & Hlow); [lia|].
    exists m. repeat split; try lia; try assumption.
    unfold tx_work_fifo. fold pending.
    assert (E : nz pending = true) by now apply nz_true.
    rewrite E, Hf. lia. }
  split; [|split; [|split]].
  - intros E. unfold tx_work_fifo. fold pending. rewrite E. reflexivity.
  - intros Hne. destruct (Choice Hne) as (m & Hm & Hf & Hb & Hlow).
    rewrite Hf. replace (m - 1 + 1) with m by lia. split; [exact Hb|].
    intros j Hj. apply Hlow. lia.
  - intros E Hskb Hlen Hok.
    rewrite (submit_frames_descend skbs 0 w); fold p s n; try lia; auto.
    + apply map_ext. intros j. lia.
    + fold pending. rewrite E. cbn [Z.ones]. now rewrite Z.shiftl_0_l.
  - intros Hne Hpool. destruct (Choice Hne) as (m & Hm & Hf & Hb & Hlow).
    pose proof (Hpool m Hb) as Hmp.
    split; intros Hbs.
    + apply tx_work_handler_reject. fold p s. rewrite Hf.
      destruct (Z_lt_le_dec s m) as [Hlt|]; [|lia].
      rewrite (Hlow s) in Hbs by lia. discriminate.
    + assert (m <> s) by (intros ->; congruence).
      split; [lia|].
      destruct (tx_work_handler_priv w) as [Hpr _]; [fold p s; lia|].
      cbv zeta in Hpr. rewrite Hpr. reflexivity.
Qed.

(** A transmit fifo index below the pool, in general: the work item logs
    the defect and returns at once. It sends nothing on the bus, counts
    nothing, and leaves the whole driver state as it found it, the frame
    in [tx_work_skb] included: the return comes before the slot is
    cleared. *)
Lemma scheduling_defect (w : world) :
  tx_work_fifo (priv w) < tx_fifo_start (priv w) ->
  let w' := mcp2517fd_tx_work_handler w in
  calls_since w w'
  = [k_dev_err "reached tx-fifo %i, which is not valid" [tx_work_fifo (priv w)]] /\
  spi_messages (calls_since w w') = [] /\
  priv w' = priv w /\
  stats w' = stats w.
Proof.
  intros H w'. unfold w'. rewrite tx_work_handler_reject by exact H.
  unfold calls_since. cbn [call trace priv stats].
  rewrite skipn_length_app. repeat split.
Qed.

(* ------------------------------------------------------------------ *)
(** ** Return codes and what the interrupt thread keeps *)

Lemma errno_nonpos (r : option positive) : errno r <= 0.
Proof. destruct r; cbn; lia. Qed.

Lemma sync_transfer_ret xfer speed w :
  fst (fst (mcp2517fd_sync_transfer xfer speed w)) <= 0.
Proof.
  unfold mcp2517fd_sync_transfer.
  destruct (spi_sync_transfer K _ _) as [r rx]. apply errno_nonpos.
Qed.

Lemma write_then_write_ret tx tx2 speed w :
  fst (mcp2517fd_write_then_write tx tx2 speed w) <= 0.
Proof.
  unfold mcp2517fd_write_then_write.
  destruct (alloc_ok K (trace w) kmalloc_txrx); cbn [negb fst].
  - match goal with |- context [mcp2517fd_sync_transfer ?x ?s ?w] =>
      pose proof (sync_transfer_ret x s w) as H;
      destruct (mcp2517fd_sync_transfer x s w) as [[ret rx] w1] end.
    exact H.
  - unfold ENOMEM. lia.
Qed.

Lemma cmd_write_mask_ret reg data mask speed w :
  fst (mcp2517fd_cmd_write_mask reg data mask speed w) <= 0.
Proof.
  unfold mcp2517fd_cmd_write_mask. destruct (nz mask); cbn [negb].
  - apply write_then_write_ret.
  - cbn [fst]. unfold EINVAL. lia.
Qed.

Lemma cmd_readn_ret reg n speed w :
  fst (fst (mcp2517fd_cmd_readn reg n speed w)) <= 0.
Proof.
  unfold mcp2517fd_cmd_readn, mcp2517fd_write_then_read.
  destruct (SPI_MASTER_HALF_DUPLEX K).
  - match goal with |- context [mcp2517fd_sync_transfer ?x ?s ?w] =>
      pose proof (sync_transfer_ret x s w) as H;
      destruct (mcp2517fd_sync_transfer x s w) as [[ret rx] w1] end.
    exact H.
  - destruct (alloc_ok K (trace w) kmalloc_txrx); cbn [negb fst].
    + match goal with |- context [mcp2517fd_sync_transfer ?x ?s ?w] =>
        pose proof (sync_transfer_ret x s w) as H;
        destruct (mcp2517fd_sync_transfer x s w) as [[ret rx] w1] end.
      exact H.
    + unfold ENOMEM. lia.
Qed.

Lemma ist_kept_refl (w : world) : ist_kept w w.
Proof. repeat split. Qed.

Lemma ist_kept_trans (w1 w2 w3 : world) :
  ist_kept w1 w2 -> ist_kept w2 w3 -> ist_kept w1 w3.
Proof. unfold ist_kept. intuition congruence. Qed.

Lemma ist_kept_priv (w w' : world) : priv w' = priv w -> ist_kept w w'.
Proof. intros E. unfold ist_kept. rewrite E. repeat split. Qed.

Lemma transported_kept (w w' : world) : transported w w' -> ist_kept w w'.
Proof. intros (E & _). now apply ist_kept_priv. Qed.

Lemma ist_kept_priv_fifo_data (w : world) (d : Z -> Z) :
  ist_kept w (set_priv (set_fifo_data d) w).
Proof. repeat split. Qed.

Lemma handle_rxfifo_kept (fifo : Z) (w : world) :
  fst (mcp2517fd_can_ist_handle_rxfifo fifo w) <= 0 /\
  ist_kept w (snd (mcp2517fd_can_ist_handle_rxfifo fifo w)).
Proof.
  unfold mcp2517fd_can_ist_handle_rxfifo.
  match goal with |- context [mcp2517fd_cmd_write_mask ?a ?b ?c ?d ?w0] =>
    pose proof (cmd_write_mask_ret a b c d w0) as Hr;
    pose proof (cmd_write_mask_transported a b c d w0) as Ht;
    destruct (mcp2517fd_cmd_write_mask a b c d w0) as [ret w1] end.
  cbn [fst snd] in Hr, Ht.
  assert (K1 : ist_kept w w1).
  { destruct Ht as (E & _). unfold ist_kept. rewrite E. repeat split. }
  destruct (nz ret); [split; assumption|].
  match goal with |- context [if ?c then _ else _] => destruct c end.
  - unfold mcp2517fd_can_transform_rx_fd.
    destruct (alloc_ok K (trace w1) alloc_canfd_skb); cbn [negb fst snd];
      (split; [unfold ENOMEM; lia|exact K1]).
  - unfold mcp2517fd_can_transform_rx_normal.
    destruct (alloc_ok K (trace w1) alloc_can_skb); cbn [negb fst snd];
      (split; [unfold ENOMEM; lia|exact K1]).
Qed.

Lemma for_loop_kept (body : Z -> world -> Z * world) :
  (forall i w, fst (body i w) <= 0 /\ ist_kept w (snd (body i w))) ->
  forall (n : nat) (i : Z) (w : world),
    fst (for_loop n i body w) <= 0 /\ ist_kept w (snd (for_loop n i body w)).
Proof.
  intros Hb. induction n as [|n IH]; intros i w.
  - cbn. split; [lia|apply ist_kept_refl].
  - cbn [for_loop]. destruct (Hb i w) as [H1 H2].
    destruct (body i w) as [ret w1]. cbn [fst snd] in H1, H2.
    destruct (nz ret); [split; assumption|].
    destruct (IH (i + 1) w1) as [H3 H4].
    split; [exact H3|]. eapply ist_kept_trans; eassumption.
Qed.

Lemma rxif_loop_kept (fuel : nat) :
  forall (slot i m : Z) (w : world) (ret : Z) (w' : world),
  rxif_loop fuel slot i m w = Some (ret, w') -> ret <= 0 /\ ist_kept w w'.
Proof.
  induction fuel as [|fuel IH]; intros slot i m w ret w'; cbn [rxif_loop].
  - destruct (negb _); [|discriminate].
    intros E. inversion E; subst. split; [lia|apply ist_kept_refl].
  - destruct (negb _).
    { intros E. inversion E; subst. split; [lia|apply ist_kept_refl]. }
    destruct (nz (Z.land m (BIT i))); [|apply IH].
    destruct (rxif_run_end _ _ i m) as [j m1].
    match goal with |- context [mcp2517fd_cmd_readn ?a ?b ?c ?w0] =>
      pose proof (cmd_readn_ret a b c w0) as Hr;
      pose proof (cmd_readn_transported a b c w0) as Ht;
      destruct (mcp2517fd_cmd_readn a b c w0) as [[ret1 rx] w1] end.
    cbn [fst snd] in Hr, Ht. apply transported_kept in Ht.
    match goal with |- context [if nz ret1 then Some (ret1, ?w1') else _] =>
      set (w1b := w1') end.
    assert (K1 : ist_kept w w1b).
    { unfold w1b. destruct rx; [|exact Ht].
      eapply ist_kept_trans; [exact Ht|]. apply ist_kept_priv_fifo_data. }
    destruct (nz ret1).
    { intros E. inversion E; subst. split; assumption. }
    destruct (for_loop_kept _ handle_rxfifo_kept (Z.to_nat (j - i)) i w1b) as [H2 K2].
    destruct (for_loop _ i _ w1b) as [ret2 w2]. cbn [fst snd] in H2, K2.
    destruct (nz ret2).
    { intros E. inversion E; subst. split; [assumption|].
      eapply ist_kept_trans; eassumption. }
    intros E. destruct (IH _ _ _ _ _ _ E) as [H3 K3].
    split; [exact H3|].
    eapply ist_kept_trans; [|exact K3]. eapply ist_kept_trans; eassumption.
Qed.

Lemma rxif_run_end_from (n : nat) :
  forall (end_ j m : Z), j <= fst (rxif_run_end n end_ j m).
Proof.
  induction n as [|n IH]; intros end_ j m; cbn [rxif_run_end]; [cbn; lia|].
  destruct ((j <? end_) && nz (Z.land m (BIT j))); [|cbn; lia].
  specialize (IH end_ (j + 1) (Z.land m (Z.lnot (BIT j)))). lia.
Qed.

(** The receive scan ends within as many iterations as fifos are left. *)
Lemma rxif_loop_total (fuel : nat) :
  forall (slot i m : Z) (w : world),
  rx_fifo_start (priv w) + rx_fifos (priv w) - i <= Z.of_nat fuel ->
  rxif_loop fuel slot i m w <> None.
Proof.
  induction fuel as [|fuel IH]; intros slot i m w Hf; cbn [rxif_loop].
  - destruct (Z.ltb_spec i (rx_fifo_start (priv w) + rx_fifos (priv w)));
      [lia|discriminate].
  - destruct (Z.ltb_spec i (rx_fifo_start (priv w) + rx_fifos (priv w)));
      [|discriminate].
    cbn [negb].
    destruct (nz (Z.land m (BIT i))) eqn:Eb; [|apply IH; lia].
    pose proof (rxif_run_end_from
                  (Z.to_nat (rx_fifo_start (priv w) + rx_fifos (priv w) - i))
                  (rx_fifo_start (priv w) + rx_fifos (priv w)) i m) as Hj.
    destruct (rxif_run_end _ _ i m) as [j m1]. cbn [fst] in Hj.
    match goal with |- context [mcp2517fd_cmd_readn ?a ?b ?c ?w0] =>
      pose proof (cmd_readn_transported a b c w0) as Ht;
      destruct (mcp2517fd_cmd_readn a b c w0) as [[ret1 rx] w1] end.
    cbn [snd] in Ht. apply transported_kept in Ht.
    match goal with |- context [if nz ret1 then Some (ret1, ?w1') else _] =>
      set (w1b := w1') end.
    assert (K1 : ist_kept w w1b).
    { unfold w1b. destruct rx; [|exact Ht].
      eapply ist_kept_trans; [exact Ht|]. apply ist_kept_priv_fifo_data. }
    destruct (nz ret1); [discriminate|].
    destruct (for_loop_kept _ handle_rxfifo_kept (Z.to_nat (j - i)) i w1b) as [_ K2].
    destruct (for_loop _ i _ w1b) as [ret2 w2]. cbn [snd] in K2.
    destruct (nz ret2); [discriminate|].
    apply IH.
    destruct K1 as (_ & A1 & A2). destruct K2 as (_ & B1 & B2).
    rewrite B1, B2, A1, A2. lia.
Qed.

Lemma handle_rxif_kept (w : world) :
  exists ret w', mcp2517fd_can_ist_handle_rxif w = Some (ret, w') /\
                 ret <= 0 /\ ist_kept w w'.
Proof.
  unfold mcp2517fd_can_ist_handle_rxif.
  destruct (nz (rxif (status (priv w)))); cbn [negb].
  - match goal with |- context [rxif_loop ?f ?s ?i ?m w] =>
      pose proof (rxif_loop_total f s i m w) as Ht;
      pose proof (rxif_loop_kept f s i m w) as Hk;
      destruct (rxif_loop f s i m w) as [[ret w']|] end.
    + exists ret, w'. split; [reflexivity|]. now apply Hk.
    + exfalso. apply Ht; [|reflexivity].
      destruct (Z_lt_le_dec (rx_fifos (priv w)) 0); lia.
  - exists 0, w. split; [reflexivity|]. split; [lia|apply ist_kept_refl].
Qed.

Lemma tefif_loop_kept (n : nat) :
  forall tef mask w, ist_kept w (snd (tefif_loop n tef mask w)).
Proof.
  induction n as [|n IH]; intros tef mask w; cbn [tefif_loop].
  - apply ist_kept_refl.
  - match goal with |- context [mcp2517fd_cmd_readn ?a ?b ?c ?w0] =>
      pose proof (cmd_readn_transported a b c w0) as Ht;
      destruct (mcp2517fd_cmd_readn a b c w0) as [[ret1 rx] w1] end.
    cbn [snd] in Ht.
    match goal with |- context [mcp2517fd_cmd_write_mask ?a ?b ?c ?d ?w0] =>
      pose proof (cmd_write_mask_transported a b c d w0) as Ht2;
      destruct (mcp2517fd_cmd_write_mask a b c d w0) as [ret2 w2] end.
    cbn [snd] in Ht2.
    eapply ist_kept_trans; [|apply IH].
    destruct Ht as (E1 & _). destruct Ht2 as (E2 & _).
    unfold ist_kept. cbn [call bump set_stats set_priv priv].
    rewrite E2, E1. repeat split.
Qed.

Lemma handle_tefif_kept (w : world) :
  fst (mcp2517fd_can_ist_handle_tefif w) = 0 /\
  ist_kept w (snd (mcp2517fd_can_ist_handle_tefif w)).
Proof.
  unfold mcp2517fd_can_ist_handle_tefif.
  match goal with |- context [tefif_loop ?n ?t ?m w] =>
    pose proof (tefif_loop_kept n t m w) as Hk;
    destruct (tefif_loop n t m w) as [mask w1] end.
  cbn [snd fst] in *. split; [reflexivity|].
  eapply ist_kept_trans; [exact Hk|]. repeat split.
Qed.




(* ------------------------------------------------------------------ *)
(** ** Completion retirement *)

Lemma tefif_step_priv (tef : mcp2517fd_obj_tef) (mask : Z) (w : world) (n : nat) :
  exists tef' mask' w1,
    tefif_loop (S n) tef mask w = tefif_loop n tef' mask' w1 /\
    priv w1
    = set_tef_address
        (if u32 (tef_address (priv w) + sizeof_obj_tef) >? tef_address_end (priv w)
         then tef_address_start (priv w)
         else u32 (tef_address (priv w) + sizeof_obj_tef))
        (priv w).
Proof.
  cbn [tefif_loop].
  match goal with |- context [mcp2517fd_cmd_readn ?a ?b ?c ?w0] =>
    pose proof (cmd_readn_transported a b c w0) as Ht;
    destruct (mcp2517fd_cmd_readn a b c w0) as [[ret1 rx] w1] end.
  cbn [snd] in Ht.
  match goal with |- context [mcp2517fd_cmd_write_mask ?a ?b ?c ?d ?w0] =>
    pose proof (cmd_write_mask_transported a b c d w0) as Ht2;
    destruct (mcp2517fd_cmd_write_mask a b c d w0) as [ret2 w2] end.
  cbn [snd] in Ht2.
  destruct Ht as (E1 & _). destruct Ht2 as (E2 & _).
  eexists. eexists. eexists. split; [reflexivity|].
  cbn [call bump set_stats set_priv priv]. rewrite E2, E1. reflexivity.
Qed.

(** The completion cursor moves through a ring of as many objects as lie
    between [tef_address_start] and [tef_address_end]: from the object
    [j] of a ring of [slots] objects, [n] completions take it to the
    object [(j + n) mod slots]. *)
Lemma tefif_loop_cursor (n : nat) :
  forall (tef : mcp2517fd_obj_tef) (mask : Z) (w : world) (slots j : Z),
  let p := priv w in
  0 <= tef_address_start p ->
  tef_address_end p = tef_address_start p + slots * sizeof_obj_tef - 1 ->
  tef_address_end p + sizeof_obj_tef < 2 ^ 32 ->
  0 <= j < slots ->
  tef_address p = tef_address_start p + j * sizeof_obj_tef ->
  tef_address (priv (snd (tefif_loop n tef mask w)))
  = tef_address_start p + ((j + Z.of_nat n) mod slots) * sizeof_obj_tef.
Proof.
  induction n as [|n IH]; intros tef mask w slots j p Hs He Hb Hj Ha.
  - cbn [tefif_loop snd]. fold p. rewrite Ha, Z.add_0_r, Z.mod_small by lia.
    reflexivity.
  - destruct (tefif_step_priv tef mask w n) as (tef' & mask' & w1 & E & P1).
    rewrite E. fold p in P1. unfold sizeof_obj_tef in *.
    assert (A : (if u32 (tef_address p + 12) >? tef_address_end p
                 then tef_address_start p else u32 (tef_address p + 12))
                = tef_address_start p + ((j + 1) mod slots) * 12).
    { unfold u32. rewrite Z.mod_small by lia.
      destruct (Z.gtb_spec (tef_address p + 12) (tef_address_end p)).
      - assert (j + 1 = slots) by lia.
        replace (j + 1) with slots by lia. rewrite Z.mod_same by lia. lia.
      - rewrite Z.mod_small by lia. lia. }
    rewrite A in P1.
    assert (Q1 : tef_address_start (priv w1) = tef_address_start p)
      by (rewrite P1; reflexivity).
    assert (Q2 : tef_address_end (priv w1) = tef_address_end p)
      by (rewrite P1; reflexivity).
    assert (Q3 : tef_address (priv w1)
                 = tef_address_start p + ((j + 1) mod slots) * 12)
      by (rewrite P1; reflexivity).
    pose proof (IH tef' mask' w1 slots ((j + 1) mod slots)) as C.
    cbv zeta in C. rewrite Q1, Q2, Q3 in C.
    rewrite C; try assumption; try reflexivity.
    + rewrite Zplus_mod_idemp_l.
      replace (j + Z.of_nat (S n)) with (j + 1 + Z.of_nat n) by lia.
      reflexivity.
    + apply Z.mod_pos_bound. lia.
Qed.

(** With the end address as [mcp2517fd_setup_fifo] computes it the ring of
    the cursor has one object more than there are transmit fifos. *)
Lemma tefif_cursor_ring (w : world) (j : Z) :
  let p := priv w in
  0 <= tef_address_start p -> 0 <= tx_fifos p ->
  tef_address_end p
  = tef_address_start p + (tx_fifos p + 1) * sizeof_obj_tef - 1 ->
  tef_address_end p + sizeof_obj_tef < 2 ^ 32 ->
  0 <= j <= tx_fifos p ->
  tef_address p = tef_address_start p + j * sizeof_obj_tef ->
  0 <= tefif_count p ->
  tef_address (priv (snd (mcp2517fd_can_ist_handle_tefif w)))
  = tef_address_start p
    + ((j + tefif_count p) mod (tx_fifos p + 1)) * sizeof_obj_tef.
Proof.
  intros p Hs Hn He Hb Hj Ha Hc. unfold mcp2517fd_can_ist_handle_tefif. fold p.
  pose proof (tefif_loop_cursor (Z.to_nat (tefif_count p))
                (tef_of_bytes (auto_storage K (trace w))) 0 w
                (tx_fifos p + 1) j) as C.
  cbv zeta in C. fold p in C.
  specialize (C Hs He Hb ltac:(lia) Ha).
  destruct (tefif_loop _ _ 0 w) as [mask w1]. cbn [snd] in C |- *.
  cbn [set_priv priv]. rewrite Z2Nat.id in C by lia.
  rewrite <- C. reflexivity.
Qed.

Lemma echo_released_app (a b : list kcall) :
  echo_released (a ++ b) = echo_released a ++ echo_released b.
Proof. apply flat_map_app. Qed.

Lemma echo_released_bus (cs : list kcall) :
  Forall bus_call cs -> echo_released cs = [].
Proof.
  induction 1 as [|c cs Hc _ IH]; [reflexivity|].
  destruct c; try contradiction; exact IH.
Qed.

Lemma tefif_step (tef : mcp2517fd_obj_tef) (mask : Z) (w : world) (n : nat) :
  exists tef' fifo w1 cs,
    tefif_loop (S n) tef mask w
    = tefif_loop n tef' (u32 (Z.lor mask (BIT fifo))) w1 /\
    tx_pending_mask (priv w1) = tx_pending_mask (priv w) /\
    trace w1 = trace w ++ cs /\
    echo_released cs = [fifo].
Proof.
  cbn [tefif_loop].
  match goal with |- context [mcp2517fd_cmd_readn ?a ?b ?c ?w0] =>
    pose proof (cmd_readn_transported a b c w0) as Ht;
    destruct (mcp2517fd_cmd_readn a b c w0) as [[ret1 rx] w1] end.
  cbn [snd] in Ht.
  match goal with |- context [mcp2517fd_cmd_write_mask ?a ?b ?c ?d ?w0] =>
    pose proof (cmd_write_mask_transported a b c d w0) as Ht2;
    destruct (mcp2517fd_cmd_write_mask a b c d w0) as [ret2 w2] end.
  cbn [snd] in Ht2.
  destruct Ht as (E1 & _ & _ & c1 & T1 & F1).
  destruct Ht2 as (E2 & _ & _ & c2 & T2 & F2).
  eexists. eexists. eexists.
  exists (c1 ++ c2 ++ [k_can_get_echo_skb
                         (Z.shiftr (Z.land (tef_flags
                            match rx with
                            | Some b => tef_of_bytes (at_list b)
                            | None => tef
                            end) CAN_OBJ_FLAGS_SEQ_MASK) CAN_OBJ_FLAGS_SEQ_SHIFT);
                       k_can_led_event CAN_LED_EVENT_TX]).
  split; [reflexivity|]. split; [|split].
  - cbn [call bump set_stats set_priv priv]. rewrite E2, E1. reflexivity.
  - cbn [call bump set_stats set_priv trace]. rewrite T2, T1.
    rewrite <- !app_assoc. reflexivity.
  - rewrite !echo_released_app, (echo_released_bus c1 F1),
      (echo_released_bus c2 F2). reflexivity.
Qed.

Lemma tefif_loop_tags (n : nat) :
  forall (tef : mcp2517fd_obj_tef) (mask : Z) (w : world),
  exists cs,
    trace (snd (tefif_loop n tef mask w)) = trace w ++ cs /\
    length (echo_released cs) = n /\
    fst (tefif_loop n tef mask w) = tags_mask (echo_released cs) mask /\
    tx_pending_mask (priv (snd (tefif_loop n tef mask w)))
    = tx_pending_mask (priv w).
Proof.
  induction n as [|n IH]; intros tef mask w.
  - exists []. cbn [tefif_loop fst snd]. rewrite app_nil_r. repeat split.
  - destruct (tefif_step tef mask w n) as (tef' & fifo & w1 & cs1 & E & P1 & T1 & R1).
    rewrite E.
    destruct (IH tef' (u32 (Z.lor mask (BIT fifo))) w1) as (cs2 & T2 & L2 & M2 & P2).
    exists (cs1 ++ cs2). split; [|split; [|split]].
    + rewrite T2, T1, app_assoc. reflexivity.
    + rewrite echo_released_app, length_app, R1, L2. reflexivity.
    + rewrite M2, echo_released_app, R1. reflexivity.
    + rewrite P2. exact P1.
Qed.

(** One pass of the completion handler retires as many completion objects
    as the pending fifos outnumber the fifos that still request to send
    (none if they do not), and clears from the Pending-Set the bits of the
    sequence tags it has read. *)
Lemma handle_tefif_retires (w : world) :
  let w' := snd (mcp2517fd_can_ist_handle_tefif w) in
  let tags := echo_released (calls_since w w') in
  Z.of_nat (length tags) = Z.max 0 (tefif_count (priv w)) /\
  tx_pending_mask (priv w')
  = Z.land (tx_pending_mask (priv w)) (Z.lnot (tags_mask tags 0)).
Proof.
  unfold mcp2517fd_can_ist_handle_tefif.
  destruct (tefif_loop_tags (Z.to_nat (tefif_count (priv w)))
              (tef_of_bytes (auto_storage K (trace w))) 0 w)
    as (cs & T & L & M & P).
  destruct (tefif_loop _ _ 0 w) as [mask w1]. cbn [fst snd] in *.
  unfold calls_since. cbn [set_priv trace priv tx_pending_mask set_tx_pending_mask].
  rewrite T, skipn_length_app, L, P, M. split; [lia|reflexivity].
Qed.

(* ------------------------------------------------------------------ *)
(** ** Interrupt dispatch *)




(* ------------------------------------------------------------------ *)
(** ** When nothing fails *)

Lemma zrange_snoc (n : nat) (i : Z) :
  zrange i (S n) = zrange i n ++ [i + Z.of_nat n].
Proof.
  revert i. induction n as [|n IH]; intros i.
  - cbn. now rewrite Z.add_0_r.
  - change (zrange i (S (S n))) with (i :: zrange (i + 1) (S n)).
    rewrite IH. cbn [zrange app]. do 3 f_equal. lia.
Qed.

Lemma in_zrange (n : nat) (i j : Z) :
  In j (zrange i n) <-> i <= j < i + Z.of_nat n.
Proof.
  revert i. induction n as [|n IH]; intros i; cbn [zrange In].
  - lia.
  - rewrite IH. lia.
Qed.

Lemma hweight_aux_count (n : nat) (x : Z) :
  hweight_aux n x = Z.of_nat (length (filter (Z.testbit x) (zrange 0 n))).
Proof.
  induction n as [|n IH]; [reflexivity|].
  rewrite zrange_snoc, filter_app, length_app. cbn [hweight_aux filter].
  rewrite IH, Z.add_0_l. destruct (Z.testbit x (Z.of_nat n)); cbn [length Z.b2z]; lia.
Qed.

Lemma hweight_fifos_of (mask : Z) :
  hweight_long mask = Z.of_nat (length (fifos_of mask)).
Proof. apply hweight_aux_count. Qed.

Lemma bumped_step (m x : Z) (n : nat) :
  0 < m ->
  bumped (fun v => v mod m) ((x + 1) mod m) n
  = bumped (fun v => v mod m) x (S n).
Proof.
  intros Hm. destruct n as [|n]; cbn [bumped].
  - f_equal.
  - rewrite Zplus_mod_idemp_l. f_equal. lia.
Qed.

Lemma calls_call (c : kcall) (cs : list kcall) (w : world) :
  call c (calls cs w) = calls (cs ++ [c]) w.
Proof. unfold call, calls. cbn. now rewrite app_assoc. Qed.

Lemma calls_calls (cs1 cs2 : list kcall) (w : world) :
  calls cs2 (calls cs1 w) = calls (cs1 ++ cs2) w.
Proof. unfold calls. cbn. now rewrite app_assoc. Qed.

Lemma call_as_calls (c : kcall) (w : world) : call c w = calls [c] w.
Proof. reflexivity. Qed.

Lemma calls_since_calls (cs : list kcall) (w : world) :
  calls_since w (calls cs w) = cs.
Proof. unfold calls_since. cbn. apply skipn_length_app. Qed.

Section NoFailure.

Hypothesis spi_ok : forall t x, fst (spi_sync_transfer K t x) = None.
Hypothesis allocs_ok : forall t a, alloc_ok K t a = true.

Lemma sync_transfer_ok xfer speed w :
  exists rx,
    mcp2517fd_sync_transfer xfer speed w
    = (0, rx,
       call (k_spi_sync_transfer
               (map (fun x => {| tx_buf := tx_buf x; rx_buf := rx_buf x;
                                 xfer_len := xfer_len x; speed_hz := speed |})
                    xfer)) w).
Proof.
  unfold mcp2517fd_sync_transfer.
  match goal with |- context [spi_sync_transfer K ?t ?x] =>
    pose proof (spi_ok t x) as H; destruct (spi_sync_transfer K t x) as [r rx] end.
  cbn [fst] in H. subst r. exists rx. reflexivity.
Qed.

Lemma cmd_write_mask_ok reg data mask speed w :
  mask <> 0 ->
  mcp2517fd_cmd_write_mask reg data mask speed w
  = (0, calls (write_mask_calls reg data mask speed) w).
Proof.
  intros H. unfold mcp2517fd_cmd_write_mask.
  assert (E : nz mask = true) by now apply nz_true.
  rewrite E. cbn [negb]. unfold mcp2517fd_write_then_write.
  rewrite allocs_ok. cbn [negb].
  match goal with |- context [mcp2517fd_sync_transfer ?x ?s ?w] =>
    destruct (sync_transfer_ok x s w) as [rx Hs]; rewrite Hs end.
  rewrite !call_as_calls, calls_calls. reflexivity.
Qed.

Lemma cmd_readn_ok reg n speed w :
  exists rx,
    mcp2517fd_cmd_readn reg n speed w
    = (0, Some rx,
       calls ((if SPI_MASTER_HALF_DUPLEX K then [] else [k_alloc kmalloc_txrx])
              ++ [k_spi_sync_transfer (readn_message reg n speed)]) w).
Proof.
  unfold mcp2517fd_cmd_readn, mcp2517fd_write_then_read, readn_message.
  destruct (SPI_MASTER_HALF_DUPLEX K).
  - match goal with |- context [mcp2517fd_sync_transfer ?x ?s ?w] =>
      destruct (sync_transfer_ok x s w) as [rx Hs]; rewrite Hs end.
    eexists. reflexivity.
  - rewrite allocs_ok. cbn [negb].
    match goal with |- context [mcp2517fd_sync_transfer ?x ?s ?w] =>
      destruct (sync_transfer_ok x s w) as [rx Hs]; rewrite Hs end.
    eexists. cbn [nz Z.eqb negb].
    rewrite !call_as_calls, calls_calls. reflexivity.
Qed.

Lemma bumped_ulong (x : Z) (n : nat) :
  bumped ulong (ulong (x + 1)) n = bumped ulong x (S n).
Proof. apply (bumped_step (2 ^ BITS_PER_LONG)). reflexivity. Qed.

Lemma bumped_u64 (x : Z) (n : nat) :
  bumped u64 (u64 (x + 1)) n = bumped u64 x (S n).
Proof. apply (bumped_step (2 ^ 64)). reflexivity. Qed.

Lemma lor_twice (a b : Z) : Z.lor (Z.lor a b) b = Z.lor a b.
Proof. now rewrite <- Z.lor_assoc, Z.lor_diag. Qed.

(** The loop of the overflow handler: one masked write and one count for
    each overflowed fifo, in rising order. *)
Lemma rxovif_loop_ok (n : nat) :
  forall (i mask canid data1 : Z) (w : world),
  0 <= i ->
  let l := filter (Z.testbit mask) (zrange i n) in
  exists w',
    rxovif_loop n i mask canid data1 w
    = (0,
       (match l with [] => canid | _ => Z.lor canid CAN_ERR_CRTL end,
        match l with [] => data1 | _ => Z.lor data1 CAN_ERR_CRTL_RX_OVERFLOW end),
       w') /\
    trace w' = trace w ++
      flat_map (fun j => write_mask_calls (CAN_FIFOSTA j) 0 CAN_FIFOSTA_RXOVIF
                                          (spi_speed_hz (priv w))) l /\
    rx_over_errors (stats w') = bumped ulong (rx_over_errors (stats w)) (length l) /\
    rx_errors (stats w') = bumped ulong (rx_errors (stats w)) (length l) /\
    rx_overflow (priv w') = bumped u64 (rx_overflow (priv w)) (length l).
Proof.
  induction n as [|n IH]; intros i mask canid data1 w Hi l.
  - exists w. cbn. rewrite app_nil_r. repeat split.
  - unfold l. cbn [zrange filter rxovif_loop].
    rewrite land_BIT_nz by lia.
    destruct (Z.testbit mask i) eqn:E.
    + rewrite cmd_write_mask_ok by discriminate. cbn [nz Z.eqb negb].
      match goal with |- context [rxovif_loop n ?i1 mask ?c ?d ?w1] =>
        destruct (IH i1 mask c d w1 ltac:(lia)) as (w' & R & T & S1 & S2 & S3)
      end.
      exists w'. rewrite R. split; [|split; [|split; [|split]]].
      * destruct (filter (Z.testbit mask) (zrange (i + 1) n));
          rewrite ?lor_twice; reflexivity.
      * rewrite T. cbn [trace set_priv bump set_stats calls priv spi_speed_hz
                        set_rx_overflow flat_map].
        rewrite <- app_assoc. reflexivity.
      * rewrite S1. cbn [length]. rewrite <- bumped_ulong. reflexivity.
      * rewrite S2. cbn [length]. rewrite <- bumped_ulong. reflexivity.
      * rewrite S3. cbn [length]. rewrite <- bumped_u64. reflexivity.
    + destruct (IH (i + 1) mask canid data1 w ltac:(lia)) as (w' & R & T & S).
      exists w'. split; [exact R|]. split; [exact T|exact S].
Qed.

Lemma rx_delivered_writes (f : Z -> Z) (speed : Z) (l : list Z) :
  flat_map (fun c => match c with k_netif_rx_ni skb => [skb] | _ => [] end)
           (flat_map (fun i => write_mask_calls (f i) 0 CAN_FIFOSTA_RXOVIF speed) l)
  = [].
Proof. induction l as [|a l IH]; [reflexivity|]. cbn. exact IH. Qed.

(** The frame built for a receive overflow when its allocation goes
    through. *)
Lemma overflow_error_skb (w : world) :
  (if nz (Z.lor 0 CAN_ERR_CRTL)
   then (0, mcp2517fd_error_skb (Z.lor 0 CAN_ERR_CRTL)
                                (Z.lor 0 CAN_ERR_CRTL_RX_OVERFLOW) w)
   else (0, w))
  = (0, calls [k_alloc alloc_can_err_skb; k_netif_rx_ni overflow_frame] w).
Proof.
  unfold mcp2517fd_error_skb. rewrite allocs_ok.
  change (nz (Z.lor 0 CAN_ERR_CRTL)) with true. cbv iota.
  rewrite !call_as_calls, calls_calls. reflexivity.
Qed.

Lemma rxovif_loop_all (mask : Z) (w : world) :
  exists w',
    rxovif_loop 32 0 mask 0 0 w
    = (0,
       (match fifos_of mask with [] => 0 | _ => Z.lor 0 CAN_ERR_CRTL end,
        match fifos_of mask with
        | [] => 0
        | _ => Z.lor 0 CAN_ERR_CRTL_RX_OVERFLOW
        end),
       w') /\
    trace w' = trace w ++
      flat_map (fun j => write_mask_calls (CAN_FIFOSTA j) 0 CAN_FIFOSTA_RXOVIF
                                          (spi_speed_hz (priv w))) (fifos_of mask) /\
    rx_over_errors (stats w')
    = bumped ulong (rx_over_errors (stats w)) (length (fifos_of mask)) /\
    rx_errors (stats w')
    = bumped ulong (rx_errors (stats w)) (length (fifos_of mask)) /\
    rx_overflow (priv w')
    = bumped u64 (rx_overflow (priv w)) (length (fifos_of mask)).
Proof. exact (rxovif_loop_ok 32 0 mask 0 0 w (Z.le_refl 0)). Qed.

(** Receive overflow when the register writes and the allocation go
    through and at least one overflow flag of the status block is set: the
    handler returns 0 and has made exactly these calls: for each
    overflowed fifo, in rising order, one masked write of 0 to the
    overflow flag of its status register, and then one frame handed to the
    network stack, whatever the number of fifos; the overflow counter and
    the two receive-error counters have gone up by the number of
    overflowed fifos. The frame is [overflow_frame], whose identifier word
    is [CAN_ERR_CRTL] without [CAN_ERR_FLAG]. *)
Lemma rx_overflow_recovery (w : world) :
  let mask := rxovif (status (priv w)) in
  let over := fifos_of mask in
  over <> [] ->
  exists w',
    mcp2517fd_can_ist_handle_rxovif w = (0, w') /\
    calls_since w w'
    = flat_map (fun i => write_mask_calls (CAN_FIFOSTA i) 0 CAN_FIFOSTA_RXOVIF
                                          (spi_speed_hz (priv w))) over
      ++ [k_alloc alloc_can_err_skb; k_netif_rx_ni overflow_frame] /\
    rx_delivered (calls_since w w') = [overflow_frame] /\
    Z.of_nat (length over) = hweight_long mask /\
    rx_over_errors (stats w')
    = ulong (rx_over_errors (stats w) + Z.of_nat (length over)) /\
    rx_errors (stats w') = ulong (rx_errors (stats w) + Z.of_nat (length over)) /\
    rx_overflow (priv w') = u64 (rx_overflow (priv w) + Z.of_nat (length over)).
Proof.
  intros mask over Hne. subst over.
  pose proof (hweight_fifos_of mask) as Hh.
  destruct (rxovif_loop_all mask w) as (w1 & R & T & S1 & S2 & S3).
  remember (fifos_of mask) as over eqn:Eo. clear Eo.
  destruct over as [|o over']; [congruence|].
  exists (calls [k_alloc alloc_can_err_skb; k_netif_rx_ni overflow_frame] w1).
  split; [|split; [|split; [|split]]].
  - unfold mcp2517fd_can_ist_handle_rxovif. fold mask. rewrite R.
    rewrite overflow_error_skb. reflexivity.
  - unfold calls_since. cbn [calls trace]. rewrite T, <- app_assoc.
    apply skipn_length_app.
  - unfold calls_since. cbn [calls trace]. rewrite T, <- app_assoc.
    rewrite skipn_length_app. unfold rx_delivered. rewrite flat_map_app.
    rewrite rx_delivered_writes. reflexivity.
  - symmetry. exact Hh.
  - cbn [calls priv stats]. rewrite S1, S2, S3. repeat split.
Qed.

(** The masked read that goes through has sent one read command, for the
    address [reg] itself whatever the first byte of the mask is, and as
    many bytes as the mask spans. *)
Lemma cmd_read_mask_ok (reg mask speed : Z) (w : world) :
  mask <> 0 ->
  exists data,
    mcp2517fd_cmd_read_mask reg mask speed w
    = (0, Some data,
       calls ((if SPI_MASTER_HALF_DUPLEX K then [] else [k_alloc kmalloc_txrx])
              ++ [k_spi_sync_transfer
                    (readn_message reg
                       (mask_last_byte mask - mask_first_byte mask + 1) speed)])
             w).
Proof.
  intros H. unfold mcp2517fd_cmd_read_mask.
  assert (E : nz mask = true) by now apply nz_true.
  rewrite E. cbn [negb].
  destruct (cmd_readn_ok reg (mask_last_byte mask - mask_first_byte mask + 1)
                         speed w) as [rx Hr].
  rewrite Hr. eexists. reflexivity.
Qed.

(* ------------------------------------------------------------------ *)
(** ** Receive drain *)

Lemma spi_messages_app (a b : list kcall) :
  spi_messages (a ++ b) = spi_messages a ++ spi_messages b.
Proof. apply flat_map_app. Qed.

Lemma rx_delivered_app (a b : list kcall) :
  rx_delivered (a ++ b) = rx_delivered a ++ rx_delivered b.
Proof. apply flat_map_app. Qed.

Lemma handle_rxfifo_ok (fifo : Z) (w : world) :
  exists w' cs,
    mcp2517fd_can_ist_handle_rxfifo fifo w = (0, w') /\
    trace w' = trace w ++ cs /\
    spi_messages cs
    = [write_mask_message (CAN_FIFOCON fifo) CAN_FIFOCON_UINC CAN_FIFOCON_UINC
                          (spi_speed_hz (priv w))] /\
    length (rx_delivered cs) = 1%nat /\
    priv w' = set_fifo_usage
                (upd (fifo_usage (priv w)) fifo (u64 (fifo_usage (priv w) fifo + 1)))
                (priv w).
Proof.
  unfold mcp2517fd_can_ist_handle_rxfifo.
  rewrite cmd_write_mask_ok by discriminate. cbn [nz Z.eqb negb].
  match goal with |- context [if ?c then _ else _] => destruct c end.
  - unfold mcp2517fd_can_transform_rx_fd. rewrite allocs_ok. cbn [negb].
    eexists. eexists. split; [reflexivity|].
    cbn [trace call calls bump set_stats set_priv priv stats].
    rewrite <- !app_assoc. split; [reflexivity|].
    split; [reflexivity|]. split; reflexivity.
  - unfold mcp2517fd_can_transform_rx_normal. rewrite allocs_ok. cbn [negb].
    eexists. eexists. split; [reflexivity|].
    cbn [trace call calls bump set_stats set_priv priv stats].
    rewrite <- !app_assoc. split; [reflexivity|].
    split; [reflexivity|]. split; reflexivity.
Qed.

(** The dispatch of the fifos [i .. i+k-1] of a run. *)
Lemma dispatch_run_ok (k : nat) :
  forall (i : Z) (w : world),
  exists w' cs,
    for_loop k i mcp2517fd_can_ist_handle_rxfifo w = (0, w') /\
    trace w' = trace w ++ cs /\
    spi_messages cs
    = map (fun fifo => write_mask_message (CAN_FIFOCON fifo) CAN_FIFOCON_UINC
                                          CAN_FIFOCON_UINC (spi_speed_hz (priv w)))
          (zrange i k) /\
    length (rx_delivered cs) = k /\
    rx_cfg (priv w') = rx_cfg (priv w) /\
    can_ctrlmode (priv w') = can_ctrlmode (priv w) /\
    fifo_data (priv w') = fifo_data (priv w) /\
    forall f, fifo_usage (priv w') f
              = if (i <=? f) && (f <? i + Z.of_nat k)
                then u64 (fifo_usage (priv w) f + 1) else fifo_usage (priv w) f.
Proof.
  induction k as [|k IH]; intros i w.
  - exists w, []. cbn [for_loop zrange map]. rewrite app_nil_r.
    repeat split. intros f. cmp; try reflexivity; lia.
  - cbn [for_loop].
    destruct (handle_rxfifo_ok i w) as (w1 & cs1 & R1 & T1 & M1 & D1 & P1).
    rewrite R1. cbn [nz Z.eqb negb].
    destruct (IH (i + 1) w1) as (w2 & cs2 & R2 & T2 & M2 & D2 & C2 & F2 & B2 & U2).
    exists w2, (cs1 ++ cs2). rewrite R2.
    assert (Sp : spi_speed_hz (priv w1) = spi_speed_hz (priv w))
      by (rewrite P1; reflexivity).
    split; [reflexivity|]. split; [rewrite T2, T1, app_assoc; reflexivity|].
    split; [rewrite spi_messages_app, M1, M2, Sp; reflexivity|].
    split; [rewrite rx_delivered_app, length_app, D1, D2; reflexivity|].
    split; [rewrite C2, P1; reflexivity|].
    split; [rewrite F2, P1; reflexivity|].
    split; [rewrite B2, P1; reflexivity|].
    intros f. rewrite U2, P1. cbn [fifo_usage set_fifo_usage]. unfold upd.
    cmp; try lia; subst; cbn [andb]; try reflexivity; try lia.
Qed.

Lemma run_length_bounds (n : nat) (i mask : Z) :
  0 <= run_length n i mask <= Z.of_nat n.
Proof.
  revert i. induction n as [|n IH]; intros i; cbn [run_length]; [lia|].
  destruct (Z.testbit mask i); [specialize (IH (i + 1))|]; lia.
Qed.

Lemma run_length_set (n : nat) (i mask : Z) :
  forall y, i <= y < i + run_length n i mask -> Z.testbit mask y = true.
Proof.
  revert i. induction n as [|n IH]; intros i y; cbn [run_length]; [lia|].
  destruct (Z.testbit mask i) eqn:E; [|lia].
  intros Hy. destruct (Z.eq_dec y i) as [->|]; [exact E|].
  apply (IH (i + 1)). lia.
Qed.

Lemma run_length_stop (n : nat) (i mask : Z) :
  run_length n i mask < Z.of_nat n ->
  Z.testbit mask (i + run_length n i mask) = false.
Proof.
  revert i. induction n as [|n IH]; intros i; cbn [run_length]; [lia|].
  destruct (Z.testbit mask i) eqn:E.
  - intros H. replace (i + (1 + run_length n (i + 1) mask))
      with (i + 1 + run_length n (i + 1) mask) by lia.
    apply IH. lia.
  - intros _. now rewrite Z.add_0_r.
Qed.

Lemma run_length_ext (n : nat) (i m m' : Z) :
  (forall y, i <= y -> Z.testbit m' y = Z.testbit m y) ->
  run_length n i m' = run_length n i m.
Proof.
  revert i. induction n as [|n IH]; intros i H; cbn [run_length]; [reflexivity|].
  rewrite (H i) by lia. destruct (Z.testbit m i); [|reflexivity].
  f_equal. apply IH. intros y Hy. apply H. lia.
Qed.

Lemma testbit_clear (m j y : Z) :
  0 <= j -> Z.testbit (Z.land m (Z.lnot (BIT j))) y = Z.testbit m y && negb (j =? y).
Proof.
  intros Hj. rewrite <- Z.ldiff_land.
  destruct (Z_lt_le_dec y 0).
  - rewrite !Z.testbit_neg_r by lia. reflexivity.
  - rewrite Z.ldiff_spec, testbit_BIT by lia. reflexivity.
Qed.

(** The inner scan stops at the end of the run and has cleared the bits
    of the run only. *)
Lemma rxif_run_end_spec (n : nat) :
  forall (end_ j m : Z),
  0 <= j -> end_ - j <= Z.of_nat n ->
  let len := run_length (Z.to_nat (end_ - j)) j m in
  exists m',
    rxif_run_end n end_ j m = (j + len, m') /\
    forall y, Z.testbit m' y
              = Z.testbit m y && negb ((j <=? y) && (y <? j + len)).
Proof.
  induction n as [|n IH]; intros end_ j m Hj Hn len.
  - exists m. unfold len. replace (Z.to_nat (end_ - j)) with 0%nat by lia.
    cbn [rxif_run_end run_length]. rewrite Z.add_0_r. split; [reflexivity|].
    intros y. cmp; try lia; now rewrite andb_true_r.
  - cbn [rxif_run_end]. rewrite land_BIT_nz by lia.
    destruct (Z.ltb_spec j end_) as [Hlt|Hge].
    + unfold len. replace (Z.to_nat (end_ - j)) with (S (Z.to_nat (end_ - (j + 1)))) by lia.
      cbn [run_length andb].
      destruct (Z.testbit m j) eqn:E.
      * destruct (IH end_ (j + 1) (Z.land m (Z.lnot (BIT j))) ltac:(lia) ltac:(lia))
          as (m' & R & B).
        cbv zeta in R, B.
        assert (X : run_length (Z.to_nat (end_ - (j + 1))) (j + 1)
                               (Z.land m (Z.lnot (BIT j)))
                    = run_length (Z.to_nat (end_ - (j + 1))) (j + 1) m).
        { apply run_length_ext. intros y Hy. rewrite testbit_clear by lia.
          cmp; try lia. now rewrite andb_true_r. }
        rewrite X in R, B. exists m'. split.
        -- rewrite R. f_equal. lia.
        -- intros y. rewrite B, testbit_clear by lia.
           pose proof (run_length_bounds (Z.to_nat (end_ - (j + 1))) (j + 1) m).
           cmp; try lia; bool_simpl; reflexivity.
      * exists m. rewrite Z.add_0_r. split; [reflexivity|].
        intros y. cmp; try lia; now rewrite andb_true_r.
    + cbn [andb]. exists m. unfold len.
      replace (Z.to_nat (end_ - j)) with 0%nat by lia.
      cbn [run_length]. rewrite Z.add_0_r. split; [reflexivity|].
      intros y. cmp; try lia; now rewrite andb_true_r.
Qed.

Lemma zrange_app (a b : nat) (i : Z) :
  zrange i (a + b) = zrange i a ++ zrange (i + Z.of_nat a) b.
Proof.
  revert i. induction a as [|a IH]; intros i.
  - cbn. now rewrite Z.add_0_r.
  - cbn [zrange Nat.add app]. rewrite IH. do 3 f_equal. lia.
Qed.

Lemma map_filter_ext_in {A B} (f1 f2 : A -> B) (g1 g2 : A -> bool) (l : list A) :
  (forall x, In x l -> g1 x = g2 x /\ f1 x = f2 x) ->
  map f1 (filter g1 l) = map f2 (filter g2 l).
Proof.
  induction l as [|a l IH]; intros H; [reflexivity|].
  cbn [filter]. destruct (H a (or_introl eq_refl)) as [Hg Hf]. rewrite Hg.
  destruct (g2 a); cbn [map]; rewrite ?Hf, IH; auto;
    intros x Hx; apply H; now right.
Qed.

Lemma filter_none {A} (g : A -> bool) (l : list A) :
  (forall x, In x l -> g x = false) -> filter g l = [].
Proof.
  induction l as [|a l IH]; intros H; [reflexivity|].
  cbn [filter]. rewrite (H a (or_introl eq_refl)). apply IH.
  intros x Hx. apply H. now right.
Qed.

Lemma filter_all {A} (g : A -> bool) (l : list A) :
  (forall x, In x l -> g x = true) -> filter g l = l.
Proof.
  induction l as [|a l IH]; intros H; [reflexivity|].
  cbn [filter]. rewrite (H a (or_introl eq_refl)). f_equal. apply IH.
  intros x Hx. apply H. now right.
Qed.

Lemma length_zrange (n : nat) (i : Z) : length (zrange i n) = n.
Proof. revert i. induction n as [|n IH]; intros i; cbn; auto. Qed.

(** A clear bit at the head of the pool is no part of a run. *)
Lemma mask_runs_skip (i : Z) (k : nat) (m : Z) :
  Z.testbit m i = false ->
  mask_runs i (S k) m = mask_runs (i + 1) k m.
Proof.
  intros E. unfold mask_runs. cbn [zrange filter].
  unfold run_start at 1. rewrite E. cbn [andb].
  apply map_filter_ext_in. intros x Hx. apply in_zrange in Hx. split.
  - unfold run_start. destruct (Z.eqb_spec x i); [lia|].
    destruct (Z.eqb_spec x (i + 1)) as [->|].
    + replace (i + 1 - 1) with i by lia. rewrite E. reflexivity.
    + reflexivity.
  - f_equal. f_equal. lia.
Qed.

(** A set bit at the head of the pool starts a run; what follows the run
    and the clear bit behind it are the runs of the rest of the pool,
    also when the bits of the run have been cleared. *)
Lemma mask_runs_run (i : Z) (k : nat) (m m' : Z) :
  Z.testbit m i = true -> (0 < k)%nat ->
  let len := run_length k i m in
  (forall y, Z.testbit m' y
             = Z.testbit m y && negb ((i <=? y) && (y <? i + len))) ->
  mask_runs i k m
  = (i, len) :: mask_runs (i + len + 1) (k - Z.to_nat len - 1) m'.
Proof.
  intros E Hk len Hm'.
  pose proof (run_length_bounds k i m) as Hb. fold len in Hb.
  assert (Hl : 1 <= len).
  { unfold len. destruct k; [lia|]. cbn [run_length]. rewrite E.
    pose proof (run_length_bounds k (i + 1) m). lia. }
  pose proof (run_length_set k i m) as Hset. fold len in Hset.
  unfold mask_runs.
  assert (Zr : zrange i k
               = i :: zrange (i + 1) (Z.to_nat len - 1)
                 ++ zrange (i + len) (k - Z.to_nat len)).
  { transitivity (zrange i (1 + (Z.to_nat len - 1) + (k - Z.to_nat len))).
    - f_equal. lia.
    - rewrite !zrange_app. cbn [zrange app]. do 3 f_equal. lia. }
  rewrite Zr. cbn [filter].
  assert (S0 : run_start i m i = true).
  { unfold run_start. rewrite E, Z.eqb_refl. reflexivity. }
  rewrite S0. cbn [map]. f_equal.
  { f_equal. unfold len. f_equal. lia. }
  rewrite filter_app, map_app.
  rewrite (filter_none (run_start i m) (zrange (i + 1) _)).
  2:{ intros x Hx. apply in_zrange in Hx. unfold run_start.
      destruct (Z.eqb_spec x i); [lia|].
      rewrite (Hset (x - 1)) by lia. now rewrite andb_false_r. }
  cbn [map app].
  destruct (k - Z.to_nat len)%nat as [|r] eqn:Er.
  { replace (k - Z.to_nat len - 1)%nat with 0%nat by lia. reflexivity. }
  assert (Hlt : len < Z.of_nat k) by lia.
  pose proof (run_length_stop k i m Hlt) as Hstop. fold len in Hstop.
  cbn [zrange filter].
  unfold run_start at 1. rewrite Hstop. cbn [andb].
  replace (S r - 1)%nat with r by lia.
  apply map_filter_ext_in. intros x Hx. apply in_zrange in Hx.
  assert (Bx : forall y, i + len < y -> Z.testbit m' y = Z.testbit m y).
  { intros y Hy. rewrite Hm'. cmp; try lia. now rewrite andb_true_r. }
  split.
  - unfold run_start. rewrite Bx by lia.
    destruct (Z.eqb_spec x i); [lia|].
    destruct (Z.eqb_spec x (i + len + 1)) as [->|].
    + replace (i + len + 1 - 1) with (i + len) by lia. rewrite Hstop. reflexivity.
    + rewrite (Bx (x - 1)) by lia. reflexivity.
  - f_equal. rewrite (run_length_ext _ x m m').
    + f_equal. lia.
    + intros y Hy. apply Bx. lia.
Qed.

Lemma run_messages_cfg (p p' : mcp2517fd_priv) (r : Z * Z) :
  rx_cfg p' = rx_cfg p -> can_ctrlmode p' = can_ctrlmode p ->
  run_messages p' r = run_messages p r.
Proof.
  unfold rx_cfg. intros C M. inversion C as [[C1 C2 C3 C4]].
  destruct r as [first len]. unfold run_messages, rx_slot_size.
  rewrite C3, C4, M. reflexivity.
Qed.

(** The outer loop of the receive scan from fifo [i] with the mask [m]:
    it ends, and has drained the runs of [m] among the fifos from [i] to
    the end of the pool. *)
Lemma rxif_loop_ok (fuel : nat) :
  forall (i m : Z) (w : world),
  let p := priv w in
  let end_ := rx_fifo_start p + rx_fifos p in
  0 <= i -> end_ - i <= Z.of_nat fuel ->
  exists w' cs,
    rxif_loop fuel (rx_slot_size p) i m w = Some (0, w') /\
    trace w' = trace w ++ cs /\
    spi_messages cs
    = flat_map (run_messages p) (mask_runs i (Z.to_nat (end_ - i)) m) /\
    length (rx_delivered cs)
    = length (filter (Z.testbit m) (zrange i (Z.to_nat (end_ - i)))) /\
    rx_cfg (priv w') = rx_cfg p /\
    can_ctrlmode (priv w') = can_ctrlmode p /\
    forall f, fifo_usage (priv w') f
              = if (i <=? f) && (f <? end_) && Z.testbit m f
                then u64 (fifo_usage p f + 1) else fifo_usage p f.
Proof.
  induction fuel as [|fuel IH]; intros i m w p end_ Hi Hfuel.
  - exists w, []. cbn [rxif_loop]. fold p. fold end_.
    destruct (Z.ltb_spec i end_); [lia|]. cbn [negb].
    replace (Z.to_nat (end_ - i)) with 0%nat by lia.
    rewrite app_nil_r. repeat split.
    intros f. cmp; try lia; reflexivity.
  - cbn [rxif_loop]. fold p. fold end_.
    destruct (Z.ltb_spec i end_) as [Hlt|Hge]; cbn [negb].
    2:{ exists w, []. replace (Z.to_nat (end_ - i)) with 0%nat by lia.
        rewrite app_nil_r. repeat split.
        intros f. cmp; try lia; reflexivity. }
    rewrite land_BIT_nz by lia.
    assert (Ek : Z.to_nat (end_ - i) = S (Z.to_nat (end_ - (i + 1)))) by lia.
    destruct (Z.testbit m i) eqn:E.
    + (* a run starts at i *)
      destruct (rxif_run_end_spec (Z.to_nat (end_ - i)) end_ i m Hi ltac:(lia))
        as (m' & R & Bm).
      cbv zeta in R, Bm. set (len := run_length (Z.to_nat (end_ - i)) i m) in *.
      rewrite R.
      pose proof (run_length_bounds (Z.to_nat (end_ - i)) i m) as Hb. fold len in Hb.
      assert (Hl : 1 <= len).
      { unfold len. rewrite Ek. cbn [run_length]. rewrite E.
        pose proof (run_length_bounds (Z.to_nat (end_ - (i + 1))) (i + 1) m). lia. }
      pose proof (run_length_set (Z.to_nat (end_ - i)) i m) as Hset. fold len in Hset.
      destruct (cmd_readn_ok (FIFO_DATA (fifo_address p i))
                  ((i + len - i) * rx_slot_size p) (spi_speed_hz p) w) as [rx Hr].
      rewrite Hr. cbn [nz Z.eqb negb].
      match goal with |- context [for_loop ?k i _ ?w1] =>
        destruct (dispatch_run_ok k i w1)
          as (w2 & cs2 & R2 & T2 & M2 & D2 & C2 & F2 & B2 & U2) end.
      rewrite R2. cbn [nz Z.eqb negb].
      cbn [set_priv priv calls] in C2, F2, M2, U2.
      change (rx_cfg (set_fifo_data _ p)) with (rx_cfg p) in C2.
      change (can_ctrlmode (set_fifo_data _ p)) with (can_ctrlmode p) in F2.
      change (spi_speed_hz (set_fifo_data _ p)) with (spi_speed_hz p) in M2.
      change (fifo_usage (set_fifo_data _ p)) with (fifo_usage p) in U2.
      assert (S2 : rx_slot_size (priv w2) = rx_slot_size p)
        by (unfold rx_slot_size; rewrite F2; reflexivity).
      assert (E2 : rx_fifo_start (priv w2) + rx_fifos (priv w2) = end_).
      { unfold rx_cfg in C2. inversion C2 as [[C21 C22 C23 C24]].
        rewrite C21, C22. reflexivity. }
      destruct (IH (i + len + 1) m' w2) as (w3 & cs3 & R3 & T3 & M3 & D3 & C3 & F3 & U3);
        [lia|rewrite E2; lia|].
      cbv zeta in R3, M3, D3, U3. rewrite S2 in R3.
      rewrite E2 in M3, D3, U3.
      exists w3.
      eexists. split; [exact R3|].
      split.
      { rewrite T3, T2. cbn [set_priv calls trace]. rewrite <- !app_assoc.
        reflexivity. }
      split; [|split; [|split; [|split]]].
      * rewrite (mask_runs_run i (Z.to_nat (end_ - i)) m m' E ltac:(lia) Bm).
        fold len. cbn [flat_map].
        rewrite !spi_messages_app, M2, M3.
        replace (Z.to_nat (end_ - i) - Z.to_nat len - 1)%nat
          with (Z.to_nat (end_ - (i + len + 1))) by lia.
        rewrite (flat_map_ext _ _ (fun r => run_messages_cfg p (priv w2) r C2 F2)).
        replace (i + len - i) with len by lia.
        destruct (SPI_MASTER_HALF_DUPLEX K) eqn:HD;
          cbn [spi_messages flat_map app run_messages];
          rewrite ?app_nil_r; reflexivity.
      * rewrite !rx_delivered_app, !length_app, D2, D3.
        assert (Z0 : length (rx_delivered
                  (if SPI_MASTER_HALF_DUPLEX K then [] else [k_alloc kmalloc_txrx]))
                     = 0%nat)
          by (destruct (SPI_MASTER_HALF_DUPLEX K); reflexivity).
        rewrite Z0. cbn [rx_delivered flat_map app length Nat.add].
        replace (i + len - i) with len by lia.
        assert (Zr : zrange i (Z.to_nat (end_ - i))
                     = zrange i (Z.to_nat len)
                       ++ zrange (i + len) (Z.to_nat (end_ - i) - Z.to_nat len)).
        { transitivity (zrange i (Z.to_nat len
                                  + (Z.to_nat (end_ - i) - Z.to_nat len))).
          - f_equal. lia.
          - rewrite zrange_app. do 2 f_equal. lia. }
        rewrite Zr, filter_app, length_app.
        rewrite (filter_all (Z.testbit m) (zrange i (Z.to_nat len)))
          by (intros x Hx; apply in_zrange in Hx; apply Hset; lia).
        rewrite length_zrange. f_equal.
        destruct (Z.to_nat (end_ - i) - Z.to_nat len)%nat as [|r] eqn:Er.
        { replace (Z.to_nat (end_ - (i + len + 1))) with 0%nat by lia. reflexivity. }
        assert (Hlt2 : len < Z.of_nat (Z.to_nat (end_ - i))) by lia.
        pose proof (run_length_stop _ i m Hlt2) as Hstop. fold len in Hstop.
        cbn [zrange filter]. rewrite Hstop.
        replace (Z.to_nat (end_ - (i + len + 1))) with r by lia.
        apply f_equal. apply filter_ext_in. intros x Hx. apply in_zrange in Hx.
        rewrite Bm. cmp; try lia. now rewrite andb_true_r.
      * rewrite C3. exact C2.
      * rewrite F3. exact F2.
      * intros f. rewrite U3, !U2. rewrite Z2Nat.id by lia. rewrite Bm.
        destruct (Z.eq_dec f (i + len)) as [->|Hne].
        -- destruct (Z.to_nat (end_ - i) - Z.to_nat len)%nat as [|r] eqn:Er.
           ++ cmp; try lia; bool_simpl; reflexivity.
           ++ assert (Hlt2 : len < Z.of_nat (Z.to_nat (end_ - i))) by lia.
              pose proof (run_length_stop _ i m Hlt2) as Hstop. fold len in Hstop.
              rewrite Hstop. cmp; try lia; bool_simpl; reflexivity.
        -- destruct (Z_lt_le_dec f (i + len)).
           ++ destruct (Z_lt_le_dec f i).
              ** cmp; try lia; bool_simpl; reflexivity.
              ** rewrite (Hset f) by lia.
                 cmp; try lia; bool_simpl; reflexivity.
           ++ cmp; try lia; bool_simpl; destruct (Z.testbit m f); reflexivity.
    + (* no run at i *)
      destruct (IH (i + 1) m w) as (w3 & cs3 & R3 & T3 & M3 & D3 & C3 & F3 & U3);
        [lia|fold p; fold end_; lia|].
      cbv zeta in R3, M3, D3, U3. fold p in R3, M3, D3, U3. fold end_ in R3, M3, D3, U3.
      exists w3, cs3. split; [exact R3|]. split; [exact T3|].
      split; [|split; [|split; [|split]]].
      * rewrite Ek, mask_runs_skip by exact E. exact M3.
      * rewrite Ek. cbn [zrange filter]. rewrite E. exact D3.
      * exact C3.
      * exact F3.
      * intros f. rewrite U3.
        destruct (Z.eq_dec f i) as [->|Hne].
        -- rewrite E. cmp; try lia; bool_simpl; reflexivity.
        -- cmp; try lia; reflexivity.
Qed.

(** The runs of [mask_runs] are runs of set bits, lie in the pool and
    cannot be made longer at either end. *)
Lemma mask_runs_maximal (s : Z) (n : nat) (mask : Z) (first len : Z) :
  In (first, len) (mask_runs s n mask) ->
  s <= first /\ 1 <= len /\ first + len <= s + Z.of_nat n /\
  (forall y, first <= y < first + len -> Z.testbit mask y = true) /\
  (first = s \/ Z.testbit mask (first - 1) = false) /\
  (first + len = s + Z.of_nat n \/ Z.testbit mask (first + len) = false).
Proof.
  unfold mask_runs. rewrite in_map_iff. intros (i & E & Hin).
  inversion E; subst first len; clear E.
  apply filter_In in Hin. destruct Hin as [Hr Hs]. apply in_zrange in Hr.
  unfold run_start in Hs. apply andb_true_iff in Hs. destruct Hs as [Hb Hp].
  set (k := Z.to_nat (s + Z.of_nat n - i)).
  pose proof (run_length_bounds k i mask) as B.
  assert (L1 : 1 <= run_length k i mask).
  { replace k with (S (k - 1)) by lia. cbn [run_length]. rewrite Hb.
    pose proof (run_length_bounds (k - 1) (i + 1) mask). lia. }
  repeat split; try lia.
  - apply run_length_set.
  - apply orb_true_iff in Hp. destruct Hp as [Hp|Hp].
    + left. lia.
    + right. now apply negb_true_iff.
  - destruct (Z.eq_dec (run_length k i mask) (Z.of_nat k)) as [Ek|Ne].
    + left. lia.
    + right. apply run_length_stop. lia.
Qed.

(** C6: receive drain batching. When no transfer and no allocation fails,
    the drain returns 0, and the SPI messages it has sent are, for each
    maximal run of set bits of the receive-ready mask within the receive
    pool, in rising order: one read of run length times slot size bytes
    at the address of the first fifo of the run, followed by one write
    per fifo of the run that advances it. Every ready fifo of the pool is
    dispatched once: its use count goes up by one, those of all other
    fifos stay, and as many frames are handed to the network stack as
    fifos are ready. *)
Theorem rx_drain_batching (w : world) :
  let p := priv w in
  let s := rx_fifo_start p in
  let n := Z.to_nat (rx_fifos p) in
  let mask := rxif (status p) in
  0 <= s -> 0 <= rx_fifos p ->
  exists w',
    mcp2517fd_can_ist_handle_rxif w = Some (0, w') /\
    spi_messages (calls_since w w')
    = flat_map (run_messages p) (mask_runs s n mask) /\
    (forall first len, In (first, len) (mask_runs s n mask) ->
       s <= first /\ 1 <= len /\ first + len <= s + Z.of_nat n /\
       (forall y, first <= y < first + len -> Z.testbit mask y = true) /\
       (first = s \/ Z.testbit mask (first - 1) = false) /\
       (first + len = s + Z.of_nat n \/ Z.testbit mask (first + len) = false)) /\
    length (rx_delivered (calls_since w w'))
    = length (filter (Z.testbit mask) (zrange s n)) /\
    forall f, fifo_usage (priv w') f
              = if (s <=? f) && (f <? s + Z.of_nat n) && Z.testbit mask f
                then u64 (fifo_usage p f + 1) else fifo_usage p f.
Proof.
  intros p s n mask Hs Hn.
  unfold mcp2517fd_can_ist_handle_rxif. fold p. fold mask.
  destruct (nz mask) eqn:Em; cbn [negb].
  - destruct (rxif_loop_ok (Z.to_nat (rx_fifos p)) s mask w Hs)
      as (w' & cs & R & T & M & D & _ & _ & U).
    { fold p. fold s. lia. }
    cbv zeta in R, M, D, U. fold p in R, M, D, U. fold s in R, M, D, U.
    replace (Z.to_nat (s + rx_fifos p - s)) with n in M, D by (unfold n; lia).
    replace (s + rx_fifos p) with (s + Z.of_nat n) in U by (unfold n; lia).
    exists w'. unfold rx_slot_size in R. fold s.
    split; [exact R|].
    assert (C : calls_since w w' = cs)
      by (unfold calls_since; rewrite T; apply skipn_length_app).
    rewrite C. split; [exact M|]. split; [apply mask_runs_maximal|].
    split; [exact D|exact U].
  - apply nz_false in Em.
    exists w. split; [reflexivity|].
    assert (C : calls_since w w = [])
      by (unfold calls_since; apply skipn_all).
    rewrite C, Em. split; [|split; [apply mask_runs_maximal|split]].
    + unfold mask_runs. rewrite filter_none; [reflexivity|].
      intros x _. unfold run_start. now rewrite Z.bits_0.
    + rewrite filter_none; [reflexivity|]. intros x _. apply Z.bits_0.
    + intros f. rewrite Z.bits_0, andb_false_r. reflexivity.
Qed.

End NoFailure.

(* ------------------------------------------------------------------ *)
(** ** More on the identifier codec *)

Lemma canid_to_mcpid_cases (can_id : Z) :
  mcp2517fd_canid_to_mcpid can_id
  = (if Z.testbit can_id 31
     then u32 (Z.lor (Z.shiftl (Z.land can_id (Z.ones 18)) 11)
                     (Z.land (Z.shiftr can_id 18) (Z.ones 11)))
     else Z.land can_id (Z.ones 11),
     Z.lor (if Z.testbit can_id 31 then BIT 4 else 0)
           (if Z.testbit can_id 30 then BIT 5 else 0)).
Proof.
  unfold mcp2517fd_canid_to_mcpid.
  change CAN_EFF_FLAG with (BIT 31). change CAN_RTR_FLAG with (BIT 30).
  rewrite !land_BIT_nz by lia.
  change CAN_EFF_SID_MASK with (Z.shiftl (Z.ones 11) 18).
  change CAN_EFF_EID_MASK with (Z.ones 18).
  change CAN_EFF_SID_SHIFT with 18. change CAN_EFF_EID_SHIFT with 0.
  change CAN_OBJ_ID_EID_SHIFT with 11. change CAN_OBJ_ID_SID_SHIFT with 0.
  change CAN_SFF_MASK with (Z.ones 11).
  change CAN_OBJ_FLAGS_IDE with (BIT 4). change CAN_OBJ_FLAGS_RTR with (BIT 5).
  destruct (Z.testbit can_id 31); [|reflexivity].
  f_equal. f_equal. rewrite Z.shiftr_0_r, Z.shiftl_0_r. f_equal.
  apply Z.bits_inj'; intros i Hi. bitblast; try (f_equal; lia).
Qed.

Lemma mcpid_to_canid_cases (mcpid mcpflags : Z) :
  mcp2517fd_mcpid_to_canid mcpid mcpflags
  = Z.lor (if Z.testbit mcpflags 4
           then u32 (Z.lor (Z.lor (Z.land (Z.shiftr mcpid 11) (Z.ones 18))
                                  (Z.shiftl (Z.land mcpid (Z.ones 11)) 18))
                           (BIT 31))
           else Z.land mcpid (Z.ones 11))
          (if Z.testbit mcpflags 5 then BIT 30 else 0).
Proof.
  unfold mcp2517fd_mcpid_to_canid.
  change CAN_OBJ_FLAGS_IDE with (BIT 4). change CAN_OBJ_FLAGS_RTR with (BIT 5).
  rewrite !land_BIT_nz by lia.
  change CAN_OBJ_ID_SID_MASK with (Z.ones 11).
  change CAN_OBJ_ID_EID_MASK with (Z.shiftl (Z.ones 18) 11).
  change CAN_EFF_SID_SHIFT with 18. change CAN_EFF_EID_SHIFT with 0.
  change CAN_OBJ_ID_EID_SHIFT with 11. change CAN_OBJ_ID_SID_SHIFT with 0.
  change CAN_EFF_FLAG with (BIT 31). change CAN_RTR_FLAG with (BIT 30).
  rewrite Z.shiftr_0_r, Z.shiftl_0_r.
  f_equal. destruct (Z.testbit mcpflags 4); [|reflexivity].
  f_equal. f_equal. f_equal.
  apply Z.bits_inj'; intros i Hi. bitblast; try (f_equal; lia).
Qed.

(** Settle the comparisons of a goal that arithmetic decides. *)
Ltac cmp_lia :=
  repeat match goal with
  | |- context [?a <? ?b] =>
      first [ rewrite (proj2 (Z.ltb_lt a b)) by lia
            | rewrite (proj2 (Z.ltb_ge a b)) by lia ]
  | |- context [?a <=? ?b] =>
      first [ rewrite (proj2 (Z.leb_le a b)) by lia
            | rewrite (proj2 (Z.leb_gt a b)) by lia ]
  | |- context [?a =? ?b] =>
      first [ rewrite (proj2 (Z.eqb_eq a b)) by lia
            | rewrite (proj2 (Z.eqb_neq a b)) by lia ]
  end.

Lemma mcp_flag_bits (a b : bool) :
  Z.testbit (Z.lor (if a then BIT 4 else 0) (if b then BIT 5 else 0)) 4 = a /\
  Z.testbit (Z.lor (if a then BIT 4 else 0) (if b then BIT 5 else 0)) 5 = b.
Proof. destruct a, b; split; reflexivity. Qed.

Lemma canid_pair_kept (can_id : Z) :
  mcp2517fd_mcpid_to_canid (fst (mcp2517fd_canid_to_mcpid can_id))
                           (snd (mcp2517fd_canid_to_mcpid can_id))
  = canid_kept can_id.
Proof.
  rewrite canid_to_mcpid_cases, mcpid_to_canid_cases. cbn [fst snd].
  destruct (mcp_flag_bits (Z.testbit can_id 31) (Z.testbit can_id 30)) as [F4 F5].
  rewrite F4, F5. clear F4 F5.
  unfold canid_kept, u32.
  change CAN_EFF_FLAG with (BIT 31). change CAN_RTR_FLAG with (BIT 30).
  change CAN_EFF_ID_BITS with 29. change CAN_SFF_MASK with (Z.ones 11).
  apply Z.bits_inj'; intros i Hi.
  assert (R : i < 11 \/ 11 <= i < 18 \/ 18 <= i < 29 \/ i = 29 \/ i = 30
              \/ i = 31 \/ 32 <= i) by lia.
  destruct (Z.testbit can_id 31) eqn:E31, (Z.testbit can_id 30) eqn:E30;
    destruct R as [R|[R|[R|[R|[R|[R|R]]]]]]; subst; tb; cmp_lia; bool_simpl;
    rewrite ?E31, ?E30; bool_simpl; try reflexivity.
  all: try (f_equal; lia).
Qed.

(** X1: what the identifier codec keeps. Encoding any 32-bit identifier
    word into a device object and decoding the object gives the word back
    with the extended-id and remote-request flags as they were and the 29
    (extended) or 11 (standard) identifier bits; the error flag (bit 29)
    and, for a standard frame, bits 11..28 are dropped. *)
Theorem canid_codec_keeps (can_id : Z) :
  let '(id, flags) := mcp2517fd_canid_to_mcpid can_id in
  mcp2517fd_mcpid_to_canid id flags = canid_kept can_id.
Proof.
  pose proof (canid_pair_kept can_id) as C.
  destruct (mcp2517fd_canid_to_mcpid can_id). exact C.
Qed.

Lemma decoded_flag_bits (mcpid mcpflags : Z) :
  Z.testbit (mcp2517fd_mcpid_to_canid mcpid mcpflags) 31 = Z.testbit mcpflags 4 /\
  Z.testbit (mcp2517fd_mcpid_to_canid mcpid mcpflags) 30 = Z.testbit mcpflags 5.
Proof.
  rewrite mcpid_to_canid_cases. unfold u32.
  destruct (Z.testbit mcpflags 4), (Z.testbit mcpflags 5); split; tb; cmp_lia;
    bool_simpl; reflexivity.
Qed.

(** X2: a decoded identifier is well formed. Whatever the identifier and
    flags words of a device object, the identifier handed to the network
    stack fits 32 bits, never carries the error flag (bit 29), carries the
    extended-id flag exactly when the object has IDE and the remote-request
    flag exactly when it has RTR, and without IDE it has no identifier bit
    above the 11 of a standard frame. *)
Theorem mcpid_decode_wellformed (mcpid mcpflags : Z) :
  let id := mcp2517fd_mcpid_to_canid mcpid mcpflags in
  0 <= id < 2 ^ 32 /\
  Z.testbit id 29 = false /\
  Z.testbit id 31 = Z.testbit mcpflags 4 /\
  Z.testbit id 30 = Z.testbit mcpflags 5 /\
  (Z.testbit mcpflags 4 = false -> Z.land id (Z.ones 29) < 2 ^ 11).
Proof.
  cbv zeta. rewrite mcpid_to_canid_cases.
  set (id := Z.lor _ _).
  assert (B : forall i, 32 <= i -> Z.testbit id i = false).
  { intros i Hi. unfold id, u32.
    destruct (Z.testbit mcpflags 4), (Z.testbit mcpflags 5); tb; cmp_lia;
      bool_simpl; reflexivity. }
  assert (N : 0 <= id).
  { unfold id, u32. apply Z.lor_nonneg. split.
    - destruct (Z.testbit mcpflags 4).
      + apply Z.mod_pos_bound. lia.
      + apply Z.land_nonneg. right. now compute.
    - destruct (Z.testbit mcpflags 5); now compute. }
  split.
  { split; [exact N|].
    destruct (Z.eq_dec id 0) as [->|Hne]; [lia|].
    apply Z.log2_lt_pow2; [lia|].
    destruct (Z_lt_le_dec (Z.log2 id) 32) as [L|L]; [exact L|].
    exfalso. pose proof (B (Z.log2 id) L) as Hf.
    rewrite Z.bit_log2 in Hf by lia. discriminate. }
  split.
  { unfold id, u32.
    destruct (Z.testbit mcpflags 4), (Z.testbit mcpflags 5); tb; cmp_lia;
      bool_simpl; reflexivity. }
  split.
  { unfold id, u32.
    destruct (Z.testbit mcpflags 4), (Z.testbit mcpflags 5); tb; cmp_lia;
      bool_simpl; reflexivity. }
  split.
  { unfold id, u32.
    destruct (Z.testbit mcpflags 4), (Z.testbit mcpflags 5); tb; cmp_lia;
      bool_simpl; reflexivity. }
  intros E. unfold id. rewrite E.
  assert (Hs : Z.land (Z.lor (Z.land mcpid (Z.ones 11))
                             (if Z.testbit mcpflags 5 then BIT 30 else 0))
                      (Z.ones 29)
               = Z.land mcpid (Z.ones 11)).
  { apply Z.bits_inj'; intros i Hi.
    assert (R : i < 11 \/ 11 <= i < 29 \/ 29 <= i) by lia.
    destruct (Z.testbit mcpflags 5); destruct R as [R|[R|R]]; tb; cmp_lia;
      bool_simpl; reflexivity. }
  rewrite Hs, Z.land_ones by lia. apply Z.mod_pos_bound. lia.
Qed.

(** X3: the codec seen from the device. Decoding a device object and
    encoding the identifier again gives the identifier word of the object
    cut to the 29 (with IDE) or 11 (without) bits the decoder reads, and of
    its flags word the IDE and RTR bits. *)
Theorem mcpid_codec_roundtrip (mcpid mcpflags : Z) :
  mcp2517fd_canid_to_mcpid (mcp2517fd_mcpid_to_canid mcpid mcpflags)
  = (Z.land mcpid (Z.ones (if Z.testbit mcpflags 4 then 29 else 11)),
     Z.land mcpflags (Z.lor CAN_OBJ_FLAGS_IDE CAN_OBJ_FLAGS_RTR)).
Proof.
  destruct (decoded_flag_bits mcpid mcpflags) as (E31 & E30).
  rewrite canid_to_mcpid_cases, E31, E30.
  change CAN_OBJ_FLAGS_IDE with (BIT 4). change CAN_OBJ_FLAGS_RTR with (BIT 5).
  f_equal.
  - rewrite mcpid_to_canid_cases. unfold u32.
    apply Z.bits_inj'; intros i Hi.
    assert (R : i < 11 \/ 11 <= i < 29 \/ 29 <= i < 32 \/ 32 <= i) by lia.
    destruct (Z.testbit mcpflags 4), (Z.testbit mcpflags 5);
      destruct R as [R|[R|[R|R]]]; tb; cmp_lia; bool_simpl;
      try reflexivity; try (f_equal; lia).
  - apply Z.bits_inj'; intros i Hi.
    assert (R : i = 4 \/ i = 5 \/ (i <> 4 /\ i <> 5)) by lia.
    destruct (Z.testbit mcpflags 4) eqn:E4, (Z.testbit mcpflags 5) eqn:E5;
      destruct R as [R|[R|R]]; subst; tb; cmp_lia; bool_simpl;
      rewrite ?E4, ?E5; try reflexivity.
Qed.

(* ------------------------------------------------------------------ *)
(** ** More on the register transport *)

Lemma land_low_mod (a b : Z) (n : Z) :
  0 <= n -> Z.land a (Z.ones n) = 0 -> Z.land a (b mod 2 ^ n) = 0.
Proof.
  intros Hn H. apply Z.bits_inj'; intros i Hi.
  assert (Hi' : Z.testbit (Z.land a (Z.ones n)) i = false) by (rewrite H; apply Z.bits_0).
  revert Hi'. tb. cmp_lia. destruct (Z.ltb_spec i n); bool_simpl; intros E;
    rewrite ?E; reflexivity.
Qed.

(** X4: the command word. For an instruction code (a 16-bit value with
    its low 12 bits clear) the two command bytes are the big-endian word
    made of the instruction and the address modulo 4096: an address beyond
    the 12 bits wraps around, and within them it can be read back from the
    bytes. *)
Theorem calc_cmd_addr_word (cmd addr : Z) :
  0 <= cmd < 2 ^ 16 -> Z.land cmd ADDRESS_MASK = 0 ->
  exists b0 b1,
    mcp2517fd_calc_cmd_addr cmd addr = [b0; b1] /\
    0 <= b0 < 256 /\ 0 <= b1 < 256 /\
    b0 * 256 + b1 = cmd + addr mod 4096 /\
    Z.land (b0 * 256 + b1) ADDRESS_MASK = addr mod 4096.
Proof.
  intros Hc Hl. unfold mcp2517fd_calc_cmd_addr.
  change ADDRESS_MASK with (Z.ones 12) in *. change 255 with (Z.ones 8).
  assert (Ha : Z.land (addr mod 2 ^ 16) (Z.ones 12) = addr mod 4096).
  { change 4096 with (2 ^ 12). apply Z.bits_inj'; intros i Hi. bitblast. }
  rewrite Ha.
  assert (Hm : 0 <= addr mod 4096 < 4096) by (apply Z.mod_pos_bound; lia).
  assert (Hd : Z.land cmd (addr mod 4096) = 0)
    by (change 4096 with (2 ^ 12); apply land_low_mod; [lia|exact Hl]).
  assert (Hs : Z.lor cmd (addr mod 4096) = cmd + addr mod 4096).
  { pose proof (Z.add_lor_land cmd (addr mod 4096)) as Hal.
    rewrite Hd in Hal. lia. }
  rewrite Hs. set (c := cmd + addr mod 4096).
  assert (Hc0 : Z.land cmd (Z.ones 12) = cmd mod 4096) by (now rewrite Z.land_ones by lia).
  assert (Hcm : cmd mod 4096 = 0) by lia.
  assert (Hcr : 0 <= c < 2 ^ 16).
  { unfold c. split; [lia|].
    assert (cmd = 4096 * (cmd / 4096)) by (rewrite (Z.div_mod cmd 4096) at 1; lia).
    assert (cmd / 4096 < 16) by (apply Z.div_lt_upper_bound; lia).
    lia. }
  exists (Z.land (Z.shiftr c 8) (Z.ones 8)), (Z.land (Z.shiftr c 0) (Z.ones 8)).
  rewrite Z.shiftr_0_r, !Z.land_ones, Z.shiftr_div_pow2 by lia.
  change (2 ^ 8) with 256.
  assert (Hq : 0 <= c / 256 < 256).
  { split; [apply Z.div_pos; lia|apply Z.div_lt_upper_bound; lia]. }
  rewrite (Z.mod_small (c / 256)) by lia.
  assert (Hw : c / 256 * 256 + c mod 256 = c)
    by (rewrite (Z.div_mod c 256) at 3; lia).
  split; [reflexivity|]. split; [lia|].
  split; [apply Z.mod_pos_bound; lia|]. split; [exact Hw|].
  rewrite Hw. change (2 ^ 12) with 4096. unfold c.
  rewrite Z.add_mod, Hcm, Z.add_0_l, !Z.mod_mod by lia. reflexivity.
Qed.

(** The masked write, step by step, on any kernel. *)
Lemma cmd_write_mask_form reg data mask speed w :
  mask <> 0 ->
  mcp2517fd_cmd_write_mask reg data mask speed w
  = if alloc_ok K (trace w) kmalloc_txrx
    then (errno (fst (spi_sync_transfer K (trace w ++ [k_alloc kmalloc_txrx])
                        (write_mask_message reg data mask speed))),
          calls (write_mask_calls reg data mask speed) w)
    else (- ENOMEM, calls [k_alloc kmalloc_txrx] w).
Proof.
  intros H. unfold mcp2517fd_cmd_write_mask.
  assert (E : nz mask = true) by now apply nz_true.
  rewrite E. cbn [negb]. unfold mcp2517fd_write_then_write.
  destruct (alloc_ok K (trace w) kmalloc_txrx); cbn [negb].
  - unfold mcp2517fd_sync_transfer, write_mask_message, write_mask_calls.
    cbn [map tx_buf rx_buf xfer_len trace call].
    destruct (spi_sync_transfer K _ _) as [r rx]. cbn [fst].
    rewrite !call_as_calls, calls_calls. reflexivity.
  - rewrite call_as_calls. reflexivity.
Qed.

(** The read of [n] bytes, step by step, on any kernel. *)
Lemma cmd_readn_form reg n speed w :
  mcp2517fd_cmd_readn reg n speed w
  = if SPI_MASTER_HALF_DUPLEX K then
      let '(r, rx) := spi_sync_transfer K (trace w) (readn_message reg n speed) in
      (errno r, Some (bytes_from (at_list rx) 0 n),
       calls [k_spi_sync_transfer (readn_message reg n speed)] w)
    else if alloc_ok K (trace w) kmalloc_txrx then
      let '(r, rx) := spi_sync_transfer K (trace w ++ [k_alloc kmalloc_txrx])
                                        (readn_message reg n speed) in
      (errno r,
       if nz (errno r) then None else Some (bytes_from (at_list rx) 2 n),
       calls [k_alloc kmalloc_txrx;
              k_spi_sync_transfer (readn_message reg n speed)] w)
    else (- ENOMEM, None, calls [k_alloc kmalloc_txrx] w).
Proof.
  unfold mcp2517fd_cmd_readn, mcp2517fd_write_then_read, readn_message.
  destruct (SPI_MASTER_HALF_DUPLEX K).
  - unfold mcp2517fd_sync_transfer.
    cbn [map tx_buf rx_buf xfer_len trace call].
    destruct (spi_sync_transfer K _ _) as [r rx].
    rewrite call_as_calls. reflexivity.
  - destruct (alloc_ok K (trace w) kmalloc_txrx); cbn [negb].
    + unfold mcp2517fd_sync_transfer.
      cbn [map tx_buf rx_buf xfer_len trace call].
      destruct (spi_sync_transfer K _ _) as [r rx].
      rewrite !call_as_calls, calls_calls. reflexivity.
    + rewrite call_as_calls. reflexivity.
Qed.

Lemma calls_since_refl (w : world) : calls_since w w = [].
Proof. unfold calls_since. apply skipn_all. Qed.

Lemma u8_byte_of (x k : Z) : u8 (byte_of x k) = byte_of x k.
Proof.
  unfold u8, byte_of. change 255 with (Z.ones 8).
  rewrite Z.land_ones by lia. apply Z.mod_mod. lia.
Qed.

Lemma byte_bounds (lo : Z) : 0 <= lo -> 8 * (lo / 8) <= lo < 8 * (lo / 8) + 8.
Proof. intros H. pose proof (Z.div_mod lo 8). pose proof (Z.mod_pos_bound lo 8). lia. Qed.

Lemma bytes_from_zrange (m : Z -> Z) (off n : Z) :
  bytes_from m off n = map (fun j => u8 (m j)) (zrange off (Z.to_nat n)).
Proof.
  unfold bytes_from. generalize (Z.to_nat n) as k. intros k. revert off.
  induction k as [|k IH]; intros off; [reflexivity|].
  cbn [seq map zrange]. rewrite Z.add_0_r. f_equal.
  rewrite <- seq_shift, map_map, <- IH.
  apply map_ext. intros j. do 2 f_equal. lia.
Qed.

Lemma at_list_le32_bytes (data k : Z) :
  0 <= k <= 3 -> at_list (le32_bytes data) k = byte_of data k.
Proof.
  intros H.
  assert (A : k = 0 \/ k = 1 \/ k = 2 \/ k = 3) by lia.
  destruct A as [-> | [-> | [-> | ->]]]; reflexivity.
Qed.

Lemma window_bytes (data a b : Z) :
  0 <= a <= b -> b <= 3 ->
  bytes_from (at_list (le32_bytes data)) a (b - a + 1)
  = map (byte_of data) (zrange a (Z.to_nat (b - a + 1))).
Proof.
  intros Ha Hb. rewrite bytes_from_zrange.
  apply map_ext_in. intros j Hj. apply in_zrange in Hj.
  rewrite at_list_le32_bytes by lia. apply u8_byte_of.
Qed.

(** X5: the window of a masked write. For a mask that is not 0 the
    message of [mcp2517fd_cmd_write_mask] addresses the first byte of the
    register that holds a bit of the mask and carries the bytes of the value
    from that byte to the last byte that holds a bit of the mask, whole: at
    least one and at most four bytes, every bit of the mask inside them and
    a bit of the mask in the first and in the last of them. *)
Theorem write_mask_window (reg data mask speed : Z) (w : world) :
  0 < mask < 2 ^ 32 ->
  alloc_ok K (trace w) kmalloc_txrx = true ->
  let lo := mask_first_byte mask in
  let hi := mask_last_byte mask in
  0 <= lo <= hi /\ hi <= 3 /\
  (forall j, Z.testbit mask j = true -> 8 * lo <= j < 8 * hi + 8) /\
  (exists j, 8 * lo <= j < 8 * lo + 8 /\ Z.testbit mask j = true) /\
  (exists j, 8 * hi <= j < 8 * hi + 8 /\ Z.testbit mask j = true) /\
  first_tx (calls_since w (snd (mcp2517fd_cmd_write_mask reg data mask speed w)))
  = mcp2517fd_calc_cmd_addr INSTRUCTION_WRITE (reg + lo)
    ++ map (byte_of data) (zrange lo (Z.to_nat (hi - lo + 1))).
Proof.
  intros Hm Ha lo hi.
  destruct (mask_byte_range mask Hm) as (l & h & Hlh & Hh & Tl & Th & Bl & Bh & El & Eh).
  fold lo in El. fold hi in Eh.
  pose proof (byte_bounds l ltac:(lia)) as Pl.
  pose proof (byte_bounds h ltac:(lia)) as Ph.
  assert (Hlo : 0 <= lo) by (rewrite El; apply Z.div_pos; lia).
  assert (Hlohi : lo <= hi) by (rewrite El, Eh; apply Z.div_le_mono; lia).
  assert (Hhi : hi <= 3) by (rewrite Eh; apply Z.lt_succ_r; apply Z.div_lt_upper_bound; lia).
  split; [lia|]. split; [exact Hhi|].
  split.
  { intros j Tj.
    assert (0 <= j) by (destruct (Z_lt_le_dec j 0); [rewrite Z.testbit_neg_r in Tj by lia; discriminate|lia]).
    assert (l <= j) by (destruct (Z_lt_le_dec j l); [rewrite Bl in Tj by lia; discriminate|lia]).
    assert (j <= h) by (destruct (Z_lt_le_dec h j); [rewrite Bh in Tj by lia; discriminate|lia]).
    rewrite El, Eh. lia. }
  split; [exists l; rewrite El; split; [lia|exact Tl]|].
  split; [exists h; rewrite Eh; split; [lia|exact Th]|].
  rewrite cmd_write_mask_form, Ha by lia. cbn [snd].
  rewrite calls_since_calls. unfold first_tx, write_mask_calls, write_mask_message.
  cbn [spi_messages flat_map app tx_buf]. fold lo. fold hi.
  f_equal. apply window_bytes; lia.
Qed.

Lemma nz_errno (r : option positive) : nz (errno r) = match r with None => false | Some _ => true end.
Proof. destruct r; reflexivity. Qed.

(** X6: what a masked access does when it cannot go through. A masked
    write or read never changes the driver state or the counters, returns 0
    or a negative code and sends at most one SPI message. With a mask of 0
    both return -EINVAL and do nothing at all. When the bounce buffer cannot
    be allocated the write (and, on a full-duplex controller, the read)
    returns -ENOMEM and sends nothing. A read through the bounce buffer
    that fails leaves 0 in the word it was to fill. *)
Theorem masked_access_failures (reg data mask speed : Z) (w : world) :
  let '(ret, w1) := mcp2517fd_cmd_write_mask reg data mask speed w in
  let '(ret', val, w2) := mcp2517fd_cmd_read_mask reg mask speed w in
  transported w w1 /\ transported w w2 /\
  ret <= 0 /\ ret' <= 0 /\
  (length (spi_messages (calls_since w w1)) <= 1)%nat /\
  (length (spi_messages (calls_since w w2)) <= 1)%nat /\
  (mask = 0 ->
   (ret, w1) = (- EINVAL, w) /\ (ret', val, w2) = (- EINVAL, None, w)) /\
  (mask <> 0 -> alloc_ok K (trace w) kmalloc_txrx = false ->
   ret = - ENOMEM /\ spi_messages (calls_since w w1) = [] /\
   (SPI_MASTER_HALF_DUPLEX K = false ->
    ret' = - ENOMEM /\ spi_messages (calls_since w w2) = [])) /\
  (mask <> 0 -> SPI_MASTER_HALF_DUPLEX K = false -> ret' <> 0 -> val = Some 0).
Proof.
  pose proof (cmd_write_mask_transported reg data mask speed w) as T1.
  pose proof (cmd_read_mask_transported reg mask speed w) as T2.
  pose proof (cmd_write_mask_ret reg data mask speed w) as R1.
  destruct (Z.eq_dec mask 0) as [->|Hm].
  { destruct (masked_access_zero_mask reg data speed w) as [Er Ew].
    rewrite Ew, Er. rewrite calls_since_refl. cbn [spi_messages flat_map length].
    repeat split; try apply transported_refl; try (unfold EINVAL; lia);
      try congruence. }
  rewrite cmd_write_mask_form in * by exact Hm.
  unfold mcp2517fd_cmd_read_mask in *.
  assert (E : nz mask = true) by now apply nz_true.
  rewrite E in *. cbn [negb] in *.
  rewrite cmd_readn_form in *.
  destruct (alloc_ok K (trace w) kmalloc_txrx) eqn:A,
           (SPI_MASTER_HALF_DUPLEX K) eqn:D;
    repeat match goal with
    | |- context [spi_sync_transfer K ?t ?x] =>
        destruct (spi_sync_transfer K t x) as [? ?]
    | H : context [spi_sync_transfer K ?t ?x] |- _ =>
        destruct (spi_sync_transfer K t x) as [? ?]
    end;
    cbn [fst snd] in *; rewrite ?calls_since_calls;
    cbn [spi_messages flat_map app length write_mask_calls];
    repeat split; try assumption; try apply errno_nonpos;
    try (unfold ENOMEM; lia); try lia; try congruence.
  all: try (intros _ _ Hr; rewrite nz_errno; destruct o; cbn in Hr;
            [reflexivity|congruence]).
  all: try (intros _ _ Hr; reflexivity).
  all: eexists; split; [reflexivity|repeat constructor].
Qed.

(* ------------------------------------------------------------------ *)
(** ** More on the objects sent *)

Lemma message_obj_bits (frame : can_frame) (i : Z) :
  0 <= i ->
  Z.testbit (tx_flags (message_obj frame)) i
  = Z.testbit (cf_can_dlc frame) i
    || (i =? 4) && Z.testbit (cf_can_id frame) 31
    || (i =? 5) && Z.testbit (cf_can_id frame) 30.
Proof.
  intros Hi. unfold message_obj. rewrite canid_to_mcpid_cases. cbn [tx_flags].
  change CAN_EFF_FLAG with (BIT 31). change CAN_RTR_FLAG with (BIT 30).
  rewrite !land_BIT_nz by lia.
  change CAN_OBJ_FLAGS_DLC_SHIFT with 0. rewrite Z.shiftl_0_r.
  change CAN_OBJ_FLAGS_IDE with (BIT 4). change CAN_OBJ_FLAGS_RTR with (BIT 5).
  destruct (Z.testbit (cf_can_id frame) 31), (Z.testbit (cf_can_id frame) 30);
    tb; destruct (Z.eqb_spec i 4), (Z.eqb_spec i 5); subst; cmp_lia; bool_simpl;
    try reflexivity; try lia.
Qed.

Lemma fdmessage_obj_bits (dlc : Z) (frame : canfd_frame) (i : Z) :
  0 <= i ->
  Z.testbit (tx_flags (fdmessage_obj dlc frame)) i
  = Z.testbit dlc i
    || (i =? 4) && Z.testbit (fd_can_id frame) 31
    || (i =? 5) && Z.testbit (fd_can_id frame) 30
    || (i =? 6) && Z.testbit (fd_flags frame) 0
    || (i =? 7)
    || (i =? 8) && Z.testbit (fd_flags frame) 1.
Proof.
  intros Hi. unfold fdmessage_obj. rewrite canid_to_mcpid_cases. cbn [tx_flags].
  change CAN_EFF_FLAG with (BIT 31). change CAN_RTR_FLAG with (BIT 30).
  change CANFD_BRS with (BIT 0). change CANFD_ESI with (BIT 1).
  rewrite !land_BIT_nz by lia.
  change CAN_OBJ_FLAGS_DLC_SHIFT with 0. rewrite Z.shiftl_0_r.
  change CAN_OBJ_FLAGS_IDE with (BIT 4). change CAN_OBJ_FLAGS_RTR with (BIT 5).
  change CAN_OBJ_FLAGS_BRS with (BIT 6). change CAN_OBJ_FLAGS_FDF with (BIT 7).
  change CAN_OBJ_FLAGS_ESI with (BIT 8).
  destruct (Z.testbit (fd_can_id frame) 31), (Z.testbit (fd_can_id frame) 30),
    (Z.testbit (fd_flags frame) 0), (Z.testbit (fd_flags frame) 1);
    tb; destruct (Z.eqb_spec i 4), (Z.eqb_spec i 5), (Z.eqb_spec i 6),
      (Z.eqb_spec i 7), (Z.eqb_spec i 8); subst; cmp_lia; bool_simpl;
    try reflexivity; try lia.
Qed.

(** The flags word on the wire: below bit 9 the flags of the object, from
    bit 9 on the fifo. *)
Lemma wire_flags_bits (f fifo i : Z) :
  0 <= i < 32 ->
  Z.testbit (u32 (Z.lor f (Z.shiftl fifo CAN_OBJ_FLAGS_SEQ_SHIFT))) i
  = Z.testbit f i || Z.testbit fifo (i - 9).
Proof.
  intros Hi. unfold u32. change CAN_OBJ_FLAGS_SEQ_SHIFT with 9.
  tb. cmp_lia. bool_simpl. reflexivity.
Qed.

Lemma wire_seq_field (f fifo : Z) :
  0 <= fifo < 128 -> (forall i, 9 <= i -> Z.testbit f i = false) ->
  Z.shiftr (Z.land (u32 (Z.lor f (Z.shiftl fifo CAN_OBJ_FLAGS_SEQ_SHIFT)))
                   CAN_OBJ_FLAGS_SEQ_MASK) CAN_OBJ_FLAGS_SEQ_SHIFT = fifo.
Proof.
  intros Hf Hh. change CAN_OBJ_FLAGS_SEQ_MASK with (Z.shiftl (Z.ones 7) 9).
  change CAN_OBJ_FLAGS_SEQ_SHIFT with 9. unfold u32.
  apply Z.bits_inj'; intros i Hi.
  assert (R : i < 7 \/ 7 <= i) by lia.
  destruct R; tb; cmp_lia; bool_simpl; rewrite ?Hh by lia; bool_simpl;
    rewrite ?(testbit_small fifo 7) by lia; try reflexivity.
  f_equal. lia.
Qed.

Lemma tx_buffer_id fifo obj len data w :
  le32_at (tx_buffer fifo obj len data w) 2 = u32 (tx_id obj).
Proof.
  apply le32_at_le32_bytes; reflexivity.
Qed.

Lemma u8_land_byte (x : Z) : u8 (Z.land x 255) = Z.land x 255.
Proof.
  unfold u8. change 255 with (Z.ones 8). rewrite Z.land_ones by lia.
  apply Z.mod_mod. lia.
Qed.

Lemma tx_buffer_cmd fifo obj len data w :
  bytes_from (tx_buffer fifo obj len data w) 0 2
  = mcp2517fd_calc_cmd_addr INSTRUCTION_WRITE
      (FIFO_DATA (fifo_address (priv w) fifo)).
Proof.
  rewrite bytes_from_zrange. change (Z.to_nat 2) with 2%nat. cbn [zrange map].
  unfold mcp2517fd_calc_cmd_addr.
  change (tx_buffer fifo obj len data w 0)
    with (Z.land (Z.shiftr (Z.lor INSTRUCTION_WRITE
            (Z.land (FIFO_DATA (fifo_address (priv w) fifo) mod 2 ^ 16)
                    ADDRESS_MASK)) 8) 255).
  change (tx_buffer fifo obj len data w (0 + 1))
    with (Z.land (Z.shiftr (Z.lor INSTRUCTION_WRITE
            (Z.land (FIFO_DATA (fifo_address (priv w) fifo) mod 2 ^ 16)
                    ADDRESS_MASK)) 0) 255).
  rewrite !u8_land_byte. reflexivity.
Qed.

Lemma tx_buffer_padding fifo obj len data w k :
  0 <= len <= k ->
  tx_buffer fifo obj len data w (10 + k) = auto_storage K (trace w) (10 + k).
Proof.
  intros H. unfold tx_buffer, memcpy_to, upd.
  change (2 + sizeof_obj_tx) with 10.
  rewrite length_bytes_from by lia.
  cbn [length app le32_bytes mcp2517fd_calc_cmd_addr Z.of_nat Pos.of_succ_nat
       Pos.succ].
  cmp_lia. cbn [andb]. reflexivity.
Qed.

Lemma firstn_bytes_from m n k :
  (k <= Z.to_nat n)%nat ->
  firstn k (bytes_from m 0 n) = bytes_from m 0 (Z.of_nat k).
Proof.
  intros H. unfold bytes_from. rewrite Nat2Z.id, firstn_map. f_equal.
  replace (Z.to_nat n) with (k + (Z.to_nat n - k))%nat by lia.
  rewrite seq_app, firstn_app, length_seq, Nat.sub_diag. cbn [firstn].
  rewrite app_nil_r. apply firstn_all2. rewrite length_seq. lia.
Qed.

(** The head of the message that fills a transmit fifo. *)
Lemma transmit_common_header fifo obj len data w :
  0 <= len ->
  let tx := first_tx (calls_since w
              (snd (mcp2517fd_transmit_message_common fifo obj len data w))) in
  firstn 2 tx = mcp2517fd_calc_cmd_addr INSTRUCTION_WRITE
                  (FIFO_DATA (fifo_address (priv w) fifo)) /\
  wire_id tx = u32 (tx_id obj) /\
  forall k, len <= k < ALIGN len 4 ->
            at_list tx (10 + k) = u8 (auto_storage K (trace w) (10 + k)).
Proof.
  intros H.
  destruct (transmit_common_calls fifo obj len data w) as [rest E].
  rewrite E. cbn [first_tx spi_messages flat_map app tx_buf].
  pose proof (ALIGN_4_bounds len H) as HA.
  change (2 + sizeof_obj_tx) with 10 in *.
  split; [|split].
  - rewrite firstn_bytes_from by lia. apply tx_buffer_cmd.
  - unfold wire_id. rewrite le32_at_bytes_from by lia. apply tx_buffer_id.
  - intros k Hk. rewrite at_list_bytes_from by lia.
    change (0 + (10 + k)) with (10 + k).
    rewrite tx_buffer_padding by lia. reflexivity.
Qed.

Lemma canid_to_mcpid_id_u32 (can_id : Z) :
  u32 (fst (mcp2517fd_canid_to_mcpid can_id)) = fst (mcp2517fd_canid_to_mcpid can_id).
Proof.
  rewrite canid_to_mcpid_cases. cbn [fst]. unfold u32.
  destruct (Z.testbit can_id 31).
  - apply Z.mod_mod. lia.
  - apply Z.mod_small. rewrite Z.land_ones by lia.
    pose proof (Z.mod_pos_bound can_id (2 ^ 11)). lia.
Qed.

Lemma len2dlc_range (len : Z) : 0 <= len -> 0 <= can_len2dlc len <= 15.
Proof.
  intros H. unfold can_len2dlc.
  repeat match goal with |- context [?a <=? ?b] => destruct (Z.leb_spec a b) end;
    lia.
Qed.

(** X7: the head of a transmit object on the wire. The message that
    fills a transmit fifo starts with the write command at the address the
    device gave for that fifo, then the identifier word of the encoded
    identifier, then a flags word whose sequence field reads back as the
    fifo (the tag by which the completion handler finds the echo buffer)
    and whose IDE and RTR bits are the extended-id and remote-request flags
    of the frame; BRS and ESI are those of an FD frame and FDF tells FD
    from classic. *)
Theorem tx_wire_header (fifo : Z) (w : world) :
  0 <= fifo < 128 ->
  (forall frame : can_frame,
     0 <= cf_can_dlc frame <= 255 ->
     let '(_, _, w') := mcp2517fd_transmit_message fifo frame w in
     let tx := first_tx (calls_since w w') in
     firstn 2 tx = mcp2517fd_calc_cmd_addr INSTRUCTION_WRITE
                     (FIFO_DATA (fifo_address (priv w) fifo)) /\
     wire_id tx = fst (mcp2517fd_canid_to_mcpid (cf_can_id frame)) /\
     wire_seq tx = fifo /\
     Z.testbit (wire_flags tx) 4 = Z.testbit (cf_can_id frame) 31 /\
     Z.testbit (wire_flags tx) 5 = Z.testbit (cf_can_id frame) 30 /\
     Z.testbit (wire_flags tx) 6 = false /\
     Z.testbit (wire_flags tx) 7 = false /\
     Z.testbit (wire_flags tx) 8 = false) /\
  (forall frame : canfd_frame,
     0 <= fd_len frame <= 255 ->
     let '(_, _, w') := mcp2517fd_transmit_fdmessage fifo frame w in
     let tx := first_tx (calls_since w w') in
     firstn 2 tx = mcp2517fd_calc_cmd_addr INSTRUCTION_WRITE
                     (FIFO_DATA (fifo_address (priv w) fifo)) /\
     wire_id tx = fst (mcp2517fd_canid_to_mcpid (fd_can_id frame)) /\
     wire_seq tx = fifo /\
     Z.testbit (wire_flags tx) 4 = Z.testbit (fd_can_id frame) 31 /\
     Z.testbit (wire_flags tx) 5 = Z.testbit (fd_can_id frame) 30 /\
     Z.testbit (wire_flags tx) 6 = Z.testbit (fd_flags frame) 0 /\
     Z.testbit (wire_flags tx) 7 = true /\
     Z.testbit (wire_flags tx) 8 = Z.testbit (fd_flags frame) 1).
Proof.
  intros Hf. split; intros frame H.
  - unfold mcp2517fd_transmit_message.
    set (frame1 := if cf_can_dlc frame >? 8
                   then {| cf_can_id := cf_can_id frame; cf_can_dlc := 8;
                           cf_data := cf_data frame |}
                   else frame).
    assert (E1 : 0 <= cf_can_dlc frame1 <= 8).
    { unfold frame1. destruct (Z.gtb_spec (cf_can_dlc frame) 8); cbn [cf_can_dlc]; lia. }
    assert (E2 : cf_can_id frame1 = cf_can_id frame).
    { unfold frame1. destruct (cf_can_dlc frame >? 8); reflexivity. }
    pose proof (transmit_common_wire fifo (message_obj frame1)
                  (cf_can_dlc frame1) (cf_data frame1) w) as W.
    pose proof (transmit_common_header fifo (message_obj frame1)
                  (cf_can_dlc frame1) (cf_data frame1) w) as V.
    destruct (mcp2517fd_transmit_message_common fifo (message_obj frame1)
                (cf_can_dlc frame1) (cf_data frame1) w) as [ret w'].
    cbn [snd] in W, V. destruct W as (W1 & _); [lia|].
    destruct V as (V1 & V2 & _); [lia|].
    assert (D : forall i, 4 <= i -> Z.testbit (cf_can_dlc frame1) i = false)
      by (intros; apply (testbit_small _ 4); lia).
    cbv zeta. unfold wire_seq, wire_flags. rewrite W1, V2.
    rewrite !wire_flags_bits, !message_obj_bits, !D, E2 by lia.
    rewrite !(Z.testbit_neg_r fifo) by lia. cbn [Z.eqb Pos.eqb andb orb].
    bool_simpl.
    split; [exact V1|]. split.
    { unfold message_obj.
      pose proof (canid_to_mcpid_id_u32 (cf_can_id frame1)) as U.
      destruct (mcp2517fd_canid_to_mcpid (cf_can_id frame1)) as [i0 f0] eqn:Ec.
      cbn [tx_id fst] in *. rewrite U, <- E2, Ec. reflexivity. }
    split; [|repeat split].
    apply wire_seq_field; [lia|].
    intros i Hi. rewrite message_obj_bits, D by lia. cmp_lia. reflexivity.
  - unfold mcp2517fd_transmit_fdmessage.
    set (dlc := can_len2dlc (fd_len frame)).
    assert (Hd : 0 <= dlc <= 15) by (apply len2dlc_range; lia).
    set (frame1 := {| fd_can_id := fd_can_id frame; fd_len := u8 (can_dlc2len dlc);
                      fd_flags := fd_flags frame; fd_data := fd_data frame |}).
    assert (L : 0 <= fd_len frame1)
      by (cbn [frame1 fd_len]; unfold u8; apply Z.mod_pos_bound; lia).
    pose proof (transmit_common_wire fifo (fdmessage_obj dlc frame1)
                  (fd_len frame1) (fd_data frame1) w) as W.
    pose proof (transmit_common_header fifo (fdmessage_obj dlc frame1)
                  (fd_len frame1) (fd_data frame1) w) as V.
    destruct (mcp2517fd_transmit_message_common fifo (fdmessage_obj dlc frame1)
                (fd_len frame1) (fd_data frame1) w) as [ret w'].
    cbn [snd] in W, V. destruct W as (W1 & _); [lia|].
    destruct V as (V1 & V2 & _); [lia|].
    assert (D : forall i, 4 <= i -> Z.testbit dlc i = false)
      by (intros; apply (testbit_small _ 4); lia).
    cbv zeta. unfold wire_seq, wire_flags. rewrite W1, V2.
    rewrite !wire_flags_bits, !fdmessage_obj_bits, !D by lia.
    rewrite !(Z.testbit_neg_r fifo) by lia. cbn [Z.eqb Pos.eqb andb orb].
    bool_simpl. cbn [frame1 fd_can_id fd_flags].
    split; [exact V1|]. split.
    { unfold fdmessage_obj.
      pose proof (canid_to_mcpid_id_u32 (fd_can_id frame1)) as U.
      cbn [frame1 fd_can_id] in *.
      destruct (mcp2517fd_canid_to_mcpid (fd_can_id frame)) as [i0 f0] eqn:Ec.
      cbn [tx_id fst] in *. exact U. }
    split; [|repeat split].
    apply wire_seq_field; [lia|].
    intros i Hi. rewrite fdmessage_obj_bits, D by lia. cmp_lia. reflexivity.
Qed.

(** X8: the padding of a transmit object. The payload is sent rounded
    up to a multiple of 4 bytes; the bytes behind the payload are the
    bytes found in the automatic buffer, of which only the first byte is
    cleared before it is filled. *)
Theorem tx_padding_as_found fifo obj len data w :
  0 <= len ->
  let tx := first_tx (calls_since w
              (snd (mcp2517fd_transmit_message_common fifo obj len data w))) in
  Z.of_nat (length tx) = 2 + sizeof_obj_tx + ALIGN len 4 /\
  len <= ALIGN len 4 <= len + 3 /\ ALIGN len 4 mod 4 = 0 /\
  (forall k, 0 <= k < len -> at_list tx (2 + sizeof_obj_tx + k) = u8 (data k)) /\
  (forall k, len <= k < ALIGN len 4 ->
     at_list tx (2 + sizeof_obj_tx + k)
     = u8 (auto_storage K (trace w) (2 + sizeof_obj_tx + k))).
Proof.
  intros H tx.
  destruct (transmit_common_wire fifo obj len data w H) as (_ & W2 & W3).
  destruct (transmit_common_header fifo obj len data w H) as (_ & _ & V3).
  fold tx in W2, W3, V3. change (2 + sizeof_obj_tx) with 10 in *.
  split; [exact W2|]. split; [apply ALIGN_4_bounds; exact H|].
  split; [rewrite ALIGN_4_multiple, Z.mul_comm; apply Z.mod_mul; lia|].
  split; [exact W3|exact V3].
Qed.

(* ------------------------------------------------------------------ *)
(** ** What is sent is what is received *)

Lemma mcpid_to_canid_flags (mcpid f f' : Z) :
  Z.testbit f 4 = Z.testbit f' 4 -> Z.testbit f 5 = Z.testbit f' 5 ->
  mcp2517fd_mcpid_to_canid mcpid f = mcp2517fd_mcpid_to_canid mcpid f'.
Proof. intros E4 E5. rewrite !mcpid_to_canid_cases, E4, E5. reflexivity. Qed.

Lemma dlc_field_low (f g : Z) :
  (forall i, 0 <= i < 4 -> Z.testbit f i = Z.testbit g i) ->
  Z.shiftr (Z.land f CAN_OBJ_FLAGS_DLC_MASK) CAN_OBJ_FLAGS_DLC_SHIFT
  = Z.land g (Z.ones 4).
Proof.
  intros H. change CAN_OBJ_FLAGS_DLC_MASK with (Z.ones 4).
  change CAN_OBJ_FLAGS_DLC_SHIFT with 0. rewrite Z.shiftr_0_r.
  apply Z.bits_inj'; intros i Hi.
  destruct (Z_lt_le_dec i 4); tb; cmp_lia; bool_simpl; [apply H; lia|reflexivity].
Qed.

Lemma canid_flags_bits (can_id : Z) :
  Z.testbit (snd (mcp2517fd_canid_to_mcpid can_id)) 4 = Z.testbit can_id 31 /\
  Z.testbit (snd (mcp2517fd_canid_to_mcpid can_id)) 5 = Z.testbit can_id 30.
Proof. rewrite canid_to_mcpid_cases. cbn [snd]. apply mcp_flag_bits. Qed.

Lemma message_obj_id (frame : can_frame) :
  tx_id (message_obj frame) = fst (mcp2517fd_canid_to_mcpid (cf_can_id frame)).
Proof.
  unfold message_obj. destruct (mcp2517fd_canid_to_mcpid (cf_can_id frame)).
  reflexivity.
Qed.

Lemma fdmessage_obj_id (dlc : Z) (frame : canfd_frame) :
  tx_id (fdmessage_obj dlc frame)
  = fst (mcp2517fd_canid_to_mcpid (fd_can_id frame)).
Proof.
  unfold fdmessage_obj. destruct (mcp2517fd_canid_to_mcpid (fd_can_id frame)).
  reflexivity.
Qed.

Section Loopback.

Hypothesis spi_ok : forall t x, fst (spi_sync_transfer K t x) = None.
Hypothesis allocs_ok : forall t a, alloc_ok K t a = true.

(** X9: a classic frame comes back as it was sent. If the receive slot
    of a fifo holds what [mcp2517fd_transmit_message] writes for a classic
    frame of at most 8 bytes (the identifier word, the flags word up to
    bit 8, the payload), [mcp2517fd_can_ist_handle_rxfifo] hands the network
    stack one classic frame with the identifier (flags and identifier bits
    kept by the codec), the dlc and the payload of the frame sent, and
    zeros behind the payload. *)
Theorem rx_decodes_classic (fifo : Z) (frame : can_frame) (w : world) :
  0 <= cf_can_dlc frame <= 8 ->
  rx_id (priv w) fifo = tx_id (message_obj frame) ->
  (forall i, 0 <= i < 9 ->
     Z.testbit (rx_flags (priv w) fifo) i
     = Z.testbit (tx_flags (message_obj frame)) i) ->
  (forall k, 0 <= k < cf_can_dlc frame ->
     rx_data (priv w) fifo k = u8 (cf_data frame k)) ->
  exists w' f,
    mcp2517fd_can_ist_handle_rxfifo fifo w = (0, w') /\
    rx_delivered (calls_since w w') = [skb_can f] /\
    cf_can_id f = canid_kept (cf_can_id frame) /\
    cf_can_dlc f = cf_can_dlc frame /\
    (forall k, 0 <= k < cf_can_dlc frame -> cf_data f k = u8 (cf_data frame k)) /\
    (forall k, k < 0 \/ cf_can_dlc frame <= k -> cf_data f k = 0).
Proof.
  intros Hd Hid Hfl Hdata.
  unfold mcp2517fd_can_ist_handle_rxfifo.
  rewrite (cmd_write_mask_ok spi_ok allocs_ok) by discriminate.
  cbn [nz Z.eqb negb].
  set (w1 := calls _ _).
  assert (Ef : rx_flags (priv w1) fifo = rx_flags (priv w) fifo) by reflexivity.
  assert (Ei : rx_id (priv w1) fifo = rx_id (priv w) fifo) by reflexivity.
  assert (Ed : rx_data (priv w1) fifo = rx_data (priv w) fifo) by reflexivity.
  assert (D : forall i, 4 <= i -> Z.testbit (cf_can_dlc frame) i = false)
    by (intros; apply (testbit_small _ 4); lia).
  change CAN_OBJ_FLAGS_FDF with (BIT 7). rewrite land_BIT_nz, Ef by lia.
  rewrite Hfl, message_obj_bits, D by lia. cbn [Z.eqb Pos.eqb andb orb].
  unfold mcp2517fd_can_transform_rx_normal. rewrite allocs_ok. cbn [negb].
  rewrite Ef, Ei, Ed.
  assert (Edlc : Z.shiftr (Z.land (rx_flags (priv w) fifo) CAN_OBJ_FLAGS_DLC_MASK)
                          CAN_OBJ_FLAGS_DLC_SHIFT = cf_can_dlc frame).
  { rewrite (dlc_field_low _ (cf_can_dlc frame)).
    - rewrite Z.land_ones by lia. apply Z.mod_small. lia.
    - intros i Hi. rewrite Hfl, message_obj_bits by lia. cmp_lia. bool_simpl.
      reflexivity. }
  rewrite Edlc.
  assert (El : can_dlc2len (cf_can_dlc frame) = cf_can_dlc frame)
    by (apply dlc2len_table; lia).
  rewrite El.
  eexists. eexists. split; [reflexivity|].
  split.
  { unfold calls_since, w1.
    cbn [trace call calls bump set_stats set_priv priv stats].
    rewrite <- !app_assoc, skipn_length_app. reflexivity. }
  cbn [cf_can_id cf_can_dlc cf_data].
  split.
  { rewrite Hid, message_obj_id, <- canid_pair_kept.
    destruct (canid_flags_bits (cf_can_id frame)) as [B4 B5].
    apply mcpid_to_canid_flags.
    - rewrite Hfl, message_obj_bits, D, B4 by lia.
      cbn [Z.eqb Pos.eqb andb orb]. bool_simpl. reflexivity.
    - rewrite Hfl, message_obj_bits, D, B5 by lia.
      cbn [Z.eqb Pos.eqb andb orb]. bool_simpl. reflexivity. }
  split; [reflexivity|]. split.
  - intros k Hk. unfold payload. cmp_lia. cbn [andb]. apply Hdata. lia.
  - intros k Hk. unfold payload.
    destruct Hk; cmp_lia; bool_simpl; reflexivity.
Qed.

(** X10: an FD frame comes back as it was sent. If the receive slot of a
    fifo holds what [mcp2517fd_transmit_fdmessage] writes for an FD frame of
    at most 64 bytes, [mcp2517fd_can_ist_handle_rxfifo] hands the network
    stack one FD frame with the identifier kept by the codec, the length
    rounded up to the next length an FD frame can have, the BRS and ESI
    flags and the payload up to that length, and zeros behind it. *)
Theorem rx_decodes_fd (fifo : Z) (frame : canfd_frame) (w : world) :
  0 <= fd_len frame <= 64 ->
  let dlc := can_len2dlc (fd_len frame) in
  let len := can_dlc2len dlc in
  rx_id (priv w) fifo = tx_id (fdmessage_obj dlc frame) ->
  (forall i, 0 <= i < 9 ->
     Z.testbit (rx_flags (priv w) fifo) i
     = Z.testbit (tx_flags (fdmessage_obj dlc frame)) i) ->
  (forall k, 0 <= k < len -> rx_data (priv w) fifo k = u8 (fd_data frame k)) ->
  exists w' f,
    mcp2517fd_can_ist_handle_rxfifo fifo w = (0, w') /\
    rx_delivered (calls_since w w') = [skb_canfd f] /\
    fd_can_id f = canid_kept (fd_can_id frame) /\
    fd_len f = len /\ fd_len frame <= len <= 64 /\
    fd_flags f = Z.land (fd_flags frame) (Z.lor CANFD_BRS CANFD_ESI) /\
    (forall k, 0 <= k < len -> fd_data f k = u8 (fd_data frame k)) /\
    (forall k, k < 0 \/ len <= k -> fd_data f k = 0).
Proof.
  intros Hl dlc len Hid Hfl Hdata.
  destruct (len2dlc_rounds (fd_len frame) Hl) as (D1 & D2 & _).
  fold dlc in D1, D2. fold len in D2.
  unfold mcp2517fd_can_ist_handle_rxfifo.
  rewrite (cmd_write_mask_ok spi_ok allocs_ok) by discriminate.
  cbn [nz Z.eqb negb].
  set (w1 := calls _ _).
  assert (Ef : rx_flags (priv w1) fifo = rx_flags (priv w) fifo) by reflexivity.
  assert (Ei : rx_id (priv w1) fifo = rx_id (priv w) fifo) by reflexivity.
  assert (Ed : rx_data (priv w1) fifo = rx_data (priv w) fifo) by reflexivity.
  assert (D : forall i, 4 <= i -> Z.testbit dlc i = false)
    by (intros; apply (testbit_small _ 4); lia).
  change CAN_OBJ_FLAGS_FDF with (BIT 7). rewrite land_BIT_nz, Ef by lia.
  rewrite Hfl, fdmessage_obj_bits, D by lia. cbn [Z.eqb Pos.eqb andb orb].
  bool_simpl.
  unfold mcp2517fd_can_transform_rx_fd. rewrite allocs_ok. cbn [negb].
  rewrite Ef, Ei, Ed.
  assert (Edlc : Z.shiftr (Z.land (rx_flags (priv w) fifo) CAN_OBJ_FLAGS_DLC_MASK)
                          CAN_OBJ_FLAGS_DLC_SHIFT = dlc).
  { rewrite (dlc_field_low _ dlc).
    - rewrite Z.land_ones by lia. apply Z.mod_small. lia.
    - intros i Hi. rewrite Hfl, fdmessage_obj_bits by lia. cmp_lia. bool_simpl.
      reflexivity. }
  rewrite Edlc. fold len.
  change CAN_OBJ_FLAGS_BRS with (BIT 6). change CAN_OBJ_FLAGS_ESI with (BIT 8).
  rewrite !land_BIT_nz, !Hfl, !fdmessage_obj_bits, !D by lia.
  cbn [Z.eqb Pos.eqb andb orb]. bool_simpl.
  eexists. eexists. split; [reflexivity|].
  split.
  { unfold calls_since, w1.
    cbn [trace call calls bump set_stats set_priv priv stats].
    rewrite <- !app_assoc, skipn_length_app. reflexivity. }
  cbn [fd_can_id fd_len fd_flags fd_data].
  split.
  { rewrite Hid, fdmessage_obj_id, <- canid_pair_kept.
    destruct (canid_flags_bits (fd_can_id frame)) as [B4 B5].
    apply mcpid_to_canid_flags.
    - rewrite Hfl, fdmessage_obj_bits, D, B4 by lia.
      cbn [Z.eqb Pos.eqb andb orb]. bool_simpl. reflexivity.
    - rewrite Hfl, fdmessage_obj_bits, D, B5 by lia.
      cbn [Z.eqb Pos.eqb andb orb]. bool_simpl. reflexivity. }
  split; [reflexivity|]. split; [lia|]. split.
  { change CANFD_BRS with (BIT 0). change CANFD_ESI with (BIT 1).
    apply Z.bits_inj'; intros i Hi.
    assert (R : i = 0 \/ i = 1 \/ 2 <= i) by lia.
    destruct (Z.testbit (fd_flags frame) 0) eqn:E0,
      (Z.testbit (fd_flags frame) 1) eqn:E1;
      destruct R as [R|[R|R]]; subst; tb; cmp_lia; bool_simpl;
      rewrite ?E0, ?E1; reflexivity. }
  split.
  - intros k Hk. unfold payload. cmp_lia. cbn [andb]. apply Hdata. lia.
  - intros k Hk. unfold payload.
    destruct Hk; cmp_lia; bool_simpl; reflexivity.
Qed.

End Loopback.

(* ------------------------------------------------------------------ *)
(** ** Counters of the receive drain *)

Lemma rx_delivered_bus (cs : list kcall) :
  Forall bus_call cs -> rx_delivered cs = [].
Proof.
  induction 1 as [|c cs Hc _ IH]; [reflexivity|].
  unfold rx_delivered in *. cbn [flat_map]. rewrite IH.
  destruct c; try contradiction; reflexivity.
Qed.

(** A relation between the world before, the code returned and the world
    after that holds for every step of the receive scan holds for the
    scan. *)
Lemma rxif_loop_rel (R : world -> Z -> world -> Prop) :
  (forall w, R w 0 w) ->
  (forall a b c r, R a 0 b -> R b r c -> R a r c) ->
  (forall w w' r, transported w w' -> R w r w') ->
  (forall w d r, R w r (set_priv (set_fifo_data d) w)) ->
  (forall fifo w, R w (fst (mcp2517fd_can_ist_handle_rxfifo fifo w))
                    (snd (mcp2517fd_can_ist_handle_rxfifo fifo w))) ->
  forall (fuel : nat) (slot i m : Z) (w : world) (ret : Z) (w' : world),
  rxif_loop fuel slot i m w = Some (ret, w') -> R w ret w'.
Proof.
  intros Hrefl Htrans Hbus Hdata Hfifo.
  assert (Hfor : forall n i w,
            R w (fst (for_loop n i mcp2517fd_can_ist_handle_rxfifo w))
                (snd (for_loop n i mcp2517fd_can_ist_handle_rxfifo w))).
  { induction n as [|n IH]; intros i w; [apply Hrefl|].
    cbn [for_loop]. pose proof (Hfifo i w) as H1.
    destruct (mcp2517fd_can_ist_handle_rxfifo i w) as [r1 w1]. cbn [fst snd] in H1.
    destruct (nz r1) eqn:E1; [exact H1|].
    apply nz_false in E1. subst r1.
    eapply Htrans; [exact H1|apply IH]. }
  induction fuel as [|fuel IH]; intros slot i m w ret w'; cbn [rxif_loop].
  - destruct (negb _); [|discriminate].
    intros E. inversion E; subst. apply Hrefl.
  - destruct (negb _).
    { intros E. inversion E; subst. apply Hrefl. }
    destruct (nz (Z.land m (BIT i))); [|apply IH].
    destruct (rxif_run_end _ _ i m) as [j m1].
    match goal with |- context [mcp2517fd_cmd_readn ?a ?b ?c ?w0] =>
      pose proof (cmd_readn_transported a b c w0) as Ht;
      destruct (mcp2517fd_cmd_readn a b c w0) as [[ret1 rx] w1] end.
    cbn [snd] in Ht.
    match goal with |- context [if nz ret1 then Some (ret1, ?w1') else _] =>
      set (w1b := w1') end.
    assert (K1 : forall r, R w r w1b).
    { intros r. unfold w1b. destruct rx; [|apply Hbus; exact Ht].
      eapply Htrans; [apply Hbus; exact Ht|apply Hdata]. }
    destruct (nz ret1).
    { intros E. inversion E; subst. apply K1. }
    pose proof (Hfor (Z.to_nat (j - i)) i w1b) as H2.
    destruct (for_loop _ i _ w1b) as [ret2 w2]. cbn [fst snd] in H2.
    destruct (nz ret2) eqn:E2.
    { intros E. inversion E; subst. eapply Htrans; [apply K1|exact H2]. }
    apply nz_false in E2. subst ret2.
    intros E. eapply Htrans; [apply K1|]. eapply Htrans; [exact H2|].
    eapply IH. exact E.
Qed.

Lemma rx_counted_refl (w : world) (r : Z) : rx_counted w r w.
Proof.
  exists []. rewrite app_nil_r. repeat split. left. reflexivity.
Qed.

Lemma rx_counted_trans (a b c : world) (r : Z) :
  rx_counted a 0 b -> rx_counted b r c -> rx_counted a r c.
Proof.
  intros (cs1 & T1 & C1 & D1 & O1) (cs2 & T2 & C2 & D2 & O2).
  exists (cs1 ++ cs2). split; [rewrite T2, T1, app_assoc; reflexivity|].
  unfold rx_counts in *. rewrite rx_delivered_app, !fold_left_app.
  injection C1 as P1 B1. injection C2 as P2 B2.
  split; [rewrite P2, B2, P1, B1; reflexivity|].
  split; [|congruence].
  destruct D1 as [D1|[D1 _]]; [|unfold ENOMEM in D1; lia].
  rewrite <- D1. exact D2.
Qed.

Lemma rx_counted_bus (w w' : world) (r : Z) : transported w w' -> rx_counted w r w'.
Proof.
  intros (_ & S & _ & cs & T & F). exists cs. split; [exact T|].
  rewrite (rx_delivered_bus cs F), S. repeat split. left. reflexivity.
Qed.

Lemma rx_counted_priv (w : world) (f : mcp2517fd_priv -> mcp2517fd_priv) (r : Z) :
  rx_counted w r (set_priv f w).
Proof. apply (rx_counted_refl w r). Qed.

Lemma handle_rxfifo_counted (fifo : Z) (w : world) :
  rx_counted w (fst (mcp2517fd_can_ist_handle_rxfifo fifo w))
               (snd (mcp2517fd_can_ist_handle_rxfifo fifo w)).
Proof.
  unfold mcp2517fd_can_ist_handle_rxfifo.
  match goal with |- context [mcp2517fd_cmd_write_mask ?a ?b ?c ?d ?w0] =>
    pose proof (cmd_write_mask_transported a b c d w0) as Ht;
    destruct (mcp2517fd_cmd_write_mask a b c d w0) as [ret w1] end.
  cbn [snd] in Ht.
  assert (K1 : forall r, rx_counted w r w1).
  { intros r. destruct (rx_counted_bus _ _ r Ht) as (cs & T & C & D & O).
    exists cs. repeat split; assumption. }
  destruct (nz ret) eqn:E; [apply K1|].
  eapply rx_counted_trans; [apply K1|].
  match goal with |- context [if ?c then _ else _] => destruct c end.
  - unfold mcp2517fd_can_transform_rx_fd.
    destruct (alloc_ok K (trace w1) alloc_canfd_skb); cbn [negb fst snd].
    + eexists. cbn [trace call bump set_stats stats].
      rewrite <- !app_assoc. split; [reflexivity|]. repeat split.
      left. reflexivity.
    + eexists. cbn [trace call bump set_stats stats].
      rewrite <- !app_assoc. split; [reflexivity|]. repeat split.
      right. split; reflexivity.
  - unfold mcp2517fd_can_transform_rx_normal.
    destruct (alloc_ok K (trace w1) alloc_can_skb); cbn [negb fst snd].
    + eexists. cbn [trace call bump set_stats stats].
      rewrite <- !app_assoc. split; [reflexivity|]. repeat split.
      left. reflexivity.
    + eexists. cbn [trace call bump set_stats stats].
      rewrite <- !app_assoc. split; [reflexivity|]. repeat split.
      right. split; reflexivity.
Qed.

(** X11: the receive counters follow the frames handed over. Whatever the
    kernel and the device do, [mcp2517fd_can_ist_handle_rxif] ends. When
    no classic frame it handed over has a length code above 8 (a classic
    frame holds 8 bytes; above that the copy of the source runs past the
    frame, and nothing is said of it), [rx_packets] has been increased
    once and [rx_bytes] by the frame length for every frame it handed to
    the network stack, in the order handed over, that length being the
    length code itself for a classic frame; [rx_dropped] has moved only
    if a frame buffer could not be allocated, by one and with -ENOMEM
    returned; no other counter has changed. *)
Theorem rx_counters_follow_deliveries (w : world) :
  match mcp2517fd_can_ist_handle_rxif w with
  | None => False
  | Some (ret, w') =>
      let got := rx_delivered (calls_since w w') in
      Forall classic_dlc_ok got ->
      (rx_packets (stats w'), rx_bytes (stats w')) = rx_counts got (stats w) /\
      (forall f, In (skb_can f) got -> skb_len (skb_can f) = cf_can_dlc f) /\
      (rx_dropped (stats w') = rx_dropped (stats w) \/
       (ret = - ENOMEM /\
        rx_dropped (stats w') = ulong (rx_dropped (stats w) + 1))) /\
      other_counters (stats w') = other_counters (stats w)
  end.
Proof.
  destruct (handle_rxif_kept w) as (ret & w' & E & _).
  rewrite E.
  assert (R : rx_counted w ret w').
  { revert E. unfold mcp2517fd_can_ist_handle_rxif.
    destruct (negb _).
    - intros E. inversion E; subst. apply rx_counted_refl.
    - apply (rxif_loop_rel rx_counted).
      + intros; apply rx_counted_refl.
      + apply rx_counted_trans.
      + intros; now apply rx_counted_bus.
      + intros; apply rx_counted_priv.
      + apply handle_rxfifo_counted. }
  destruct R as (cs & T & C & D & O).
  unfold calls_since. rewrite T, skipn_length_app.
  cbv zeta. intros Fg.
  split; [exact C|]. split; [|split; assumption].
  intros f Hf. rewrite Forall_forall in Fg. specialize (Fg _ Hf).
  cbn [classic_dlc_ok] in Fg. cbn [skb_len].
  assert (A : cf_can_dlc f = 0 \/ cf_can_dlc f = 1 \/ cf_can_dlc f = 2 \/
              cf_can_dlc f = 3 \/ cf_can_dlc f = 4 \/ cf_can_dlc f = 5 \/
              cf_can_dlc f = 6 \/ cf_can_dlc f = 7 \/ cf_can_dlc f = 8) by lia.
  destruct A as [-> | [-> | [-> | [-> | [-> | [-> | [-> | [-> | -> ] ] ] ] ] ] ] ];
    reflexivity.
Qed.

(* ------------------------------------------------------------------ *)
(** ** More on completion retirement *)

Lemma tefif_step_stats (tef : mcp2517fd_obj_tef) (mask : Z) (w : world) (n : nat) :
  exists tef' mask' w1,
    tefif_loop (S n) tef mask w = tefif_loop n tef' mask' w1 /\
    stats w1 = set_tx_bytes (ulong (tx_bytes (stats w) + 0))
                 (set_tx_packets (ulong (tx_packets (stats w) + 1)) (stats w)).
Proof.
  cbn [tefif_loop].
  match goal with |- context [mcp2517fd_cmd_readn ?a ?b ?c ?w0] =>
    pose proof (cmd_readn_transported a b c w0) as Ht;
    destruct (mcp2517fd_cmd_readn a b c w0) as [[ret1 rx] w1] end.
  cbn [snd] in Ht.
  match goal with |- context [mcp2517fd_cmd_write_mask ?a ?b ?c ?d ?w0] =>
    pose proof (cmd_write_mask_transported a b c d w0) as Ht2;
    destruct (mcp2517fd_cmd_write_mask a b c d w0) as [ret2 w2] end.
  cbn [snd] in Ht2.
  destruct Ht as (_ & S1 & _). destruct Ht2 as (_ & S2 & _).
  eexists. eexists. eexists. split; [reflexivity|].
  cbn [call bump set_stats set_priv stats]. rewrite S2, S1. reflexivity.
Qed.

Lemma ulong_idem (x : Z) : ulong (ulong x) = ulong x.
Proof. unfold ulong. apply Z.mod_mod. now compute. Qed.

Lemma tefif_loop_stats (n : nat) :
  forall (tef : mcp2517fd_obj_tef) (mask : Z) (w : world),
  let s := stats w in
  let s' := stats (snd (tefif_loop n tef mask w)) in
  tx_packets s' = bumped ulong (tx_packets s) n /\
  tx_bytes s' = match n with O => tx_bytes s | S _ => ulong (tx_bytes s) end /\
  [rx_packets s'; rx_bytes s'; rx_dropped s'; rx_errors s'; rx_over_errors s';
   tx_errors s'; tx_dropped s']
  = [rx_packets s; rx_bytes s; rx_dropped s; rx_errors s; rx_over_errors s;
     tx_errors s; tx_dropped s].
Proof.
  induction n as [|n IH]; intros tef mask w; [repeat split|].
  destruct (tefif_step_stats tef mask w n) as (tef' & mask' & w1 & E & S1).
  cbv zeta. rewrite E.
  destruct (IH tef' mask' w1) as (P & B & O). cbv zeta in P, B, O.
  rewrite P, B, O, S1.
  cbn [tx_packets tx_bytes set_tx_bytes set_tx_packets rx_packets rx_bytes
       rx_dropped rx_errors rx_over_errors tx_errors tx_dropped].
  split; [apply bumped_ulong|]. split; [|reflexivity].
  rewrite Z.add_0_r. destruct n; [reflexivity|apply ulong_idem].
Qed.

(** The bits of the mask made of tags that all name an echo slot. *)
Lemma tags_mask_bits (tags : list Z) :
  forall (m i : Z),
  0 <= i -> 0 <= m < 2 ^ 32 ->
  Forall (fun t => 0 <= t < TX_ECHO_SKB_MAX) tags ->
  Z.testbit (tags_mask tags m) i = Z.testbit m i || existsb (Z.eqb i) tags.
Proof.
  unfold tags_mask.
  induction tags as [|t l IH]; intros m i Hi Hm F; cbn [fold_left existsb].
  - now rewrite orb_false_r.
  - inversion F as [|? ? Ht Fl]; subst. unfold TX_ECHO_SKB_MAX in Ht.
    rewrite IH; [|exact Hi| |exact Fl].
    + rewrite orb_assoc. f_equal.
      unfold u32. rewrite Z.testbit_mod_pow2, Z.lor_spec, testbit_BIT by lia.
      destruct (Z.ltb_spec i 32); cbn [andb].
      * rewrite (Z.eqb_sym t i). reflexivity.
      * rewrite (testbit_small m 32 i) by lia.
        destruct (Z.eqb_spec i t); [lia|reflexivity].
    + unfold u32. apply Z.mod_pos_bound. lia.
Qed.

(** X12: what one pass of the completion handler retires. Whatever the
    kernel does (the codes of the reads and writes are not looked at),
    and as long as every sequence tag the device hands back names one of
    the 32 echo slots (a tag is a 7-bit field; for a tag of 32 or more the
    shift and the echo index of the source are undefined, and nothing is
    said of it), [mcp2517fd_can_ist_handle_tefif] returns 0 and releases
    as many echo buffers as the pending fifos outnumber the fifos that
    still request to send (none if they do not); it clears from the
    pending mask exactly the bits of the tags it released, counts one
    transmitted packet for each and no bytes, and leaves the other
    counters alone. *)
Theorem tefif_retires_count (w : world) :
  let n := Z.to_nat (tefif_count (priv w)) in
  let '(ret, w') := mcp2517fd_can_ist_handle_tefif w in
  let tags := echo_released (calls_since w w') in
  let s := stats w in
  let s' := stats w' in
  Forall (fun t => 0 <= t < TX_ECHO_SKB_MAX) tags ->
  ret = 0 /\
  length tags = n /\
  tx_pending_mask (priv w')
  = Z.land (tx_pending_mask (priv w)) (Z.lnot (tags_mask tags 0)) /\
  (forall i, 0 <= i ->
     Z.testbit (tx_pending_mask (priv w')) i
     = Z.testbit (tx_pending_mask (priv w)) i && negb (existsb (Z.eqb i) tags)) /\
  tx_packets s' = bumped ulong (tx_packets s) n /\
  (0 <= tx_bytes s < 2 ^ 32 -> tx_bytes s' = tx_bytes s) /\
  [rx_packets s'; rx_bytes s'; rx_dropped s'; rx_errors s'; rx_over_errors s';
   tx_errors s'; tx_dropped s']
  = [rx_packets s; rx_bytes s; rx_dropped s; rx_errors s; rx_over_errors s;
     tx_errors s; tx_dropped s].
Proof.
  intros n.
  pose proof (handle_tefif_retires w) as R.
  pose proof (handle_tefif_kept w) as Kp.
  pose proof (tefif_loop_stats n (tef_of_bytes (auto_storage K (trace w))) 0 w) as S.
  assert (Es : stats (snd (mcp2517fd_can_ist_handle_tefif w))
               = stats (snd (tefif_loop n (tef_of_bytes (auto_storage K (trace w))) 0 w))).
  { unfold mcp2517fd_can_ist_handle_tefif. fold n.
    destruct (tefif_loop n _ 0 w) as [m w1]. reflexivity. }
  destruct (mcp2517fd_can_ist_handle_tefif w) as [ret w'].
  cbn [fst snd] in *. cbv zeta in *. rewrite Es. intros Ft.
  destruct R as (R1 & R2). destruct Kp as (K0 & _).
  destruct S as (S1 & S2 & S3).
  split; [exact K0|]. split; [unfold n; lia|]. split; [exact R2|].
  split.
  { intros i Hi. rewrite R2, Z.land_spec, Z.lnot_spec by exact Hi.
    rewrite (tags_mask_bits _ 0 i Hi ltac:(lia) Ft), Z.bits_0.
    reflexivity. }
  split; [exact S1|]. split; [|exact S3].
  intros Hb. rewrite S2. destruct n; [reflexivity|].
  unfold ulong. apply Z.mod_small. exact Hb.
Qed.

Lemma tefif_loop_layout (n : nat) :
  forall (tef : mcp2517fd_obj_tef) (mask : Z) (w : world),
  let p' := priv (snd (tefif_loop n tef mask w)) in
  tef_address_start p' = tef_address_start (priv w) /\
  tef_address_end p' = tef_address_end (priv w) /\
  tx_fifos p' = tx_fifos (priv w).
Proof.
  induction n as [|n IH]; intros tef mask w; [repeat split|].
  destruct (tefif_step_priv tef mask w n) as (tef' & mask' & w1 & E & P1).
  cbv zeta. rewrite E.
  destruct (IH tef' mask' w1) as (A & B & C). cbv zeta in A, B, C.
  rewrite A, B, C, P1. repeat split.
Qed.

(** X13: the completion cursor stays in the ring of the set-up. If the
    cursor is at one of the [tx_fifos + 1] objects that lie between the
    start and the end address as [mcp2517fd_setup_fifo] computes them, it
    is at one of them again after every pass of the completion handler,
    whatever the number of completions and whatever the device answers;
    the pass changes neither the bounds nor the number of fifos. *)
Theorem tef_ring_kept (w : world) :
  tef_ring_ok (priv w) = true ->
  let p' := priv (snd (mcp2517fd_can_ist_handle_tefif w)) in
  tef_ring_ok p' = true /\
  tef_address_start p' = tef_address_start (priv w) /\
  tef_address_end p' = tef_address_end (priv w) /\
  tx_fifos p' = tx_fifos (priv w).
Proof.
  intros H. unfold tef_ring_ok in H.
  repeat (apply andb_prop in H; destruct H as [H ?]).
  repeat match goal with
  | H : (_ <=? _) = true |- _ => apply Z.leb_le in H
  | H : (_ <? _) = true |- _ => apply Z.ltb_lt in H
  | H : (_ =? _) = true |- _ => apply Z.eqb_eq in H
  end.
  set (p := priv w) in *. unfold sizeof_obj_tef in *.
  set (j := (tef_address p - tef_address_start p) / 12).
  assert (Ej : tef_address p = tef_address_start p + j * 12).
  { pose proof (Z.div_mod (tef_address p - tef_address_start p) 12). unfold j. lia. }
  assert (Hj : 0 <= j < tx_fifos p + 1).
  { split; [apply Z.div_pos; lia|apply Z.div_lt_upper_bound; lia]. }
  set (n := Z.to_nat (tefif_count p)).
  pose proof (tefif_loop_cursor n (tef_of_bytes (auto_storage K (trace w))) 0 w
                (tx_fifos p + 1) j) as C.
  cbv zeta in C. fold p in C. unfold sizeof_obj_tef in C.
  specialize (C ltac:(lia) ltac:(lia) ltac:(lia) Hj Ej).
  pose proof (tefif_loop_layout n (tef_of_bytes (auto_storage K (trace w))) 0 w) as L.
  cbv zeta in L. fold p in L.
  unfold mcp2517fd_can_ist_handle_tefif. fold p. fold n.
  destruct (tefif_loop n _ 0 w) as [mask w1]. cbn [snd] in C, L |- *.
  cbn [set_priv priv].
  destruct L as (L1 & L2 & L3).
  change (tef_address_start (set_tx_pending_mask
            (Z.land (tx_pending_mask (priv w1)) (Z.lnot mask)) (priv w1)))
    with (tef_address_start (priv w1)).
  change (tef_address_end (set_tx_pending_mask
            (Z.land (tx_pending_mask (priv w1)) (Z.lnot mask)) (priv w1)))
    with (tef_address_end (priv w1)).
  change (tx_fifos (set_tx_pending_mask
            (Z.land (tx_pending_mask (priv w1)) (Z.lnot mask)) (priv w1)))
    with (tx_fifos (priv w1)).
  split; [|repeat split; assumption].
  unfold tef_ring_ok.
  change (tef_address_start (set_tx_pending_mask
            (Z.land (tx_pending_mask (priv w1)) (Z.lnot mask)) (priv w1)))
    with (tef_address_start (priv w1)).
  change (tef_address_end (set_tx_pending_mask
            (Z.land (tx_pending_mask (priv w1)) (Z.lnot mask)) (priv w1)))
    with (tef_address_end (priv w1)).
  change (tx_fifos (set_tx_pending_mask
            (Z.land (tx_pending_mask (priv w1)) (Z.lnot mask)) (priv w1)))
    with (tx_fifos (priv w1)).
  change (tef_address (set_tx_pending_mask
            (Z.land (tx_pending_mask (priv w1)) (Z.lnot mask)) (priv w1)))
    with (tef_address (priv w1)).
  rewrite L1, L2, L3, C. unfold sizeof_obj_tef.
  pose proof (Z.mod_pos_bound (j + Z.of_nat n) (tx_fifos p + 1) ltac:(lia)) as M.
  set (k := (j + Z.of_nat n) mod (tx_fifos p + 1)) in *.
  replace (tef_address_start p + k * 12 - tef_address_start p) with (k * 12) by lia.
  rewrite Z.mod_mul by lia.
  repeat (apply andb_true_intro; split);
    try apply Z.leb_le; try apply Z.ltb_lt; try apply Z.eqb_eq; lia.
Qed.

(* ------------------------------------------------------------------ *)
(** ** More on receive overflow *)

Lemma rxovif_loop_any (n : nat) :
  forall (i mask canid data1 : Z) (w : world),
  0 <= i ->
  let l := filter (Z.testbit mask) (zrange i n) in
  exists (k m : nat) (cs : list kcall),
    let '(ret, (canid', data1'), w') := rxovif_loop n i mask canid data1 w in
    let s := stats w in
    let s' := stats w' in
    trace w' = trace w ++ cs /\ Forall bus_call cs /\
    (k <= m <= S k)%nat /\ (m <= length l)%nat /\
    (ret = 0 -> m = k /\ k = length l) /\
    (ret <> 0 -> (k < length l)%nat) /\ ret <= 0 /\
    spi_messages cs
    = map (fun j => write_mask_message (CAN_FIFOSTA j) 0 CAN_FIFOSTA_RXOVIF
                                       (spi_speed_hz (priv w)))
          (firstn m l) /\
    canid' = match k with O => canid | S _ => Z.lor canid CAN_ERR_CRTL end /\
    data1' = match k with
             | O => data1
             | S _ => Z.lor data1 CAN_ERR_CRTL_RX_OVERFLOW
             end /\
    rx_over_errors s' = bumped ulong (rx_over_errors s) k /\
    rx_errors s' = bumped ulong (rx_errors s) k /\
    rx_overflow (priv w') = bumped u64 (rx_overflow (priv w)) k /\
    [rx_packets s'; rx_bytes s'; rx_dropped s'; tx_packets s'; tx_bytes s';
     tx_errors s'; tx_dropped s']
    = [rx_packets s; rx_bytes s; rx_dropped s; tx_packets s; tx_bytes s;
       tx_errors s; tx_dropped s].
Proof.
  induction n as [|n IH]; intros i mask canid data1 w Hi l.
  - exists 0%nat, 0%nat, []. cbn. rewrite app_nil_r.
    repeat split; try constructor; try lia.
  - unfold l. cbn [zrange filter rxovif_loop].
    rewrite land_BIT_nz by lia.
    destruct (Z.testbit mask i) eqn:E.
    + rewrite cmd_write_mask_form by (vm_compute; discriminate).
      destruct (alloc_ok K (trace w) kmalloc_txrx).
      * destruct (spi_sync_transfer K _ _) as [[e|] rx]; cbn [fst errno].
        { (* the write fails on the bus *)
          exists 0%nat, 1%nat,
            (write_mask_calls (CAN_FIFOSTA i) 0 CAN_FIFOSTA_RXOVIF
                              (spi_speed_hz (priv w))).
          cbn [nz Z.eqb negb]. cbv zeta.
          cbn [trace calls stats priv length firstn map write_mask_calls
               spi_messages flat_map app].
          repeat split; try lia; try (repeat constructor);
            try (intros H0; discriminate H0). }
        cbn [nz Z.eqb negb].
        match goal with |- context [rxovif_loop n ?i1 mask ?c ?d ?w2] =>
          destruct (IH i1 mask c d w2 ltac:(lia)) as (k & m & cs2 & R);
          destruct (rxovif_loop n i1 mask c d w2) as [[ret2 [c2 d2]] w3]
        end.
        cbv zeta in R.
        cbn [trace set_priv bump set_stats stats priv calls spi_speed_hz
             set_rx_overflow] in R.
        destruct R as (T2 & F2 & L1 & L2 & Z2 & N2 & R2 & M2 & C2 & D2
                       & A1 & A2 & A3 & A4).
        exists (S k), (S m),
          (write_mask_calls (CAN_FIFOSTA i) 0 CAN_FIFOSTA_RXOVIF
                            (spi_speed_hz (priv w)) ++ cs2).
        cbv zeta.
        split; [rewrite T2, app_assoc; reflexivity|].
        split; [apply Forall_app; split; [repeat constructor|exact F2]|].
        split; [lia|].
        split; [cbn [length]; lia|].
        split; [intros Hz; destruct (Z2 Hz); cbn [length]; lia|].
        split; [intros Hz; specialize (N2 Hz); cbn [length]; lia|].
        split; [exact R2|].
        split.
        { rewrite spi_messages_app, M2. reflexivity. }
        split; [rewrite C2; destruct k; rewrite ?lor_twice; reflexivity|].
        split; [rewrite D2; destruct k; rewrite ?lor_twice; reflexivity|].
        rewrite A1, A2, A3, A4.
        cbn [rx_over_errors rx_errors set_rx_over_errors set_rx_errors
             rx_overflow set_rx_overflow rx_packets rx_bytes rx_dropped
             tx_packets tx_bytes tx_errors tx_dropped].
        rewrite !bumped_ulong, bumped_u64. repeat split.
      * (* no buffer for the write *)
        exists 0%nat, 0%nat, [k_alloc kmalloc_txrx].
        change (nz (- ENOMEM)) with true. cbv iota zeta.
        cbn [trace calls stats priv length firstn map spi_messages flat_map app].
        repeat split; try lia; try (repeat constructor);
          try (unfold ENOMEM in *; lia).
    + destruct (IH (i + 1) mask canid data1 w ltac:(lia)) as (k & m & cs & R).
      exists k, m, cs. exact R.
Qed.

Lemma rxovif_loop_any_32 (mask : Z) (w : world) :
  exists (k m : nat) (cs : list kcall),
    let '(ret, (canid', data1'), w') := rxovif_loop 32 0 mask 0 0 w in
    let s := stats w in
    let s' := stats w' in
    trace w' = trace w ++ cs /\ Forall bus_call cs /\
    (k <= m <= S k)%nat /\ (m <= length (fifos_of mask))%nat /\
    (ret = 0 -> m = k /\ k = length (fifos_of mask)) /\
    (ret <> 0 -> (k < length (fifos_of mask))%nat) /\ ret <= 0 /\
    spi_messages cs
    = map (fun j => write_mask_message (CAN_FIFOSTA j) 0 CAN_FIFOSTA_RXOVIF
                                       (spi_speed_hz (priv w)))
          (firstn m (fifos_of mask)) /\
    canid' = match k with O => 0 | S _ => Z.lor 0 CAN_ERR_CRTL end /\
    data1' = match k with
             | O => 0
             | S _ => Z.lor 0 CAN_ERR_CRTL_RX_OVERFLOW
             end /\
    rx_over_errors s' = bumped ulong (rx_over_errors s) k /\
    rx_errors s' = bumped ulong (rx_errors s) k /\
    rx_overflow (priv w') = bumped u64 (rx_overflow (priv w)) k /\
    [rx_packets s'; rx_bytes s'; rx_dropped s'; tx_packets s'; tx_bytes s';
     tx_errors s'; tx_dropped s']
    = [rx_packets s; rx_bytes s; rx_dropped s; tx_packets s; tx_bytes s;
       tx_errors s; tx_dropped s].
Proof. exact (rxovif_loop_any 32 0 mask 0 0 w (Z.le_refl 0)). Qed.

(** The overflow flags of a mask, as [fifos_of] lists them, are its set
    bits below 32 in rising order. *)
Lemma fifos_of_rising (mask : Z) :
  (forall i, In i (fifos_of mask) <-> 0 <= i < 32 /\ Z.testbit mask i = true) /\
  forall a b : nat,
    (a < b < length (fifos_of mask))%nat ->
    nth a (fifos_of mask) 0 < nth b (fifos_of mask) 0.
Proof.
  unfold fifos_of. split.
  - intros i. rewrite filter_In. split.
    + intros [H T]. apply in_zrange in H. split; [lia|exact T].
    + intros [H T]. split; [|exact T].
      assert (A : forall n s j, s <= j < s + Z.of_nat n -> In j (zrange s n)).
      { induction n as [|n IH]; intros s j Hj; [lia|]. cbn [zrange].
        destruct (Z.eq_dec s j) as [->|]; [now left|].
        right. apply IH. lia. }
      apply A. cbn. lia.
  - assert (A : forall n s (a b : nat),
              (a < b < length (filter (Z.testbit mask) (zrange s n)))%nat ->
              s <= nth a (filter (Z.testbit mask) (zrange s n)) 0
              /\ nth a (filter (Z.testbit mask) (zrange s n)) 0
                 < nth b (filter (Z.testbit mask) (zrange s n)) 0).
    { induction n as [|n IH]; intros s a b; [cbn; lia|].
      cbn [zrange filter].
      assert (Lb : forall c : nat,
                (c < length (filter (Z.testbit mask) (zrange (s + 1) n)))%nat ->
                s + 1 <= nth c (filter (Z.testbit mask) (zrange (s + 1) n)) 0).
      { intros c Hc.
        assert (Hin : In (nth c (filter (Z.testbit mask) (zrange (s + 1) n)) 0)
                         (filter (Z.testbit mask) (zrange (s + 1) n)))
          by (apply nth_In; exact Hc).
        apply filter_In in Hin. destruct Hin as [Hin _].
        apply in_zrange in Hin. lia. }
      destruct (Z.testbit mask s).
      - cbn [length]. intros H. destruct b as [|b]; [lia|].
        destruct a as [|a]; cbn [nth].
        + pose proof (Lb b ltac:(lia)). lia.
        + destruct (IH (s + 1) a b ltac:(lia)). lia.
      - intros H. destruct (IH (s + 1) a b H). lia. }
    intros a b H. apply (A 32%nat 0 a b H).
Qed.

(** X14: receive overflow on any kernel. [mcp2517fd_can_ist_handle_rxovif]
    goes through the overflow flags of the status block in rising order
    and sends for each one masked write of 0 to the overflow flag of the
    status register of its fifo, until a write fails: the messages on the
    bus are those of the first [m] flags, where [m] is the number [k] of
    writes that went through, or one more when the failing write reached
    the bus; the code of the failing write is returned, and 0 when every
    flag has been cleared. The two error counters and the overflow
    counter of the driver always move together, by [k]. At most one frame
    is handed to the network stack, and only when the handler returns 0
    after clearing at least one flag: a frame of 8 bytes with the
    identifier word [CAN_ERR_CRTL] (4), in which [CAN_ERR_FLAG] is not
    set, and the overflow code in byte 1; it is not counted as a received
    packet. *)
Theorem rxovif_outcomes (w : world) :
  let mask := rxovif (status (priv w)) in
  let '(ret, w') := mcp2517fd_can_ist_handle_rxovif w in
  let got := rx_delivered (calls_since w w') in
  let s := stats w in
  let s' := stats w' in
  exists k m : nat,
    (k <= m <= S k)%nat /\ (m <= length (fifos_of mask))%nat /\
    (ret = 0 -> m = k /\ k = length (fifos_of mask)) /\
    (ret <> 0 -> (k < length (fifos_of mask))%nat) /\
    ret <= 0 /\
    spi_messages (calls_since w w')
    = map (fun i => write_mask_message (CAN_FIFOSTA i) 0 CAN_FIFOSTA_RXOVIF
                                       (spi_speed_hz (priv w)))
          (firstn m (fifos_of mask)) /\
    (forall i, In i (fifos_of mask) <-> 0 <= i < 32 /\ Z.testbit mask i = true) /\
    (forall a b : nat,
       (a < b < length (fifos_of mask))%nat ->
       nth a (fifos_of mask) 0 < nth b (fifos_of mask) 0) /\
    rx_over_errors s' = bumped ulong (rx_over_errors s) k /\
    rx_errors s' = bumped ulong (rx_errors s) k /\
    rx_overflow (priv w') = bumped u64 (rx_overflow (priv w)) k /\
    (got = [] \/
     (ret = 0 /\ k <> 0%nat /\
      exists f, got = [skb_can f] /\
        cf_can_id f = CAN_ERR_CRTL /\ Z.testbit (cf_can_id f) 29 = false /\
        Z.land (cf_can_id f) CAN_ERR_FLAG = 0 /\
        cf_can_dlc f = 8 /\ cf_data f 1 = CAN_ERR_CRTL_RX_OVERFLOW)) /\
    [rx_packets s'; rx_bytes s'; rx_dropped s'; tx_packets s'; tx_bytes s';
     tx_errors s'; tx_dropped s']
    = [rx_packets s; rx_bytes s; rx_dropped s; tx_packets s; tx_bytes s;
       tx_errors s; tx_dropped s].
Proof.
  intros mask. unfold mcp2517fd_can_ist_handle_rxovif. fold mask.
  destruct (rxovif_loop_any_32 mask w) as (k & m & cs & R).
  destruct (fifos_of_rising mask) as [Fin Fup].
  remember (fifos_of mask) as over eqn:Eo. clear Eo.
  destruct (rxovif_loop 32 0 mask 0 0 w) as [[ret [c d]] w1].
  cbv zeta in R.
  destruct R as (T & F & L1 & L2 & Z0 & N0 & R0 & M & C & D & A1 & A2 & A3 & A4).
  destruct (nz ret) eqn:En.
  { exists k, m. cbv zeta. unfold calls_since.
    rewrite T, skipn_length_app, (rx_delivered_bus cs F).
    repeat split; try assumption; try lia; try (apply Fin; assumption);
      try (apply Z0; assumption).
    left. reflexivity. }
  apply nz_false in En. subst ret.
  destruct k as [|k].
  { subst c. cbn [nz Z.eqb negb]. exists 0%nat, m. cbv zeta. unfold calls_since.
    rewrite T, skipn_length_app, (rx_delivered_bus cs F).
    repeat split; try assumption; try lia; try (apply Fin; assumption);
      try (apply Z0; assumption).
    left. reflexivity. }
  subst c d. change (nz (Z.lor 0 CAN_ERR_CRTL)) with true. cbv iota.
  exists (S k), m. cbv zeta. unfold mcp2517fd_error_skb, calls_since.
  destruct (alloc_ok K (trace w1) alloc_can_err_skb);
    cbn [trace call stats priv]; rewrite T, <- !app_assoc, skipn_length_app,
      rx_delivered_app, (rx_delivered_bus cs F), spi_messages_app;
    cbn [spi_messages flat_map app]; rewrite ?app_nil_r;
    repeat split; try assumption; try lia; try (apply Fin; assumption);
      try (apply Z0; assumption).
  - right. split; [reflexivity|]. split; [discriminate|].
    eexists. split; [reflexivity|]. repeat split.
  - left. reflexivity.
Qed.

(* ------------------------------------------------------------------ *)
(** ** More on the transmit path *)

Lemma write_form tx speed w :
  mcp2517fd_write tx speed w
  = (errno (fst (spi_sync_transfer K (trace w)
       [{| tx_buf := Some tx; rx_buf := false;
           xfer_len := Z.of_nat (length tx); speed_hz := speed |}])),
     calls [k_spi_sync_transfer
              [{| tx_buf := Some tx; rx_buf := false;
                  xfer_len := Z.of_nat (length tx); speed_hz := speed |}]] w).
Proof.
  unfold mcp2517fd_write, mcp2517fd_sync_transfer.
  cbn [map tx_buf rx_buf xfer_len].
  destruct (spi_sync_transfer K _ _) as [r rx]. rewrite call_as_calls.
  reflexivity.
Qed.

Lemma echo_stored_app (a b : list kcall) :
  echo_stored (a ++ b) = echo_stored a ++ echo_stored b.
Proof. apply flat_map_app. Qed.

Lemma echo_stored_bus (cs : list kcall) :
  Forall bus_call cs -> echo_stored cs = [].
Proof.
  induction 1 as [|c cs Hc _ IH]; [reflexivity|].
  destruct c; try contradiction; exact IH.
Qed.

Lemma queue_calls_app (a b : list kcall) :
  queue_calls (a ++ b) = queue_calls a ++ queue_calls b.
Proof. apply filter_app. Qed.

Lemma queue_calls_bus (cs : list kcall) :
  Forall bus_call cs -> queue_calls cs = [].
Proof.
  induction 1 as [|c cs Hc _ IH]; [reflexivity|].
  destruct c; try contradiction; exact IH.
Qed.

(** How [mcp2517fd_transmit_message_common] can end. *)
Lemma transmit_common_outcome fifo obj len data w :
  exists cs,
    trace (snd (mcp2517fd_transmit_message_common fifo obj len data w))
    = trace w ++ cs /\
    Forall bus_call cs /\
    let ret := fst (mcp2517fd_transmit_message_common fifo obj len data w) in
    ((ret = NETDEV_TX_OK /\ length (spi_messages cs) = 2%nat) \/
     (ret = NETDEV_TX_BUSY /\ (1 <= length (spi_messages cs) <= 2)%nat)) /\
    ((forall t x, fst (spi_sync_transfer K t x) <> None) ->
     ret = NETDEV_TX_BUSY /\ length (spi_messages cs) = 1%nat).
Proof.
  unfold mcp2517fd_transmit_message_common.
  rewrite write_form.
  match goal with |- context [errno (fst (spi_sync_transfer K ?t ?x))] =>
    pose proof (nz_errno (fst (spi_sync_transfer K t x))) as En;
    destruct (fst (spi_sync_transfer K t x)) as [e|] eqn:E1 end;
    rewrite En.
  - eexists. cbn [snd fst calls trace]. split; [reflexivity|].
    split; [repeat constructor|]. cbv zeta.
    split; [right; split; [reflexivity|cbn; lia]|].
    intros _. split; reflexivity.
  - rewrite cmd_write_mask_form by discriminate.
    cbn [calls trace].
    destruct (alloc_ok K _ kmalloc_txrx).
    + match goal with |- context [errno (fst (spi_sync_transfer K ?t ?x))] =>
        pose proof (nz_errno (fst (spi_sync_transfer K t x))) as En2;
        destruct (fst (spi_sync_transfer K t x)) as [e|] eqn:E2 end;
        rewrite En2; cbn [snd fst calls trace]; rewrite <- app_assoc;
        (eexists; split; [reflexivity|]); (split; [repeat constructor|]);
        cbv zeta.
      * split; [right; split; [reflexivity|cbn; lia]|].
        intros D. exfalso. eapply D. exact E1.
      * split; [left; split; reflexivity|].
        intros D. exfalso. eapply D. exact E1.
    + cbn [nz Z.eqb negb ENOMEM Z.opp snd fst calls trace]. rewrite <- app_assoc.
      eexists. split; [reflexivity|]. split; [repeat constructor|]. cbv zeta.
      split; [right; split; [reflexivity|cbn; lia]|].
      intros D. exfalso. eapply D. exact E1.
Qed.

(** The calls of the work item that found a fifo of the pool. *)
Lemma tx_work_handler_calls (w : world) (skb : sk_buff) :
  tx_work_skb (priv w) = Some skb ->
  tx_fifo_start (priv w) <= tx_work_fifo (priv w) ->
  let p := priv w in
  let fifo := tx_work_fifo p in
  exists bus echo,
    trace (mcp2517fd_tx_work_handler w)
    = trace w
      ++ (if fifo >? tx_fifo_start p then [k_netif_start_queue] else [])
      ++ bus ++ echo /\
    Forall bus_call bus /\
    ((echo = [] /\ (1 <= length (spi_messages bus) <= 2)%nat) \/
     (exists skb', echo = [k_can_put_echo_skb skb' fifo] /\
                   length (spi_messages bus) = 2%nat)) /\
    ((forall t x, fst (spi_sync_transfer K t x) <> None) ->
     echo = [] /\ length (spi_messages bus) = 1%nat).
Proof.
  intros Hs Hf p fifo. unfold mcp2517fd_tx_work_handler. fold p. fold fifo.
  destruct (Z.ltb_spec fifo (tx_fifo_start p)); [unfold fifo, p in *; lia|].
  unfold p in Hs. fold p in Hs. rewrite Hs.
  set (w0 := set_priv (set_tx_work_skb None) w).
  set (w1 := if fifo >? tx_fifo_start p then call k_netif_start_queue w0 else w0).
  assert (T1 : trace w1 = trace w ++ (if fifo >? tx_fifo_start p
                                      then [k_netif_start_queue] else []))
    by (unfold w1; destruct (fifo >? tx_fifo_start p);
        [reflexivity|cbn; now rewrite app_nil_r]).
  match goal with |- context [mcp2517fd_transmit_message fifo _ ?w3'] =>
    set (w3 := w3') end.
  assert (T3 : trace w3 = trace w1) by reflexivity.
  destruct skb as [frame|frame].
  - unfold mcp2517fd_transmit_message.
    match goal with
    |- context [mcp2517fd_transmit_message_common ?a ?b ?c ?d ?w'] =>
      destruct (transmit_common_outcome a b c d w') as (cs & T & F & O & D);
      destruct (mcp2517fd_transmit_message_common a b c d w') as [ret w4]
    end.
    cbn [fst snd] in T, O, D. cbv zeta in O, D.
    destruct O as [[-> L]|[-> L]]; cbn [Z.eqb NETDEV_TX_OK NETDEV_TX_BUSY].
    + exists cs. eexists. cbn [call trace]. rewrite T, T3, T1, <- !app_assoc.
      split; [reflexivity|]. split; [exact F|].
      split; [right; eexists; split; [reflexivity|exact L]|].
      intros Hd. destruct (D Hd) as [Hx _]. discriminate.
    + exists cs, []. rewrite T, T3, T1, <- !app_assoc, app_nil_r.
      split; [reflexivity|]. split; [exact F|].
      split; [left; split; [reflexivity|exact L]|].
      intros Hd. destruct (D Hd) as [_ Hx]. split; [reflexivity|exact Hx].
  - unfold mcp2517fd_transmit_fdmessage.
    match goal with
    |- context [mcp2517fd_transmit_message_common ?a ?b ?c ?d ?w'] =>
      destruct (transmit_common_outcome a b c d w') as (cs & T & F & O & D);
      destruct (mcp2517fd_transmit_message_common a b c d w') as [ret w4]
    end.
    cbn [fst snd] in T, O, D. cbv zeta in O, D.
    destruct O as [[-> L]|[-> L]]; cbn [Z.eqb NETDEV_TX_OK NETDEV_TX_BUSY].
    + exists cs. eexists. cbn [call trace]. rewrite T, T3, T1, <- !app_assoc.
      split; [reflexivity|]. split; [exact F|].
      split; [right; eexists; split; [reflexivity|exact L]|].
      intros Hd. destruct (D Hd) as [Hx _]. discriminate.
    + exists cs, []. rewrite T, T3, T1, <- !app_assoc, app_nil_r.
      split; [reflexivity|]. split; [exact F|].
      split; [left; split; [reflexivity|exact L]|].
      intros Hd. destruct (D Hd) as [_ Hx]. split; [reflexivity|exact Hx].
Qed.

Lemma queued_world_fifo (skb : sk_buff) (w : world) :
  let wq := call k_queue_work
              (set_priv (set_tx_work_skb (Some skb)) (call k_netif_stop_queue w)) in
  tx_work_fifo (priv wq) = tx_work_fifo (priv w) /\
  tx_fifo_start (priv wq) = tx_fifo_start (priv w) /\
  tx_pending_mask (priv wq) = tx_pending_mask (priv w) /\
  fifo_usage (priv wq) = fifo_usage (priv w) /\
  tx_work_skb (priv wq) = Some skb /\
  stats wq = stats w /\
  trace wq = trace w ++ [k_netif_stop_queue; k_queue_work].
Proof.
  cbv zeta. cbn [call set_priv priv stats trace]. rewrite <- app_assoc.
  repeat split.
Qed.

(** X15: one submission that finds a fifo. When no frame waits for the
    work item, the frame is valid and the work item finds a fifo of the
    pool, [mcp2517fd_start_xmit] returns NETDEV_TX_OK and the work item
    marks the fifo pending, counts its use and frees the slot for the next
    frame, whatever the bus does: the next [mcp2517fd_start_xmit] is not
    turned away as busy. The queue is stopped and started again, except
    when the fifo taken is the first of the pool: then it is left stopped.
    One or two SPI messages go out; the echo buffer is stored, under the
    number of the fifo, only if both went through. No counter changes. *)
Theorem tx_submission (skb : sk_buff) (w : world) :
  let p := priv w in
  let fifo := tx_work_fifo p in
  tx_work_skb p = None ->
  can_dropped_invalid_skb K skb = false ->
  tx_fifo_start p <= fifo ->
  let '(ret, w') := xmit_and_work skb w in
  let cs := calls_since w w' in
  ret = NETDEV_TX_OK /\
  tx_work_skb (priv w') = None /\
  tx_pending_mask (priv w') = u32 (Z.lor (tx_pending_mask p) (BIT fifo)) /\
  fifo_usage (priv w') fifo = u64 (fifo_usage p fifo + 1) /\
  stats w' = stats w /\
  queue_calls cs
  = k_netif_stop_queue
    :: (if fifo >? tx_fifo_start p then [k_netif_start_queue] else []) /\
  (1 <= length (spi_messages cs) <= 2)%nat /\
  (echo_stored cs = [] \/
   exists skb', echo_stored cs = [(skb', fifo)] /\
                length (spi_messages cs) = 2%nat) /\
  forall skb2, fst (mcp2517fd_start_xmit skb2 w') = NETDEV_TX_OK.
Proof.
  intros p fifo Hn Hv Hf.
  rewrite (xmit_and_work_queued skb w Hn Hv).
  destruct (queued_world_fifo skb w) as (Q1 & Q2 & Q3 & Q4 & Q5 & Q6 & Q7).
  cbv zeta in Q1, Q2, Q3, Q4, Q5, Q6, Q7.
  set (wq := call k_queue_work _) in *.
  destruct (tx_work_handler_priv wq) as [P S]; [rewrite Q1, Q2; exact Hf|].
  destruct (tx_work_handler_calls wq skb Q5) as (bus & echo & T & F & O & _);
    [rewrite Q1, Q2; exact Hf|].
  cbv zeta in P, T, O. rewrite Q1, Q2, Q3, Q4 in *. fold p in P, T, O. fold fifo in P, T, O.
  cbv zeta.
  assert (C : calls_since w (mcp2517fd_tx_work_handler wq)
              = [k_netif_stop_queue; k_queue_work]
                ++ (if fifo >? tx_fifo_start p then [k_netif_start_queue] else [])
                ++ bus ++ echo).
  { unfold calls_since. rewrite T, Q7, <- !app_assoc. apply skipn_length_app. }
  rewrite C, P, S, Q6.
  split; [reflexivity|]. split; [reflexivity|]. split; [reflexivity|].
  split.
  { cbn [fifo_usage set_fifo_usage]. unfold upd. rewrite Z.eqb_refl. reflexivity. }
  split; [reflexivity|].
  assert (Sb : spi_messages ([k_netif_stop_queue; k_queue_work]
                 ++ (if fifo >? tx_fifo_start p then [k_netif_start_queue] else [])
                 ++ bus ++ echo) = spi_messages bus).
  { rewrite !spi_messages_app.
    destruct O as [[-> _]|(skb' & -> & _)];
      destruct (fifo >? tx_fifo_start p); cbn; rewrite app_nil_r; reflexivity. }
  rewrite Sb.
  split.
  { rewrite !queue_calls_app, (queue_calls_bus bus F).
    destruct O as [[-> _]|(skb' & -> & _)];
      destruct (fifo >? tx_fifo_start p); reflexivity. }
  split; [destruct O as [[_ L]|(skb' & _ & L)]; lia|].
  split.
  { rewrite !echo_stored_app, (echo_stored_bus bus F).
    destruct O as [[-> _]|(skb' & -> & L)].
    - left. destruct (fifo >? tx_fifo_start p); reflexivity.
    - right. exists skb'. split; [|exact L].
      destruct (fifo >? tx_fifo_start p); reflexivity. }
  intros skb2. unfold mcp2517fd_start_xmit. rewrite P.
  cbn [tx_work_skb set_fifo_usage set_tx_pending_mask set_tx_work_skb].
  destruct (can_dropped_invalid_skb K skb2); reflexivity.
Qed.

Section DeadBus.

Hypothesis spi_dead : forall t x, fst (spi_sync_transfer K t x) <> None.

(** X16: a submission on a bus that fails. With every SPI transfer
    failing, a frame that [mcp2517fd_start_xmit] accepts with NETDEV_TX_OK
    and for which the work item finds a fifo is attempted with one SPI
    message and then given up: no echo buffer is stored and no counter
    moves, yet the fifo is left marked pending. *)
Theorem tx_submission_dead_bus (skb : sk_buff) (w : world) :
  let p := priv w in
  let fifo := tx_work_fifo p in
  tx_work_skb p = None ->
  can_dropped_invalid_skb K skb = false ->
  tx_fifo_start p <= fifo ->
  let '(ret, w') := xmit_and_work skb w in
  let cs := calls_since w w' in
  ret = NETDEV_TX_OK /\
  length (spi_messages cs) = 1%nat /\
  echo_stored cs = [] /\
  stats w' = stats w /\
  tx_pending_mask (priv w') = u32 (Z.lor (tx_pending_mask p) (BIT fifo)).
Proof.
  intros p fifo Hn Hv Hf.
  rewrite (xmit_and_work_queued skb w Hn Hv).
  destruct (queued_world_fifo skb w) as (Q1 & Q2 & Q3 & Q4 & Q5 & Q6 & Q7).
  cbv zeta in Q1, Q2, Q3, Q4, Q5, Q6, Q7.
  set (wq := call k_queue_work _) in *.
  destruct (tx_work_handler_priv wq) as [P S]; [rewrite Q1, Q2; exact Hf|].
  destruct (tx_work_handler_calls wq skb Q5) as (bus & echo & T & F & _ & D);
    [rewrite Q1, Q2; exact Hf|].
  destruct (D spi_dead) as [-> L].
  cbv zeta in P, T. rewrite Q1, Q2, Q3, Q4 in *. fold p in P, T. fold fifo in P, T.
  cbv zeta.
  assert (C : calls_since w (mcp2517fd_tx_work_handler wq)
              = [k_netif_stop_queue; k_queue_work]
                ++ (if fifo >? tx_fifo_start p then [k_netif_start_queue] else [])
                ++ bus ++ []).
  { unfold calls_since. rewrite T, Q7, <- !app_assoc. apply skipn_length_app. }
  rewrite C, P, S, Q6. rewrite app_nil_r.
  split; [reflexivity|].
  split.
  { rewrite !spi_messages_app.
    destruct (fifo >? tx_fifo_start p); cbn [spi_messages flat_map app]; exact L. }
  split.
  { rewrite !echo_stored_app, (echo_stored_bus bus F).
    destruct (fifo >? tx_fifo_start p); reflexivity. }
  split; reflexivity.
Qed.

End DeadBus.

(* ------------------------------------------------------------------ *)
(** ** What the interrupt thread never does *)

Lemma ist_only_refl (w : world) : ist_only w w.
Proof. split; [reflexivity|]. exists []. now rewrite app_nil_r. Qed.

Lemma ist_only_trans (a b c : world) :
  ist_only a b -> ist_only b c -> ist_only a c.
Proof.
  intros (P1 & cs1 & T1 & F1) (P2 & cs2 & T2 & F2).
  split; [congruence|]. exists (cs1 ++ cs2).
  split; [rewrite T2, T1, app_assoc; reflexivity|].
  rewrite forallb_app, F1, F2. reflexivity.
Qed.

Lemma ist_only_bus (w w' : world) : transported w w' -> ist_only w w'.
Proof.
  intros (P & _ & _ & cs & T & F). split; [now rewrite P|].
  exists cs. split; [exact T|].
  apply forallb_forall. intros c Hc.
  rewrite Forall_forall in F. specialize (F c Hc).
  destruct c as [| [] | | | | | | | | | |]; try contradiction; reflexivity.
Qed.

Lemma ist_only_calls (cs : list kcall) (w w' : world) :
  forallb ist_call cs = true ->
  tx_work_skb (priv w') = tx_work_skb (priv w) ->
  trace w' = trace w ++ cs ->
  ist_only w w'.
Proof. intros F P T. split; [exact P|]. exists cs. split; assumption. Qed.

Lemma handle_rxfifo_only (fifo : Z) (w : world) :
  ist_only w (snd (mcp2517fd_can_ist_handle_rxfifo fifo w)).
Proof.
  unfold mcp2517fd_can_ist_handle_rxfifo.
  match goal with |- context [mcp2517fd_cmd_write_mask ?a ?b ?c ?d ?w0] =>
    pose proof (cmd_write_mask_transported a b c d w0) as Ht;
    destruct (mcp2517fd_cmd_write_mask a b c d w0) as [ret w1] end.
  cbn [snd] in Ht. apply ist_only_bus in Ht.
  assert (K1 : ist_only w w1).
  { destruct Ht as (P & cs & T & F). split; [exact P|]. exists cs. split; assumption. }
  destruct (nz ret); [exact K1|].
  eapply ist_only_trans; [exact K1|].
  match goal with |- context [if ?c then _ else _] => destruct c end.
  - unfold mcp2517fd_can_transform_rx_fd.
    destruct (alloc_ok K (trace w1) alloc_canfd_skb); cbn [negb snd];
      (eapply ist_only_calls; [|reflexivity|
         cbn [trace call bump set_stats]; rewrite <- !app_assoc; reflexivity]);
      reflexivity.
  - unfold mcp2517fd_can_transform_rx_normal.
    destruct (alloc_ok K (trace w1) alloc_can_skb); cbn [negb snd];
      (eapply ist_only_calls; [|reflexivity|
         cbn [trace call bump set_stats]; rewrite <- !app_assoc; reflexivity]);
      reflexivity.
Qed.

Lemma handle_rxif_only (w : world) (ret : Z) (w' : world) :
  mcp2517fd_can_ist_handle_rxif w = Some (ret, w') -> ist_only w w'.
Proof.
  unfold mcp2517fd_can_ist_handle_rxif. destruct (negb _).
  - intros E. inversion E; subst. apply ist_only_refl.
  - apply (rxif_loop_rel (fun a _ b => ist_only a b)).
    + apply ist_only_refl.
    + intros a b c _. apply ist_only_trans.
    + intros a b _. apply ist_only_bus.
    + intros a d _. apply (ist_only_calls [] a); [reflexivity|reflexivity|].
      cbn [set_priv trace]. now rewrite app_nil_r.
    + apply handle_rxfifo_only.
Qed.

Lemma tefif_loop_only (n : nat) :
  forall (tef : mcp2517fd_obj_tef) (mask : Z) (w : world),
  ist_only w (snd (tefif_loop n tef mask w)).
Proof.
  induction n as [|n IH]; intros tef mask w; [apply ist_only_refl|].
  cbn [tefif_loop].
  match goal with |- context [mcp2517fd_cmd_readn ?a ?b ?c ?w0] =>
    pose proof (cmd_readn_transported a b c w0) as Ht;
    destruct (mcp2517fd_cmd_readn a b c w0) as [[ret1 rx] w1] end.
  cbn [snd] in Ht.
  match goal with |- context [mcp2517fd_cmd_write_mask ?a ?b ?c ?d ?w0] =>
    pose proof (cmd_write_mask_transported a b c d w0) as Ht2;
    destruct (mcp2517fd_cmd_write_mask a b c d w0) as [ret2 w2] end.
  cbn [snd] in Ht2.
  eapply ist_only_trans; [|apply IH].
  eapply ist_only_trans; [apply ist_only_bus; exact Ht|].
  eapply ist_only_trans; [apply ist_only_bus; exact Ht2|].
  eapply ist_only_calls; [|reflexivity|
    cbn [trace call bump set_stats set_priv]; rewrite <- !app_assoc; reflexivity].
  reflexivity.
Qed.

Lemma handle_tefif_only (w : world) :
  ist_only w (snd (mcp2517fd_can_ist_handle_tefif w)).
Proof.
  unfold mcp2517fd_can_ist_handle_tefif.
  match goal with |- context [tefif_loop ?n ?t 0 w] =>
    pose proof (tefif_loop_only n t 0 w) as H;
    destruct (tefif_loop n t 0 w) as [m w1] end.
  cbn [snd] in H |- *. eapply ist_only_trans; [exact H|].
  apply (ist_only_calls [] w1); [reflexivity|reflexivity|].
  cbn [set_priv trace]. now rewrite app_nil_r.
Qed.

Lemma rxovif_loop_only (n : nat) :
  forall (i mask canid data1 : Z) (w : world),
  ist_only w (snd (rxovif_loop n i mask canid data1 w)).
Proof.
  induction n as [|n IH]; intros i mask canid data1 w; [apply ist_only_refl|].
  cbn [rxovif_loop]. destruct (nz (Z.land mask (BIT i))); [|apply IH].
  match goal with |- context [mcp2517fd_cmd_write_mask ?a ?b ?c ?d ?w0] =>
    pose proof (cmd_write_mask_transported a b c d w0) as Ht;
    destruct (mcp2517fd_cmd_write_mask a b c d w0) as [ret w1] end.
  cbn [snd] in Ht. apply ist_only_bus in Ht.
  destruct (nz ret); [exact Ht|].
  eapply ist_only_trans; [exact Ht|].
  eapply ist_only_trans; [|apply IH].
  apply (ist_only_calls [] w1); [reflexivity|reflexivity|].
  cbn [set_priv bump set_stats trace]. now rewrite app_nil_r.
Qed.

Lemma handle_rxovif_only (w : world) :
  ist_only w (snd (mcp2517fd_can_ist_handle_rxovif w)).
Proof.
  unfold mcp2517fd_can_ist_handle_rxovif.
  pose proof (rxovif_loop_only 32 0 (rxovif (status (priv w))) 0 0 w) as H.
  destruct (rxovif_loop 32 0 _ 0 0 w) as [[ret [c d]] w1]. cbn [snd] in H.
  destruct (nz ret); [exact H|].
  destruct (nz c); [|exact H].
  eapply ist_only_trans; [exact H|]. cbn [snd].
  unfold mcp2517fd_error_skb.
  destruct (alloc_ok K (trace w1) alloc_can_err_skb);
    (eapply ist_only_calls; [|reflexivity|
       cbn [trace call]; rewrite <- !app_assoc; reflexivity]);
    reflexivity.
Qed.

Lemma handle_status_only (w : world) (ret : Z) (w' : world) :
  mcp2517fd_can_ist_handle_status w = Some (ret, w') -> ist_only w w'.
Proof.
  unfold mcp2517fd_can_ist_handle_status.
  assert (H1 : forall r1 w1,
            (if nz (Z.land (intf (status (priv w))) CAN_INT_RXIF)
             then mcp2517fd_can_ist_handle_rxif w else Some (0, w)) = Some (r1, w1) ->
            ist_only w w1).
  { intros r1 w1. destruct (nz _).
    - apply handle_rxif_only.
    - intros E. inversion E; subst. apply ist_only_refl. }
  destruct (if nz (Z.land (intf (status (priv w))) CAN_INT_RXIF)
            then mcp2517fd_can_ist_handle_rxif w else Some (0, w))
    as [[r1 w1]|]; [|discriminate].
  specialize (H1 r1 w1 eq_refl).
  destruct (nz r1).
  { intros E. inversion E; subst. exact H1. }
  assert (H2 : ist_only w1
                 (snd (if nz (Z.land (intf (status (priv w1))) CAN_INT_TEFIF)
                       then mcp2517fd_can_ist_handle_tefif w1 else (0, w1)))).
  { destruct (nz _); [apply handle_tefif_only|apply ist_only_refl]. }
  destruct (if nz (Z.land (intf (status (priv w1))) CAN_INT_TEFIF)
            then mcp2517fd_can_ist_handle_tefif w1 else (0, w1)) as [r2 w2].
  cbn [snd] in H2.
  destruct (nz r2).
  { intros E. inversion E; subst. eapply ist_only_trans; eassumption. }
  assert (H3 : ist_only w2
                 (snd (if nz (rxovif (status (priv w2)))
                       then mcp2517fd_can_ist_handle_rxovif w2 else (0, w2)))).
  { destruct (nz _); [apply handle_rxovif_only|apply ist_only_refl]. }
  destruct (if nz (rxovif (status (priv w2)))
            then mcp2517fd_can_ist_handle_rxovif w2 else (0, w2)) as [r3 w3].
  cbn [snd] in H3.
  assert (H : ist_only w w3)
    by (eapply ist_only_trans; [exact H1|]; eapply ist_only_trans; eassumption).
  destruct (nz r3); intros E; inversion E; subst; exact H.
Qed.

Lemma ist_read_status_only (w : world) :
  ist_only w (snd (ist_read_status w)).
Proof.
  unfold ist_read_status.
  match goal with |- context [mcp2517fd_cmd_readn ?a ?b ?c ?w0] =>
    pose proof (cmd_readn_transported a b c w0) as Ht;
    destruct (mcp2517fd_cmd_readn a b c w0) as [[ret1 rx] w1] end.
  cbn [snd] in Ht |- *. apply ist_only_bus in Ht.
  destruct rx; [|exact Ht].
  eapply ist_only_trans; [exact Ht|].
  apply (ist_only_calls [] w1); [reflexivity|reflexivity|].
  cbn [set_priv trace]. now rewrite app_nil_r.
Qed.

Lemma ist_run_only (n : nat) :
  forall (w : world), ist_only w (ist_run n w).
Proof.
  induction n as [|n IH]; intros w; [apply ist_only_refl|].
  cbn [ist_run]. unfold ist_one_pass.
  destruct (nz (force_quit (priv w))); [apply ist_only_refl|].
  pose proof (ist_read_status_only w) as H1.
  destruct (ist_read_status w) as [ret w1]. cbn [snd] in H1.
  destruct (nz ret); [exact H1|].
  destruct (ist_active (status (priv w1)) =? 0); [exact H1|].
  pose proof (handle_status_only w1) as H2.
  destruct (mcp2517fd_can_ist_handle_status w1) as [[ret2 w2]|];
    [|apply ist_only_refl].
  specialize (H2 ret2 w2 eq_refl).
  destruct (nz ret2).
  - eapply ist_only_trans; eassumption.
  - eapply ist_only_trans; [exact H1|]. eapply ist_only_trans; [exact H2|].
    apply IH.
Qed.

Lemma can_ist_run (fuel : nat) :
  forall (w : world) (r : Z) (w' : world),
  mcp2517fd_can_ist fuel w = Some (r, w') -> w' = ist_run fuel w.
Proof.
  induction fuel as [|fuel IH]; intros w r w' E; [discriminate|].
  cbn [mcp2517fd_can_ist ist_run] in *.
  destruct (ist_one_pass w); try (inversion E; subst; reflexivity);
    try discriminate.
  eapply IH. exact E.
Qed.

Lemma ist_call_no_queue (cs : list kcall) :
  forallb ist_call cs = true ->
  queue_calls cs = [] /\ echo_stored cs = [] /\ ~ In k_queue_work cs.
Proof.
  induction cs as [|c cs IH]; [intros _; repeat split; intros []|].
  cbn [forallb]. intros H. apply andb_prop in H. destruct H as [Hc H].
  destruct (IH H) as (Q & S & N).
  destruct c; try discriminate; cbn; (split; [exact Q|split; [exact S|]]);
    intros [X|X]; try discriminate; now apply N.
Qed.

(** X17: what the interrupt thread never does. However many passes of
    its loop [mcp2517fd_can_ist] runs and whatever the device shows, it
    makes no call other than register transfers, buffer allocations, log
    lines, frames handed to the network stack, echo buffers released and
    led events: it never starts (or stops) the transmit queue, never queues
    the work item, never stores an echo buffer, and it leaves the slot in
    which a frame waits for the work item as it is. *)
Theorem ist_never_touches_queue (n : nat) (w : world) :
  let w' := ist_run n w in
  let cs := calls_since w w' in
  forallb ist_call cs = true /\
  queue_calls cs = [] /\
  echo_stored cs = [] /\
  ~ In k_queue_work cs /\
  tx_work_skb (priv w') = tx_work_skb (priv w) /\
  match mcp2517fd_can_ist n w with
  | Some (_, w1) => w1 = w'
  | None => True
  end.
Proof.
  destruct (ist_run_only n w) as (P & cs & T & F).
  cbv zeta. unfold calls_since. rewrite T, skipn_length_app.
  destruct (ist_call_no_queue cs F) as (Q & S & N).
  repeat split; try assumption.
  pose proof (can_ist_run n w) as R.
  destruct (mcp2517fd_can_ist n w) as [[r w1]|]; [|exact I].
  apply (R r w1 eq_refl).
Qed.

(* ------------------------------------------------------------------ *)
(** ** Interrupt enables and the dispatch *)

Lemma cmd_write_form reg data speed w :
  mcp2517fd_cmd_write reg data speed w
  = if alloc_ok K (trace w) kmalloc_txrx
    then (errno (fst (spi_sync_transfer K (trace w ++ [k_alloc kmalloc_txrx])
                        (write_mask_message reg data (u32 (-1)) speed))),
          calls (write_mask_calls reg data (u32 (-1)) speed) w)
    else (- ENOMEM, calls [k_alloc kmalloc_txrx] w).
Proof. unfold mcp2517fd_cmd_write. apply cmd_write_mask_form. discriminate. Qed.

Lemma write_mask_message_full reg data speed :
  write_mask_message reg data (u32 (-1)) speed
  = [{| tx_buf := Some (mcp2517fd_calc_cmd_addr INSTRUCTION_WRITE reg
                        ++ le32_bytes data);
        rx_buf := false; xfer_len := 6; speed_hz := speed |}].
Proof.
  unfold write_mask_message.
  change (mask_first_byte (u32 (-1))) with 0.
  change (mask_last_byte (u32 (-1))) with 3.
  rewrite Z.add_0_r. rewrite window_bytes by lia.
  reflexivity.
Qed.

(** X18: the interrupt enables and what a pass acts on.
    [mcp2517fd_enable_interrupts] writes to [CAN_INT] the word that enables
    the receive and the completion interrupt and nothing else. On a status
    block whose enable half is that word a pass of the interrupt thread acts
    exactly when RXIF or TEFIF is raised: with both clear the pass ends the
    loop without calling a handler, whatever the overflow flags of the
    block are. *)
Theorem enabled_interrupts_gate (speed : Z) (w : world) :
  (alloc_ok K (trace w) kmalloc_txrx = true ->
   first_tx (calls_since w (snd (mcp2517fd_enable_interrupts speed w)))
   = mcp2517fd_calc_cmd_addr INSTRUCTION_WRITE CAN_INT
     ++ le32_bytes (Z.lor CAN_INT_TEFIE CAN_INT_RXIE)) /\
  (force_quit (priv w) = 0 ->
   let '(ret, w1) := ist_read_status w in
   let s := status (priv w1) in
   ret = 0 ->
   Z.shiftr (intf s) CAN_INT_IE_SHIFT
   = Z.shiftr (Z.lor CAN_INT_TEFIE CAN_INT_RXIE) CAN_INT_IE_SHIFT ->
   (ist_active s = 0 <->
    Z.land (intf s) CAN_INT_RXIF = 0 /\ Z.land (intf s) CAN_INT_TEFIF = 0) /\
   (Z.land (intf s) CAN_INT_RXIF = 0 -> Z.land (intf s) CAN_INT_TEFIF = 0 ->
    ist_one_pass w = ist_idle w1)).
Proof.
  split.
  - intros Ha. unfold mcp2517fd_enable_interrupts.
    rewrite cmd_write_form, Ha. cbn [snd]. rewrite calls_since_calls.
    unfold write_mask_calls. rewrite write_mask_message_full. reflexivity.
  - intros Hq. unfold ist_one_pass. rewrite Hq. cbn [nz Z.eqb negb].
    destruct (ist_read_status w) as [ret w1]. cbv zeta.
    intros -> He. cbn [nz Z.eqb negb].
    assert (A : ist_active (status (priv w1))
                = Z.land (intf (status (priv w1))) (Z.lor CAN_INT_TEFIF CAN_INT_RXIF)).
    { unfold ist_active. rewrite He. reflexivity. }
    assert (B : ist_active (status (priv w1)) = 0 <->
                Z.land (intf (status (priv w1))) CAN_INT_RXIF = 0 /\
                Z.land (intf (status (priv w1))) CAN_INT_TEFIF = 0).
    { rewrite A, Z.land_lor_distr_r. rewrite Z.lor_eq_0_iff. tauto. }
    split; [exact B|].
    intros H1 H2. destruct B as [_ B]. rewrite (B (conj H1 H2)). reflexivity.
Qed.

(* ------------------------------------------------------------------ *)
(** ** The set-up of the fifos *)

Lemma for_loop_transported (body : Z -> world -> Z * world) :
  (forall i w, transported w (snd (body i w))) ->
  forall (n : nat) (i : Z) (w : world),
    transported w (snd (for_loop n i body w)).
Proof.
  intros Hb. induction n as [|n IH]; intros i w; [apply transported_refl|].
  cbn [for_loop]. pose proof (Hb i w) as H1.
  destruct (body i w) as [ret w1]. cbn [snd] in H1.
  destruct (nz ret); [exact H1|].
  eapply transported_trans; [exact H1|apply IH].
Qed.

Lemma for_loop_ret (body : Z -> world -> Z * world) :
  (forall i w, fst (body i w) <= 0) ->
  forall (n : nat) (i : Z) (w : world), fst (for_loop n i body w) <= 0.
Proof.
  intros Hb. induction n as [|n IH]; intros i w; [cbn; lia|].
  cbn [for_loop]. pose proof (Hb i w) as H1.
  destruct (body i w) as [ret w1]. cbn [fst] in H1.
  destruct (nz ret); [exact H1|apply IH].
Qed.

(** A loop that comes to its end has gone through every step. *)
Lemma for_loop_inv (I : Z -> world -> Prop) (body : Z -> world -> Z * world) :
  forall (n : nat) (i : Z) (w w' : world),
  for_loop n i body w = (0, w') ->
  I i w ->
  (forall j wj wj', i <= j < i + Z.of_nat n -> I j wj ->
                    body j wj = (0, wj') -> I (j + 1) wj') ->
  I (i + Z.of_nat n) w'.
Proof.
  induction n as [|n IH]; intros i w w' E Hi Hs.
  - cbn in E. inversion E; subst. now rewrite Z.add_0_r.
  - cbn [for_loop] in E. destruct (body i w) as [ret w1] eqn:Eb.
    destruct (nz ret) eqn:En.
    { inversion E; subst. discriminate. }
    apply nz_false in En. subst ret.
    replace (i + Z.of_nat (S n)) with (i + 1 + Z.of_nat n) by lia.
    apply (IH (i + 1) w1 w' E).
    + apply (Hs i w w1); [lia|exact Hi|exact Eb].
    + intros j wj wj' Hj. apply Hs. lia.
Qed.

Lemma cmd_write_transported reg data speed w :
  transported w (snd (mcp2517fd_cmd_write reg data speed w)).
Proof. apply cmd_write_mask_transported. Qed.

Lemma cmd_read_transported reg speed w :
  transported w (snd (mcp2517fd_cmd_read reg speed w)).
Proof. apply cmd_read_mask_transported. Qed.

Lemma cmd_write_ret reg data speed w :
  fst (mcp2517fd_cmd_write reg data speed w) <= 0.
Proof. apply cmd_write_mask_ret. Qed.

(** The step of the loop that clears the filters. *)
Lemma clear_filter_step (sp i : Z) (w : world) :
  let body := fun (i : Z) (w : world) =>
    let '(ret, w1) := mcp2517fd_cmd_write (CAN_FLTOBJ i) 0 sp w in
    if nz ret then (ret, w1)
    else let '(ret0, w2) := mcp2517fd_cmd_write (CAN_FLTMASK i) 0 sp w1 in
         if nz ret0 then (ret0, w2)
         else mcp2517fd_cmd_write_mask (CAN_FLTCON i) 0 (CAN_FILCON_MASK i) sp w2 in
  transported w (snd (body i w)) /\ fst (body i w) <= 0.
Proof.
  cbv beta zeta.
  pose proof (cmd_write_transported (CAN_FLTOBJ i) 0 sp w) as T1.
  pose proof (cmd_write_ret (CAN_FLTOBJ i) 0 sp w) as R1.
  destruct (mcp2517fd_cmd_write (CAN_FLTOBJ i) 0 sp w) as [r1 w1].
  cbn [fst snd] in *. destruct (nz r1).
  { cbn [fst snd]. split; assumption. }
  pose proof (cmd_write_transported (CAN_FLTMASK i) 0 sp w1) as T2.
  pose proof (cmd_write_ret (CAN_FLTMASK i) 0 sp w1) as R2.
  destruct (mcp2517fd_cmd_write (CAN_FLTMASK i) 0 sp w1) as [r2 w2].
  cbn [fst snd] in *.
  destruct (nz r2);
    [cbn [fst snd]; split; [eapply transported_trans; eassumption|assumption]|].
  pose proof (cmd_write_mask_transported (CAN_FLTCON i) 0 (CAN_FILCON_MASK i) sp w2) as T3.
  pose proof (cmd_write_mask_ret (CAN_FLTCON i) 0 (CAN_FILCON_MASK i) sp w2) as R3.
  split; [|exact R3].
  eapply transported_trans; [exact T1|]. eapply transported_trans; eassumption.
Qed.

Lemma for_loop_zero (body : Z -> world -> Z * world) :
  (forall i w, fst (body i w) = 0) ->
  forall (n : nat) (i : Z) (w : world), fst (for_loop n i body w) = 0.
Proof.
  intros Hb. induction n as [|n IH]; intros i w; [reflexivity|].
  cbn [for_loop]. pose proof (Hb i w) as H1.
  destruct (body i w) as [ret w1]. cbn [fst] in H1. subst ret.
  cbn [nz Z.eqb negb]. apply IH.
Qed.

Lemma layout_none (w : world) :
  net_mtu w <> CAN_MTU -> net_mtu w <> CANFD_MTU -> setup_fifo_layout w = None.
Proof.
  intros H1 H2. unfold setup_fifo_layout.
  destruct (Z.eqb_spec (net_mtu w) CAN_MTU); [contradiction|].
  destruct (Z.eqb_spec (net_mtu w) CANFD_MTU); [contradiction|]. reflexivity.
Qed.

(** X19: a device whose mtu is neither that of CAN nor that of CAN FD.
    [mcp2517fd_setup_fifo] then fails with a negative code (-EINVAL when
    nothing else fails), having done no more than write to the filter
    registers: the driver state and the counters are as they were and no
    fifo has been configured. *)
Theorem setup_fifo_unsupported_mtu (w : world) :
  net_mtu w <> CAN_MTU -> net_mtu w <> CANFD_MTU ->
  let '(ret, w') := mcp2517fd_setup_fifo w in
  ret < 0 /\ transported w w' /\
  ((forall t x, fst (spi_sync_transfer K t x) = None) ->
   (forall t a, alloc_ok K t a = true) -> ret = - EINVAL).
Proof.
  intros H1 H2. unfold mcp2517fd_setup_fifo. cbv zeta.
  match goal with |- context [for_loop 32 0 ?b w] =>
    pose proof (for_loop_transported b
      (fun i w0 => proj1 (clear_filter_step (spi_setup_speed_hz (priv w)) i w0))) as T;
    pose proof (for_loop_ret b
      (fun i w0 => proj2 (clear_filter_step (spi_setup_speed_hz (priv w)) i w0))) as R;
    assert (Z0 : (forall t x, fst (spi_sync_transfer K t x) = None) ->
                 (forall t a, alloc_ok K t a = true) ->
                 fst (for_loop 32 0 b w) = 0);
    [|specialize (T 32%nat 0 w); specialize (R 32%nat 0 w);
      destruct (for_loop 32 0 b w) as [r1 w1]]
  end.
  { intros Hs Ha. apply for_loop_zero. intros i w0. unfold mcp2517fd_cmd_write.
    rewrite (cmd_write_mask_ok Hs Ha) by discriminate. cbn [nz Z.eqb negb].
    rewrite (cmd_write_mask_ok Hs Ha) by discriminate. cbn [nz Z.eqb negb].
    rewrite (cmd_write_mask_ok Hs Ha). reflexivity.
    unfold CAN_FILCON_MASK, GENMASK, CAN_FILCON_SHIFT, CAN_FILCON_BITS.
    intros E. apply Z.shiftl_eq_0_iff in E.
    - replace (Z.land i 3 * 8 + 4 - 1 - Z.land i 3 * 8 + 1) with 4 in E by lia.
      discriminate.
    - assert (0 <= Z.land i 3) by (apply Z.land_nonneg; lia). lia. }
  cbn [fst snd] in *.
  destruct (nz r1) eqn:En.
  - apply nz_true in En. split; [lia|]. split; [exact T|].
    intros Hs Ha. specialize (Z0 Hs Ha). congruence.
  - assert (M : net_mtu w1 = net_mtu w) by (destruct T as (_ & _ & M & _); exact M).
    rewrite layout_none by (rewrite M; assumption).
    split; [unfold EINVAL; lia|]. split; [exact T|]. reflexivity.
Qed.

Lemma keeps_refl (w : world) : keeps w w.
Proof. repeat split. Qed.

Lemma keeps_trans (a b c : world) : keeps a b -> keeps b c -> keeps a c.
Proof. intros (P1 & S1 & M1) (P2 & S2 & M2). repeat split; congruence. Qed.

Lemma transported_keeps (w w' : world) : transported w w' -> keeps w w'.
Proof. intros (P & S & M & _). repeat split; assumption. Qed.

Lemma tags_mask_snoc (l : list Z) (f m : Z) :
  tags_mask (l ++ [f]) m = u32 (Z.lor (tags_mask l m) (BIT f)).
Proof. unfold tags_mask. rewrite fold_left_app. reflexivity. Qed.

Lemma set_tx_fifo_mask_same (p : mcp2517fd_priv) :
  set_tx_fifo_mask (tx_fifo_mask p) p = p.
Proof. destruct p; reflexivity. Qed.

Lemma set_rx_fifo_mask_same (p : mcp2517fd_priv) :
  set_rx_fifo_mask (rx_fifo_mask p) p = p.
Proof. destruct p; reflexivity. Qed.

Lemma set_fifo_address_same (p : mcp2517fd_priv) :
  set_fifo_address (fifo_address p) p = p.
Proof. destruct p; reflexivity. Qed.

Lemma zrange_succ (s j : Z) :
  0 <= j -> zrange s (Z.to_nat (j + 1)) = zrange s (Z.to_nat j) ++ [s + j].
Proof.
  intros H. replace (Z.to_nat (j + 1)) with (S (Z.to_nat j)) by lia.
  rewrite zrange_snoc. do 2 f_equal. lia.
Qed.

(** The loop of [mcp2517fd_setup_fifo] that configures the transmit
    fifos, when it comes to its end. *)
Lemma setup_tx_loop (sp : Z) (n : nat) (w w' : world) :
  for_loop n 0
    (fun (i : Z) (w : world) =>
     try w0 <-
     mcp2517fd_cmd_write (CAN_FIFOCON (tx_fifo_start (priv w) + i))
       (Z.lor
          (Z.lor
             (Z.lor
                (Z.lor CAN_FIFOCON_FRESET
                   (Z.shiftl (payload_mode (priv w)) CAN_FIFOCON_PLSIZE_SHIFT))
                (Z.shiftl 0 CAN_FIFOCON_FSIZE_SHIFT))
             (Z.shiftl (tx_fifo_start (priv w) + i) CAN_FIFOCON_TXPRI_SHIFT))
          CAN_FIFOCON_TXEN)
       sp w;
     (0,
      set_priv
        (fun p : mcp2517fd_priv =>
         set_tx_fifo_mask
           (u32 (Z.lor (tx_fifo_mask p) (BIT (tx_fifo_start (priv w) + i)))) p)
        w0))
    w = (0, w') ->
  priv w' = set_tx_fifo_mask
              (tags_mask (zrange (tx_fifo_start (priv w)) n) (tx_fifo_mask (priv w)))
              (priv w) /\
  stats w' = stats w /\ net_mtu w' = net_mtu w.
Proof.
  intros E.
  set (p0 := priv w). set (s := tx_fifo_start p0). set (m := tx_fifo_mask p0).
  pose (I := fun (j : Z) (wj : world) =>
    0 <= j /\
    priv wj = set_tx_fifo_mask (tags_mask (zrange s (Z.to_nat j)) m) p0 /\
    stats wj = stats w /\ net_mtu wj = net_mtu w).
  assert (H : I (0 + Z.of_nat n) w').
  { apply (for_loop_inv I _ n 0 w w' E).
    - unfold I. split; [lia|]. split; [|split; reflexivity].
      cbn [Z.to_nat zrange tags_mask fold_left]. unfold m, p0.
      symmetry. apply set_tx_fifo_mask_same.
    - intros j wj wj' Hj (J0 & Jp & Js & Jm) Eb.
      match type of Eb with context [mcp2517fd_cmd_write ?a ?b ?c wj] =>
        pose proof (cmd_write_transported a b c wj) as T;
        destruct (mcp2517fd_cmd_write a b c wj) as [r w0] end.
      cbn [snd] in T. destruct T as (Tp & Ts & Tm & _).
      destruct (nz r) eqn:Nr; [inversion Eb; subst; discriminate|].
      inversion Eb; subst wj'. clear Eb.
      unfold I. split; [lia|]. cbn [set_priv priv stats net_mtu].
      rewrite Tp, Ts, Tm, Jp, Js, Jm. split; [|split; reflexivity].
      rewrite zrange_succ, tags_mask_snoc by lia. reflexivity. }
  unfold I in H. rewrite Z.add_0_l, Nat2Z.id in H.
  destruct H as (_ & Hp & Hs & Hm). repeat split; assumption.
Qed.

(** The loop that configures the receive fifos and their filters. *)
Lemma setup_rx_loop (sp : Z) (n : nat) (w w' : world) :
  for_loop n 0
    (fun (i : Z) (w1 : world) =>
     try w2 <-
     mcp2517fd_cmd_write (CAN_FIFOCON (rx_fifo_start (priv w1) + i))
       (Z.lor
          (Z.lor
             (Z.lor
                (Z.lor
                   (Z.lor
                      (Z.lor
                         (Z.lor
                            (Z.shiftl (payload_mode (priv w1))
                               CAN_FIFOCON_PLSIZE_SHIFT)
                            (Z.shiftl (rx_fifo_depth (priv w1) - 1)
                               CAN_FIFOCON_FSIZE_SHIFT))
                         CAN_FIFOCON_RXTSEN)
                      CAN_FIFOCON_FRESET)
                   CAN_FIFOCON_TFERFFIE)
                CAN_FIFOCON_TFHRFHIE)
             CAN_FIFOCON_TFNRFNIE)
          (if i =? rx_fifos (priv w1) - 1 then CAN_FIFOCON_RXOVIE else 0))
       sp w1;
     try w <-
     mcp2517fd_cmd_write_mask (CAN_FLTCON i)
       (Z.lor (CAN_FIFOCON_FLTEN i)
          (Z.shiftl (rx_fifo_start (priv w1) + i) (CAN_FILCON_SHIFT i)))
       (Z.lor (CAN_FIFOCON_FLTEN i) (CAN_FILCON_MASK i))
       sp w2;
     (0,
      set_priv
        (fun p : mcp2517fd_priv =>
         set_rx_fifo_mask
           (u32 (Z.lor (rx_fifo_mask p) (BIT (rx_fifo_start (priv w1) + i))))
           p)
        w))
    w = (0, w') ->
  priv w' = set_rx_fifo_mask
              (tags_mask (zrange (rx_fifo_start (priv w)) n) (rx_fifo_mask (priv w)))
              (priv w) /\
  stats w' = stats w /\ net_mtu w' = net_mtu w.
Proof.
  intros E.
  set (p0 := priv w). set (s := rx_fifo_start p0). set (m := rx_fifo_mask p0).
  pose (I := fun (j : Z) (wj : world) =>
    0 <= j /\
    priv wj = set_rx_fifo_mask (tags_mask (zrange s (Z.to_nat j)) m) p0 /\
    stats wj = stats w /\ net_mtu wj = net_mtu w).
  assert (H : I (0 + Z.of_nat n) w').
  { apply (for_loop_inv I _ n 0 w w' E).
    - unfold I. split; [lia|]. split; [|split; reflexivity].
      cbn [Z.to_nat zrange tags_mask fold_left]. unfold m, p0.
      symmetry. apply set_rx_fifo_mask_same.
    - intros j wj wj' Hj (J0 & Jp & Js & Jm) Eb.
      match type of Eb with context [mcp2517fd_cmd_write ?a ?b ?c wj] =>
        pose proof (cmd_write_transported a b c wj) as T;
        destruct (mcp2517fd_cmd_write a b c wj) as [r w0] end.
      cbn [snd] in T. destruct T as (Tp & Ts & Tm & _).
      destruct (nz r) eqn:Nr; [inversion Eb; subst; discriminate|].
      match type of Eb with context [mcp2517fd_cmd_write_mask ?a ?b ?c ?d w0] =>
        pose proof (cmd_write_mask_transported a b c d w0) as T2;
        destruct (mcp2517fd_cmd_write_mask a b c d w0) as [r2 w2] end.
      cbn [snd] in T2. destruct T2 as (Tp2 & Ts2 & Tm2 & _).
      destruct (nz r2) eqn:Nr2; [inversion Eb; subst; discriminate|].
      inversion Eb; subst wj'. clear Eb.
      unfold I. split; [lia|]. cbn [set_priv priv stats net_mtu].
      rewrite Tp2, Ts2, Tm2, Tp, Ts, Tm, Jp, Js, Jm. split; [|split; reflexivity].
      rewrite zrange_succ, tags_mask_snoc by lia. reflexivity. }
  unfold I in H. rewrite Z.add_0_l, Nat2Z.id in H.
  destruct H as (_ & Hp & Hs & Hm). repeat split; assumption.
Qed.

(** A loop that reads the addresses of the fifos from [start p] on. *)
Lemma setup_address_loop (label : string) (start : mcp2517fd_priv -> Z)
      (n : nat) (w w' : world) :
  (forall g p, start (set_fifo_address g p) = start p) ->
  for_loop n 0
    (fun (i : Z) (w : world) => setup_fifo_address label (start (priv w) + i) w)
    w = (0, w') ->
  exists g,
    priv w' = set_fifo_address g (priv w) /\
    (forall f, f < start (priv w) \/ start (priv w) + Z.of_nat n <= f ->
               g f = fifo_address (priv w) f) /\
    stats w' = stats w /\ net_mtu w' = net_mtu w.
Proof.
  intros Hst E.
  set (p0 := priv w). set (s := start p0).
  pose (I := fun (j : Z) (wj : world) =>
    0 <= j /\
    (exists g, priv wj = set_fifo_address g p0 /\
               forall f, f < s \/ s + j <= f -> g f = fifo_address p0 f) /\
    stats wj = stats w /\ net_mtu wj = net_mtu w).
  assert (H : I (0 + Z.of_nat n) w').
  { apply (for_loop_inv I _ n 0 w w' E).
    - unfold I. split; [lia|]. split; [|split; reflexivity].
      exists (fifo_address p0). split; [|reflexivity].
      symmetry. apply set_fifo_address_same.
    - intros j wj wj' Hj (J0 & (g & Jp & Jg) & Js & Jm) Eb.
      unfold setup_fifo_address in Eb.
      match type of Eb with context [mcp2517fd_cmd_read ?a ?b wj] =>
        pose proof (cmd_read_transported a b wj) as T;
        destruct (mcp2517fd_cmd_read a b wj) as [[r val] w0] end.
      cbn [snd] in T. destruct T as (Tp & Ts & Tm & _).
      destruct (nz r) eqn:Nr; [inversion Eb; subst; discriminate|].
      inversion Eb; subst wj'. clear Eb.
      unfold I. split; [lia|]. cbn [call set_priv priv stats net_mtu].
      rewrite Tp, Ts, Tm, Jp, Js, Jm. split; [|split; reflexivity].
      eexists. split; [reflexivity|].
      intros f Hf. cbn [fifo_address set_fifo_address]. unfold upd.
      rewrite Hst. fold s.
      destruct (Z.eqb_spec f (s + j)); [lia|]. apply Jg. lia. }
  unfold I in H. rewrite Z.add_0_l in H.
  destruct H as (_ & (g & Hp & Hg) & Hs & Hm).
  exists g. repeat split; assumption.
Qed.

Lemma layout_some (w w2 : world) :
  setup_fifo_layout w = Some w2 ->
  exists pl md nrx,
    ((net_mtu w = CAN_MTU /\ pl = 8 /\ md = CAN_TXQCON_PLSIZE_8 /\ nrx = 24) \/
     (net_mtu w = CANFD_MTU /\ pl = 64 /\ md = CAN_TXQCON_PLSIZE_64 /\ nrx = 19)) /\
    priv w2 = fifo_layout pl md nrx (priv w) /\
    stats w2 = stats w /\ net_mtu w2 = net_mtu w.
Proof.
  unfold setup_fifo_layout.
  destruct (Z.eqb_spec (net_mtu w) CAN_MTU) as [M|M].
  - intros E. inversion E; subst w2. exists 8, CAN_TXQCON_PLSIZE_8, 24.
    split; [left; repeat split; exact M|]. repeat split.
  - destruct (Z.eqb_spec (net_mtu w) CANFD_MTU) as [M2|M2]; [|discriminate].
    intros E. inversion E; subst w2. exists 64, CAN_TXQCON_PLSIZE_64, 19.
    split; [right; repeat split; exact M2|]. repeat split.
Qed.

(** X20: what a set-up of the fifos that succeeds has established.
    When [mcp2517fd_setup_fifo] returns 0, the mtu is that of CAN or of
    CAN FD and the driver state holds the layout for it: 7 transmit fifos
    from fifo 1, and 24 (CAN, 8 bytes of payload) or 19 (CAN FD, 64 bytes)
    receive fifos from fifo 8, one object deep; the bits of the fifos of
    the two pools have been or-ed into the two masks, so that from masks
    of 0 the masks are those of the two pools and share no fifo; the
    completion cursor is at the start of its ring and the end of the ring
    is 8 objects further; only the addresses of the fifos of the two pools
    have been set; the pending mask, the frame in waiting and the counters
    are untouched. *)
Theorem setup_fifo_establishes (w w' : world) :
  mcp2517fd_setup_fifo w = (0, w') ->
  let p := priv w in
  let p' := priv w' in
  ((net_mtu w = CAN_MTU /\ payload_size p' = 8 /\
    payload_mode p' = CAN_TXQCON_PLSIZE_8 /\ rx_fifos p' = 24) \/
   (net_mtu w = CANFD_MTU /\ payload_size p' = 64 /\
    payload_mode p' = CAN_TXQCON_PLSIZE_64 /\ rx_fifos p' = 19)) /\
  tx_fifo_start p' = 1 /\ tx_fifos p' = 7 /\
  rx_fifo_start p' = 8 /\ rx_fifo_depth p' = 1 /\
  tx_fifo_mask p' = tags_mask (zrange 1 7) (tx_fifo_mask p) /\
  rx_fifo_mask p'
  = tags_mask (zrange 8 (Z.to_nat (rx_fifos p'))) (rx_fifo_mask p) /\
  (tx_fifo_mask p = 0 -> rx_fifo_mask p = 0 ->
   tx_fifo_mask p' = 0xFE /\
   rx_fifo_mask p' = (if rx_fifos p' =? 24 then 0xFFFFFF00 else 0x07FFFF00) /\
   Z.land (tx_fifo_mask p') (rx_fifo_mask p') = 0) /\
  tef_address p' = tef_address_start p' /\
  tef_address_end p'
  = u32 (tef_address_start p' + (tx_fifos p' + 1) * sizeof_obj_tef - 1) /\
  (forall f, f < 1 \/ 8 + rx_fifos p' <= f ->
             fifo_address p' f = fifo_address p f) /\
  tx_pending_mask p' = tx_pending_mask p /\
  tx_work_skb p' = tx_work_skb p /\
  stats w' = stats w.
Proof.
  intros E. unfold mcp2517fd_setup_fifo in E. cbv zeta in E.
  set (sp := spi_setup_speed_hz (priv w)) in E.
  match type of E with context [for_loop 32 0 ?b w] =>
    pose proof (for_loop_transported b
      (fun i w0 => proj1 (clear_filter_step sp i w0)) 32%nat 0 w) as T1 end.
  destruct (for_loop 32 0 _ w) as [r1 w1] eqn:E1. cbn [snd] in T1.
  destruct (nz r1) eqn:N1; [inversion E; subst; discriminate|].
  destruct (setup_fifo_layout w1) as [w2|] eqn:L; [|inversion E].
  match type of E with context [mcp2517fd_cmd_write ?a ?b ?c w2] =>
    pose proof (cmd_write_transported a b c w2) as T3 end.
  destruct (mcp2517fd_cmd_write CAN_TEFCON _ _ w2) as [r3 w3] eqn:E3.
  cbn [snd] in T3.
  destruct (nz r3) eqn:N3; [inversion E; subst; discriminate|].
  destruct (for_loop (Z.to_nat (tx_fifos (priv w3))) 0 _ w3) as [r4 w4] eqn:E4.
  destruct (nz r4) eqn:N4; [inversion E; subst; discriminate|].
  destruct (for_loop (Z.to_nat (rx_fifos (priv w4))) 0 _ w4) as [r5 w5] eqn:E5.
  destruct (nz r5) eqn:N5; [inversion E; subst; discriminate|].
  match type of E with context [mcp2517fd_cmd_write ?a ?b ?c w5] =>
    pose proof (cmd_write_transported a b c w5) as T6 end.
  destruct (mcp2517fd_cmd_write CAN_CON _ _ w5) as [r6 w6] eqn:E6.
  cbn [snd] in T6.
  destruct (nz r6) eqn:N6; [inversion E; subst; discriminate|].
  pose proof (cmd_read_transported CAN_TEFUA sp w6) as T7.
  destruct (mcp2517fd_cmd_read CAN_TEFUA _ w6) as [[r7 val] w7] eqn:E7.
  cbn [snd] in T7.
  destruct (nz r7) eqn:N7; [inversion E; subst; discriminate|].
  set (v := match val with Some v => v | None => 0 end) in E.
  set (w8 := call (k_dev_err " TEF-FIFO: %03x - %03x" _) _) in E.
  destruct (for_loop (Z.to_nat (tx_fifos (priv w8))) 0 _ w8) as [r9 w9] eqn:E9.
  destruct (nz r9) eqn:N9; [inversion E; subst; discriminate|].
  destruct (for_loop (Z.to_nat (rx_fifos (priv w9))) 0 _ w9) as [r10 w10] eqn:E10.
  destruct (nz r10) eqn:N10; [inversion E; subst; discriminate|].
  match type of E with context [mcp2517fd_cmd_write ?a ?b ?c w10] =>
    pose proof (cmd_write_transported a b c w10) as T11 end.
  destruct (mcp2517fd_cmd_write CAN_CON _ _ w10) as [r11 w11] eqn:E11.
  cbn [snd] in T11.
  destruct (nz r11) eqn:N11; [inversion E; subst; discriminate|].
  inversion E; subst w11. clear E.
  apply nz_false in N1, N3, N4, N5, N6, N7, N9, N10, N11. subst.
  apply transported_keeps in T1, T3, T6, T7, T11.
  destruct T1 as (P1 & S1 & M1). destruct T3 as (P3 & S3 & M3).
  destruct T6 as (P6 & S6 & M6). destruct T7 as (P7 & S7 & M7).
  destruct T11 as (P11 & S11 & M11).
  destruct (layout_some w1 w2 L) as (pl & md & nrx & Hc & P2 & S2 & M2).
  destruct (setup_tx_loop sp _ w3 w4 E4) as (P4 & S4 & M4).
  destruct (setup_rx_loop sp _ w4 w5 E5) as (P5 & S5 & M5).
  destruct (setup_address_loop _ tx_fifo_start _ w8 w9 (fun _ _ => eq_refl) E9)
    as (g1 & P9 & G9 & S9 & M9).
  destruct (setup_address_loop _ rx_fifo_start _ w9 w10 (fun _ _ => eq_refl) E10)
    as (g2 & P10 & G10 & S10 & M10).
  assert (P8 : priv w8
               = set_tef_address_end
                   (u32 (v + (tx_fifos (priv w7) + 1) * sizeof_obj_tef - 1))
                   (set_tef_address_start v (set_tef_address v (priv w7))))
    by reflexivity.
  assert (S8 : stats w8 = stats w7) by reflexivity.
  clearbody w8. clear E1 E3 E4 E5 E6 E7 E9 E10 E11 L.
  rewrite P7, P6, P5, P4, P3, P2, P1 in P8.
  rewrite P8 in P9, G9. rewrite P9 in P10, G10.
  cbv zeta. rewrite P11, S11, P10, S10, S9, S8, S7, S6, S5, S4, S3, S2, S1.
  rewrite <- M1.
  clear P1 P2 P3 P4 P5 P6 P7 P8 P9 P10 P11.
  cbn [fifo_layout payload_size payload_mode rx_fifos tx_fifo_start tx_fifos
       rx_fifo_start rx_fifo_depth tx_fifo_mask rx_fifo_mask tef_address
       tef_address_start tef_address_end fifo_address tx_pending_mask
       tx_work_skb set_fifo_address set_tef_address_end set_tef_address_start
       set_tef_address set_rx_fifo_mask set_tx_fifo_mask set_rx_fifo_depth
       set_rx_fifos set_rx_fifo_start set_tx_fifos set_tx_fifo_start
       set_payload_mode set_payload_size] in *.
  change (Z.to_nat 7) with 7%nat in *.
  split.
  { destruct Hc as [(A & -> & -> & ->)|(A & -> & -> & ->)];
      [left|right]; repeat split; assumption. }
  do 4 (split; [reflexivity|]).
  split; [reflexivity|]. split; [reflexivity|].
  split.
  { intros Zt Zr. rewrite Zt, Zr.
    destruct Hc as [(_ & _ & _ & ->)|(_ & _ & _ & ->)]; repeat split. }
  split; [reflexivity|]. split; [reflexivity|].
  split; [|repeat split].
  intros f Hf. rewrite G10, G9; [reflexivity| |].
  - change (Z.of_nat 7) with 7. lia.
  - destruct Hc as [(_ & _ & _ & ->)|(_ & _ & _ & ->)].
    + change (Z.of_nat (Z.to_nat 24)) with 24. lia.
    + change (Z.of_nat (Z.to_nat 19)) with 19. lia.
Qed.

Lemma filter_message_checked :
  forallb (fun i => forallb (fun fifo => filter_message_ok (Z.of_nat i) (Z.of_nat fifo))
                            (seq 0 128))
          (seq 0 32) = true.
Proof. vm_compute. reflexivity. Qed.

Lemma filter_message_all (i fifo : Z) :
  0 <= i < 32 -> 0 <= fifo < 128 -> filter_message_ok i fifo = true.
Proof.
  intros Hi Hf.
  pose proof (range_check
    (fun i => forallb (fun fifo => filter_message_ok i (Z.of_nat fifo)) (seq 0 128))
    32 filter_message_checked i Hi) as H.
  cbv beta in H.
  apply (range_check (fun fifo => filter_message_ok i fifo) 128 H fifo Hf).
Qed.

(** X21: how a filter is pointed to its fifo. The masked write with
    which [mcp2517fd_setup_fifo] enables filter [i] (0..31) for a fifo
    (below 128) is the write of one byte, the enable bit and the number of
    the fifo, to the control byte of that filter at [0x1D0 + i]: the fifo
    number goes out whole although the mask of the write covers only four
    bits of it. *)
Theorem filter_routing_byte (i fifo sp : Z) (w : world) :
  0 <= i < 32 -> 0 <= fifo < 128 ->
  alloc_ok K (trace w) kmalloc_txrx = true ->
  first_tx (calls_since w
    (snd (mcp2517fd_cmd_write_mask (CAN_FLTCON i)
            (Z.lor (CAN_FIFOCON_FLTEN i) (Z.shiftl fifo (CAN_FILCON_SHIFT i)))
            (Z.lor (CAN_FIFOCON_FLTEN i) (CAN_FILCON_MASK i)) sp w)))
  = mcp2517fd_calc_cmd_addr INSTRUCTION_WRITE (0x1D0 + i) ++ [Z.lor 0x80 fifo].
Proof.
  intros Hi Hf Ha.
  pose proof (filter_message_all i fifo Hi Hf) as C.
  unfold filter_message_ok in C. apply andb_prop in C. destruct C as [Cm Cb].
  fold (filter_enable_data i fifo). fold (filter_enable_mask i).
  rewrite cmd_write_mask_form, Ha.
  2:{ intros E. rewrite E in Cm. discriminate. }
  cbn [snd]. rewrite calls_since_calls.
  unfold first_tx, write_mask_calls. cbn [spi_messages flat_map app].
  unfold write_mask_message in *. cbn [tx_buf] in *.
  destruct (list_eq_dec Z.eq_dec _ _) as [Eq|]; [exact Eq|discriminate].
Qed.

(* ------------------------------------------------------------------ *)
(** ** Bit timing *)

(** X22: the bit-timing registers. For a bit timing within the bounds
    the driver announces, the word written to the nominal (and to the data)
    bit-timing register holds in its SJW, TSEG2 and TSEG1 fields the
    synchronisation jump width, the phase segment 2 and the sum of the
    propagation segment and the phase segment 1, each less one, and in its
    BRP field the prescaler itself, as far as it fits the 8 bits of the
    field: the largest prescaler announced, 256, leaves 0 there. The word
    goes to [CAN_NBTCFG] (and [CAN_DBTCFG]) in one write of four bytes. *)
Theorem bittiming_registers (bt : can_bittiming) (w : world) :
  (bittiming_within mcp2517fd_nominal_bittiming_const bt = true ->
   let v := nominal_bittiming_val bt in
   reg_field v CAN_NBTCFG_SJW_MASK CAN_NBTCFG_SJW_SHIFT = sjw bt - 1 /\
   reg_field v CAN_NBTCFG_TSEG2_MASK CAN_NBTCFG_TSEG2_SHIFT = phase_seg2 bt - 1 /\
   reg_field v CAN_NBTCFG_TSEG1_MASK CAN_NBTCFG_TSEG1_SHIFT
   = phase_seg1 bt + prop_seg bt - 1 /\
   reg_field v CAN_NBTCFG_BRP_MASK CAN_NBTCFG_BRP_SHIFT = brp bt mod 256) /\
  (bittiming_within mcp2517fd_data_bittiming_const bt = true ->
   let v := data_bittiming_val bt in
   reg_field v CAN_DBTCFG_SJW_MASK CAN_DBTCFG_SJW_SHIFT = sjw bt - 1 /\
   reg_field v CAN_DBTCFG_TSEG2_MASK CAN_DBTCFG_TSEG2_SHIFT = phase_seg2 bt - 1 /\
   reg_field v CAN_DBTCFG_TSEG1_MASK CAN_DBTCFG_TSEG1_SHIFT
   = phase_seg1 bt + prop_seg bt - 1 /\
   reg_field v CAN_DBTCFG_BRP_MASK CAN_DBTCFG_BRP_SHIFT = brp bt mod 256) /\
  (alloc_ok K (trace w) kmalloc_txrx = true ->
   first_tx (calls_since w (snd (mcp2517fd_do_set_nominal_bittiming bt w)))
   = mcp2517fd_calc_cmd_addr INSTRUCTION_WRITE CAN_NBTCFG
     ++ le32_bytes (nominal_bittiming_val bt) /\
   first_tx (calls_since w (snd (mcp2517fd_do_set_data_bittiming bt w)))
   = mcp2517fd_calc_cmd_addr INSTRUCTION_WRITE CAN_DBTCFG
     ++ le32_bytes (data_bittiming_val bt)).
Proof.
  split; [|split].
  - intros H. unfold bittiming_within in H.
    repeat (apply andb_prop in H; destruct H as [H ?]).
    repeat match goal with
    | H : (_ <=? _) = true |- _ => apply Z.leb_le in H
    end.
    cbn [mcp2517fd_nominal_bittiming_const tseg1_min tseg1_max tseg2_min
         tseg2_max sjw_max brp_min brp_max] in *.
    change (BIT CAN_NBTCFG_TSEG1_BITS) with 256 in *.
    change (BIT CAN_NBTCFG_TSEG2_BITS) with 128 in *.
    change (BIT CAN_NBTCFG_SJW_BITS) with 128 in *.
    change (BIT CAN_NBTCFG_BRP_BITS) with 256 in *.
    cbv zeta. unfold nominal_bittiming_val, reg_field, u32.
    change CAN_NBTCFG_SJW_MASK with (Z.shiftl (Z.ones 7) 0).
    change CAN_NBTCFG_TSEG2_MASK with (Z.shiftl (Z.ones 7) 8).
    change CAN_NBTCFG_TSEG1_MASK with (Z.shiftl (Z.ones 8) 16).
    change CAN_NBTCFG_BRP_MASK with (Z.shiftl (Z.ones 8) 24).
    change CAN_NBTCFG_SJW_SHIFT with 0. change CAN_NBTCFG_TSEG2_SHIFT with 8.
    change CAN_NBTCFG_TSEG1_SHIFT with 16. change CAN_NBTCFG_BRP_SHIFT with 24.
    set (a := sjw bt - 1) in *. set (b := phase_seg2 bt - 1) in *.
    set (c := phase_seg1 bt + prop_seg bt - 1) in *. set (d := brp bt) in *.
    assert (Ta : forall i, 7 <= i -> Z.testbit a i = false)
      by (intros; apply (testbit_small a 7); lia).
    assert (Tb : forall i, 7 <= i -> Z.testbit b i = false)
      by (intros; apply (testbit_small b 7); lia).
    assert (Tc : forall i, 8 <= i -> Z.testbit c i = false)
      by (intros; apply (testbit_small c 8); lia).
    change 256 with (2 ^ 8).
    repeat split; apply Z.bits_inj'; intros i Hi.
    + destruct (Z_lt_le_dec i 7); tb; cmp_lia; bool_simpl;
        rewrite ?Ta by lia; try reflexivity.
      replace (i + 0 - 0) with i by lia. reflexivity.
    + destruct (Z_lt_le_dec i 7); tb; cmp_lia; bool_simpl;
        rewrite ?Tb, ?Ta by lia; bool_simpl; try reflexivity.
      replace (i + 8 - 8) with i by lia. reflexivity.
    + destruct (Z_lt_le_dec i 8); tb; cmp_lia; bool_simpl;
        rewrite ?Tc, ?Tb, ?Ta by lia; bool_simpl; try reflexivity.
      replace (i + 16 - 16) with i by lia. reflexivity.
    + destruct (Z_lt_le_dec i 8); tb; cmp_lia; bool_simpl;
        rewrite ?Tc, ?Tb, ?Ta by lia; bool_simpl; try reflexivity.
      replace (i + 24 - 24) with i by lia. reflexivity.
  - intros H. unfold bittiming_within in H.
    repeat (apply andb_prop in H; destruct H as [H ?]).
    repeat match goal with
    | H : (_ <=? _) = true |- _ => apply Z.leb_le in H
    end.
    cbn [mcp2517fd_data_bittiming_const tseg1_min tseg1_max tseg2_min
         tseg2_max sjw_max brp_min brp_max] in *.
    change (BIT CAN_DBTCFG_TSEG1_BITS) with 32 in *.
    change (BIT CAN_DBTCFG_TSEG2_BITS) with 16 in *.
    change (BIT CAN_DBTCFG_SJW_BITS) with 16 in *.
    change (BIT CAN_DBTCFG_BRP_BITS) with 256 in *.
    cbv zeta. unfold data_bittiming_val, reg_field, u32.
    change CAN_DBTCFG_SJW_MASK with (Z.shiftl (Z.ones 4) 0).
    change CAN_DBTCFG_TSEG2_MASK with (Z.shiftl (Z.ones 4) 8).
    change CAN_DBTCFG_TSEG1_MASK with (Z.shiftl (Z.ones 5) 16).
    change CAN_DBTCFG_BRP_MASK with (Z.shiftl (Z.ones 8) 24).
    change CAN_DBTCFG_SJW_SHIFT with 0. change CAN_DBTCFG_TSEG2_SHIFT with 8.
    change CAN_DBTCFG_TSEG1_SHIFT with 16. change CAN_DBTCFG_BRP_SHIFT with 24.
    set (a := sjw bt - 1) in *. set (b := phase_seg2 bt - 1) in *.
    set (c := phase_seg1 bt + prop_seg bt - 1) in *. set (d := brp bt) in *.
    assert (Ta : forall i, 4 <= i -> Z.testbit a i = false)
      by (intros; apply (testbit_small a 4); lia).
    assert (Tb : forall i, 4 <= i -> Z.testbit b i = false)
      by (intros; apply (testbit_small b 4); lia).
    assert (Tc : forall i, 5 <= i -> Z.testbit c i = false)
      by (intros; apply (testbit_small c 5); lia).
    change 256 with (2 ^ 8).
    repeat split; apply Z.bits_inj'; intros i Hi.
    + destruct (Z_lt_le_dec i 4); tb; cmp_lia; bool_simpl;
        rewrite ?Ta by lia; try reflexivity.
      replace (i + 0 - 0) with i by lia. reflexivity.
    + destruct (Z_lt_le_dec i 4); tb; cmp_lia; bool_simpl;
        rewrite ?Tb, ?Ta by lia; bool_simpl; try reflexivity.
      replace (i + 8 - 8) with i by lia. reflexivity.
    + destruct (Z_lt_le_dec i 5); tb; cmp_lia; bool_simpl;
        rewrite ?Tc, ?Tb, ?Ta by lia; bool_simpl; try reflexivity.
      replace (i + 16 - 16) with i by lia. reflexivity.
    + destruct (Z_lt_le_dec i 8); tb; cmp_lia; bool_simpl;
        rewrite ?Tc, ?Tb, ?Ta by lia; bool_simpl; try reflexivity.
      replace (i + 24 - 24) with i by lia. reflexivity.
  - intros Ha.
    unfold mcp2517fd_do_set_nominal_bittiming, mcp2517fd_do_set_data_bittiming.
    rewrite !cmd_write_form, Ha. cbn [snd]. rewrite !calls_since_calls.
    unfold write_mask_calls. rewrite !write_mask_message_full.
    split; reflexivity.
Qed.

(* ------------------------------------------------------------------ *)
(** ** Taking the interface down *)

Lemma clean_loop_spec (n : nat) :
  forall (i : Z) (freed : list Z) (w : world),
  0 <= i ->
  let k := length (filter (Z.testbit (tx_pending_mask (priv w))) (zrange i n)) in
  let '(freed', w') := clean_loop n i freed w in
  freed' = freed ++ repeat 0 k /\
  priv w' = priv w /\ trace w' = trace w /\ net_mtu w' = net_mtu w /\
  tx_errors (stats w') = bumped ulong (tx_errors (stats w)) k /\
  [rx_packets (stats w'); rx_bytes (stats w'); rx_dropped (stats w');
   rx_errors (stats w'); rx_over_errors (stats w'); tx_packets (stats w');
   tx_bytes (stats w'); tx_dropped (stats w')]
  = [rx_packets (stats w); rx_bytes (stats w); rx_dropped (stats w);
     rx_errors (stats w); rx_over_errors (stats w); tx_packets (stats w);
     tx_bytes (stats w); tx_dropped (stats w)].
Proof.
  induction n as [|n IH]; intros i freed w Hi; cbn [clean_loop zrange filter].
  - cbn [length repeat bumped]. rewrite app_nil_r. repeat split.
  - rewrite land_BIT_nz by lia.
    destruct (Z.testbit (tx_pending_mask (priv w)) i) eqn:E.
    + specialize (IH (i + 1) (freed ++ [0])
                     (bump tx_errors set_tx_errors 1 w) ltac:(lia)).
      cbv zeta in IH |- *.
      destruct (clean_loop n (i + 1) (freed ++ [0])
                  (bump tx_errors set_tx_errors 1 w)) as [freed' w'].
      destruct IH as (F & P & T & M & X & O).
      cbn [bump set_stats priv trace net_mtu stats set_tx_errors tx_errors
           rx_packets rx_bytes rx_dropped rx_errors rx_over_errors tx_packets
           tx_bytes tx_dropped] in F, P, T, M, X, O.
      cbn [length]. rewrite F, <- app_assoc. cbn [repeat app].
      repeat split; try assumption.
      rewrite X. apply bumped_ulong.
    + specialize (IH (i + 1) freed w ltac:(lia)). exact IH.
Qed.

(** X23: what [mcp2517fd_clean] gives up. It clears the pending mask
    and, for every pending bit below [tx_fifos] (bits 0 to [tx_fifos] - 1,
    not the fifos of the pool, which starts at [tx_fifo_start]), counts one
    transmit error and frees an echo buffer, each time that of index 0. A
    fifo that is pending at or above [tx_fifos], as the highest fifo of
    the pool is when the pool starts above 0, is forgotten without a
    transmit error and without its echo buffer being freed. Nothing else
    of the driver state or of the counters changes and no other call is
    made. *)
Theorem clean_gives_up_pending (w : world) :
  let p := priv w in
  let s := stats w in
  let '(freed, w') := mcp2517fd_clean w in
  let s' := stats w' in
  let k := length (clean_seen p) in
  priv w' = set_tx_pending_mask 0 p /\
  freed = repeat 0 k /\
  tx_errors s' = bumped ulong (tx_errors s) k /\
  [rx_packets s'; rx_bytes s'; rx_dropped s'; rx_errors s'; rx_over_errors s';
   tx_packets s'; tx_bytes s'; tx_dropped s']
  = [rx_packets s; rx_bytes s; rx_dropped s; rx_errors s; rx_over_errors s;
     tx_packets s; tx_bytes s; tx_dropped s] /\
  trace w' = trace w /\ net_mtu w' = net_mtu w /\
  ((forall i, Z.testbit (tx_pending_mask p) i = true -> tx_fifos p <= i) ->
   freed = [] /\ tx_errors s' = tx_errors s) /\
  (0 < tx_fifo_start p -> 0 < tx_fifos p ->
   tx_pending_mask p = BIT (tx_fifo_start p + tx_fifos p - 1) ->
   freed = [] /\ tx_errors s' = tx_errors s).
Proof.
  cbv zeta. unfold mcp2517fd_clean, clean_seen.
  pose proof (clean_loop_spec (Z.to_nat (tx_fifos (priv w))) 0 [] w ltac:(lia))
    as L.
  cbv zeta in L.
  destruct (clean_loop (Z.to_nat (tx_fifos (priv w))) 0 [] w) as [freed w1].
  destruct L as (F & P & T & M & X & O).
  cbn [set_priv priv stats trace net_mtu].
  assert (N : (forall i, Z.testbit (tx_pending_mask (priv w)) i = true ->
                         tx_fifos (priv w) <= i) ->
              freed = [] /\ tx_errors (stats w1) = tx_errors (stats w)).
  { intros H.
    rewrite filter_none in F, X.
    - split; [exact F|exact X].
    - intros j Hj. apply in_zrange in Hj.
      destruct (Z.testbit (tx_pending_mask (priv w)) j) eqn:E; [|reflexivity].
      apply H in E. lia.
    - intros j Hj. apply in_zrange in Hj.
      destruct (Z.testbit (tx_pending_mask (priv w)) j) eqn:E; [|reflexivity].
      apply H in E. lia. }
  rewrite P.
  split; [reflexivity|]. split; [exact F|]. split; [exact X|].
  split; [exact O|]. split; [exact T|]. split; [exact M|].
  split; [exact N|].
  intros Hs Hf Hp. apply N. intros i Hi. rewrite Hp in Hi.
  rewrite testbit_BIT in Hi by lia. apply Z.eqb_eq in Hi. lia.
Qed.

(* ------------------------------------------------------------------ *)
(** ** Bringing the controller up *)

Lemma writes_to_app (reg : Z) (a b : list kcall) :
  writes_to reg (a ++ b) = writes_to reg a ++ writes_to reg b.
Proof. unfold writes_to. rewrite spi_messages_app. apply flat_map_app. Qed.

(** The calls of a register write: the allocation that fails, or the
    allocation and the message. *)
Lemma cmd_write_calls (reg data sp : Z) (w : world) :
  exists cs,
    snd (mcp2517fd_cmd_write reg data sp w) = calls cs w /\
    (cs = [k_alloc kmalloc_txrx] \/
     cs = write_mask_calls reg data (u32 (-1)) sp).
Proof.
  rewrite cmd_write_form.
  destruct (alloc_ok K (trace w) kmalloc_txrx); cbn [snd];
    eexists; split; try reflexivity; auto.
Qed.

(** The calls of a register read. *)
Lemma cmd_read_calls (reg sp : Z) (w : world) :
  exists cs,
    snd (mcp2517fd_cmd_read reg sp w) = calls cs w /\
    (cs = [k_alloc kmalloc_txrx] \/
     cs = [k_spi_sync_transfer (readn_message reg 4 sp)] \/
     cs = [k_alloc kmalloc_txrx; k_spi_sync_transfer (readn_message reg 4 sp)]).
Proof.
  unfold mcp2517fd_cmd_read, mcp2517fd_cmd_read_mask.
  change (nz (u32 (-1))) with true. cbn [negb].
  change (mask_last_byte (u32 (-1)) - mask_first_byte (u32 (-1)) + 1) with 4.
  rewrite cmd_readn_form.
  destruct (SPI_MASTER_HALF_DUPLEX K).
  - destruct (spi_sync_transfer K _ _) as [r rx]. cbn [snd].
    eexists; split; [reflexivity|]. auto.
  - destruct (alloc_ok K (trace w) kmalloc_txrx).
    + destruct (spi_sync_transfer K _ _) as [r rx]. cbn [snd].
      eexists; split; [reflexivity|]. auto.
    + cbn [snd]. eexists; split; [reflexivity|]. auto.
Qed.

Lemma cmd_read_ret (reg sp : Z) (w : world) :
  fst (fst (mcp2517fd_cmd_read reg sp w)) <= 0.
Proof.
  unfold mcp2517fd_cmd_read, mcp2517fd_cmd_read_mask.
  change (nz (u32 (-1))) with true. cbn [negb].
  match goal with |- context [mcp2517fd_cmd_readn ?r ?n ?s ?w] =>
    pose proof (cmd_readn_ret r n s w) as H;
    destruct (mcp2517fd_cmd_readn r n s w) as [[ret rx] w1] end.
  exact H.
Qed.

Lemma reads_of (reg sp : Z) (w : world) :
  nz (fst (fst (mcp2517fd_cmd_read reg sp w))) = false ->
  reads reg sp w = snd (fst (mcp2517fd_cmd_read reg sp w)).
Proof.
  unfold reads. destruct (mcp2517fd_cmd_read reg sp w) as [[ret val] w1].
  cbn [fst snd]. intros ->. reflexivity.
Qed.

Lemma writes_to_read (r reg n sp : Z) :
  mcp2517fd_calc_cmd_addr INSTRUCTION_READ reg
  <> mcp2517fd_calc_cmd_addr INSTRUCTION_WRITE r ->
  writes_to r [k_spi_sync_transfer (readn_message reg n sp)] = [].
Proof.
  intros H. unfold writes_to, readn_message.
  destruct (SPI_MASTER_HALF_DUPLEX K);
    cbn [spi_messages flat_map app tx_buf];
    unfold mcp2517fd_calc_cmd_addr at 1; cbn [app];
    fold (mcp2517fd_calc_cmd_addr INSTRUCTION_READ reg);
    destruct (list_eq_dec Z.eq_dec _ _) as [E|E];
    try contradiction; reflexivity.
Qed.

Lemma writes_to_write (r reg data sp : Z) :
  writes_to r (write_mask_calls reg data (u32 (-1)) sp)
  = if list_eq_dec Z.eq_dec (mcp2517fd_calc_cmd_addr INSTRUCTION_WRITE reg)
                   (mcp2517fd_calc_cmd_addr INSTRUCTION_WRITE r)
    then [le32_bytes data] else [].
Proof.
  unfold writes_to, write_mask_calls. rewrite write_mask_message_full.
  cbn [spi_messages flat_map app tx_buf].
  unfold mcp2517fd_calc_cmd_addr at 1. cbn [app].
  fold (mcp2517fd_calc_cmd_addr INSTRUCTION_WRITE reg).
  destruct (list_eq_dec Z.eq_dec _ _); reflexivity.
Qed.

(** Take the next register read or write of the goal apart: its calls,
    the sign of its code and, for a read, what the device answered. *)
Ltac next_access :=
  match goal with
  | |- context [mcp2517fd_cmd_read ?reg ?sp ?w0] =>
      let cs := fresh "cs" in
      let E := fresh "E" in
      let C := fresh "C" in
      let R := fresh "R" in
      let A := fresh "A" in
      let ret := fresh "ret" in
      let val := fresh "val" in
      let w1 := fresh "w" in
      destruct (cmd_read_calls reg sp w0) as (cs & E & C);
      pose proof (cmd_read_ret reg sp w0) as R;
      pose proof (reads_of reg sp w0) as A;
      destruct (mcp2517fd_cmd_read reg sp w0) as [[ret val] w1];
      cbn [fst snd] in E, R, A; subst w1
  | |- context [mcp2517fd_cmd_write ?reg ?data ?sp ?w0] =>
      let cs := fresh "cs" in
      let E := fresh "E" in
      let C := fresh "C" in
      let R := fresh "R" in
      let ret := fresh "ret" in
      let w1 := fresh "w" in
      destruct (cmd_write_calls reg data sp w0) as (cs & E & C);
      pose proof (cmd_write_ret reg data sp w0) as R;
      destruct (mcp2517fd_cmd_write reg data sp w0) as [ret w1];
      cbn [fst snd] in E, R; subst w1
  end.

(** Settle what is said of a list of calls once every access is known
    by its calls. *)
Ltac settle_calls :=
  repeat match goal with
  | C : _ \/ _ |- _ => destruct C as [C|C]
  end;
  subst; unfold readn_message, write_mask_calls;
  rewrite ?write_mask_message_full;
  destruct (SPI_MASTER_HALF_DUPLEX K);
  cbn [spi_messages flat_map app length]; try lia; try reflexivity.

Lemma hw_probe_config_spec (d : delays) (w : world) :
  let sp := spi_setup_speed_hz (priv w) in
  let '(ret, d', w') := hw_probe_config d w in
  exists cs dd,
    w' = calls cs w /\ d' = d ++ dd /\
    Forall (fun e => snd e = MCP2517FD_OST_DELAY_MS) dd /\
    ret <= 0 /\ (length (spi_messages cs) <= 4)%nat /\
    writes_to MCP2517FD_OSC cs = [] /\
    ((forall w1 v, reads CAN_CON sp w1 = Some v ->
                   Z.land v CAN_CON_DEFAULT_MASK <> CAN_CON_DEFAULT) ->
     ret < 0).
Proof.
  cbv zeta. unfold hw_probe_config.
  next_access. destruct (nz ret) eqn:N.
  { exists cs, []. rewrite app_nil_r.
    split; [reflexivity|]. split; [reflexivity|]. split; [constructor|].
    split; [exact R|]. apply nz_true in N.
    split; [settle_calls|]. split; [settle_calls|]. intros _; lia. }
  specialize (A eq_refl).
  destruct (Z.eqb_spec (Z.land match val with Some v => v | None => 0 end
                               CAN_CON_DEFAULT_MASK) CAN_CON_DEFAULT) as [D|D].
  { eexists (cs ++ [_]), []. rewrite app_nil_r.
    split; [rewrite call_as_calls, calls_calls; reflexivity|].
    split; [reflexivity|]. split; [constructor|].
    split; [apply nz_false in N; lia|].
    split; [settle_calls|]. split; [settle_calls|].
    intros H. exfalso. destruct val as [v|].
    - exact (H _ _ A D).
    - revert D. vm_compute. discriminate. }
  rewrite call_as_calls, calls_calls.
  next_access. destruct (nz ret0) eqn:N0.
  { eexists _, []. rewrite app_nil_r.
    split; [rewrite calls_calls; reflexivity|].
    split; [reflexivity|]. split; [constructor|].
    split; [exact R0|]. apply nz_true in N0.
    split; [settle_calls|]. split; [settle_calls|]. intros _; lia. }
  unfold mcp2517fd_cmd_reset. rewrite write_form. rewrite !calls_calls.
  next_access. rewrite calls_calls in *.
  destruct (nz ret1) eqn:N1.
  { eexists _, [_; _].
    split; [reflexivity|].
    split; [unfold mdelay; rewrite <- app_assoc; reflexivity|].
    split; [repeat constructor|].
    split; [exact R1|]. apply nz_true in N1.
    split; [settle_calls|]. split; [settle_calls|]. intros _; lia. }
  specialize (A0 eq_refl).
  eexists _, [_; _].
  split; [reflexivity|].
  split; [unfold mdelay; rewrite <- app_assoc; reflexivity|].
  split; [repeat constructor|].
  destruct (Z.eqb_spec (Z.land match val0 with Some v => v | None => 0 end
                               CAN_CON_DEFAULT_MASK) CAN_CON_DEFAULT) as [D1|D1];
    cbn [negb].
  - split; [lia|]. split; [settle_calls|]. split; [settle_calls|].
    intros H. exfalso. destruct val0 as [v|].
    + exact (H _ _ A0 D1).
    + revert D1. vm_compute. discriminate.
  - split; [unfold ENODEV; lia|]. split; [settle_calls|].
    split; [settle_calls|]. intros _. unfold ENODEV. lia.
Qed.

(** X24: what [mcp2517fd_hw_probe] accepts. The probe changes nothing of
    the driver state, returns 0 or a negative code and starts with the
    reset command, whose outcome it does not look at; it waits 3 ms each
    time it waits and sends at most 7 messages. It writes the oscillator
    register at most once, with the word that selects the clock output
    divider 10 and clears every other bit, and only if the device showed
    its clock disabled and not ready. A device that never shows exactly
    one of "clock ready" and "clock disabled" is refused after the reset
    and one read, and a device that never shows the reset values of the
    configuration mode in its control register is refused as well. *)
Theorem hw_probe_accepts_only (w : world) :
  let sp := spi_setup_speed_hz (priv w) in
  let sel := Z.lor MCP2517FD_OSC_OSCRDY MCP2517FD_OSC_OSCDIS in
  let '(ret, d, w') := mcp2517fd_hw_probe w in
  exists cs,
    w' = calls cs w /\
    ret <= 0 /\
    first_tx cs = mcp2517fd_calc_cmd_addr INSTRUCTION_RESET 0 /\
    (1 <= length (spi_messages cs) <= 7)%nat /\
    Forall (fun e => snd e = MCP2517FD_OST_DELAY_MS) d /\
    (writes_to MCP2517FD_OSC cs = [] \/
     writes_to MCP2517FD_OSC cs
     = [le32_bytes (Z.shiftl MCP2517FD_OSC_CLKODIV_10
                             MCP2517FD_OSC_CLKODIV_SHIFT)]) /\
    ((forall w1 v, reads MCP2517FD_OSC sp w1 = Some v ->
                   Z.land v sel <> MCP2517FD_OSC_OSCDIS) ->
     writes_to MCP2517FD_OSC cs = []) /\
    ((forall w1 v, reads MCP2517FD_OSC sp w1 = Some v ->
                   Z.land v sel <> MCP2517FD_OSC_OSCRDY /\
                   Z.land v sel <> MCP2517FD_OSC_OSCDIS) ->
     ret < 0 /\ (length (spi_messages cs) <= 2)%nat) /\
    ((forall w1 v, reads CAN_CON sp w1 = Some v ->
                   Z.land v CAN_CON_DEFAULT_MASK <> CAN_CON_DEFAULT) ->
     ret < 0).
Proof.
  cbv zeta. unfold mcp2517fd_hw_probe.
  unfold mcp2517fd_cmd_reset at 1. rewrite write_form.
  next_access. rewrite calls_calls. destruct (nz ret) eqn:N.
  { apply nz_true in N. eexists. split; [reflexivity|]. split; [exact R|].
    split; [settle_calls|]. split; [settle_calls|].
    split; [repeat constructor|]. split; [left; settle_calls|].
    split; [intros _; settle_calls|].
    split; [intros _; split; [lia|settle_calls]|]. intros _; lia. }
  specialize (A eq_refl).
  rewrite call_as_calls, calls_calls.
  set (v := match val with Some v => v | None => 0 end) in *.
  assert (V : forall P : Z -> Prop,
            (forall w1 v, reads MCP2517FD_OSC (spi_setup_speed_hz (priv w)) w1
                          = Some v -> P v) ->
            P 0 -> P v).
  { intros P H H0. subst v. destruct val as [v|]; [exact (H _ _ A)|exact H0]. }
  assert (Z0 : Z.land 0 (Z.lor MCP2517FD_OSC_OSCRDY MCP2517FD_OSC_OSCDIS) = 0)
    by reflexivity.
  destruct (Z.eqb_spec (Z.land v (Z.lor MCP2517FD_OSC_OSCRDY MCP2517FD_OSC_OSCDIS))
                       MCP2517FD_OSC_OSCRDY) as [S1|S1].
  { match goal with |- context [hw_probe_config ?d1 ?w1] =>
      pose proof (hw_probe_config_spec d1 w1) as S;
      destruct (hw_probe_config d1 w1) as [[r d'] w'] end.
    cbv zeta in S. cbn [priv calls] in S.
    destruct S as (cs' & dd & Ew & Ed & Fd & Rr & Len & Wr & Hc).
    subst w' d'. rewrite calls_calls.
    eexists. split; [reflexivity|]. split; [exact Rr|].
    split; [unfold first_tx; rewrite !spi_messages_app; settle_calls|].
    split; [rewrite !spi_messages_app, !length_app; settle_calls|].
    split; [apply Forall_app; split; [repeat constructor|exact Fd]|].
    match goal with |- context [writes_to _ ?l = []] =>
      assert (W : writes_to MCP2517FD_OSC l = []) end.
    { rewrite writes_to_app, Wr, app_nil_r. clear Hc Len. settle_calls. }
    split; [left; exact W|]. split; [intros _; exact W|].
    split; [|exact Hc].
    intros H. exfalso.
    apply (V (fun v => Z.land v (Z.lor MCP2517FD_OSC_OSCRDY MCP2517FD_OSC_OSCDIS)
                       <> MCP2517FD_OSC_OSCRDY)); try assumption.
    - intros w1 v1 Hr. apply (H w1 v1 Hr).
    - rewrite Z0. discriminate. }
  destruct (Z.eqb_spec (Z.land v (Z.lor MCP2517FD_OSC_OSCRDY MCP2517FD_OSC_OSCDIS))
                       MCP2517FD_OSC_OSCDIS) as [S2|S2].
  { assert (ND : (forall w1 v, reads MCP2517FD_OSC (spi_setup_speed_hz (priv w)) w1
                               = Some v ->
                   Z.land v (Z.lor MCP2517FD_OSC_OSCRDY MCP2517FD_OSC_OSCDIS)
                   <> MCP2517FD_OSC_OSCDIS) -> False).
    { intros H.
      apply (V (fun v => Z.land v (Z.lor MCP2517FD_OSC_OSCRDY MCP2517FD_OSC_OSCDIS)
                         <> MCP2517FD_OSC_OSCDIS)); try assumption.
      rewrite Z0. discriminate. }
    next_access. rewrite calls_calls. destruct (nz ret0) eqn:N0.
    { apply nz_true in N0. eexists. split; [reflexivity|]. split; [exact R0|].
      split; [unfold first_tx; rewrite !spi_messages_app; settle_calls|].
      split; [rewrite !spi_messages_app, !length_app; settle_calls|].
      split; [repeat constructor|].
      split; [clear ND; settle_calls; auto|].
      split; [intros H; destruct (ND H)|].
      split; [intros H; exfalso; apply ND; intros w1 v1 Hr; apply (H w1 v1 Hr)|].
      intros _; lia. }
    match goal with |- context [hw_probe_config ?d1 ?w1] =>
      pose proof (hw_probe_config_spec d1 w1) as S;
      destruct (hw_probe_config d1 w1) as [[r d'] w'] end.
    cbv zeta in S. cbn [priv calls] in S.
    destruct S as (cs' & dd & Ew & Ed & Fd & Rr & Len & Wr & Hc).
    subst w' d'. rewrite calls_calls.
    eexists. split; [reflexivity|]. split; [exact Rr|].
    split; [unfold first_tx; rewrite !spi_messages_app; settle_calls|].
    split; [rewrite !spi_messages_app, !length_app; settle_calls|].
    split; [apply Forall_app; split; [repeat constructor|exact Fd]|].
    split; [rewrite writes_to_app, Wr, app_nil_r; clear ND Hc Len;
            settle_calls; auto|].
    split; [intros H; destruct (ND H)|].
    split; [intros H; exfalso; apply ND; intros w1 v1 Hr; apply (H w1 v1 Hr)|].
    exact Hc. }
  match goal with
  | |- context [if ?c then call ?l ?w0 else ?w0] =>
      assert (L : exists ls,
                (if c then call l w0 else w0) = calls ls w /\
                first_tx ls = mcp2517fd_calc_cmd_addr INSTRUCTION_RESET 0 /\
                (1 <= length (spi_messages ls) <= 2)%nat /\
                writes_to MCP2517FD_OSC ls = [])
  end.
  { destruct (_ =? _).
    - rewrite call_as_calls, calls_calls. eexists. split; [reflexivity|].
      split; [unfold first_tx; settle_calls|].
      split; [settle_calls|]. settle_calls.
    - eexists. split; [reflexivity|].
      split; [unfold first_tx; settle_calls|].
      split; [settle_calls|]. settle_calls. }
  destruct L as (ls & -> & F & Len & W).
  exists ls. split; [reflexivity|]. split; [unfold ENODEV; lia|].
  split; [exact F|]. split; [lia|]. split; [repeat constructor|].
  split; [left; exact W|]. split; [intros _; exact W|].
  split; [intros _; split; [unfold ENODEV; lia|lia]|].
  intros _. unfold ENODEV. lia.
Qed.

Lemma osc_poll_spec (T : timer) (timeout waitfor sp : Z) (fuel : nat) :
  Z.land 0 waitfor <> waitfor ->
  forall (n : nat) (w : world),
  match osc_poll fuel T n timeout waitfor sp w with
  | Some (ret, w') =>
      exists cs,
        w' = calls cs w /\ ret <= 0 /\
        (length (spi_messages cs) <= fuel)%nat /\
        (ret = 0 ->
         exists w1 v, reads MCP2517FD_OSC sp w1 = Some v /\
                      Z.land v waitfor = waitfor)
  | None =>
      forall k, (n <= k <= n + fuel)%nat -> ulong (jiffies T k) <= timeout
  end.
Proof.
  intros Hw. induction fuel as [|fuel IH]; intros n w; cbn [osc_poll].
  - destruct (Z.leb_spec (ulong (jiffies T n)) timeout) as [L|L].
    + intros k Hk. replace k with n by lia. exact L.
    + eexists; split; [rewrite call_as_calls; reflexivity|]. split; [unfold ENODEV; lia|].
      split; [cbn; lia|]. unfold ENODEV. lia.
  - destruct (Z.leb_spec (ulong (jiffies T n)) timeout) as [L|L].
    + next_access. destruct (nz ret) eqn:N.
      { apply nz_true in N. exists cs. split; [reflexivity|].
        split; [exact R|]. split; [settle_calls|]. intros; lia. }
      specialize (A eq_refl).
      destruct (Z.eqb_spec (Z.land match val with Some v => v | None => 0 end
                                   waitfor) waitfor) as [D|D].
      { eexists. split; [rewrite call_as_calls, calls_calls; reflexivity|].
        split; [lia|]. split; [settle_calls|]. intros _.
        destruct val as [v|]; [|contradiction].
        exists w, v. split; [exact A|exact D]. }
      specialize (IH (S n) (call (k_dev_err "Read OSC 0x%08x - wait 0x%08x"
                                    [match val with Some v => v | None => 0 end;
                                     waitfor]) (calls cs w))).
      destruct (osc_poll fuel T (S n) timeout waitfor sp _) as [[r w']|].
      * destruct IH as (cs' & -> & Rr & Len & Hr).
        rewrite call_as_calls, !calls_calls.
        eexists. split; [reflexivity|]. split; [exact Rr|].
        split; [|exact Hr].
        rewrite !spi_messages_app, !length_app. clear Hr. settle_calls.
      * intros k Hk. destruct (Nat.eq_dec k n) as [->|Hn]; [exact L|].
        apply IH. lia.
    + eexists; split; [rewrite call_as_calls; reflexivity|]. split; [unfold ENODEV; lia|].
      split; [cbn; lia|]. unfold ENODEV. lia.
Qed.

Lemma osc_waitfor_nz (b : board) : Z.land 0 (osc_waitfor b) <> osc_waitfor b.
Proof.
  unfold osc_waitfor. destruct (clock_pll b), (clock_div2 b); discriminate.
Qed.

Lemma osc_val_spec (b : board) :
  (osc_val b = None <-> ~ In (clock_odiv b) [0; 1; 2; 4; 10]) /\
  (forall v, osc_val b = Some v ->
     0 <= v < 128 /\
     Z.testbit v 0 = clock_pll b /\ Z.testbit v 4 = clock_div2 b /\
     Z.land v MCP2517FD_OSC_OSCDIS = 0 /\
     reg_field v MCP2517FD_OSC_CLKODIV_MASK MCP2517FD_OSC_CLKODIV_SHIFT
     = (if clock_odiv b =? 1 then 0 else if clock_odiv b =? 2 then 1
        else if clock_odiv b =? 4 then 2 else 3)).
Proof.
  split.
  { unfold osc_val. cbn [In].
    destruct (Z.eqb_spec (clock_odiv b) 10) as [H10|H10];
      [split; [discriminate|intros H; exfalso; apply H; auto 10]|].
    destruct (Z.eqb_spec (clock_odiv b) 4) as [H4|H4];
      [split; [discriminate|intros H; exfalso; apply H; auto 10]|].
    destruct (Z.eqb_spec (clock_odiv b) 2) as [H2|H2];
      [split; [discriminate|intros H; exfalso; apply H; auto 10]|].
    destruct (Z.eqb_spec (clock_odiv b) 1) as [H1|H1];
      [split; [discriminate|intros H; exfalso; apply H; auto 10]|].
    destruct (Z.eqb_spec (clock_odiv b) 0) as [H0|H0];
      [split; [discriminate|intros H; exfalso; apply H; auto 10]|].
    split; [intros _|reflexivity]. intuition congruence. }
  unfold osc_val. generalize (clock_odiv b). intros o v.
  destruct (Z.eqb_spec o 10) as [H10|H10];
    [|destruct (Z.eqb_spec o 4) as [H4|H4];
      [|destruct (Z.eqb_spec o 2) as [H2|H2];
        [|destruct (Z.eqb_spec o 1) as [H1|H1];
          [|destruct (Z.eqb_spec o 0) as [H0|H0];
            [|discriminate]]]]];
    intros E; injection E as <-; subst o;
    destruct (clock_pll b), (clock_div2 b); vm_compute; intuition congruence.
Qed.

Lemma setup_osc_spec (fuel : nat) (T : timer) (b : board) (w : world) :
  match mcp2517fd_setup_osc fuel T b w with
  | Some (ret, w') =>
      exists cs,
        w' = calls cs w /\ ret <= 0 /\
        (length (spi_messages cs) <= 1 + fuel)%nat /\
        (osc_val b = None -> ret < 0) /\
        (ret = 0 ->
         exists w1 v, reads MCP2517FD_OSC (spi_setup_speed_hz (priv w)) w1
                      = Some v /\
                      Z.land v (osc_waitfor b) = osc_waitfor b)
  | None =>
      forall k, (1 <= k <= 1 + fuel)%nat ->
                ulong (jiffies T k) <= ulong (jiffies T 0 + Z.quot (HZ T) 2)
  end.
Proof.
  unfold mcp2517fd_setup_osc. destruct (osc_val b) as [v|] eqn:E.
  - next_access. destruct (nz ret) eqn:N.
    { apply nz_true in N. exists cs. split; [reflexivity|]. split; [exact R|].
      split; [settle_calls|]. split; [discriminate|]. intros; lia. }
    pose proof (osc_poll_spec T (ulong (jiffies T 0 + Z.quot (HZ T) 2))
                  (osc_waitfor b) (spi_setup_speed_hz (priv (calls cs w)))
                  fuel (osc_waitfor_nz b) 1 (calls cs w)) as P.
    destruct (osc_poll fuel T 1 _ _ _ _) as [[r w']|].
    + destruct P as (cs' & -> & Rr & Len & Hr). rewrite calls_calls.
      eexists. split; [reflexivity|]. split; [exact Rr|].
      split; [rewrite !spi_messages_app, !length_app; clear Hr; settle_calls|].
      split; [discriminate|]. exact Hr.
    + exact P.
  - eexists; split; [rewrite call_as_calls; reflexivity|].
    split; [unfold EINVAL; lia|].
    split; [cbn; lia|]. split; [intros _|]; unfold EINVAL; lia.
Qed.

(** X25: the set-up of the oscillator. An output clock divider other
    than 0, 1, 2, 4 and 10 is refused with -EINVAL before anything is sent.
    Otherwise the word written enables the PLL and the system clock divider
    as the board asks, selects the divider (10 for 0 as well) and never
    disables the clock. The function then returns 0 only after the device
    has shown, in one read, every ready bit awaited: that of the clock
    always, that of the PLL and of the system clock divider when they are
    in use. The polling cannot go on once a reading of [jiffies] is beyond
    the time limit: within [fuel] turns it is still running only if none of
    the readings so far is. Nothing of the driver state changes. *)
Theorem setup_osc_outcomes (fuel : nat) (T : timer) (b : board) (w : world) :
  let sp := spi_setup_speed_hz (priv w) in
  let timeout := ulong (jiffies T 0 + Z.quot (HZ T) 2) in
  (osc_val b = None <-> ~ In (clock_odiv b) [0; 1; 2; 4; 10]) /\
  (osc_val b = None ->
   mcp2517fd_setup_osc fuel T b w
   = Some (- EINVAL,
           call (k_dev_err "Unsupported output clock divider %i" [clock_odiv b])
                w)) /\
  (forall v, osc_val b = Some v ->
     0 <= v < 128 /\
     Z.testbit v 0 = clock_pll b /\ Z.testbit v 4 = clock_div2 b /\
     Z.land v MCP2517FD_OSC_OSCDIS = 0 /\
     reg_field v MCP2517FD_OSC_CLKODIV_MASK MCP2517FD_OSC_CLKODIV_SHIFT
     = (if clock_odiv b =? 1 then 0 else if clock_odiv b =? 2 then 1
        else if clock_odiv b =? 4 then 2 else 3)) /\
  match mcp2517fd_setup_osc fuel T b w with
  | Some (ret, w') =>
      exists cs,
        w' = calls cs w /\ ret <= 0 /\
        (length (spi_messages cs) <= 1 + fuel)%nat /\
        (ret = 0 ->
         exists w1 v, reads MCP2517FD_OSC sp w1 = Some v /\
                      Z.land v (osc_waitfor b) = osc_waitfor b /\
                      Z.testbit v 10 = true /\
                      (clock_pll b = true -> Z.testbit v 8 = true) /\
                      (clock_div2 b = true -> Z.testbit v 12 = true))
  | None =>
      forall k, (1 <= k <= 1 + fuel)%nat -> ulong (jiffies T k) <= timeout
  end.
Proof.
  cbv zeta. destruct (osc_val_spec b) as [N V].
  split; [exact N|].
  split.
  { intros E. unfold mcp2517fd_setup_osc. rewrite E. reflexivity. }
  split; [exact V|].
  pose proof (setup_osc_spec fuel T b w) as S.
  destruct (mcp2517fd_setup_osc fuel T b w) as [[ret w']|]; [|exact S].
  destruct S as (cs & Ew & R & Len & _ & Hr).
  exists cs. split; [exact Ew|]. split; [exact R|]. split; [exact Len|].
  intros H0. destruct (Hr H0) as (w1 & x & Rd & Wf).
  exists w1, x. split; [exact Rd|]. split; [exact Wf|].
  assert (B : forall i, Z.testbit (osc_waitfor b) i = true ->
                        Z.testbit x i = true).
  { intros i Hi.
    assert (Hx : Z.testbit (Z.land x (osc_waitfor b)) i = true)
      by (rewrite Wf; exact Hi).
    rewrite Z.land_spec in Hx. apply andb_prop in Hx. apply Hx. }
  split; [apply B; unfold osc_waitfor;
          destruct (clock_pll b), (clock_div2 b); reflexivity|].
  split; intros Hb; apply B; unfold osc_waitfor; rewrite Hb;
    destruct (clock_pll b), (clock_div2 b); reflexivity.
Qed.

Lemma u32_small (x : Z) : 0 <= x < 2 ^ 32 -> u32 x = x.
Proof. intros H. unfold u32. apply Z.mod_small. exact H. Qed.

Lemma to_int_small (x : Z) : 0 <= x < 2 ^ 31 -> to_int x = x.
Proof.
  intros H. unfold to_int. rewrite Z.mod_small by lia. lia.
Qed.

Lemma min_t_int_small (a b : Z) :
  0 <= a < 2 ^ 31 -> 0 <= b < 2 ^ 31 -> min_t_int a b = Z.min a b.
Proof.
  intros Ha Hb. unfold min_t_int. rewrite !to_int_small by assumption.
  destruct (Z.ltb_spec a b); lia.
Qed.

(** A speed limit above INT_MAX is negative as an int, so it is the
    smaller side of [min_t(int, ...)] and comes back as the speed. *)
Lemma min_t_int_big (a b : Z) :
  0 <= a < 2 ^ 31 -> 2 ^ 31 <= b < 2 ^ 32 -> u32 (min_t_int a b) = b.
Proof.
  intros Ha Hb. unfold min_t_int. rewrite (to_int_small a) by assumption.
  assert (E : to_int b = b - 2 ^ 32).
  { unfold to_int.
    replace (b + 2 ^ 31) with (b - 2 ^ 31 + 1 * 2 ^ 32) by lia.
    rewrite Z_mod_plus_full, Z.mod_small by lia. lia. }
  rewrite E. destruct (Z.ltb_spec a (b - 2 ^ 32)); [lia|].
  unfold u32. replace (b - 2 ^ 32) with (b + (-1) * 2 ^ 32) by lia.
  rewrite Z_mod_plus_full. apply Z.mod_small. lia.
Qed.

(** X26: the clocks the probe settles on. For a clock rate in the
    range the probe accepts (1 to 40 MHz) the probe never takes its
    "PLL clock frequency would exceed limit" exit: the only error of this
    part is -ERANGE, for a rate out of range. The PLL is used exactly up
    to 4 MHz and the CAN clock is then ten times the rate, so it always
    lies above 4 MHz and at most at 40 MHz and its MHz fit the prescaler
    field of the time stamp register. The SPI speeds are half the rate (for
    the set-up) and half the CAN clock when the SPI device has no speed
    limit (a limit of 0). A limit is a u32 and is compared as an int: a
    limit up to INT_MAX cuts both speeds to it, and then the set-up speed
    is at least 1 Hz, never above the running speed, and the running speed
    at most 20 MHz; a limit above INT_MAX counts as negative, so both
    speeds become the limit itself, above 2 GHz. The board description is
    one the set-up accepts: its clock divider and the modes of its two
    pins are not refused. *)
Theorem probe_clocks_sound (freq max_speed_hz : Z) :
  - 2 ^ 31 <= freq < 2 ^ 31 -> 0 <= max_speed_hz < 2 ^ 32 ->
  (forall e, probe_clocks freq max_speed_hz = inl e ->
     e = - ERANGE /\
     (freq < MCP2517FD_MIN_CLOCK_FREQUENCY \/
      MCP2517FD_MAX_CLOCK_FREQUENCY < freq)) /\
  (MCP2517FD_MIN_CLOCK_FREQUENCY <= freq <= MCP2517FD_MAX_CLOCK_FREQUENCY ->
   exists b setup_speed speed,
     probe_clocks freq max_speed_hz = inr (b, setup_speed, speed) /\
     clock_pll b = (freq <=? 4000000) /\
     can_clock_freq b = (if clock_pll b then 10 * freq else freq) /\
     4000000 < can_clock_freq b <= 40000000 /\
     0 <= Z.quot (can_clock_freq b) 1000000 < 2 ^ CAN_TSCON_TBCPRE_BITS /\
     setup_speed
     = (if max_speed_hz =? 0 then freq / 2
        else if max_speed_hz <? 2 ^ 31 then Z.min (freq / 2) max_speed_hz
        else max_speed_hz) /\
     speed
     = (if max_speed_hz =? 0 then can_clock_freq b / 2
        else if max_speed_hz <? 2 ^ 31
             then Z.min (can_clock_freq b / 2) max_speed_hz
        else max_speed_hz) /\
     (max_speed_hz < 2 ^ 31 ->
      1 <= setup_speed <= speed /\ speed <= 20000000) /\
     (2 ^ 31 <= max_speed_hz ->
      setup_speed = max_speed_hz /\ speed = max_speed_hz /\
      20000000 < speed) /\
     osc_val b <> None /\
     (exists v, setup_iocon b = inl v)).
Proof.
  intros Hf Hm.
  unfold probe_clocks.
  change MCP2517FD_MIN_CLOCK_FREQUENCY with 1000000.
  change MCP2517FD_MAX_CLOCK_FREQUENCY with 40000000.
  change MCP2517FD_AUTO_PLL_MAX_CLOCK_FREQUENCY with 4000000.
  change MCP2517FD_PLL_MULTIPLIER with 10.
  change (2 ^ CAN_TSCON_TBCPRE_BITS) with 1024.
  cbv zeta. cbn [andb orb].
  destruct (Z.ltb_spec freq 1000000) as [L|L]; cbn [orb].
  { split; [intros e E; injection E as <-; split; [reflexivity|lia]|lia]. }
  destruct (Z.gtb_spec freq 40000000) as [G|G].
  { split; [intros e E; injection E as <-; split; [reflexivity|lia]|lia]. }
  rewrite (u32_small freq) by lia.
  assert (Q : Z.quot freq 2 = freq / 2) by (apply Z.quot_div_nonneg; lia).
  rewrite Q.
  assert (D : 500000 <= freq / 2 <= 20000000)
    by (split; [apply Z.div_le_lower_bound|apply Z.div_le_upper_bound]; lia).
  rewrite (u32_small (freq / 2)) by lia.
  unfold nz.
  destruct (Z.leb_spec freq 4000000) as [P|P]; cbn [andb].
  - rewrite (u32_small (freq * 10)) by lia.
    destruct (Z.gtb_spec (freq * 10) 40000000) as [G2|G2]; [lia|].
    split; [discriminate|]. intros _.
    assert (Q2 : Z.quot (freq * 10) 2 = freq * 10 / 2)
      by (apply Z.quot_div_nonneg; lia).
    rewrite Q2.
    assert (D2 : 5000000 <= freq * 10 / 2 <= 20000000)
      by (split; [apply Z.div_le_lower_bound|apply Z.div_le_upper_bound]; lia).
    assert (D3 : freq / 2 <= freq * 10 / 2)
      by (apply Z.div_le_mono; lia).
    assert (M : 0 <= Z.quot (freq * 10) 1000000 < 1024).
    { rewrite Z.quot_div_nonneg by lia.
      split; [apply Z.div_pos; lia|apply Z.div_lt_upper_bound; lia]. }
    destruct (Z.eqb_spec max_speed_hz 0) as [M0|M0]; cbn [negb].
    + eexists _, _, _. split; [reflexivity|]. cbn [clock_pll can_clock_freq].
      replace (10 * freq) with (freq * 10) by lia.
      repeat split; try lia; try discriminate. eexists; reflexivity.
    + destruct (Z.ltb_spec max_speed_hz (2 ^ 31)) as [B|B].
      * rewrite !min_t_int_small by lia.
        rewrite !u32_small by lia.
        eexists _, _, _. split; [reflexivity|]. cbn [clock_pll can_clock_freq].
        replace (10 * freq) with (freq * 10) by lia.
        repeat split; try lia; try discriminate. eexists; reflexivity.
      * rewrite !min_t_int_big by lia.
        eexists _, _, _. split; [reflexivity|]. cbn [clock_pll can_clock_freq].
        replace (10 * freq) with (freq * 10) by lia.
        repeat split; try lia; try discriminate. eexists; reflexivity.
  - split; [discriminate|]. intros _.
    assert (M : 0 <= Z.quot freq 1000000 < 1024).
    { rewrite Z.quot_div_nonneg by lia.
      split; [apply Z.div_pos; lia|apply Z.div_lt_upper_bound; lia]. }
    destruct (Z.eqb_spec max_speed_hz 0) as [M0|M0]; cbn [negb].
    + eexists _, _, _. split; [reflexivity|]. cbn [clock_pll can_clock_freq].
      repeat split; try lia; try discriminate. eexists; reflexivity.
    + destruct (Z.ltb_spec max_speed_hz (2 ^ 31)) as [B|B].
      * rewrite !min_t_int_small by lia.
        rewrite !u32_small by lia.
        eexists _, _, _. split; [reflexivity|]. cbn [clock_pll can_clock_freq].
        repeat split; try lia; try discriminate. eexists; reflexivity.
      * rewrite !min_t_int_big by lia.
        eexists _, _, _. split; [reflexivity|]. cbn [clock_pll can_clock_freq].
        repeat split; try lia; try discriminate. eexists; reflexivity.
Qed.

(* ------------------------------------------------------------------ *)
(** ** The set-up as a whole *)

Lemma cfg_kept_refl (w : world) : cfg_kept w w.
Proof. repeat split. exists []. now rewrite app_nil_r. Qed.

Lemma cfg_kept_trans (a b c : world) :
  cfg_kept a b -> cfg_kept b c -> cfg_kept a c.
Proof.
  intros (A1 & A2 & A3 & A4 & A5 & A6 & ca & A7)
         (B1 & B2 & B3 & B4 & B5 & B6 & cb & B7).
  repeat split; try congruence.
  exists (ca ++ cb). rewrite B7, A7. now rewrite app_assoc.
Qed.

Lemma transported_cfg (w w' : world) : transported w w' -> cfg_kept w w'.
Proof.
  intros (P & S & M & cs & Tr & _). unfold cfg_kept. rewrite P.
  repeat split; try assumption. exists cs. exact Tr.
Qed.

Lemma cfg_kept_calls (cs : list kcall) (w : world) : cfg_kept w (calls cs w).
Proof. repeat split. exists cs. reflexivity. Qed.

(** A change of the driver state that leaves the configuration alone,
    with or without a call behind it. *)
Ltac cfg_state :=
  repeat split;
  first [ exists []; cbn; now rewrite app_nil_r
        | eexists; cbn; reflexivity ].

Lemma for_loop_cfg (body : Z -> world -> Z * world) :
  (forall i w, cfg_step w (body i w)) ->
  forall (n : nat) (i : Z) (w : world), cfg_step w (for_loop n i body w).
Proof.
  intros Hb. induction n as [|n IH]; intros i w.
  - split; [apply cfg_kept_refl|cbn; lia].
  - cbn [for_loop]. destruct (Hb i w) as [H1 R1].
    destruct (body i w) as [ret w1]. cbn [fst snd] in H1, R1.
    destruct (nz ret); [split; assumption|].
    destruct (IH (i + 1) w1) as [H2 R2].
    split; [eapply cfg_kept_trans; eassumption|exact R2].
Qed.

Lemma cmd_write_cfg reg data sp w :
  cfg_step w (mcp2517fd_cmd_write reg data sp w).
Proof.
  split; [apply transported_cfg, cmd_write_transported|apply cmd_write_ret].
Qed.

Lemma cmd_write_mask_cfg reg data mask sp w :
  cfg_step w (mcp2517fd_cmd_write_mask reg data mask sp w).
Proof.
  split; [apply transported_cfg, cmd_write_mask_transported
         |apply cmd_write_mask_ret].
Qed.

Lemma cfg_try (w0 : world) (e : Z * world) (k : world -> Z * world) :
  cfg_step w0 e ->
  (forall w1, cfg_kept w0 w1 -> cfg_step w1 (k w1)) ->
  cfg_step w0 (let '(ret, w1) := e in if nz ret then (ret, w1) else k w1).
Proof.
  intros [H R] Hk. destruct e as [ret w1]. cbn [fst snd] in H, R.
  destruct (nz ret); [split; assumption|].
  destruct (Hk w1 H) as [H2 R2].
  split; [eapply cfg_kept_trans; eassumption|exact R2].
Qed.

Lemma cfg_step_from (w0 w1 : world) (r : Z * world) :
  cfg_kept w0 w1 -> cfg_step w1 r -> cfg_step w0 r.
Proof.
  intros H [H2 R]. split; [eapply cfg_kept_trans; eassumption|exact R].
Qed.

Lemma setup_fifo_address_cfg label fifo w :
  cfg_step w (setup_fifo_address label fifo w).
Proof.
  unfold setup_fifo_address.
  pose proof (cmd_read_transported (CAN_FIFOUA fifo)
                (spi_setup_speed_hz (priv w)) w) as T.
  pose proof (cmd_read_ret (CAN_FIFOUA fifo) (spi_setup_speed_hz (priv w)) w)
    as R.
  destruct (mcp2517fd_cmd_read _ _ w) as [[ret val] w1].
  cbn [fst snd] in T, R. apply transported_cfg in T.
  destruct (nz ret); [split; assumption|].
  split; [|cbn; lia]. cbn [snd].
  eapply cfg_kept_trans; [exact T|]. cfg_state.
Qed.

(** Whatever its outcome, the set-up of the fifos leaves the control
    word, the control mode, the speeds, the counters and the mtu alone and
    returns 0 or a negative code. *)
Lemma setup_fifo_cfg (w : world) : cfg_step w (mcp2517fd_setup_fifo w).
Proof.
  unfold mcp2517fd_setup_fifo. cbv zeta.
  set (sp := spi_setup_speed_hz (priv w)). clearbody sp.
  set (cv := con_val (priv w)). clearbody cv.
  apply cfg_try.
  { apply for_loop_cfg. intros i w0.
    apply cfg_try; [apply cmd_write_cfg|intros w1 _].
    apply cfg_try; [apply cmd_write_cfg|intros w2 _].
    apply cmd_write_mask_cfg. }
  intros w1 _. unfold setup_fifo_layout.
  destruct (net_mtu w1 =? CAN_MTU); [|destruct (net_mtu w1 =? CANFD_MTU)].
  3: { split; [apply cfg_kept_refl|unfold EINVAL; cbn; lia]. }
  all: match goal with
       | |- cfg_step _ (let '(_, _) := mcp2517fd_cmd_write _ _ _ ?w2 in _) =>
           apply (cfg_step_from w1 w2); [cfg_state|]
       end.
  all: apply cfg_try; [apply cmd_write_cfg|intros w3 _].
  all: apply cfg_try;
    [apply for_loop_cfg; intros i w0;
     apply cfg_try; [apply cmd_write_cfg|intros w4 _];
     split; [cfg_state|cbn; lia]|intros w4 _].
  all: apply cfg_try;
    [apply for_loop_cfg; intros i w0;
     apply cfg_try; [apply cmd_write_cfg|intros w5 _];
     apply cfg_try; [apply cmd_write_mask_cfg|intros w6 _];
     split; [cfg_state|cbn; lia]|intros w5 _].
  all: apply cfg_try; [apply cmd_write_cfg|intros w6 _].
  all: pose proof (cmd_read_transported CAN_TEFUA sp w6) as T;
    pose proof (cmd_read_ret CAN_TEFUA sp w6) as R;
    destruct (mcp2517fd_cmd_read CAN_TEFUA sp w6) as [[r7 val] w7];
    cbn [fst snd] in T, R; apply transported_cfg in T;
    (destruct (nz r7); [split; assumption|]).
  all: eapply cfg_step_from; [exact T|].
  all: match goal with
       | |- cfg_step _ (let '(_, _) := for_loop _ _ _ ?w8 in _) =>
           apply (cfg_step_from w7 w8); [cfg_state|]
       end.
  all: apply cfg_try;
      [apply for_loop_cfg; intros i w0; apply setup_fifo_address_cfg
      |intros w8 _];
    apply cfg_try;
      [apply for_loop_cfg; intros i w0; apply setup_fifo_address_cfg
      |intros w9 _];
    apply cfg_try; [apply cmd_write_cfg|intros w10 _];
    split; [apply cfg_kept_refl|cbn; lia].
Qed.

Lemma setup_con_val_cases (c : Z) :
  setup_con_val c = CAN_CON_STEF \/
  setup_con_val c = Z.lor CAN_CON_STEF CAN_CON_ISOCRCEN \/
  setup_con_val c = Z.lor CAN_CON_STEF CAN_CON_RTXAT \/
  setup_con_val c = Z.lor (Z.lor CAN_CON_STEF CAN_CON_ISOCRCEN) CAN_CON_RTXAT.
Proof.
  unfold setup_con_val.
  destruct (nz (Z.land c CAN_CTRLMODE_FD_NON_ISO)),
           (nz (Z.land c CAN_CTRLMODE_ONE_SHOT)); cbn [negb]; auto.
Qed.

(** X27: the mode [mcp2517fd_set_normal_mode] requests. Loopback goes
    before listen-only and listen-only before CAN FD: the controller is
    asked for the external loopback, the listen-only, the mixed (CAN FD)
    or the CAN 2.0 mode and for no other, and for the mixed mode only when
    CAN FD is on and neither loopback nor listen-only is. With the control
    word as [mcp2517fd_setup] computes it the word written to [CAN_CON]
    holds that mode in its request field and the control word, with the
    completion fifo enabled, in its other bits. The call changes nothing of
    the driver state. *)
Theorem normal_mode_request (w : world) :
  let p := priv w in
  let m := can_ctrlmode p in
  let type := normal_mode_type m in
  let word := Z.lor (con_val p) (Z.shiftl type CAN_CON_REQOP_SHIFT) in
  In type [CAN_CON_MODE_EXTERNAL_LOOPBACK; CAN_CON_MODE_LISTENONLY;
           CAN_CON_MODE_MIXED; CAN_CON_MODE_CAN2_0] /\
  (type = CAN_CON_MODE_EXTERNAL_LOOPBACK <-> Z.land m CAN_CTRLMODE_LOOPBACK <> 0) /\
  (type = CAN_CON_MODE_MIXED <->
   Z.land m CAN_CTRLMODE_FD <> 0 /\ Z.land m CAN_CTRLMODE_LOOPBACK = 0 /\
   Z.land m CAN_CTRLMODE_LISTENONLY = 0) /\
  (forall c, con_val p = setup_con_val c ->
     reg_field word CAN_CON_REQOP_MASK CAN_CON_REQOP_SHIFT = type /\
     Z.land word (Z.lnot CAN_CON_REQOP_MASK) = con_val p /\
     Z.land word CAN_CON_STEF = CAN_CON_STEF) /\
  let '(ret, w') := mcp2517fd_set_normal_mode w in
  ret <= 0 /\ keeps w w' /\
  (alloc_ok K (trace w) kmalloc_txrx = true ->
   first_tx (calls_since w w')
   = mcp2517fd_calc_cmd_addr INSTRUCTION_WRITE CAN_CON ++ le32_bytes word).
Proof.
  cbv zeta.
  set (m := can_ctrlmode (priv w)).
  assert (T : In (normal_mode_type m)
                [CAN_CON_MODE_EXTERNAL_LOOPBACK; CAN_CON_MODE_LISTENONLY;
                 CAN_CON_MODE_MIXED; CAN_CON_MODE_CAN2_0] /\
              (normal_mode_type m = CAN_CON_MODE_EXTERNAL_LOOPBACK <->
               Z.land m CAN_CTRLMODE_LOOPBACK <> 0) /\
              (normal_mode_type m = CAN_CON_MODE_MIXED <->
               Z.land m CAN_CTRLMODE_FD <> 0 /\
               Z.land m CAN_CTRLMODE_LOOPBACK = 0 /\
               Z.land m CAN_CTRLMODE_LISTENONLY = 0)).
  { unfold normal_mode_type, nz. cbn [In].
    destruct (Z.eqb_spec (Z.land m CAN_CTRLMODE_LOOPBACK) 0) as [L|L];
      destruct (Z.eqb_spec (Z.land m CAN_CTRLMODE_LISTENONLY) 0) as [O|O];
      destruct (Z.eqb_spec (Z.land m CAN_CTRLMODE_FD) 0) as [F|F];
      cbn [negb];
      (split; [auto 6|]); split; split; try discriminate; intuition congruence. }
  destruct T as (T1 & T2 & T3).
  split; [exact T1|]. split; [exact T2|]. split; [exact T3|].
  split.
  { intros c Hc. rewrite Hc.
    cbn [In] in T1.
    destruct (setup_con_val_cases c) as [-> | [-> | [-> | -> ] ] ];
      destruct T1 as [<- | [<- | [<- | [<- | [ ] ] ] ] ]; repeat split; reflexivity. }
  unfold mcp2517fd_set_normal_mode. cbv zeta. fold m.
  rewrite cmd_write_form.
  destruct (alloc_ok K (trace w) kmalloc_txrx).
  - match goal with |- context [errno ?r] =>
      pose proof (errno_nonpos r) as R; destruct (nz (errno r)) eqn:N end.
    + split; [exact R|]. split; [repeat split|]. intros _.
      rewrite calls_since_calls. unfold write_mask_calls.
      rewrite write_mask_message_full. reflexivity.
    + split; [lia|]. split; [repeat split|]. intros _.
      rewrite call_as_calls, calls_calls, calls_since_calls.
      unfold write_mask_calls. rewrite write_mask_message_full. reflexivity.
  - change (nz (- ENOMEM)) with true. cbv iota.
    split; [unfold ENOMEM; lia|]. split; [repeat split|]. discriminate.
Qed.

Lemma setup_iocon_spec (b : board) (v : Z) :
  setup_iocon b = inl v ->
  v = Z.lor (Z.lor (Z.lor MCP2517FD_IOCON_TXCANOD (BIT 29)) (gpio0_mode b))
            (Z.shiftl (gpio1_mode b) 1) /\
  0 <= v < 2 ^ 32 /\
  Z.testbit v 28 = true /\ Z.testbit v 29 = true /\ Z.testbit v 30 = false /\
  (Z.testbit v 6 = true <-> gpio0_mode b = gpio_mode_standby) /\
  gpio1_mode b <> gpio_mode_standby.
Proof.
  unfold setup_iocon. cbv zeta.
  generalize (gpio0_mode b) (gpio1_mode b). intros g0 g1.
  destruct (Z.eqb_spec g1 gpio_mode_standby) as [S1|S1].
  { destruct (_ || _); intros E; discriminate E. }
  assert (G0 : (g0 =? gpio_mode_standby) || (g0 =? gpio_mode_int)
               || (g0 =? gpio_mode_out_low) || (g0 =? gpio_mode_out_high)
               || (g0 =? gpio_mode_in) = true ->
               In g0 [gpio_mode_standby; gpio_mode_int; gpio_mode_out_low;
                      gpio_mode_out_high; gpio_mode_in]).
  { intros H. cbn [In].
    repeat (apply orb_prop in H; destruct H as [H|H]);
      apply Z.eqb_eq in H; auto 10. }
  assert (G1 : (g1 =? gpio_mode_int) || (g1 =? gpio_mode_out_low)
               || (g1 =? gpio_mode_out_high) || (g1 =? gpio_mode_in) = true ->
               In g1 [gpio_mode_int; gpio_mode_out_low; gpio_mode_out_high;
                      gpio_mode_in]).
  { intros H. cbn [In].
    repeat (apply orb_prop in H; destruct H as [H|H]);
      apply Z.eqb_eq in H; auto 10. }
  destruct ((g0 =? gpio_mode_standby) || (g0 =? gpio_mode_int)
            || (g0 =? gpio_mode_out_low) || (g0 =? gpio_mode_out_high)
            || (g0 =? gpio_mode_in)) eqn:E0; [|intros E; discriminate E].
  destruct ((g1 =? gpio_mode_int) || (g1 =? gpio_mode_out_low)
            || (g1 =? gpio_mode_out_high) || (g1 =? gpio_mode_in)) eqn:E1;
    [|intros E; discriminate E].
  specialize (G0 eq_refl). specialize (G1 eq_refl). clear E0 E1.
  cbn [In] in G0, G1.
  intros E. injection E as <-.
  destruct G0 as [<- | [<- | [<- | [<- | [<- | [ ] ] ] ] ] ];
    destruct G1 as [<- | [<- | [<- | [<- | [ ] ] ] ] ];
    destruct (clock_odiv b <? 0), (gpio_opendrain b);
    vm_compute; intuition congruence.
Qed.

(** A step of the set-up that fails, after nothing but register
    transfers. *)
Lemma setup_failed (io : Z + kcall) (w w' : world) (ret : Z) :
  transported w w' -> ret <= 0 -> ret <> 0 ->
  ret <= 0 /\
  can_ctrlmode (priv w') = can_ctrlmode (priv w) /\
  spi_setup_speed_hz (priv w') = spi_setup_speed_hz (priv w) /\
  spi_speed_hz (priv w') = spi_speed_hz (priv w) /\
  stats w' = stats w /\ net_mtu w' = net_mtu w /\
  (exists cs, trace w' = trace w ++ cs /\
     (ret = 0 ->
      exists cs0, cs = cs0 ++ write_mask_calls CAN_INT
                                (Z.lor CAN_INT_TEFIE CAN_INT_RXIE) (u32 (-1))
                                (spi_setup_speed_hz (priv w)))) /\
  (ret = 0 ->
   con_val (priv w') = setup_con_val (can_ctrlmode (priv w)) /\
   exists v, io = inl v) /\
  ((exists l, io = inr l) -> ret < 0 /\ priv w' = priv w).
Proof.
  intros (P & S & M & cs & Tr & _) R N. rewrite P.
  split; [exact R|]. do 3 (split; [reflexivity|]).
  split; [exact S|]. split; [exact M|].
  split; [exists cs; split; [exact Tr|intros; lia]|].
  split; [intros; lia|]. intros _. split; [lia|reflexivity].
Qed.

(** Take the next register write of the set-up: it fails, or the set-up
    goes on. *)
Ltac setup_write T :=
  match goal with
  | |- context [mcp2517fd_cmd_write ?a ?d ?s ?w0] =>
      let Tn := fresh "T" in
      let Rn := fresh "R" in
      let Nn := fresh "N" in
      let r := fresh "r" in
      let wn := fresh "w" in
      pose proof (transported_trans _ _ _ T (cmd_write_transported a d s w0))
        as Tn;
      pose proof (cmd_write_ret a d s w0) as Rn;
      destruct (mcp2517fd_cmd_write a d s w0) as [r wn];
      cbn [fst snd] in Tn, Rn;
      destruct (nz r) eqn:Nn;
      [apply nz_true in Nn; apply setup_failed; assumption|]
  end.

Lemma setup_registers_spec (b : board) (w : world) :
  let '(ret, w') := setup_registers b w in
  ret <= 0 /\
  can_ctrlmode (priv w') = can_ctrlmode (priv w) /\
  spi_setup_speed_hz (priv w') = spi_setup_speed_hz (priv w) /\
  spi_speed_hz (priv w') = spi_speed_hz (priv w) /\
  stats w' = stats w /\ net_mtu w' = net_mtu w /\
  (exists cs, trace w' = trace w ++ cs /\
     (ret = 0 ->
      exists cs0, cs = cs0 ++ write_mask_calls CAN_INT
                                (Z.lor CAN_INT_TEFIE CAN_INT_RXIE) (u32 (-1))
                                (spi_setup_speed_hz (priv w)))) /\
  (ret = 0 ->
   con_val (priv w') = setup_con_val (can_ctrlmode (priv w)) /\
   exists v, setup_iocon b = inl v) /\
  ((exists l, setup_iocon b = inr l) -> ret < 0 /\ priv w' = priv w).
Proof.
  unfold setup_registers. cbv zeta.
  set (sp := spi_setup_speed_hz (priv w)).
  pose proof (transported_refl w) as T0.
  setup_write T0.
  destruct (setup_iocon b) as [v|l] eqn:I.
  2: { destruct T as (P & S & M & cs & Tr & _).
       cbn [call priv stats net_mtu trace]. rewrite P.
       split; [unfold EINVAL; lia|]. do 3 (split; [reflexivity|]).
       split; [exact S|]. split; [exact M|].
       split; [exists (cs ++ [l]); split;
               [rewrite Tr, app_assoc; reflexivity|unfold EINVAL; lia]|].
       split; [unfold EINVAL; lia|]. intros _.
       split; [unfold EINVAL; lia|reflexivity]. }
  setup_write T. setup_write T1. setup_write T2. setup_write T3.
  match goal with |- context [mcp2517fd_setup_fifo ?w5] =>
    destruct (setup_fifo_cfg w5) as [Kf Rf];
    destruct (mcp2517fd_setup_fifo w5) as [r6 w6] end.
  cbn [fst snd] in Kf, Rf.
  destruct T4 as (P & S & M & cs & Tr & _).
  destruct Kf as (C1 & C2 & C3 & C4 & C5 & C6 & cs6 & Tr6).
  cbn [set_priv priv stats net_mtu trace set_con_val con_val can_ctrlmode
       spi_setup_speed_hz spi_speed_hz] in C1, C2, C3, C4, C5, C6, Tr6.
  rewrite P in C1, C2, C3, C4. rewrite S in C5. rewrite M in C6.
  rewrite Tr in Tr6.
  destruct (nz r6) eqn:N6.
  { apply nz_true in N6. split; [exact Rf|]. do 5 (split; [assumption|]).
    split; [exists (cs ++ cs6); split;
            [rewrite Tr6, app_assoc; reflexivity|intros; lia]|].
    split; [intros; lia|]. intros (l & Hl). discriminate Hl. }
  unfold mcp2517fd_enable_interrupts. rewrite cmd_write_form, C3. fold sp.
  destruct (alloc_ok K (trace w6) kmalloc_txrx).
  - match goal with |- context [errno ?r] =>
      pose proof (errno_nonpos r) as Re end.
    cbn [calls priv stats net_mtu trace].
    split; [exact Re|]. do 5 (split; [assumption|]).
    split.
    { eexists. split; [rewrite Tr6, <- !app_assoc; reflexivity|].
      intros _. exists (cs ++ cs6). rewrite <- app_assoc. reflexivity. }
    split; [intros _; split; [exact C1|eexists; reflexivity]|].
    intros (l & Hl). discriminate Hl.
  - cbn [calls priv stats net_mtu trace].
    split; [unfold ENOMEM; lia|]. do 5 (split; [assumption|]).
    split; [eexists; split; [rewrite Tr6, <- !app_assoc; reflexivity
                            |unfold ENOMEM; lia]|].
    split; [unfold ENOMEM; lia|]. intros (l & Hl). discriminate Hl.
Qed.

(** X28: the set-up as a whole. The word written to the pin control
    register is made of the open-drain bit of the transmit pin, bit 29 and
    the modes of the two pins (that of the second shifted by one): it does
    not depend on [gpio_opendrain] nor on the clock divider, has bit 29
    always and bit 30 never set, and the second pin cannot be the
    transceiver standby. [mcp2517fd_setup] returns 0 or a negative code and
    never changes the control mode, the bus speeds, the counters or the
    mtu. A board whose clock divider or pin modes are refused makes it
    fail with the driver state untouched. When it returns 0 the control
    word is the one computed from the control mode (completion fifo on,
    ISO CRC unless non-ISO, restricted retransmission unless one-shot) and
    the last thing done was to enable the interrupts. While the oscillator
    is polled the set-up is bound by the kernel's clock as
    [mcp2517fd_setup_osc] is. *)
Theorem setup_outcomes (fuel : nat) (T : timer) (b : board) (w : world) :
  (forall v, setup_iocon b = inl v ->
     v = Z.lor (Z.lor (Z.lor MCP2517FD_IOCON_TXCANOD (BIT 29)) (gpio0_mode b))
               (Z.shiftl (gpio1_mode b) 1) /\
     Z.testbit v 29 = true /\ Z.testbit v 30 = false /\
     gpio1_mode b <> gpio_mode_standby) /\
  match mcp2517fd_setup fuel T b w with
  | Some (ret, w') =>
      ret <= 0 /\
      can_ctrlmode (priv w') = can_ctrlmode (priv w) /\
      spi_setup_speed_hz (priv w') = spi_setup_speed_hz (priv w) /\
      spi_speed_hz (priv w') = spi_speed_hz (priv w) /\
      stats w' = stats w /\ net_mtu w' = net_mtu w /\
      (osc_val b = None \/ (exists l, setup_iocon b = inr l) ->
       ret < 0 /\ priv w' = priv w) /\
      (ret = 0 ->
       con_val (priv w') = setup_con_val (can_ctrlmode (priv w)) /\
       (exists cs, calls_since w w'
                   = cs ++ write_mask_calls CAN_INT
                             (Z.lor CAN_INT_TEFIE CAN_INT_RXIE) (u32 (-1))
                             (spi_setup_speed_hz (priv w))))
  | None =>
      forall k, (1 <= k <= 1 + fuel)%nat ->
                ulong (jiffies T k) <= ulong (jiffies T 0 + Z.quot (HZ T) 2)
  end.
Proof.
  split.
  { intros v Hv. destruct (setup_iocon_spec b v Hv) as (A & _ & _ & B & C & _ & D).
    repeat split; assumption. }
  unfold mcp2517fd_setup.
  pose proof (setup_osc_spec fuel T b (call (k_dev_err "Start_setup" []) w)) as S.
  destruct (mcp2517fd_setup_osc fuel T b _) as [[r1 w1]|]; [|exact S].
  destruct S as (cs & -> & R1 & _ & Hn & _).
  rewrite call_as_calls, calls_calls.
  destruct (nz r1) eqn:N1.
  { apply nz_true in N1. split; [exact R1|]. do 5 (split; [reflexivity|]).
    split; [intros _; split; [lia|reflexivity]|]. intros; lia. }
  apply nz_false in N1. subst r1.
  pose proof (setup_registers_spec b (calls ([k_dev_err "Start_setup" []] ++ cs) w))
    as G.
  destruct (setup_registers b _) as [ret w'].
  cbn [calls priv stats net_mtu trace] in G.
  destruct G as (R & C & S1 & S2 & St & M & (cs2 & Tr & L) & Z0 & F).
  split; [exact R|]. do 5 (split; [assumption|]).
  split.
  { intros [O|F2]; [specialize (Hn O); lia|]. exact (F F2). }
  intros H0. split; [apply (Z0 H0)|].
  destruct (L H0) as (cs0 & ->).
  exists (([k_dev_err "Start_setup" []] ++ cs) ++ cs0).
  unfold calls_since. rewrite Tr, <- !app_assoc.
  rewrite skipn_length_app. reflexivity.
Qed.

(* ------------------------------------------------------------------ *)
(** ** Masked register access *)



Lemma le32_at_ext (d d' : Z -> Z) :
  (forall k, 0 <= k <= 3 -> u8 (d k) = u8 (d' k)) ->
  le32_at d 0 = le32_at d' 0.
Proof.
  intros H. unfold le32_at. cbn [Z.add].
  rewrite (H 0), (H 1), (H 2), (H 3) by lia. reflexivity.
Qed.



(* ------------------------------------------------------------------ *)
(** ** The interrupt thread: the handlers work on the block as read *)











End Driver.

(* ------------------------------------------------------------------ *)
(** ** Runs of the driver on the quiet and on scripted devices *)

(** Witness of C1. *)
Lemma canid_roundtrip_witness :
  (let '(mcpid, mcpflags) := mcp2517fd_canid_to_mcpid 0x123 in
   mcp2517fd_mcpid_to_canid mcpid mcpflags = 0x123) /\
  (let '(mcpid, mcpflags) := mcp2517fd_canid_to_mcpid (Z.lor 0x123 CAN_EFF_FLAG) in
   mcp2517fd_mcpid_to_canid mcpid mcpflags = Z.lor 0x123 CAN_EFF_FLAG).
Proof.
  destruct (canid_roundtrip 0x123 ltac:(lia)) as [S E].
  specialize (S ltac:(lia)). specialize (E ltac:(lia)).
  destruct (mcp2517fd_canid_to_mcpid 0x123) as [i1 f1].
  destruct (mcp2517fd_canid_to_mcpid (Z.lor 0x123 CAN_EFF_FLAG)) as [i2 f2].
  split; [apply S|apply E].
Defined.

(** Witness of C2: a frame of 9 bytes leaves as a frame of 12 bytes with
    the code 9 in the object sent. *)
Lemma fd_length_rounding_witness :
  let '(ret, frame', w') :=
    mcp2517fd_transmit_fdmessage quiet_kernel 7 (fd_frame_of 1 9 0) world_can in
  fd_len frame' = 12 /\ wire_dlc (first_tx (calls_since world_can w')) = 9.
Proof.
  pose proof (fd_length_rounding quiet_kernel 7 (fd_frame_of 1 9 0) world_can
                ltac:(cbn; lia)) as T.
  cbv zeta in T.
  destruct (mcp2517fd_transmit_fdmessage quiet_kernel 7 (fd_frame_of 1 9 0) world_can)
    as [[ret frame'] w'].
  destruct T as (_ & _ & L & _ & D & _).
  split; [exact L|exact D].
Defined.

(** Witness of C10: a classic frame submitted with dlc 12 leaves with
    dlc 8, which is also the code in the object sent. *)
Lemma classic_dlc_clamp_witness :
  let '(ret, frame', w') :=
    mcp2517fd_transmit_message quiet_kernel 7
      {| cf_can_id := 1; cf_can_dlc := 12; cf_data := fun _ => 0 |} world_can in
  cf_can_dlc frame' = 8 /\ wire_dlc (first_tx (calls_since world_can w')) = 8.
Proof.
  pose proof (classic_dlc_clamp quiet_kernel 7
                {| cf_can_id := 1; cf_can_dlc := 12; cf_data := fun _ => 0 |}
                world_can ltac:(cbn; lia)) as T.
  destruct (mcp2517fd_transmit_message quiet_kernel 7
              {| cf_can_id := 1; cf_can_dlc := 12; cf_data := fun _ => 0 |}
              world_can) as [[ret frame'] w'].
  destruct T as (C & _ & D & _).
  specialize (C ltac:(cbn; lia)).
  split; [exact C|]. rewrite D. exact C.
Defined.

(** Witness of C4: three frames submitted to the idle driver get the
    fifos 7, 6 and 5. *)
Lemma tx_slot_selection_witness :
  fst (submit_frames quiet_kernel
         [frame_of 1 0 0; frame_of 2 0 0; frame_of 3 0 0] world_can)
  = [7; 6; 5].
Proof.
  destruct (tx_slot_selection quiet_kernel world_can
              [frame_of 1 0 0; frame_of 2 0 0; frame_of 3 0 0]
              ltac:(cbn; lia) ltac:(cbn; lia) ltac:(cbn; lia))
    as (_ & _ & D & _).
  apply D.
  - reflexivity.
  - reflexivity.
  - cbn. lia.
  - intros skb _. reflexivity.
Defined.

(** With all seven fifos pending the work item finds fifo 0, below the
    pool that starts at fifo 1, and only logs. *)
Lemma scheduling_defect_witness :
  let w := set_priv (set_tx_pending_mask 0xFE) world_can in
  calls_since w (mcp2517fd_tx_work_handler quiet_kernel w)
  = [k_dev_err "reached tx-fifo %i, which is not valid" [0]].
Proof.
  intros w.
  destruct (scheduling_defect quiet_kernel w ltac:(cbn; lia)) as (C & _).
  exact C.
Defined.

(** Fifos 8 and 10 overflowed: two masked writes and one frame. *)
Lemma rx_overflow_recovery_witness :
  exists w',
    mcp2517fd_can_ist_handle_rxovif quiet_kernel world_overflow = (0, w') /\
    calls_since world_overflow w'
    = write_mask_calls (CAN_FIFOSTA 8) 0 CAN_FIFOSTA_RXOVIF 0
      ++ write_mask_calls (CAN_FIFOSTA 10) 0 CAN_FIFOSTA_RXOVIF 0
      ++ [k_alloc alloc_can_err_skb; k_netif_rx_ni overflow_frame] /\
    rx_overflow (priv w') = 2.
Proof.
  destruct (rx_overflow_recovery quiet_kernel
              (fun _ _ => eq_refl) (fun _ _ => eq_refl) world_overflow
              ltac:(discriminate))
    as (w' & R & C & _ & _ & _ & _ & O).
  exists w'. split; [exact R|]. split; [exact C|exact O].
Defined.

(** Witness of C6: the ready pattern 0b1011 over the receive pool. Two
    reads go out: one of two slots at the first fifo of the pool (fifo 8),
    one of one slot at the fourth (fifo 11); each is followed by the
    writes that advance the fifos read. *)
Lemma rx_drain_batching_witness :
  exists w',
    mcp2517fd_can_ist_handle_rxif quiet_kernel world_1011 = Some (0, w') /\
    spi_messages (calls_since world_1011 w')
    = [readn_message quiet_kernel (FIFO_DATA 0) (2 * 20) 0;
       write_mask_message (CAN_FIFOCON 8) CAN_FIFOCON_UINC CAN_FIFOCON_UINC 0;
       write_mask_message (CAN_FIFOCON 9) CAN_FIFOCON_UINC CAN_FIFOCON_UINC 0;
       readn_message quiet_kernel (FIFO_DATA 0) (1 * 20) 0;
       write_mask_message (CAN_FIFOCON 11) CAN_FIFOCON_UINC CAN_FIFOCON_UINC 0] /\
    length (rx_delivered (calls_since world_1011 w')) = 3%nat.
Proof.
  destruct (rx_drain_batching quiet_kernel
              (fun _ _ => eq_refl) (fun _ _ => eq_refl) world_1011
              ltac:(cbn; lia) ltac:(cbn; lia))
    as (w' & R & M & _ & D & _).
  exists w'. split; [exact R|]. split; [exact M|exact D].
Defined.



(** C5, the completion cursor at work: the rings are set up for classic
    CAN on a device that answers zeros, seven frames are submitted and all
    seven are completed. The completion ring was configured for seven
    objects (size field 6 in [CAN_TEFCON]) from address 0, so the device
    is back at its first object; the cursor of the driver stands at 84,
    a whole ring behind the start, and wraps only after an eighth object. *)
Lemma tef_cursor_leaves_ring :
  let w := snd (mcp2517fd_setup_fifo quiet_kernel (world0 CAN_MTU)) in
  let w7 := snd (submit_frames quiet_kernel (repeat (frame_of 1 0 0) 7) w) in
  let w' := snd (mcp2517fd_can_ist_handle_tefif quiet_kernel w7) in
  fst (mcp2517fd_setup_fifo quiet_kernel (world0 CAN_MTU)) = 0 /\
  tx_fifos (priv w) = 7 /\
  writes_to CAN_TEFCON (trace w) = [[0x21; 0x04; 0x00; 0x06]] /\
  tef_address_start (priv w) = 0 /\ tef_address_end (priv w) = 95 /\
  tefif_count (priv w7) = 7 /\
  tef_address (priv w') = 84 /\
  tef_address (priv (snd (mcp2517fd_can_ist_handle_tefif quiet_kernel
                            (set_priv (set_tx_pending_mask 1) w')))) = 0.
Proof. vm_compute. repeat split. Qed.

(** C4, counterexample: all seven fifos taken, then fifos 1 and 2 freed.
    The next submission gets fifo 2, although fifo 1 is free, lower and in
    the pool; and when instead fifo 7 alone was freed, the next submission
    gets no fifo at all. *)
Lemma lowest_freed_fifo_not_reused :
  let full := snd (submit_frames quiet_kernel (repeat (frame_of 1 0 0) 7) world_can) in
  tx_pending_mask (priv full) = 0xFE /\
  (let w := set_priv (set_tx_pending_mask 0xF8) full in
   fst (submit_frames quiet_kernel [frame_of 1 0 0] w) = [2] /\
   Z.testbit (tx_pending_mask (priv w)) 1 = false /\
   tx_fifo_start (priv w) = 1) /\
  (let w := set_priv (set_tx_pending_mask 0x7E) full in
   fst (submit_frames quiet_kernel [frame_of 1 0 0] w) = [] /\
   Z.testbit (tx_pending_mask (priv w)) 7 = false /\
   tx_fifo_start (priv w) + tx_fifos (priv w) - 1 = 7).
Proof. vm_compute. repeat split. Qed.


(** C8: the frame made of a receive overflow is not marked as an error
    frame. The status block shows fifos 8 and 10 overflowed and nothing
    fails. The handler returns 0 and hands exactly one frame to the network
    stack; the kernel had allocated it with [CAN_ERR_FLAG] in its
    identifier word, and the frame delivered has the identifier word
    [CAN_ERR_CRTL] (4) with [CAN_ERR_FLAG] clear, 8 bytes, and the overflow
    code in byte 1: to the network stack it is a data frame with the
    standard identifier 4. *)
Lemma overflow_frame_lacks_error_flag :
  let '(ret, w') := mcp2517fd_can_ist_handle_rxovif quiet_kernel world_overflow in
  ret = 0 /\
  Z.land (cf_can_id alloc_can_err_frame) CAN_ERR_FLAG = CAN_ERR_FLAG /\
  exists f : can_frame,
    rx_delivered (calls_since world_overflow w') = [skb_can f] /\
    cf_can_id f = CAN_ERR_CRTL /\
    Z.land (cf_can_id f) CAN_ERR_FLAG = 0 /\
    Z.testbit (cf_can_id f) 29 = false /\
    cf_can_dlc f = CAN_ERR_DLC /\
    cf_data f 1 = CAN_ERR_CRTL_RX_OVERFLOW.
Proof.
  destruct (mcp2517fd_can_ist_handle_rxovif quiet_kernel world_overflow)
    as [ret w'] eqn:E.
  assert (R : ret = 0)
    by (change ret with (fst (ret, w')); rewrite <- E; vm_compute; reflexivity).
  assert (D : rx_delivered (calls_since world_overflow w') = [overflow_frame])
    by (change w' with (snd (ret, w')); rewrite <- E; vm_compute; reflexivity).
  split; [exact R|]. split; [reflexivity|].
  eexists. split; [exact D|]. repeat split.
Qed.

(* ------------------------------------------------------------------ *)
(** ** Runs for the further properties *)

(** Witness of X2: the object with identifier word 0x7FF_FFFF and no IDE
    flag is decoded to an identifier below 2^11. *)
Lemma mcpid_decode_wellformed_witness :
  Z.land (mcp2517fd_mcpid_to_canid 0x7FFFFFF 0) (Z.ones 29) < 2 ^ 11.
Proof.
  destruct (mcpid_decode_wellformed 0x7FFFFFF 0) as (_ & _ & _ & _ & H).
  apply H. reflexivity.
Defined.

(** Witness of X4: the write command for the address 0x1C34 goes out as
    the command for 0xC34. *)
Lemma calc_cmd_addr_word_witness :
  exists b0 b1,
    mcp2517fd_calc_cmd_addr INSTRUCTION_WRITE 0x1C34 = [b0; b1] /\
    b0 * 256 + b1 = INSTRUCTION_WRITE + 0xC34.
Proof.
  destruct (calc_cmd_addr_word INSTRUCTION_WRITE 0x1C34)
    as (b0 & b1 & E & _ & _ & S & _).
  - unfold INSTRUCTION_WRITE. lia.
  - reflexivity.
  - exists b0, b1. split; [exact E|exact S].
Defined.

(** Witness of X5: under the mask 0x00FFFF00 the bytes 1 and 2 of the
    value go to the address of byte 1 of the register. *)
Lemma write_mask_window_witness :
  first_tx (calls_since world_can
    (snd (mcp2517fd_cmd_write_mask quiet_kernel CAN_INT 0x12345678 0x00FFFF00 0
            world_can)))
  = mcp2517fd_calc_cmd_addr INSTRUCTION_WRITE (CAN_INT + 1) ++ [0x56; 0x34].
Proof.
  destruct (write_mask_window quiet_kernel CAN_INT 0x12345678 0x00FFFF00 0
              world_can ltac:(lia) eq_refl) as (_ & _ & _ & _ & _ & H).
  exact H.
Defined.

(** Witness of X6: with the mask 0 the masked write is refused, and with
    no memory for the bounce buffer it returns -ENOMEM and sends
    nothing. *)
Lemma masked_access_failures_witness :
  mcp2517fd_cmd_write_mask quiet_kernel CAN_INT 1 0 0 world_can
  = (- EINVAL, world_can) /\
  fst (mcp2517fd_cmd_write_mask oom_kernel CAN_INT 1 1 0 world_can) = - ENOMEM.
Proof.
  split.
  - pose proof (masked_access_failures quiet_kernel CAN_INT 1 0 0 world_can) as T.
    destruct (mcp2517fd_cmd_write_mask quiet_kernel CAN_INT 1 0 0 world_can)
      as [ret w1].
    destruct (mcp2517fd_cmd_read_mask quiet_kernel CAN_INT 0 0 world_can)
      as [[ret' val] w2].
    destruct T as (_ & _ & _ & _ & _ & _ & M & _).
    destruct (M eq_refl) as [A _]. exact A.
  - pose proof (masked_access_failures oom_kernel CAN_INT 1 1 0 world_can) as T.
    destruct (mcp2517fd_cmd_write_mask oom_kernel CAN_INT 1 1 0 world_can)
      as [ret w1].
    destruct (mcp2517fd_cmd_read_mask oom_kernel CAN_INT 1 0 world_can)
      as [[ret' val] w2].
    destruct T as (_ & _ & _ & _ & _ & _ & _ & M & _).
    destruct (M ltac:(lia) eq_refl) as [A _]. exact A.
Defined.

(** Witness of X7: a classic frame sent through fifo 7 carries the
    sequence number 7, and so does an FD frame. *)
Lemma tx_wire_header_witness :
  (let '(_, _, w') :=
     mcp2517fd_transmit_message quiet_kernel 7
       {| cf_can_id := 0x123; cf_can_dlc := 2; cf_data := fun _ => 0x55 |}
       world_can in
   wire_seq (first_tx (calls_since world_can w')) = 7) /\
  (let '(_, _, w') :=
     mcp2517fd_transmit_fdmessage quiet_kernel 7 (fd_frame_of 0x123 12 0x55)
       world_can in
   wire_seq (first_tx (calls_since world_can w')) = 7).
Proof.
  destruct (tx_wire_header quiet_kernel 7 world_can ltac:(lia)) as [C F].
  split.
  - specialize (C {| cf_can_id := 0x123; cf_can_dlc := 2;
                     cf_data := fun _ => 0x55 |} ltac:(cbn; lia)).
    destruct (mcp2517fd_transmit_message quiet_kernel 7
                {| cf_can_id := 0x123; cf_can_dlc := 2;
                   cf_data := fun _ => 0x55 |} world_can) as [[r f] w'].
    destruct C as (_ & _ & S & _). exact S.
  - specialize (F (fd_frame_of 0x123 12 0x55) ltac:(cbn; lia)).
    destruct (mcp2517fd_transmit_fdmessage quiet_kernel 7
                (fd_frame_of 0x123 12 0x55) world_can) as [[r f] w'].
    destruct F as (_ & _ & S & _). exact S.
Defined.

(** Witness of X8: a payload of one byte goes out as four bytes, the
    last three as found in the automatic buffer (0xAA here). *)
Lemma tx_padding_as_found_witness :
  let tx := first_tx (calls_since world_can
              (snd (mcp2517fd_transmit_message_common stale_kernel 7
                      {| tx_id := 0x123; tx_flags := 1 |} 1 (fun _ => 0x55)
                      world_can))) in
  Z.of_nat (length tx) = 14 /\
  at_list tx 10 = 0x55 /\ at_list tx 11 = 0xAA /\ at_list tx 13 = 0xAA.
Proof.
  destruct (tx_padding_as_found stale_kernel 7
              {| tx_id := 0x123; tx_flags := 1 |} 1 (fun _ => 0x55) world_can
              ltac:(lia)) as (L & _ & _ & P & Q).
  cbv zeta. split; [exact L|]. split; [|split].
  - exact (P 0 ltac:(lia)).
  - exact (Q 1 ltac:(vm_compute; split; congruence)).
  - exact (Q 3 ltac:(vm_compute; split; congruence)).
Defined.

(** Settle a goal about an index in a short range by going through its
    values from [lo] on. *)
Ltac by_values k lo n :=
  lazymatch n with
  | O => exfalso; cbn in *; lia
  | S ?m =>
      destruct (Z.eq_dec k lo);
      [ subst k; reflexivity
      | let lo' := eval cbv in (lo + 1) in by_values k lo' m ]
  end.

(** Witness of X9: the receive slot of fifo 8 holds a classic frame with
    identifier 0x123 and two bytes 0x55; the frame handed over has that
    identifier and length. *)
Lemma rx_decodes_classic_witness :
  exists w' f,
    mcp2517fd_can_ist_handle_rxfifo quiet_kernel 8 (world_rx 0x123 2 0x55)
    = (0, w') /\
    rx_delivered (calls_since (world_rx 0x123 2 0x55) w') = [skb_can f] /\
    cf_can_id f = 0x123 /\ cf_can_dlc f = 2.
Proof.
  destruct (rx_decodes_classic quiet_kernel (fun _ _ => eq_refl)
              (fun _ _ => eq_refl) 8
              {| cf_can_id := 0x123; cf_can_dlc := 2; cf_data := fun _ => 0x55 |}
              (world_rx 0x123 2 0x55))
    as (w' & f & R & D & I & L & _).
  - cbn. lia.
  - reflexivity.
  - intros i Hi. by_values i 0 9%nat.
  - intros k Hk. by_values k 0 2%nat.
  - exists w', f. split; [exact R|]. split; [exact D|]. split; [exact I|exact L].
Defined.

(** Witness of X10: the receive slot of fifo 8 holds an FD frame with
    identifier 0x123 and the length code 9; the frame handed over has 12
    bytes. *)
Lemma rx_decodes_fd_witness :
  exists w' f,
    mcp2517fd_can_ist_handle_rxfifo quiet_kernel 8 (world_rx 0x123 0x89 0x55)
    = (0, w') /\
    rx_delivered (calls_since (world_rx 0x123 0x89 0x55) w') = [skb_canfd f] /\
    fd_can_id f = 0x123 /\ fd_len f = 12.
Proof.
  destruct (rx_decodes_fd quiet_kernel (fun _ _ => eq_refl)
              (fun _ _ => eq_refl) 8 (fd_frame_of 0x123 9 0x55)
              (world_rx 0x123 0x89 0x55))
    as (w' & f & R & D & I & L & _).
  - cbn. lia.
  - reflexivity.
  - intros i Hi. by_values i 0 9%nat.
  - intros k Hk. assert (Hk' : 0 <= k < 12) by exact Hk.
    by_values k 0 12%nat.
  - exists w', f. split; [exact R|]. split; [exact D|]. split; [exact I|exact L].
Defined.

(** Witness of X11: fifo 8 is ready and holds a classic frame with
    identifier 0x123 and 2 bytes; the scan hands it over and counts one
    packet and 2 bytes. *)
Lemma rx_counters_follow_deliveries_witness :
  let K := scripted_kernel
             [[0x23; 0x01; 0; 0;  2; 0; 0; 0;  0; 0; 0; 0;  0xAA; 0xBB]; []] in
  let w := set_priv (set_status {| intf := 0; rxif := BIT 8; txif := 0;
                                   rxovif := 0; txatif := 0; txreq := 0;
                                   trec := 0; bdiag0 := 0; bdiag1 := 0 |})
                    world_can in
  match mcp2517fd_can_ist_handle_rxif K w with
  | None => False
  | Some (ret, w') =>
      skb_heads (rx_delivered (calls_since w w')) = [(0x123, 2)] /\
      rx_packets (stats w') = 1 /\ rx_bytes (stats w') = 2
  end.
Proof.
  intros K w.
  pose proof (rx_counters_follow_deliveries K w) as T.
  assert (G0 : option_map
                 (fun r =>
                    let got := rx_delivered (calls_since w (snd r)) in
                    (skb_heads got,
                     forallb (fun skb =>
                                match skb with
                                | skb_can f =>
                                    (0 <=? cf_can_dlc f) && (cf_can_dlc f <=? 8)
                                | skb_canfd _ => true
                                end) got,
                     rx_counts got (stats w)))
                 (mcp2517fd_can_ist_handle_rxif K w)
               = Some ([(0x123, 2)], true, (1, 2))) by (vm_compute; reflexivity).
  destruct (mcp2517fd_can_ist_handle_rxif K w) as [[ret w']|]; [|exact T].
  cbv zeta in T, G0. cbn [option_map snd] in G0.
  injection G0 as G F Cp Cb.
  split; [exact G|].
  destruct T as (C' & _).
  { apply Forall_forall. intros skb Hs.
    rewrite forallb_forall in F. specialize (F skb Hs).
    destruct skb as [f|f]; [|exact I]. cbn [classic_dlc_ok].
    apply andb_true_iff in F. lia. }
  unfold rx_counts in C'. injection C' as Cp' Cb'.
  split; [rewrite Cp'; exact Cp|rewrite Cb'; exact Cb].
Defined.

(** Witness of X12: fifos 7 and 6 are pending and the device hands back
    the completions of fifo 7 and of fifo 6; both echo buffers are
    released, both bits leave the pending mask, two packets are counted
    and no bytes. *)
Lemma tefif_retires_count_witness :
  let K := scripted_kernel
             [[0; 0; 0; 0;  0x00; 0x0E; 0; 0]; [];
              [0; 0; 0; 0;  0x00; 0x0C; 0; 0]; []] in
  let w := set_priv (set_tx_pending_mask 0xC0) world_can in
  let w' := snd (mcp2517fd_can_ist_handle_tefif K w) in
  echo_released (calls_since w w') = [7; 6] /\
  tx_pending_mask (priv w') = 0 /\
  Z.testbit (tx_pending_mask (priv w')) 7 = false /\
  tx_packets (stats w') = 2 /\ tx_bytes (stats w') = 0.
Proof.
  intros K w.
  pose proof (tefif_retires_count K w) as T. cbv zeta in T.
  assert (G : echo_released
                (calls_since w (snd (mcp2517fd_can_ist_handle_tefif K w)))
              = [7; 6]) by (vm_compute; reflexivity).
  destruct (mcp2517fd_can_ist_handle_tefif K w) as [ret w'].
  cbn [snd] in G |- *. rewrite G in T.
  destruct T as (_ & _ & P & Pb & N & B & _).
  { repeat constructor; unfold TX_ECHO_SKB_MAX; lia. }
  split; [exact G|].
  split; [rewrite P; reflexivity|].
  split; [rewrite (Pb 7 ltac:(lia)); reflexivity|].
  split; [rewrite N; reflexivity|].
  rewrite B; [reflexivity|vm_compute; split; congruence].
Defined.

(** Witness of X13: after the set-up on the quiet device the cursor is
    in the ring, and it is after a pass of the completion handler with
    two fifos pending. *)
Lemma tef_ring_kept_witness :
  let w := set_priv (set_tx_pending_mask 0xC0)
             (snd (mcp2517fd_setup_fifo quiet_kernel (world0 CAN_MTU))) in
  tef_ring_ok (priv w) = true /\
  tef_ring_ok (priv (snd (mcp2517fd_can_ist_handle_tefif quiet_kernel w))) = true.
Proof.
  cbv zeta.
  split; [reflexivity|].
  destruct (tef_ring_kept quiet_kernel
              (set_priv (set_tx_pending_mask 0xC0)
                 (snd (mcp2517fd_setup_fifo quiet_kernel (world0 CAN_MTU))))
              eq_refl) as (H & _).
  exact H.
Defined.

(** Witness of X14: with the overflow flags of fifos 8 and 10 raised and
    a device that takes every write, the handler returns 0 after the two
    masked writes, for fifo 8 and then for fifo 10, and the overflow
    counter stands at 2. *)
Lemma rxovif_outcomes_witness :
  let '(ret, w') := mcp2517fd_can_ist_handle_rxovif quiet_kernel world_overflow in
  ret = 0 /\ rx_over_errors (stats w') = 2 /\
  spi_messages (calls_since world_overflow w')
  = [write_mask_message (CAN_FIFOSTA 8) 0 CAN_FIFOSTA_RXOVIF 0;
     write_mask_message (CAN_FIFOSTA 10) 0 CAN_FIFOSTA_RXOVIF 0] /\
  map first_tx (map (fun x => [k_spi_sync_transfer x])
                    (spi_messages (calls_since world_overflow w')))
  = [[0x20; 0xB4; 0x00]; [0x20; 0xCC; 0x00]].
Proof.
  pose proof (rxovif_outcomes quiet_kernel world_overflow) as T. cbv zeta in T.
  destruct (mcp2517fd_can_ist_handle_rxovif quiet_kernel world_overflow)
    as [ret w'] eqn:E.
  assert (R : ret = 0)
    by (change ret with (fst (ret, w')); rewrite <- E; reflexivity).
  split; [exact R|].
  destruct T as (k & m & _ & _ & Z0 & _ & _ & M & _ & _ & O & _).
  destruct (Z0 R) as [Em Ek].
  split; [rewrite O, Ek; reflexivity|].
  rewrite M, Em, Ek. split; reflexivity.
Defined.

(** Witness of X15: a frame submitted to the idle driver is accepted and
    the fifo 7 is marked pending. *)
Lemma tx_submission_witness :
  let '(ret, w') := xmit_and_work quiet_kernel (frame_of 1 0 0) world_can in
  ret = NETDEV_TX_OK /\ tx_pending_mask (priv w') = 0x80.
Proof.
  pose proof (tx_submission quiet_kernel (frame_of 1 0 0) world_can eq_refl
                eq_refl ltac:(vm_compute; congruence)) as T.
  destruct (xmit_and_work quiet_kernel (frame_of 1 0 0) world_can) as [ret w'].
  destruct T as (R & _ & P & _).
  split; [exact R|exact P].
Defined.

(** Witness of X16: on the dead bus the frame is accepted, one message
    is tried, no echo buffer is stored and the fifo 7 stays pending. *)
Lemma tx_submission_dead_bus_witness :
  let '(ret, w') := xmit_and_work dead_kernel (frame_of 1 0 0) world_can in
  ret = NETDEV_TX_OK /\
  echo_stored (calls_since world_can w') = [] /\
  tx_pending_mask (priv w') = 0x80.
Proof.
  pose proof (tx_submission_dead_bus dead_kernel
                (fun _ _ => ltac:(cbn; discriminate))
                (frame_of 1 0 0) world_can eq_refl eq_refl
                ltac:(vm_compute; congruence)) as T.
  destruct (xmit_and_work dead_kernel (frame_of 1 0 0) world_can) as [ret w'].
  destruct T as (R & _ & E & _ & P).
  split; [exact R|]. split; [exact E|exact P].
Defined.

(** Witness of X18: the device shows the receive and the completion
    interrupt enabled and only the overflow flag raised; the pass ends the
    loop. *)
Lemma enabled_interrupts_gate_witness :
  let K := scripted_kernel [[0; 8; 0x12; 0]] in
  first_tx (calls_since world_can
              (snd (mcp2517fd_enable_interrupts K 0 world_can)))
  = mcp2517fd_calc_cmd_addr INSTRUCTION_WRITE CAN_INT ++ [0; 0; 0x12; 0] /\
  intf (status (priv (snd (ist_read_status K world_can)))) = 0x120800 /\
  ist_one_pass K world_can = ist_idle (snd (ist_read_status K world_can)).
Proof.
  cbv zeta.
  destruct (enabled_interrupts_gate (scripted_kernel [[0; 8; 0x12; 0]]) 0
              world_can) as [W G].
  split; [exact (W eq_refl)|]. split; [reflexivity|].
  specialize (G eq_refl).
  destruct (ist_read_status (scripted_kernel [[0; 8; 0x12; 0]]) world_can)
    as [ret w1] eqn:E.
  assert (R : ret = 0)
    by (change ret with (fst (ret, w1)); rewrite <- E; reflexivity).
  assert (S : status (priv w1)
              = status (priv (snd (ist_read_status
                                     (scripted_kernel [[0; 8; 0x12; 0]])
                                     world_can))))
    by (rewrite E; reflexivity).
  cbv zeta in G. rewrite S in G.
  destruct (G R eq_refl) as [_ P].
  exact (P eq_refl eq_refl).
Defined.

(** Witness of X19: with an mtu of 0 the set-up of the fifos returns
    -EINVAL on the quiet device. *)
Lemma setup_fifo_unsupported_mtu_witness :
  fst (mcp2517fd_setup_fifo quiet_kernel (world0 0)) = - EINVAL.
Proof.
  pose proof (setup_fifo_unsupported_mtu quiet_kernel (world0 0)
                ltac:(vm_compute; congruence) ltac:(vm_compute; congruence))
    as T.
  destruct (mcp2517fd_setup_fifo quiet_kernel (world0 0)) as [ret w'].
  destruct T as (_ & _ & H).
  exact (H (fun _ _ => eq_refl) (fun _ _ => eq_refl)).
Defined.

(** Witness of X20: the set-up for CAN on the quiet device succeeds and
    leaves the masks of the two pools. *)
Lemma setup_fifo_establishes_witness :
  let w' := snd (mcp2517fd_setup_fifo quiet_kernel (world0 CAN_MTU)) in
  mcp2517fd_setup_fifo quiet_kernel (world0 CAN_MTU) = (0, w') /\
  tx_fifo_mask (priv w') = 0xFE /\ rx_fifo_mask (priv w') = 0xFFFFFF00.
Proof.
  cbv zeta.
  assert (E : mcp2517fd_setup_fifo quiet_kernel (world0 CAN_MTU)
              = (0, snd (mcp2517fd_setup_fifo quiet_kernel (world0 CAN_MTU)))).
  { assert (R : fst (mcp2517fd_setup_fifo quiet_kernel (world0 CAN_MTU)) = 0)
      by (vm_compute; reflexivity).
    destruct (mcp2517fd_setup_fifo quiet_kernel (world0 CAN_MTU)) as [r w'].
    cbn [fst snd] in *. rewrite R. reflexivity. }
  split; [exact E|].
  destruct (setup_fifo_establishes quiet_kernel (world0 CAN_MTU) _ E)
    as (L & _ & _ & _ & _ & _ & _ & M & _).
  destruct (M eq_refl eq_refl) as (T & R & _).
  split; [exact T|]. rewrite R.
  destruct L as [(_ & _ & _ & N)|(C & _)].
  - rewrite N. reflexivity.
  - discriminate C.
Defined.

(** Witness of X21: the filter 3 is pointed to the fifo 9 with the byte
    0x89 at 0x1D3. *)
Lemma filter_routing_byte_witness :
  first_tx (calls_since world_can
    (snd (mcp2517fd_cmd_write_mask quiet_kernel (CAN_FLTCON 3)
            (Z.lor (CAN_FIFOCON_FLTEN 3) (Z.shiftl 9 (CAN_FILCON_SHIFT 3)))
            (Z.lor (CAN_FIFOCON_FLTEN 3) (CAN_FILCON_MASK 3)) 0 world_can)))
  = mcp2517fd_calc_cmd_addr INSTRUCTION_WRITE 0x1D3 ++ [0x89].
Proof.
  exact (filter_routing_byte quiet_kernel 3 9 0 world_can ltac:(lia) ltac:(lia)
           eq_refl).
Defined.

(** Witness of X22: the nominal bit timing with the segments 1, 2 and 2,
    the jump width 1 and the prescaler 256 is within the bounds
    announced; the word written has 0 in the prescaler field. The same
    timing with the prescaler 4 is within the bounds for the data phase
    and is written to [CAN_DBTCFG]. *)
Lemma bittiming_registers_witness :
  let bt := {| prop_seg := 1; phase_seg1 := 2; phase_seg2 := 2; sjw := 1;
               brp := 256 |} in
  let bd := {| prop_seg := 1; phase_seg1 := 2; phase_seg2 := 2; sjw := 1;
               brp := 4 |} in
  reg_field (nominal_bittiming_val bt) CAN_NBTCFG_BRP_MASK CAN_NBTCFG_BRP_SHIFT
  = 0 /\
  reg_field (nominal_bittiming_val bt) CAN_NBTCFG_TSEG1_MASK
            CAN_NBTCFG_TSEG1_SHIFT = 2 /\
  reg_field (data_bittiming_val bd) CAN_DBTCFG_BRP_MASK CAN_DBTCFG_BRP_SHIFT
  = 4 /\
  first_tx (calls_since world_can
              (snd (mcp2517fd_do_set_data_bittiming quiet_kernel bd world_can)))
  = mcp2517fd_calc_cmd_addr INSTRUCTION_WRITE CAN_DBTCFG ++ [0; 1; 2; 4].
Proof.
  cbv zeta.
  destruct (bittiming_registers quiet_kernel
              {| prop_seg := 1; phase_seg1 := 2; phase_seg2 := 2; sjw := 1;
                 brp := 256 |} world_can) as (N & _ & _).
  destruct (bittiming_registers quiet_kernel
              {| prop_seg := 1; phase_seg1 := 2; phase_seg2 := 2; sjw := 1;
                 brp := 4 |} world_can) as (_ & D & W).
  destruct (N eq_refl) as (_ & _ & T1 & B).
  destruct (D eq_refl) as (_ & _ & _ & B').
  destruct (W eq_refl) as (_ & WD).
  split; [exact B|]. split; [exact T1|]. split; [exact B'|exact WD].
Defined.

(** Witness of X23: with only fifo 7 pending, the highest of the pool
    1..7, taking the interface down frees no echo buffer and counts no
    transmit error; with the fifos 1 to 6 pending it frees the echo
    buffer 0 six times. *)
Lemma clean_gives_up_pending_witness :
  let w := set_priv (set_tx_pending_mask 0x80) world_can in
  fst (mcp2517fd_clean w) = [] /\
  tx_errors (stats (snd (mcp2517fd_clean w))) = 0 /\
  tx_pending_mask (priv (snd (mcp2517fd_clean w))) = 0 /\
  fst (mcp2517fd_clean (set_priv (set_tx_pending_mask 0x7E) world_can))
  = [0; 0; 0; 0; 0; 0].
Proof.
  cbv zeta.
  pose proof (clean_gives_up_pending
                (set_priv (set_tx_pending_mask 0x80) world_can)) as T.
  cbv zeta in T.
  destruct (mcp2517fd_clean (set_priv (set_tx_pending_mask 0x80) world_can))
    as [freed w'].
  destruct T as (P & _ & _ & _ & _ & _ & _ & H).
  destruct (H ltac:(vm_compute; reflexivity) ltac:(vm_compute; reflexivity)
              eq_refl) as [F E].
  cbn [fst snd]. split; [exact F|]. split; [exact E|].
  split; [rewrite P; reflexivity|].
  pose proof (clean_gives_up_pending
                (set_priv (set_tx_pending_mask 0x7E) world_can)) as T2.
  cbv zeta in T2.
  destruct (mcp2517fd_clean (set_priv (set_tx_pending_mask 0x7E) world_can))
    as [freed2 w2].
  destruct T2 as (_ & F2 & _). exact F2.
Defined.

(** Witness of X24: a device that answers every read with zeros shows
    its clock neither ready nor disabled and is refused. *)
Lemma hw_probe_accepts_only_witness :
  let '(ret, d, w') := mcp2517fd_hw_probe quiet_kernel world_can in
  ret < 0 /\ (length (spi_messages (calls_since world_can w')) <= 2)%nat.
Proof.
  pose proof (hw_probe_accepts_only quiet_kernel world_can) as T.
  cbv zeta in T.
  destruct (mcp2517fd_hw_probe quiet_kernel world_can) as [[ret d] w'].
  destruct T as (cs & -> & _ & _ & _ & _ & _ & _ & H & _).
  rewrite calls_since_calls. apply H.
  intros w1 v Hr. vm_compute in Hr. injection Hr as <-.
  split; discriminate.
Defined.

(** Witness of X25: the board with the PLL on and the clock divider 10
    has the word 0x61 written; the divider 3 is refused. *)
Lemma setup_osc_outcomes_witness :
  let T := {| HZ := 100; jiffies := fun n => Z.of_nat n * 1000 |} in
  let b := {| clock_pll := true; clock_div2 := false; clock_odiv := 10;
              gpio0_mode := gpio_mode_int; gpio1_mode := gpio_mode_int;
              gpio_opendrain := false; can_clock_freq := 40000000 |} in
  let b3 := {| clock_pll := true; clock_div2 := false; clock_odiv := 3;
               gpio0_mode := gpio_mode_int; gpio1_mode := gpio_mode_int;
               gpio_opendrain := false; can_clock_freq := 40000000 |} in
  Z.land 0x61 MCP2517FD_OSC_OSCDIS = 0 /\
  mcp2517fd_setup_osc quiet_kernel 1 T b3 world_can
  = Some (- EINVAL,
          call (k_dev_err "Unsupported output clock divider %i" [3]) world_can).
Proof.
  cbv zeta. split.
  - destruct (setup_osc_outcomes quiet_kernel 1
                {| HZ := 100; jiffies := fun n => Z.of_nat n * 1000 |}
                {| clock_pll := true; clock_div2 := false; clock_odiv := 10;
                   gpio0_mode := gpio_mode_int; gpio1_mode := gpio_mode_int;
                   gpio_opendrain := false; can_clock_freq := 40000000 |}
                world_can) as (_ & _ & V & _).
    destruct (V 0x61 eq_refl) as (_ & _ & _ & D & _). exact D.
  - destruct (setup_osc_outcomes quiet_kernel 1
                {| HZ := 100; jiffies := fun n => Z.of_nat n * 1000 |}
                {| clock_pll := true; clock_div2 := false; clock_odiv := 3;
                   gpio0_mode := gpio_mode_int; gpio1_mode := gpio_mode_int;
                   gpio_opendrain := false; can_clock_freq := 40000000 |}
                world_can) as (_ & E & _).
    exact (E eq_refl).
Defined.

(** Witness of X26: a 4 MHz clock runs through the PLL to 40 MHz; with
    an SPI device limited to 10 MHz the set-up speed is 2 MHz and the
    running speed 10 MHz; with the limit 0xFFFFFFFF both speeds are
    0xFFFFFFFF. *)
Lemma probe_clocks_sound_witness :
  (exists b,
     probe_clocks 4000000 10000000 = inr (b, 2000000, 10000000) /\
     clock_pll b = true /\ can_clock_freq b = 40000000) /\
  (exists b,
     probe_clocks 4000000 0xFFFFFFFF = inr (b, 0xFFFFFFFF, 0xFFFFFFFF)).
Proof.
  split.
  - destruct (probe_clocks_sound 4000000 10000000 ltac:(lia) ltac:(lia))
      as (_ & H).
    destruct (H ltac:(vm_compute; split; congruence))
      as (b & ss & s & E & P & C & _ & _ & Ess & Es & _).
    exists b. split; [rewrite E, Ess, Es, C, P; reflexivity|].
    split; [rewrite P; reflexivity|rewrite C, P; reflexivity].
  - destruct (probe_clocks_sound 4000000 0xFFFFFFFF ltac:(lia) ltac:(lia))
      as (_ & H).
    destruct (H ltac:(vm_compute; split; congruence))
      as (b & ss & s & E & _ & _ & _ & _ & _ & _ & _ & Big & _).
    destruct (Big ltac:(lia)) as (Ess & Es & _).
    exists b. rewrite E, Ess, Es. reflexivity.
Defined.

(** Witness of X27: with the control word of the set-up on an interface
    with no control mode set, the CAN 2.0 mode (6) is requested in the top
    byte of the word and the control word makes the other three. *)
Lemma normal_mode_request_witness :
  let w := set_priv (set_con_val (setup_con_val 0x20)) world_can in
  reg_field (Z.lor (con_val (priv w))
                   (Z.shiftl (normal_mode_type (can_ctrlmode (priv w)))
                             CAN_CON_REQOP_SHIFT))
            CAN_CON_REQOP_MASK CAN_CON_REQOP_SHIFT
  = normal_mode_type (can_ctrlmode (priv w)) /\
  first_tx (calls_since w (snd (mcp2517fd_set_normal_mode quiet_kernel w)))
  = mcp2517fd_calc_cmd_addr INSTRUCTION_WRITE CAN_CON ++ [0x20; 0; 0x09; 0x06].
Proof.
  cbv zeta.
  pose proof (normal_mode_request quiet_kernel
                (set_priv (set_con_val (setup_con_val 0x20)) world_can)) as T.
  cbv zeta in T. destruct T as (_ & _ & _ & W & C).
  destruct (W 0x20 eq_refl) as (F & _).
  split; [exact F|].
  destruct (mcp2517fd_set_normal_mode quiet_kernel _) as [ret w'].
  destruct C as (_ & _ & X). exact (X eq_refl).
Defined.

(** Witness of X28: on a device that shows its clock ready the set-up
    for the board of the probe succeeds and leaves the control word of a
    plain interface; a second pin set to transceiver standby is
    refused. *)
Lemma setup_outcomes_witness :
  let K := scripted_kernel [[]; [0; 4; 0; 0]] in
  let T := {| HZ := 100; jiffies := fun _ => 0 |} in
  let b := {| clock_pll := false; clock_div2 := false; clock_odiv := 10;
              gpio0_mode := gpio_mode_int; gpio1_mode := gpio_mode_int;
              gpio_opendrain := false; can_clock_freq := 20000000 |} in
  let bs := {| clock_pll := false; clock_div2 := false; clock_odiv := 10;
               gpio0_mode := gpio_mode_int; gpio1_mode := gpio_mode_standby;
               gpio_opendrain := false; can_clock_freq := 20000000 |} in
  match mcp2517fd_setup K 1 T b (world0 CAN_MTU) with
  | Some (ret, w') =>
      ret = 0 /\
      con_val (priv w')
      = Z.lor (Z.lor CAN_CON_STEF CAN_CON_ISOCRCEN) CAN_CON_RTXAT
  | None => False
  end /\
  match mcp2517fd_setup K 1 T bs (world0 CAN_MTU) with
  | Some (ret, w') => ret < 0 /\ priv w' = priv0
  | None => False
  end.
Proof.
  cbv zeta. split.
  - pose proof (setup_outcomes (scripted_kernel [[]; [0; 4; 0; 0]]) 1
                  {| HZ := 100; jiffies := fun _ => 0 |}
                  {| clock_pll := false; clock_div2 := false; clock_odiv := 10;
                     gpio0_mode := gpio_mode_int; gpio1_mode := gpio_mode_int;
                     gpio_opendrain := false; can_clock_freq := 20000000 |}
                  (world0 CAN_MTU)) as (_ & T).
    assert (R0 : option_map fst
                   (mcp2517fd_setup (scripted_kernel [[]; [0; 4; 0; 0]]) 1
                      {| HZ := 100; jiffies := fun _ => 0 |}
                      {| clock_pll := false; clock_div2 := false;
                         clock_odiv := 10; gpio0_mode := gpio_mode_int;
                         gpio1_mode := gpio_mode_int; gpio_opendrain := false;
                         can_clock_freq := 20000000 |}
                      (world0 CAN_MTU)) = Some 0)
      by (vm_compute; reflexivity).
    destruct (mcp2517fd_setup _ 1 _ _ (world0 CAN_MTU)) as [[ret w']|];
      [|discriminate R0].
    cbn [option_map fst] in R0. injection R0 as R.
    split; [exact R|].
    destruct T as (_ & _ & _ & _ & _ & _ & _ & H).
    destruct (H R) as (C & _). rewrite C. reflexivity.
  - pose proof (setup_outcomes (scripted_kernel [[]; [0; 4; 0; 0]]) 1
                  {| HZ := 100; jiffies := fun _ => 0 |}
                  {| clock_pll := false; clock_div2 := false; clock_odiv := 10;
                     gpio0_mode := gpio_mode_int;
                     gpio1_mode := gpio_mode_standby;
                     gpio_opendrain := false; can_clock_freq := 20000000 |}
                  (world0 CAN_MTU)) as (_ & T).
    assert (R0 : option_map fst
                   (mcp2517fd_setup (scripted_kernel [[]; [0; 4; 0; 0]]) 1
                      {| HZ := 100; jiffies := fun _ => 0 |}
                      {| clock_pll := false; clock_div2 := false;
                         clock_odiv := 10; gpio0_mode := gpio_mode_int;
                         gpio1_mode := gpio_mode_standby;
                         gpio_opendrain := false;
                         can_clock_freq := 20000000 |}
                      (world0 CAN_MTU)) = Some (- EINVAL))
      by (vm_compute; reflexivity).
    destruct (mcp2517fd_setup _ 1 _ _ (world0 CAN_MTU)) as [[ret w']|];
      [|discriminate R0].
    destruct T as (_ & _ & _ & _ & _ & _ & H & _).
    apply H. right. eexists. reflexivity.
Defined.

(* ------------------------------------------------------------------ *)
(** ** Masked access and the dispatch loop at work *)


